(** * course_selection_api: year-term settings, course entries, copy engine
      and CSV export, embedded from the Python sources.

    The store is the Oracle schema the DAO layer talks to, one list of rows
    per table in insertion order.  Every [Database.execute] commits on its
    own, so a computation is a function from the store to the store it
    leaves behind together with either a value or the raised exception:
    writes made before an exception stay. *)

From Stdlib Require Import String Ascii List ZArith Lia Bool Arith PeanoNat Permutation.
From Stdlib Require Import DecimalString Sorted.
Import ListNotations.

Local Open Scope string_scope.
Local Open Scope list_scope.

(** ** Rows *)

(** [str(uuid.uuid4())]: primary keys.  One id space, as in the source, where
    a path parameter is tried first as a setting id and then as a
    sub-theme id. *)
Definition uuid := nat.

(** coures_themes, the columns the modelled queries read. *)
Record Theme := mkTheme {
  t_id : uuid;
  t_theme_code : string;
  t_theme_name : string
}.

(** coures_sub_themes. *)
Record SubTheme := mkSubTheme {
  st_id : uuid;
  st_coures_themes_id : uuid;
  st_sub_theme_code : string;
  st_sub_theme_name : string
}.

(** academic_year_coures_themes_setting.  The CHAR(1) columns holding 'Y' or
    'N' are booleans. *)
Record ThemeSetting := mkThemeSetting {
  ts_id : uuid;
  ts_academic_year : Z;
  ts_academic_term : Z;
  ts_coures_themes_id : uuid;
  ts_fill_in_week_enabled : bool;
  ts_scale_max : Z;
  ts_select_most_relevant_sub_theme_enabled : bool;
  ts_created_by : option string;
  ts_updated_by : option string;
  ts_created_at : Z;
  ts_updated_at : Z
}.

(** academic_year_coures_sub_theme_settings. *)
Record SubThemeSetting := mkSubThemeSetting {
  ss_id : uuid;
  ss_academic_year : Z;
  ss_academic_term : Z;
  ss_coures_sub_themes_id : uuid;
  ss_enabled : bool;
  ss_created_by : option string;
  ss_updated_by : option string;
  ss_created_at : Z;
  ss_updated_at : Z
}.

(** course_entries.  [week_numbers] is a CLOB holding [json.dumps] of a list
    of ints, or NULL; readers apply [json.loads], so the column is the list
    itself. *)
Record CourseEntry := mkCourseEntry {
  ce_id : uuid;
  ce_subj_no : string;
  ce_ps_class_nbr : string;
  ce_academic_year : Z;
  ce_academic_term : Z;
  ce_coures_sub_themes_id : uuid;
  ce_indicator_value : string;
  ce_week_numbers : option (list Z);
  ce_is_most_relevant : bool;
  ce_created_by : option string;
  ce_updated_by : option string;
  ce_created_at : Z;
  ce_updated_at : Z
}.

(** SCHOOL.COFSUBJ, the course roster of the registrar's schema, read only. *)
Record Cofsubj := mkCofsubj {
  cb_subj_no : string;
  cb_subj_chn_name : option string
}.

(** The world behind [conn]: the tables, the uuid supply, the wall clock
    read by [datetime.now()] and CURRENT_TIMESTAMP, and the digest
    [md5(user_id + 'nchu' + today)] that [SimpleTokenAuth] compares with. *)
Record Store := mkStore {
  coures_themes : list Theme;
  coures_sub_themes : list SubTheme;
  academic_year_coures_themes_setting : list ThemeSetting;
  academic_year_coures_sub_theme_settings : list SubThemeSetting;
  course_entries : list CourseEntry;
  COFSUBJ : list Cofsubj;
  next_uuid : nat;
  clock : Z;
  md5_today : string -> string
}.

Definition with_themes_setting (f : list ThemeSetting -> list ThemeSetting) (s : Store) : Store :=
  mkStore (coures_themes s) (coures_sub_themes s)
          (f (academic_year_coures_themes_setting s))
          (academic_year_coures_sub_theme_settings s)
          (course_entries s) (COFSUBJ s) (next_uuid s) (clock s) (md5_today s).

Definition with_sub_theme_settings (f : list SubThemeSetting -> list SubThemeSetting) (s : Store) : Store :=
  mkStore (coures_themes s) (coures_sub_themes s)
          (academic_year_coures_themes_setting s)
          (f (academic_year_coures_sub_theme_settings s))
          (course_entries s) (COFSUBJ s) (next_uuid s) (clock s) (md5_today s).

Definition with_course_entries (f : list CourseEntry -> list CourseEntry) (s : Store) : Store :=
  mkStore (coures_themes s) (coures_sub_themes s)
          (academic_year_coures_themes_setting s)
          (academic_year_coures_sub_theme_settings s)
          (f (course_entries s)) (COFSUBJ s) (next_uuid s) (clock s) (md5_today s).

(** ** Exceptions and the computation type *)

Inductive exn :=
| ValueError
| DatabaseError_unique_constraint   (* ORA-00001 *)
| UnauthorizedException
| HTTPException (status_code : Z).

Definition HTTP_400_BAD_REQUEST : Z := 400.
Definition HTTP_404_NOT_FOUND : Z := 404.
Definition HTTP_409_CONFLICT : Z := 409.
Definition HTTP_500_INTERNAL_SERVER_ERROR : Z := 500.

(** ['unique constraint' in str(e).lower() or 'duplicate' in ... or
    'ora-00001' in ...] *)
Definition is_unique_violation (e : exn) : bool :=
  match e with DatabaseError_unique_constraint => true | _ => false end.

Definition is_ValueError (e : exn) : bool :=
  match e with ValueError => true | _ => false end.

Definition is_HTTPException (e : exn) : bool :=
  match e with HTTPException _ => true | _ => false end.

Inductive result (A : Type) :=
| Ok (a : A)
| Raise (e : exn).
Arguments Ok {A} a.
Arguments Raise {A} e.

Definition M (A : Type) : Type := Store -> Store * result A.

Definition ret {A} (a : A) : M A := fun s => (s, Ok a).

Definition bind {A B} (c : M A) (k : A -> M B) : M B :=
  fun s => match c s with
           | (s', Ok a) => k a s'
           | (s', Raise e) => (s', Raise e)
           end.

Definition raise {A} (e : exn) : M A := fun s => (s, Raise e).

(** [try: c except Exception as e: h e] *)
Definition try_except {A} (c : M A) (h : exn -> M A) : M A :=
  fun s => match c s with
           | (s', Ok a) => (s', Ok a)
           | (s', Raise e) => h e s'
           end.

Definition query {A} (q : Store -> A) : M A := fun s => (s, Ok (q s)).

Definition execute (f : Store -> Store) : M unit := fun s => (f s, Ok tt).

Declare Scope monad_scope.
Delimit Scope monad_scope with monad.
Notation "x <- c ;; k" := (bind c (fun x => k))
  (at level 61, c at next level, right associativity) : monad_scope.
Notation "c ;; k" := (bind c (fun _ => k))
  (at level 61, right associativity) : monad_scope.
Local Open Scope monad_scope.

(** [for x in xs: body x] *)
Fixpoint for_each {A} (xs : list A) (body : A -> M unit) : M unit :=
  match xs with
  | [] => ret tt
  | x :: xs' => body x ;; for_each xs' body
  end.

(** A loop that carries local variables [acc] from one iteration to the next. *)
Fixpoint for_fold {A B} (xs : list A) (acc : B) (body : B -> A -> M B) : M B :=
  match xs with
  | [] => ret acc
  | x :: xs' => acc' <- body acc x ;; for_fold xs' acc' body
  end.

Definition uuid4 : M uuid :=
  fun s => (mkStore (coures_themes s) (coures_sub_themes s)
                    (academic_year_coures_themes_setting s)
                    (academic_year_coures_sub_theme_settings s)
                    (course_entries s) (COFSUBJ s) (S (next_uuid s)) (clock s) (md5_today s),
            Ok (next_uuid s)).

Definition datetime_now : M Z := query clock.

(** ** Relational operators *)

Definition select_where {A} (p : A -> bool) (rows : list A) : list A := filter p rows.

(** [FROM l JOIN r ON on] *)
Definition inner_join {A B} (on : A -> B -> bool) (l : list A) (r : list B) : list (A * B) :=
  flat_map (fun a => map (fun b => (a, b)) (filter (on a) r)) l.

(** [FROM l LEFT JOIN r ON on] *)
Definition left_join {A B} (on : A -> B -> bool) (l : list A) (r : list B) : list (A * option B) :=
  flat_map (fun a => match filter (on a) r with
                     | [] => [(a, None)]
                     | ms => map (fun b => (a, Some b)) ms
                     end) l.

(** [cursor.fetchone()] *)
Definition fetchrow {A} (rows : list A) : option A := hd_error rows.

(** [SELECT COUNT( * )] *)
Definition count_rows {A} (rows : list A) : Z := Z.of_nat (length rows).

(** ORDER BY with a total preorder [leb] on rows: a stable insertion sort. *)
Fixpoint insert_sorted {A} (leb : A -> A -> bool) (x : A) (l : list A) : list A :=
  match l with
  | [] => [x]
  | y :: l' => if leb x y then x :: l else y :: insert_sorted leb x l'
  end.

Definition order_by {A} (leb : A -> A -> bool) (rows : list A) : list A :=
  fold_right (insert_sorted leb) [] rows.

(** Two-column ORDER BY on strings. *)
Definition pair_leb (a b : string * string) : bool :=
  match String.compare (fst a) (fst b) with
  | Lt => true
  | Gt => false
  | Eq => String.leb (snd a) (snd b)
  end.

(** SELECT DISTINCT *)
Fixpoint distinct {A} (eqb : A -> A -> bool) (rows : list A) : list A :=
  match rows with
  | [] => []
  | x :: l => if existsb (eqb x) l then distinct eqb l else x :: distinct eqb l
  end.

(** ** Python truthiness of the optional request fields *)

(** [if week_numbers:] on an [Optional[List[int]]] *)
Definition truthy_list {A} (x : option (list A)) : bool :=
  match x with Some (_ :: _) => true | _ => false end.

(** [if flag:] on an [Optional[bool]] *)
Definition truthy_bool (x : option bool) : bool :=
  match x with Some true => true | _ => false end.

(** [if code:] on an [Optional[str]] *)
Definition truthy_str (x : option string) : bool :=
  match x with Some c => negb (c =? "") | None => false end.

(** [json.dumps(week_numbers) if week_numbers else None] *)
Definition week_numbers_json (week_numbers : option (list Z)) : option (list Z) :=
  if truthy_list week_numbers then week_numbers else None.

(** ** Keys of the tables *)

Definition ts_in_year_term (y t : Z) (r : ThemeSetting) : bool :=
  (ts_academic_year r =? y)%Z && (ts_academic_term r =? t)%Z.

Definition ss_in_year_term (y t : Z) (r : SubThemeSetting) : bool :=
  (ss_academic_year r =? y)%Z && (ss_academic_term r =? t)%Z.

(** [SUBJ_NO = $1 AND PS_CLASS_NBR = $2 AND ACADEMIC_YEAR = $3 AND ACADEMIC_TERM = $4] *)
Definition ce_of_course (subj_no ps_class_nbr : string) (y t : Z) (r : CourseEntry) : bool :=
  (ce_subj_no r =? subj_no) && (ce_ps_class_nbr r =? ps_class_nbr)
  && (ce_academic_year r =? y)%Z && (ce_academic_term r =? t)%Z.

Definition ts_same_key (a b : ThemeSetting) : bool :=
  ts_in_year_term (ts_academic_year b) (ts_academic_term b) a
  && (ts_coures_themes_id a =? ts_coures_themes_id b)%nat.

Definition ss_same_key (a b : SubThemeSetting) : bool :=
  ss_in_year_term (ss_academic_year b) (ss_academic_term b) a
  && (ss_coures_sub_themes_id a =? ss_coures_sub_themes_id b)%nat.

Definition ce_same_key (a b : CourseEntry) : bool :=
  ce_of_course (ce_subj_no b) (ce_ps_class_nbr b) (ce_academic_year b) (ce_academic_term b) a
  && (ce_coures_sub_themes_id a =? ce_coures_sub_themes_id b)%nat.

(** ** [Database.execute] on the statements of the DAO layer *)
Module Database.

(** Modelled from the spec: the table definitions are not in the repository.
    The spec gives the keys the INSERT statements are checked against: a
    theme setting is unique per (year, term, theme_id), a sub-theme setting
    per (year, term, sub_theme_id), a course entry per (subj_no,
    ps_class_nbr, year, term, sub_theme_id); [id] is the primary key.  A
    violated key raises ORA-00001 and leaves the table as it was. *)
Definition insert_themes_setting (row : ThemeSetting) : M unit :=
  fun s =>
    if existsb (fun r => (ts_id r =? ts_id row)%nat || ts_same_key r row)
               (academic_year_coures_themes_setting s)
    then (s, Raise DatabaseError_unique_constraint)
    else (with_themes_setting (fun rows => rows ++ [row]) s, Ok tt).

Definition insert_sub_theme_settings (row : SubThemeSetting) : M unit :=
  fun s =>
    if existsb (fun r => (ss_id r =? ss_id row)%nat || ss_same_key r row)
               (academic_year_coures_sub_theme_settings s)
    then (s, Raise DatabaseError_unique_constraint)
    else (with_sub_theme_settings (fun rows => rows ++ [row]) s, Ok tt).

Definition insert_course_entries (row : CourseEntry) : M unit :=
  fun s =>
    if existsb (fun r => (ce_id r =? ce_id row)%nat || ce_same_key r row)
               (course_entries s)
    then (s, Raise DatabaseError_unique_constraint)
    else (with_course_entries (fun rows => rows ++ [row]) s, Ok tt).

(** [UPDATE table SET ... WHERE p] *)
Definition update_where {A} (p : A -> bool) (set : A -> A) (rows : list A) : list A :=
  map (fun r => if p r then set r else r) rows.

(** [DELETE FROM table WHERE p] *)
Definition delete_where {A} (p : A -> bool) (rows : list A) : list A :=
  filter (fun r => negb (p r)) rows.

End Database.

(** ** theme_dao.py *)

Module ThemeDAO.

Definition get_theme_by_code (theme_code : string) : M (option Theme) :=
  query (fun s => fetchrow (select_where (fun t => t_theme_code t =? theme_code) (coures_themes s))).

End ThemeDAO.

Module SubThemeDAO.

(** [FROM coures_sub_themes st JOIN coures_themes t ON st.coures_themes_id = t.id] *)
Definition sub_themes_with_theme (s : Store) : list (SubTheme * Theme) :=
  inner_join (fun st t => (st_coures_themes_id st =? t_id t)%nat)
             (coures_sub_themes s) (coures_themes s).

Definition get_sub_theme_by_code (theme_code sub_theme_code : string) : M (option (SubTheme * Theme)) :=
  query (fun s => fetchrow (select_where
    (fun r => (t_theme_code (snd r) =? theme_code) && (st_sub_theme_code (fst r) =? sub_theme_code))
    (sub_themes_with_theme s))).

Definition get_sub_themes_by_theme_id (theme_id : uuid) : M (list (SubTheme * Theme)) :=
  query (fun s => order_by (fun a b => String.leb (st_sub_theme_code (fst a)) (st_sub_theme_code (fst b)))
    (select_where (fun r => (st_coures_themes_id (fst r) =? theme_id)%nat)
                  (sub_themes_with_theme s))).

End SubThemeDAO.

(** ** school_year_settings_dao.py *)

(** What the theme-setting getters return: the setting row joined with its
    theme, and under the key [sub_themes] every catalog sub-theme of the
    theme with its enabled flag in that year-term. *)
Record ThemeSettingInfo := mkThemeSettingInfo {
  tsi_setting : ThemeSetting;
  tsi_theme : Theme;
  tsi_fill_in_week_enabled : bool;
  tsi_sub_themes : list (SubTheme * bool)
}.

(** The dict [copy_school_year_theme_settings] returns. *)
Record CopyCounts := mkCopyCounts {
  themes_count : Z;
  sub_themes_count : Z;
  deleted_themes_count : Z;
  deleted_sub_themes_count : Z
}.

Module SchoolYearThemeSettingsDAO.

(** [FROM academic_year_coures_themes_setting syts
     JOIN coures_themes t ON syts.coures_themes_id = t.id] *)
Definition settings_with_theme (s : Store) : list (ThemeSetting * Theme) :=
  inner_join (fun syts t => (ts_coures_themes_id syts =? t_id t)%nat)
             (academic_year_coures_themes_setting s) (coures_themes s).

(** [FROM coures_sub_themes st LEFT JOIN academic_year_coures_sub_theme_settings systs
     ON st.id = systs.coures_sub_themes_id AND systs.academic_year = $1
     AND systs.academic_term = $2 WHERE st.coures_themes_id = $3],
    selecting [st] and [COALESCE(systs.enabled, 'N')]. *)
Definition sub_themes_left_join (academic_year academic_term : Z) (coures_themes_id : uuid)
    (s : Store) : list (SubTheme * option SubThemeSetting) :=
  select_where (fun r => (st_coures_themes_id (fst r) =? coures_themes_id)%nat)
    (left_join (fun st systs => (st_id st =? ss_coures_sub_themes_id systs)%nat
                                && ss_in_year_term academic_year academic_term systs)
               (coures_sub_themes s) (academic_year_coures_sub_theme_settings s)).

Definition coalesce_enabled (r : SubTheme * option SubThemeSetting) : SubTheme * bool :=
  (fst r, match snd r with Some systs => ss_enabled systs | None => false end).

Definition sub_themes_of_setting (academic_year academic_term : Z) (coures_themes_id : uuid)
    (s : Store) : list (SubTheme * bool) :=
  map coalesce_enabled
    (order_by (fun a b => String.leb (st_sub_theme_code (fst a)) (st_sub_theme_code (fst b)))
              (sub_themes_left_join academic_year academic_term coures_themes_id s)).

Definition get_school_year_theme_setting_by_code (academic_year academic_term : Z)
    (theme_code : string) : M (option ThemeSettingInfo) :=
  query (fun s =>
    match fetchrow (select_where
            (fun r => ts_in_year_term academic_year academic_term (fst r)
                      && (t_theme_code (snd r) =? theme_code))
            (settings_with_theme s)) with
    | None => None
    | Some theme_result =>
        Some (mkThemeSettingInfo (fst theme_result) (snd theme_result)
                (ts_fill_in_week_enabled (fst theme_result))
                (sub_themes_of_setting academic_year academic_term
                   (ts_coures_themes_id (fst theme_result)) s))
    end).

Definition get_school_year_theme_settings_by_year (academic_year academic_term : Z)
    : M (list ThemeSettingInfo) :=
  query (fun s =>
    map (fun theme_row =>
           mkThemeSettingInfo (fst theme_row) (snd theme_row)
             (ts_fill_in_week_enabled (fst theme_row))
             (sub_themes_of_setting academic_year academic_term
                (ts_coures_themes_id (fst theme_row)) s))
        (order_by (fun a b => String.leb (t_theme_code (snd a)) (t_theme_code (snd b)))
           (select_where (fun r => ts_in_year_term academic_year academic_term (fst r))
                         (settings_with_theme s)))).

(** The body of the loop over [sub_themes]: one INSERT with enabled = 'Y'; a
    unique-constraint error is swallowed, any other is raised again. *)
Definition materialize_sub_theme (academic_year academic_term : Z) (created_by : option string)
    (current_time : Z) (sub_theme : SubTheme * Theme) : M unit :=
  try_except
    (sub_setting_id <- uuid4 ;;
     Database.insert_sub_theme_settings
       (mkSubThemeSetting sub_setting_id academic_year academic_term (st_id (fst sub_theme))
                          true created_by created_by current_time current_time))
    (fun e => if is_unique_violation e then ret tt else raise e).

Definition create_school_year_theme_setting (academic_year academic_term : Z)
    (theme_code : string) (fill_in_week_enabled : bool) (scale_max : Z)
    (select_most_relevant_sub_theme_enabled : bool) (created_by : option string)
    : M (option ThemeSettingInfo) :=
  theme <- ThemeDAO.get_theme_by_code theme_code ;;
  match theme with
  | None => raise ValueError
  | Some theme =>
      setting_id <- uuid4 ;;
      current_time <- datetime_now ;;
      Database.insert_themes_setting
        (mkThemeSetting setting_id academic_year academic_term (t_id theme)
           fill_in_week_enabled scale_max select_most_relevant_sub_theme_enabled
           created_by created_by current_time current_time) ;;
      result <- get_school_year_theme_setting_by_code academic_year academic_term theme_code ;;
      match result with
      | Some r =>
          let result := Some (mkThemeSettingInfo (tsi_setting r) (tsi_theme r)
                                fill_in_week_enabled (tsi_sub_themes r)) in
          sub_themes <- SubThemeDAO.get_sub_themes_by_theme_id (t_id theme) ;;
          for_each sub_themes
            (materialize_sub_theme academic_year academic_term created_by current_time) ;;
          ret result
      | None => ret None
      end
  end.

(** The inner loop body of the copy: one INSERT carrying the source's flag;
    the counter advances only when the INSERT went through. *)
Definition copy_sub_theme (target_academic_year target_academic_term : Z)
    (created_by : option string) (current_time : Z)
    (sub_themes_count : Z) (sub_theme_row : SubTheme * option SubThemeSetting) : M Z :=
  let enabled := snd (coalesce_enabled sub_theme_row) in
  sub_setting_id <- uuid4 ;;
  try_except
    (Database.insert_sub_theme_settings
       (mkSubThemeSetting sub_setting_id target_academic_year target_academic_term
          (st_id (fst sub_theme_row)) enabled created_by created_by current_time current_time) ;;
     ret (sub_themes_count + 1)%Z)
    (fun e => if is_unique_violation e then ret sub_themes_count else raise e).

(** The outer loop body of the copy, on the pair (themes_count, sub_themes_count). *)
Definition copy_theme (source_academic_year source_academic_term
    target_academic_year target_academic_term : Z)
    (created_by : option string) (current_time : Z)
    (counts : Z * Z) (theme_row : ThemeSetting) : M (Z * Z) :=
  let coures_themes_id := ts_coures_themes_id theme_row in
  setting_id <- uuid4 ;;
  Database.insert_themes_setting
    (mkThemeSetting setting_id target_academic_year target_academic_term coures_themes_id
       (ts_fill_in_week_enabled theme_row) (ts_scale_max theme_row)
       (ts_select_most_relevant_sub_theme_enabled theme_row)
       created_by created_by current_time current_time) ;;
  let themes_count := (fst counts + 1)%Z in
  sub_themes_results <- query (sub_themes_left_join source_academic_year source_academic_term
                                                    coures_themes_id) ;;
  sub_themes_count <- for_fold sub_themes_results (snd counts)
      (copy_sub_theme target_academic_year target_academic_term created_by current_time) ;;
  ret (themes_count, sub_themes_count).

Definition copy_school_year_theme_settings (source_academic_year source_academic_term
    target_academic_year target_academic_term : Z) (created_by : option string)
    : M CopyCounts :=
  source_count <- query (fun s => count_rows
      (select_where (ts_in_year_term source_academic_year source_academic_term)
                    (academic_year_coures_themes_setting s))) ;;
  if (source_count =? 0)%Z then raise ValueError else
  target_count <- query (fun s => count_rows
      (select_where (ts_in_year_term target_academic_year target_academic_term)
                    (academic_year_coures_themes_setting s))) ;;
  deleted <-
    (if (0 <? target_count)%Z then
       deleted_sub_themes_count <- query (fun s => count_rows
           (select_where (ss_in_year_term target_academic_year target_academic_term)
                         (academic_year_coures_sub_theme_settings s))) ;;
       execute (with_sub_theme_settings
                  (Database.delete_where (ss_in_year_term target_academic_year target_academic_term))) ;;
       execute (with_themes_setting
                  (Database.delete_where (ts_in_year_term target_academic_year target_academic_term))) ;;
       ret (target_count, deleted_sub_themes_count)
     else ret (0%Z, 0%Z)) ;;
  themes_results <- query (fun s =>
      select_where (ts_in_year_term source_academic_year source_academic_term)
                   (academic_year_coures_themes_setting s)) ;;
  current_time <- datetime_now ;;
  counts <- for_fold themes_results (0%Z, 0%Z)
      (copy_theme source_academic_year source_academic_term
                  target_academic_year target_academic_term created_by current_time) ;;
  ret (mkCopyCounts (fst counts) (snd counts) (fst deleted) (snd deleted)).

(** [get_school_year_theme_setting_by_id]: the row by id, then its
    sub-themes in the year-term the row names. *)
Definition get_school_year_theme_setting_by_id (setting_id : uuid) : M (option ThemeSettingInfo) :=
  query (fun s =>
    match fetchrow (select_where (fun r => (ts_id (fst r) =? setting_id)%nat)
                                 (settings_with_theme s)) with
    | None => None
    | Some theme_result =>
        Some (mkThemeSettingInfo (fst theme_result) (snd theme_result)
                (ts_fill_in_week_enabled (fst theme_result))
                (sub_themes_of_setting (ts_academic_year (fst theme_result))
                   (ts_academic_term (fst theme_result))
                   (ts_coures_themes_id (fst theme_result)) s))
    end).

(** The SET list [update_school_year_theme_setting] builds: each of the three
    fields when it is not None, [updated_by] when it is not None, and
    [updated_at]. *)
Definition set_theme_setting (fill_in_week_enabled : option bool) (scale_max : option Z)
    (select_most_relevant_sub_theme_enabled : option bool) (updated_by : option string)
    (current_time : Z) (r : ThemeSetting) : ThemeSetting :=
  mkThemeSetting (ts_id r) (ts_academic_year r) (ts_academic_term r) (ts_coures_themes_id r)
    (match fill_in_week_enabled with Some b => b | None => ts_fill_in_week_enabled r end)
    (match scale_max with Some n => n | None => ts_scale_max r end)
    (match select_most_relevant_sub_theme_enabled with
     | Some b => b
     | None => ts_select_most_relevant_sub_theme_enabled r
     end)
    (ts_created_by r)
    (match updated_by with Some u => Some u | None => ts_updated_by r end)
    (ts_created_at r)
    current_time.

(** What both branches of the update end with: the row by id, then the
    getter by code on what it holds. *)
Definition reload_theme_setting (setting_id : uuid) : M (option ThemeSettingInfo) :=
  setting <- get_school_year_theme_setting_by_id setting_id ;;
  match setting with
  | Some setting =>
      get_school_year_theme_setting_by_code
        (ts_academic_year (tsi_setting setting)) (ts_academic_term (tsi_setting setting))
        (t_theme_code (tsi_theme setting))
  | None => ret None
  end.

Definition update_school_year_theme_setting (setting_id : uuid)
    (fill_in_week_enabled : option bool) (scale_max : option Z)
    (select_most_relevant_sub_theme_enabled : option bool) (updated_by : option string)
    : M (option ThemeSettingInfo) :=
  match fill_in_week_enabled, scale_max, select_most_relevant_sub_theme_enabled with
  | None, None, None => reload_theme_setting setting_id
  | _, _, _ =>
      current_time <- datetime_now ;;
      execute (with_themes_setting
                 (Database.update_where (fun r => (ts_id r =? setting_id)%nat)
                    (set_theme_setting fill_in_week_enabled scale_max
                       select_most_relevant_sub_theme_enabled updated_by current_time))) ;;
      reload_theme_setting setting_id
  end.

Definition update_school_year_theme_setting_by_code (academic_year academic_term : Z)
    (theme_code : string) (fill_in_week_enabled : option bool) (scale_max : option Z)
    (select_most_relevant_sub_theme_enabled : option bool) (updated_by : option string)
    : M (option ThemeSettingInfo) :=
  setting <- get_school_year_theme_setting_by_code academic_year academic_term theme_code ;;
  match setting with
  | None => ret None
  | Some setting =>
      update_school_year_theme_setting (ts_id (tsi_setting setting)) fill_in_week_enabled
        scale_max select_most_relevant_sub_theme_enabled updated_by
  end.

(** [DELETE FROM academic_year_coures_sub_theme_settings systs
     WHERE systs.academic_year = $1 AND systs.academic_term = $2
       AND EXISTS (SELECT 1 FROM coures_sub_themes st
                   WHERE st.id = systs.coures_sub_themes_id AND st.coures_themes_id = $3)] *)
Definition under_theme (academic_year academic_term : Z) (coures_themes_id : uuid) (s : Store)
    (systs : SubThemeSetting) : bool :=
  ss_in_year_term academic_year academic_term systs
  && existsb (fun st => (st_id st =? ss_coures_sub_themes_id systs)%nat
                        && (st_coures_themes_id st =? coures_themes_id)%nat)
             (coures_sub_themes s).

Definition delete_school_year_theme_setting (setting_id : uuid) : M (option ThemeSettingInfo) :=
  setting <- get_school_year_theme_setting_by_id setting_id ;;
  match setting with
  | Some r =>
      execute (fun s => with_sub_theme_settings
                 (Database.delete_where
                    (under_theme (ts_academic_year (tsi_setting r))
                       (ts_academic_term (tsi_setting r))
                       (ts_coures_themes_id (tsi_setting r)) s)) s) ;;
      execute (with_themes_setting
                 (Database.delete_where (fun r' => (ts_id r' =? setting_id)%nat))) ;;
      ret setting
  | None => ret setting
  end.

Definition delete_school_year_theme_setting_by_code (academic_year academic_term : Z)
    (theme_code : string) : M (option ThemeSettingInfo) :=
  setting <- get_school_year_theme_setting_by_code academic_year academic_term theme_code ;;
  match setting with
  | Some setting => delete_school_year_theme_setting (ts_id (tsi_setting setting))
  | None => ret None
  end.

End SchoolYearThemeSettingsDAO.

Module SchoolYearSubThemeSettingsDAO.

(** [FROM academic_year_coures_sub_theme_settings systs
     JOIN coures_sub_themes st ON systs.coures_sub_themes_id = st.id
     JOIN coures_themes t ON st.coures_themes_id = t.id] *)
Definition settings_joined (s : Store) : list (SubThemeSetting * SubTheme * Theme) :=
  inner_join (fun (r : SubThemeSetting * SubTheme) t => (st_coures_themes_id (snd r) =? t_id t)%nat)
    (inner_join (fun systs st => (ss_coures_sub_themes_id systs =? st_id st)%nat)
                (academic_year_coures_sub_theme_settings s) (coures_sub_themes s))
    (coures_themes s).

Definition get_school_year_sub_theme_setting_by_id (setting_id : uuid)
    : M (option (SubThemeSetting * SubTheme * Theme)) :=
  query (fun s => fetchrow (select_where (fun r => (ss_id (fst (fst r)) =? setting_id)%nat)
                                         (settings_joined s))).

Definition get_school_year_sub_theme_setting_by_code (academic_year academic_term : Z)
    (theme_code sub_theme_code : string) : M (option (SubThemeSetting * SubTheme * Theme)) :=
  query (fun s => fetchrow (select_where
    (fun r => ss_in_year_term academic_year academic_term (fst (fst r))
              && (t_theme_code (snd r) =? theme_code)
              && (st_sub_theme_code (snd (fst r)) =? sub_theme_code))
    (settings_joined s))).

Definition create_school_year_sub_theme_setting (academic_year academic_term : Z)
    (theme_code sub_theme_code : string) (enabled : bool) (created_by : option string)
    : M (option (SubThemeSetting * SubTheme * Theme)) :=
  sub_theme <- SubThemeDAO.get_sub_theme_by_code theme_code sub_theme_code ;;
  match sub_theme with
  | None => raise ValueError
  | Some sub_theme =>
      setting_id <- uuid4 ;;
      current_time <- datetime_now ;;
      Database.insert_sub_theme_settings
        (mkSubThemeSetting setting_id academic_year academic_term (st_id (fst sub_theme))
           enabled created_by created_by current_time current_time) ;;
      get_school_year_sub_theme_setting_by_code academic_year academic_term theme_code sub_theme_code
  end.

(** [UPDATE academic_year_coures_sub_theme_settings
     SET enabled = $1, updated_by = $2, updated_at = $3 WHERE id = $4] *)
Definition set_enabled (enabled : bool) (updated_by : option string) (current_time : Z)
    (r : SubThemeSetting) : SubThemeSetting :=
  mkSubThemeSetting (ss_id r) (ss_academic_year r) (ss_academic_term r)
    (ss_coures_sub_themes_id r) enabled (ss_created_by r) updated_by
    (ss_created_at r) current_time.

Definition update_enabled_by_id (id : uuid) (enabled : bool) (updated_by : option string)
    (current_time : Z) : M unit :=
  execute (with_sub_theme_settings
             (Database.update_where (fun r => (ss_id r =? id)%nat)
                                    (set_enabled enabled updated_by current_time))).

Definition update_school_year_sub_theme_setting (setting_id : uuid) (enabled : bool)
    (updated_by : option string) (academic_year academic_term : option Z)
    : M (option (SubThemeSetting * SubTheme * Theme)) :=
  current_time <- datetime_now ;;
  existing <- get_school_year_sub_theme_setting_by_id setting_id ;;
  match existing with
  | Some _ =>
      update_enabled_by_id setting_id enabled updated_by current_time ;;
      get_school_year_sub_theme_setting_by_id setting_id
  | None =>
      match academic_year, academic_term with
      | Some academic_year, Some academic_term =>
          sub_theme <- query (fun s => fetchrow
              (select_where (fun r => (st_id (fst r) =? setting_id)%nat)
                            (SubThemeDAO.sub_themes_with_theme s))) ;;
          match sub_theme with
          | None => ret None
          | Some _ =>
              existing_setting <- query (fun s => fetchrow
                  (select_where (fun r => ss_in_year_term academic_year academic_term r
                                          && (ss_coures_sub_themes_id r =? setting_id)%nat)
                                (academic_year_coures_sub_theme_settings s))) ;;
              match existing_setting with
              | Some existing_setting =>
                  update_enabled_by_id (ss_id existing_setting) enabled updated_by current_time ;;
                  get_school_year_sub_theme_setting_by_id (ss_id existing_setting)
              | None =>
                  new_setting_id <- uuid4 ;;
                  Database.insert_sub_theme_settings
                    (mkSubThemeSetting new_setting_id academic_year academic_term setting_id
                       enabled updated_by updated_by current_time current_time) ;;
                  get_school_year_sub_theme_setting_by_id new_setting_id
              end
          end
      | _, _ => ret None
      end
  end.

Definition delete_school_year_sub_theme_setting (setting_id : uuid)
    : M (option (SubThemeSetting * SubTheme * Theme)) :=
  setting <- get_school_year_sub_theme_setting_by_id setting_id ;;
  match setting with
  | Some _ =>
      execute (with_sub_theme_settings
                 (Database.delete_where (fun r => (ss_id r =? setting_id)%nat))) ;;
      ret setting
  | None => ret setting
  end.

(** The upsert by code: update the row when there is one, insert one when the
    sub-theme belongs to the theme, [ValueError] otherwise. *)
Definition update_school_year_sub_theme_setting_by_code (academic_year academic_term : Z)
    (theme_code sub_theme_code : string) (enabled : bool) (updated_by : option string)
    : M (option (SubThemeSetting * SubTheme * Theme)) :=
  current_time <- datetime_now ;;
  existing <- get_school_year_sub_theme_setting_by_code academic_year academic_term
                theme_code sub_theme_code ;;
  match existing with
  | Some existing =>
      update_school_year_sub_theme_setting (ss_id (fst (fst existing))) enabled updated_by
        None None
  | None =>
      sub_theme <- SubThemeDAO.get_sub_theme_by_code theme_code sub_theme_code ;;
      match sub_theme with
      | None => raise ValueError
      | Some sub_theme =>
          setting_id <- uuid4 ;;
          Database.insert_sub_theme_settings
            (mkSubThemeSetting setting_id academic_year academic_term (st_id (fst sub_theme))
               enabled updated_by updated_by current_time current_time) ;;
          get_school_year_sub_theme_setting_by_code academic_year academic_term
            theme_code sub_theme_code
      end
  end.

Definition delete_school_year_sub_theme_setting_by_code (academic_year academic_term : Z)
    (theme_code sub_theme_code : string) : M (option (SubThemeSetting * SubTheme * Theme)) :=
  setting <- get_school_year_sub_theme_setting_by_code academic_year academic_term
               theme_code sub_theme_code ;;
  match setting with
  | Some setting => delete_school_year_sub_theme_setting (ss_id (fst (fst setting)))
  | None => ret None
  end.

End SchoolYearSubThemeSettingsDAO.

(** A row of the course-entry getters: the entry joined with its sub-theme
    and theme (the SELECT lists [st.sub_theme_code] and [t.theme_code]). *)
Definition EntryRow : Type := CourseEntry * SubTheme * Theme.

Definition er_entry (r : EntryRow) : CourseEntry := fst (fst r).
Definition er_sub_theme_code (r : EntryRow) : string := st_sub_theme_code (snd (fst r)).
Definition er_sub_theme_name (r : EntryRow) : string := st_sub_theme_name (snd (fst r)).
Definition er_theme_code (r : EntryRow) : string := t_theme_code (snd r).

(** A dict of [entries_data] as the batch DAO reads it. *)
Record EntryData := mkEntryData {
  ed_subj_no : string;
  ed_ps_class_nbr : string;
  ed_academic_year : Z;
  ed_academic_term : Z;
  ed_sub_theme_code : string;
  ed_indicator_value : string;
  ed_week_numbers : option (list Z);
  ed_is_most_relevant : option bool;
  ed_created_by : option string
}.

Module CourseEntriesDAO.

(** [FROM course_entries ce
     JOIN coures_sub_themes st ON ce.coures_sub_themes_id = st.id
     JOIN coures_themes t ON st.coures_themes_id = t.id] *)
Definition entries_joined (s : Store) : list EntryRow :=
  inner_join (fun (r : CourseEntry * SubTheme) t => (st_coures_themes_id (snd r) =? t_id t)%nat)
    (inner_join (fun ce st => (ce_coures_sub_themes_id ce =? st_id st)%nat)
                (course_entries s) (coures_sub_themes s))
    (coures_themes s).

(** [FROM coures_sub_themes st
     JOIN academic_year_coures_sub_theme_settings systs ON st.id = systs.coures_sub_themes_id
     WHERE systs.academic_year = $1 AND systs.academic_term = $2 AND st.sub_theme_code = $3] *)
Definition sub_themes_set_in (academic_year academic_term : Z) (sub_theme_code : string)
    (s : Store) : list (SubTheme * SubThemeSetting) :=
  select_where (fun r => ss_in_year_term academic_year academic_term (snd r)
                         && (st_sub_theme_code (fst r) =? sub_theme_code))
    (inner_join (fun st systs => (st_id st =? ss_coures_sub_themes_id systs)%nat)
                (coures_sub_themes s) (academic_year_coures_sub_theme_settings s)).

Definition get_course_entry_by_sub_theme_id (subj_no ps_class_nbr : string)
    (academic_year academic_term : Z) (sub_theme_id : uuid) : M (option EntryRow) :=
  query (fun s => fetchrow (select_where
    (fun r => ce_of_course subj_no ps_class_nbr academic_year academic_term (er_entry r)
              && (ce_coures_sub_themes_id (er_entry r) =? sub_theme_id)%nat)
    (entries_joined s))).

Definition get_course_entry (subj_no ps_class_nbr : string) (academic_year academic_term : Z)
    (sub_theme_code : string) : M (option EntryRow) :=
  sub_theme_result <- query (fun s =>
      fetchrow (sub_themes_set_in academic_year academic_term sub_theme_code s)) ;;
  match sub_theme_result with
  | None => ret None
  | Some r => get_course_entry_by_sub_theme_id subj_no ps_class_nbr academic_year academic_term
                                               (st_id (fst r))
  end.

Definition get_course_entry_by_id (entry_id : uuid) : M (option EntryRow) :=
  query (fun s => fetchrow (select_where (fun r => (ce_id (er_entry r) =? entry_id)%nat)
                                         (entries_joined s))).

(** The SET list [update_course_entry_by_id] builds: [indicator_value] and
    [week_numbers] always, [is_most_relevant] and [updated_by] when they are
    not None, [updated_at = CURRENT_TIMESTAMP]. *)
Definition set_entry (indicator_value : string) (week_numbers : option (list Z))
    (is_most_relevant : option bool) (updated_by : option string) (current_timestamp : Z)
    (r : CourseEntry) : CourseEntry :=
  mkCourseEntry (ce_id r) (ce_subj_no r) (ce_ps_class_nbr r) (ce_academic_year r)
    (ce_academic_term r) (ce_coures_sub_themes_id r)
    indicator_value
    (week_numbers_json week_numbers)
    (match is_most_relevant with Some b => b | None => ce_is_most_relevant r end)
    (ce_created_by r)
    (match updated_by with Some u => Some u | None => ce_updated_by r end)
    (ce_created_at r)
    current_timestamp.

Definition update_course_entry_by_id (entry_id : uuid) (indicator_value : string)
    (week_numbers : option (list Z)) (is_most_relevant : option bool)
    (updated_by : option string) : M (option EntryRow) :=
  current_timestamp <- datetime_now ;;
  execute (with_course_entries
             (Database.update_where (fun r => (ce_id r =? entry_id)%nat)
                (set_entry indicator_value week_numbers is_most_relevant updated_by
                           current_timestamp))) ;;
  get_course_entry_by_id entry_id.

Definition create_course_entry (subj_no ps_class_nbr : string) (academic_year academic_term : Z)
    (sub_theme_code indicator_value : string) (week_numbers : option (list Z))
    (is_most_relevant : option bool) (created_by : option string) : M (option EntryRow) :=
  sub_theme_result <- query (fun s => fetchrow
      (select_where (fun r => ss_enabled (snd r))
                    (sub_themes_set_in academic_year academic_term sub_theme_code s))) ;;
  match sub_theme_result with
  | None => raise ValueError
  | Some r =>
      let sub_theme_id := st_id (fst r) in
      current_time <- datetime_now ;;
      existing_entry <- get_course_entry_by_sub_theme_id subj_no ps_class_nbr
                          academic_year academic_term sub_theme_id ;;
      match existing_entry with
      | Some existing_entry =>
          update_course_entry_by_id (ce_id (er_entry existing_entry)) indicator_value
                                    week_numbers is_most_relevant created_by
      | None =>
          entry_id <- uuid4 ;;
          Database.insert_course_entries
            (mkCourseEntry entry_id subj_no ps_class_nbr academic_year academic_term
               sub_theme_id indicator_value (week_numbers_json week_numbers)
               (truthy_bool is_most_relevant) created_by created_by
               current_time current_time) ;;
          get_course_entry_by_id entry_id
      end
  end.

(** One pass of the batch loop: the call is wrapped in [try ... except
    Exception: continue], and a falsy result is not appended. *)
Definition batch_step (results : list EntryRow) (entry_data : EntryData) : M (list EntryRow) :=
  try_except
    (result <- create_course_entry (ed_subj_no entry_data) (ed_ps_class_nbr entry_data)
                 (ed_academic_year entry_data) (ed_academic_term entry_data)
                 (ed_sub_theme_code entry_data) (ed_indicator_value entry_data)
                 (ed_week_numbers entry_data) (ed_is_most_relevant entry_data)
                 (ed_created_by entry_data) ;;
     match result with
     | Some row => ret (results ++ [row])
     | None => ret results
     end)
    (fun _ => ret results).

Definition create_course_entries_batch (entries_data : list EntryData) : M (list EntryRow) :=
  for_fold entries_data [] batch_step.

Definition check_course_entries_exist (subj_no ps_class_nbr : string)
    (academic_year academic_term : Z) : M bool :=
  query (fun s => (0 <? count_rows (select_where
            (ce_of_course subj_no ps_class_nbr academic_year academic_term) (course_entries s)))%Z).

(** [SELECT DISTINCT t.theme_code, st.sub_theme_code ... WHERE ... AND systs.enabled = 'Y'
     ORDER BY t.theme_code, st.sub_theme_code] *)
Definition get_enabled_theme_sub_themes (academic_year academic_term : Z)
    : M (list (string * string)) :=
  query (fun s =>
    order_by pair_leb
      (distinct (fun a b => (fst a =? fst b) && (snd a =? snd b))
        (map (fun r : SubThemeSetting * SubTheme * Theme =>
                (t_theme_code (snd r), st_sub_theme_code (snd (fst r))))
             (select_where (fun r => ss_in_year_term academic_year academic_term (fst (fst r))
                                     && ss_enabled (fst (fst r)))
                           (SchoolYearSubThemeSettingsDAO.settings_joined s))))).

Definition entry_row_leb (a b : EntryRow) : bool :=
  pair_leb (er_theme_code a, er_sub_theme_code a) (er_theme_code b, er_sub_theme_code b).

Definition get_course_entries_by_subj_no (subj_no ps_class_nbr : string)
    (academic_year academic_term : Z) : M (list EntryRow) :=
  query (fun s => order_by entry_row_leb
    (select_where (fun r => ce_of_course subj_no ps_class_nbr academic_year academic_term (er_entry r))
                  (entries_joined s))).

Definition delete_course_entries_by_subj_no (subj_no ps_class_nbr : string)
    (academic_year academic_term : Z) : M Z :=
  count <- query (fun s => count_rows (select_where
      (ce_of_course subj_no ps_class_nbr academic_year academic_term) (course_entries s))) ;;
  (if (0 <? count)%Z then
     execute (with_course_entries
                (Database.delete_where (ce_of_course subj_no ps_class_nbr academic_year academic_term)))
   else ret tt) ;;
  ret count.

Definition delete_course_entry_by_id (entry_id : uuid) : M (option EntryRow) :=
  entry <- get_course_entry_by_id entry_id ;;
  match entry with
  | Some _ =>
      execute (with_course_entries (Database.delete_where (fun r => (ce_id r =? entry_id)%nat))) ;;
      ret entry
  | None => ret entry
  end.

Definition delete_course_entry (subj_no ps_class_nbr : string) (academic_year academic_term : Z)
    (sub_theme_code : string) : M (option EntryRow) :=
  entry <- get_course_entry subj_no ps_class_nbr academic_year academic_term sub_theme_code ;;
  match entry with
  | Some e => delete_course_entry_by_id (ce_id (er_entry e))
  | None => ret None
  end.

Definition copy_course_entry_with_new_user (subj_no ps_class_nbr : string)
    (academic_year academic_term : Z) (sub_theme_code indicator_value : string)
    (week_numbers_json : option (list Z)) (is_most_relevant : bool) (user_id : string)
    : M (option EntryRow) :=
  sub_theme_result <- query (fun s =>
      fetchrow (sub_themes_set_in academic_year academic_term sub_theme_code s)) ;;
  match sub_theme_result with
  | None => raise ValueError
  | Some r =>
      let sub_theme_id := st_id (fst r) in
      current_time <- datetime_now ;;
      entry_id <- uuid4 ;;
      Database.insert_course_entries
        (mkCourseEntry entry_id subj_no ps_class_nbr academic_year academic_term
           sub_theme_id indicator_value week_numbers_json is_most_relevant
           (Some user_id) (Some user_id) current_time current_time) ;;
      get_course_entry_by_id entry_id
  end.

(** [SELECT COUNT( * ) ... WHERE ... AND t.theme_code = $5 AND ce.is_most_relevant = 'Y'],
    with [AND st.sub_theme_code != $6] when [exclude_sub_theme_code] is truthy. *)
Definition check_most_relevant_validation (subj_no ps_class_nbr : string)
    (academic_year academic_term : Z) (theme_code : string)
    (exclude_sub_theme_code : option string) : M bool :=
  query (fun s =>
    let base (r : EntryRow) :=
      ce_of_course subj_no ps_class_nbr academic_year academic_term (er_entry r)
      && (er_theme_code r =? theme_code) && ce_is_most_relevant (er_entry r) in
    let count :=
      if truthy_str exclude_sub_theme_code then
        count_rows (select_where
          (fun r => base r && negb (er_sub_theme_code r =?
                                    match exclude_sub_theme_code with Some c => c | None => "" end))
          (entries_joined s))
      else count_rows (select_where base (entries_joined s)) in
    (0 <? count)%Z).

(** [... LEFT JOIN SCHOOL.COFSUBJ cb ON cb.subj_no = ce.SUBJ_NO
     WHERE ce.ACADEMIC_YEAR = $1 AND ce.ACADEMIC_TERM = $2
     ORDER BY t.theme_code, st.sub_theme_code], with
    [COALESCE(cb.subj_chn_name, '') as course_chinese_name]. *)
Definition get_all_course_entries_by_academic_year_term (academic_year academic_term : Z)
    : M (list (EntryRow * string)) :=
  query (fun s =>
    map (fun r : EntryRow * option Cofsubj =>
           (fst r, match snd r with
                   | Some cb => match cb_subj_chn_name cb with Some n => n | None => "" end
                   | None => ""
                   end))
      (order_by (fun a b => entry_row_leb (fst a) (fst b))
        (select_where
           (fun r => (ce_academic_year (er_entry (fst r)) =? academic_year)%Z
                     && (ce_academic_term (er_entry (fst r)) =? academic_term)%Z)
           (left_join (fun (r : EntryRow) cb => cb_subj_no cb =? ce_subj_no (er_entry r))
                      (entries_joined s) (COFSUBJ s))))).

(** [update_course_entry]: the entry by sub-theme code, then the update by
    id; [ValueError] when there is no entry. *)
Definition update_course_entry (subj_no ps_class_nbr : string) (academic_year academic_term : Z)
    (sub_theme_code indicator_value : string) (week_numbers : option (list Z))
    (is_most_relevant : option bool) (updated_by : option string) : M (option EntryRow) :=
  entry <- get_course_entry subj_no ps_class_nbr academic_year academic_term sub_theme_code ;;
  match entry with
  | None => raise ValueError
  | Some entry =>
      update_course_entry_by_id (ce_id (er_entry entry)) indicator_value week_numbers
        is_most_relevant updated_by
  end.

End CourseEntriesDAO.

(** ** lib/auth_library/simple_token.py *)

Module SimpleTokenAuth.

(** [expected_token = generate_token(user_id); if token != expected_token: raise] *)
Definition verify_token (token user_id : string) : M bool :=
  fun s => if negb (token =? md5_today s user_id)
           then (s, Raise UnauthorizedException)
           else (s, Ok true).

(** [hashlib.md5(f"{user_id}nchu{date}")]: the digest of the day, read from
    the store like the clock. *)
Definition generate_token (user_id : string) : M string :=
  query (fun s => md5_today s user_id).

End SimpleTokenAuth.

(** ** Request bodies (schema/school_year_settings.py) *)

Record CourseEntryCreateRequest := mkCourseEntryCreateRequest {
  cr_subj_no : string;
  cr_ps_class_nbr : string;
  cr_academic_year : Z;
  cr_academic_term : Z;
  cr_sub_theme_code : string;
  cr_indicator_value : string;
  cr_week_numbers : option (list Z);
  cr_is_most_relevant : option bool;
  cr_user_id : string;
  cr_token : string
}.

Record CourseEntryUpdateRequest := mkCourseEntryUpdateRequest {
  ur_indicator_value : string;
  ur_week_numbers : option (list Z);
  ur_is_most_relevant : option bool;
  ur_user_id : string;
  ur_token : string
}.

Record CourseEntriesCopyRequest := mkCourseEntriesCopyRequest {
  cc_source_academic_year : Z;
  cc_source_academic_term : Z;
  cc_target_academic_year : Z;
  cc_target_academic_term : Z;
  cc_subj_no : string;
  cc_ps_class_nbr : string;
  cc_user_id : string;
  cc_token : string
}.

(** The dict [copy_course_entries] returns (the message text apart). *)
Record CopyEntriesCounts := mkCopyEntriesCounts {
  copied_count : Z;
  skipped_count : Z;
  deleted_count : Z
}.

(** The data dict of the sub-theme-setting update: the request body, and the
    year-term the business layer reads with [data.get]. *)
Record SubThemeSettingUpdateData := mkSubThemeSettingUpdateData {
  su_enabled : bool;
  su_user_id : string;
  su_token : string;
  su_academic_year : option Z;
  su_academic_term : option Z
}.

Record ThemeSettingsCopyRequest := mkThemeSettingsCopyRequest {
  tc_source_academic_year : Z;
  tc_source_academic_term : Z;
  tc_target_academic_year : Z;
  tc_target_academic_term : Z;
  tc_user_id : string;
  tc_token : string
}.

(** ** business_model/school_year_settings_business.py *)

(** [str(e).lower()] and the test the handlers of the two create functions
    make on it.  Only the letters A to Z matter: no other character
    lower-cases to a run of letters of the two texts looked for. *)
Definition ascii_lower (c : ascii) : ascii :=
  let n := nat_of_ascii c in
  if (65 <=? n)%nat && (n <=? 90)%nat then ascii_of_nat (n + 32) else c.

Fixpoint lower (s : string) : string :=
  match s with
  | EmptyString => EmptyString
  | String c s' => String (ascii_lower c) (lower s')
  end.

Definition contains (pattern text : string) : bool :=
  match String.index 0 pattern text with
  | Some _ => true
  | None => false
  end.

Definition names_unique_constraint (error_text : string) : bool :=
  contains "unique constraint" (lower error_text) || contains "duplicate" (lower error_text).

(** The bodies of the delete requests: [user_id] and [token]. *)
Record DeleteRequest := mkDeleteRequest {
  dr_user_id : string;
  dr_token : string
}.

Record ThemeSettingCreateRequest := mkThemeSettingCreateRequest {
  tr_academic_year : Z;
  tr_academic_term : Z;
  tr_theme_code : string;
  tr_fill_in_week_enabled : bool;
  tr_scale_max : Z;
  tr_select_most_relevant_sub_theme_enabled : bool;
  tr_user_id : string;
  tr_token : string
}.

Record ThemeSettingUpdateRequest := mkThemeSettingUpdateRequest {
  tu_fill_in_week_enabled : option bool;
  tu_scale_max : option Z;
  tu_select_most_relevant_sub_theme_enabled : option bool;
  tu_user_id : string;
  tu_token : string
}.

Record SubThemeSettingCreateRequest := mkSubThemeSettingCreateRequest {
  sr_academic_year : Z;
  sr_academic_term : Z;
  sr_theme_code : string;
  sr_sub_theme_code : string;
  sr_enabled : bool;
  sr_user_id : string;
  sr_token : string
}.

Module SchoolYearThemeSettingsBusiness.

(** An exception whose text names a unique constraint becomes 409, any other
    is raised again as it is.  The text of ORA-00001 does; the text of the
    [ValueError] of the DAO is its message around the theme code.  An empty
    result is answered with an empty dict, [None] here. *)
Definition create_school_year_theme_setting (data : ThemeSettingCreateRequest)
    : M (option ThemeSettingInfo) :=
  SimpleTokenAuth.verify_token (tr_token data) (tr_user_id data) ;;
  try_except
    (SchoolYearThemeSettingsDAO.create_school_year_theme_setting
       (tr_academic_year data) (tr_academic_term data) (tr_theme_code data)
       (tr_fill_in_week_enabled data) (tr_scale_max data)
       (tr_select_most_relevant_sub_theme_enabled data) (Some (tr_user_id data)))
    (fun e => if is_unique_violation e
                 || (is_ValueError e
                     && names_unique_constraint
                          ("主題代碼 '" ++ tr_theme_code data ++ "' 不存在")%string)
              then raise (HTTPException HTTP_409_CONFLICT)
              else raise e).

Definition get_school_year_theme_setting_by_id (setting_id : uuid) : M ThemeSettingInfo :=
  result <- SchoolYearThemeSettingsDAO.get_school_year_theme_setting_by_id setting_id ;;
  match result with
  | None => raise (HTTPException HTTP_404_NOT_FOUND)
  | Some r => ret r
  end.

Definition update_school_year_theme_setting (setting_id : uuid)
    (data : ThemeSettingUpdateRequest) : M ThemeSettingInfo :=
  SimpleTokenAuth.verify_token (tu_token data) (tu_user_id data) ;;
  result <- SchoolYearThemeSettingsDAO.update_school_year_theme_setting setting_id
              (tu_fill_in_week_enabled data) (tu_scale_max data)
              (tu_select_most_relevant_sub_theme_enabled data) (Some (tu_user_id data)) ;;
  match result with
  | None => raise (HTTPException HTTP_404_NOT_FOUND)
  | Some r => ret r
  end.

Definition update_school_year_theme_setting_by_code (academic_year academic_term : Z)
    (theme_code : string) (data : ThemeSettingUpdateRequest) : M ThemeSettingInfo :=
  SimpleTokenAuth.verify_token (tu_token data) (tu_user_id data) ;;
  result <- SchoolYearThemeSettingsDAO.update_school_year_theme_setting_by_code
              academic_year academic_term theme_code
              (tu_fill_in_week_enabled data) (tu_scale_max data)
              (tu_select_most_relevant_sub_theme_enabled data) (Some (tu_user_id data)) ;;
  match result with
  | None => raise (HTTPException HTTP_404_NOT_FOUND)
  | Some r => ret r
  end.

(** The answer of a delete is [{"message": f"..."}]; a message is kept as
    the values its text interpolates: here [setting_id] and
    [result.get('theme_code', '')]. *)
Definition delete_school_year_theme_setting (setting_id : uuid) (data : DeleteRequest)
    : M (uuid * string) :=
  SimpleTokenAuth.verify_token (dr_token data) (dr_user_id data) ;;
  result <- SchoolYearThemeSettingsDAO.delete_school_year_theme_setting setting_id ;;
  match result with
  | None => raise (HTTPException HTTP_404_NOT_FOUND)
  | Some r => ret (setting_id, t_theme_code (tsi_theme r))
  end.

(** The message interpolates [academic_year], [academic_term] and
    [theme_code]. *)
Definition delete_school_year_theme_setting_by_code (academic_year academic_term : Z)
    (theme_code : string) (data : DeleteRequest) : M (Z * Z * string) :=
  SimpleTokenAuth.verify_token (dr_token data) (dr_user_id data) ;;
  result <- SchoolYearThemeSettingsDAO.delete_school_year_theme_setting_by_code
              academic_year academic_term theme_code ;;
  match result with
  | None => raise (HTTPException HTTP_404_NOT_FOUND)
  | Some _ => ret (academic_year, academic_term, theme_code)
  end.

End SchoolYearThemeSettingsBusiness.

Module SchoolYearSubThemeSettingsBusiness.

Definition update_school_year_sub_theme_setting (setting_id : uuid)
    (data : SubThemeSettingUpdateData) : M (SubThemeSetting * SubTheme * Theme) :=
  SimpleTokenAuth.verify_token (su_token data) (su_user_id data) ;;
  result <- SchoolYearSubThemeSettingsDAO.update_school_year_sub_theme_setting
              setting_id (su_enabled data) (Some (su_user_id data))
              (su_academic_year data) (su_academic_term data) ;;
  match result with
  | None => raise (HTTPException HTTP_404_NOT_FOUND)
  | Some r => ret r
  end.

(** The update by code reads its data dict at ['token'], ['user_id'] and
    ['enabled'] only; a [ValueError] of the DAO goes up as it is. *)
Definition update_school_year_sub_theme_setting_by_code (academic_year academic_term : Z)
    (theme_code sub_theme_code : string) (data : SubThemeSettingUpdateData)
    : M (SubThemeSetting * SubTheme * Theme) :=
  SimpleTokenAuth.verify_token (su_token data) (su_user_id data) ;;
  result <- SchoolYearSubThemeSettingsDAO.update_school_year_sub_theme_setting_by_code
              academic_year academic_term theme_code sub_theme_code
              (su_enabled data) (Some (su_user_id data)) ;;
  match result with
  | None => raise (HTTPException HTTP_404_NOT_FOUND)
  | Some r => ret r
  end.

(** [except HTTPException: raise]; any other exception whose text names a
    unique constraint becomes 409 and the rest is raised again.  The text of
    the [ValueError] of the DAO is its message around the two codes. *)
Definition create_school_year_sub_theme_setting (data : SubThemeSettingCreateRequest)
    : M (SubThemeSetting * SubTheme * Theme) :=
  SimpleTokenAuth.verify_token (sr_token data) (sr_user_id data) ;;
  try_except
    (SchoolYearSubThemeSettingsDAO.create_school_year_sub_theme_setting
       (sr_academic_year data) (sr_academic_term data) (sr_theme_code data)
       (sr_sub_theme_code data) (sr_enabled data) (Some (sr_user_id data)) ;;
     result <- SchoolYearSubThemeSettingsDAO.get_school_year_sub_theme_setting_by_code
                 (sr_academic_year data) (sr_academic_term data) (sr_theme_code data)
                 (sr_sub_theme_code data) ;;
     match result with
     | None => raise (HTTPException HTTP_500_INTERNAL_SERVER_ERROR)
     | Some r => ret r
     end)
    (fun e => if is_HTTPException e then raise e
              else if is_unique_violation e
                      || (is_ValueError e
                          && names_unique_constraint
                               ("sub_theme_code '" ++ sr_sub_theme_code data
                                ++ "' 不屬於 theme_code '" ++ sr_theme_code data ++ "'")%string)
              then raise (HTTPException HTTP_409_CONFLICT)
              else raise e).

(** The answer is [{"message": f"..."}], kept as the value its text
    interpolates: [setting_id]. *)
Definition delete_school_year_sub_theme_setting (setting_id : uuid) (data : DeleteRequest)
    : M uuid :=
  SimpleTokenAuth.verify_token (dr_token data) (dr_user_id data) ;;
  result <- SchoolYearSubThemeSettingsDAO.delete_school_year_sub_theme_setting setting_id ;;
  match result with
  | None => raise (HTTPException HTTP_404_NOT_FOUND)
  | Some _ => ret setting_id
  end.

(** The message interpolates the four arguments. *)
Definition delete_school_year_sub_theme_setting_by_code (academic_year academic_term : Z)
    (theme_code sub_theme_code : string) (data : DeleteRequest)
    : M (Z * Z * string * string) :=
  SimpleTokenAuth.verify_token (dr_token data) (dr_user_id data) ;;
  result <- SchoolYearSubThemeSettingsDAO.delete_school_year_sub_theme_setting_by_code
              academic_year academic_term theme_code sub_theme_code ;;
  match result with
  | None => raise (HTTPException HTTP_404_NOT_FOUND)
  | Some _ => ret (academic_year, academic_term, theme_code, sub_theme_code)
  end.

End SchoolYearSubThemeSettingsBusiness.

Module SchoolYearThemeSettingsCopyBusiness.

(** [except ValueError] gives 400, [except Exception] gives 500; the token is
    checked before the [try]. *)
Definition copy_school_year_theme_settings (data : ThemeSettingsCopyRequest) : M CopyCounts :=
  SimpleTokenAuth.verify_token (tc_token data) (tc_user_id data) ;;
  try_except
    (SchoolYearThemeSettingsDAO.copy_school_year_theme_settings
       (tc_source_academic_year data) (tc_source_academic_term data)
       (tc_target_academic_year data) (tc_target_academic_term data)
       (Some (tc_user_id data)))
    (fun e => if is_ValueError e then raise (HTTPException HTTP_400_BAD_REQUEST)
              else raise (HTTPException HTTP_500_INTERNAL_SERVER_ERROR)).

End SchoolYearThemeSettingsCopyBusiness.

(** ** Python values the CSV export builds *)

(** [str(n)] of an int. *)
Definition str_of_Z (n : Z) : string := NilZero.string_of_int (Z.to_int n).

(** A dict, as the list of its items in insertion order: assigning to a key
    that is present replaces the value where it stands. *)
Fixpoint dict_set {K V} (eqb : K -> K -> bool) (k : K) (v : V) (d : list (K * V))
    : list (K * V) :=
  match d with
  | [] => [(k, v)]
  | kv :: d' => if eqb (fst kv) k then (fst kv, v) :: d' else kv :: dict_set eqb k v d'
  end.

Definition dict_get {K V} (eqb : K -> K -> bool) (k : K) (d : list (K * V)) : option V :=
  match find (fun kv => eqb (fst kv) k) d with
  | Some kv => Some (snd kv)
  | None => None
  end.

(** Equality of [(subj_no, ps_class_nbr)] and [(theme_code, sub_theme_code)]
    tuples. *)
Definition key_eqb (a b : string * string) : bool :=
  (fst a =? fst b) && (snd a =? snd b).

(** [csv.writer(output, quoting=csv.QUOTE_MINIMAL, lineterminator='\n')] of
    the Python library, on rows of strings: the delimiter is a comma, a field
    is quoted when it holds the delimiter, the quote character, a carriage
    return or a line feed, and a quote character inside a quoted field is
    doubled. *)
Module Csv.

Definition delimiter : ascii := ","%char.
Definition quotechar : ascii := "034"%char.
Definition CR : ascii := "013"%char.
Definition LF : ascii := "010"%char.
Definition lineterminator : string := String LF EmptyString.

Definition special (c : ascii) : bool :=
  Ascii.eqb c delimiter || Ascii.eqb c quotechar || Ascii.eqb c CR || Ascii.eqb c LF.

Definition needs_quoting (f : string) : bool :=
  existsb special (list_ascii_of_string f).

Fixpoint doublequote (f : string) : string :=
  match f with
  | EmptyString => EmptyString
  | String c f' =>
      if Ascii.eqb c quotechar then String c (String c (doublequote f'))
      else String c (doublequote f')
  end.

Definition field (f : string) : string :=
  if needs_quoting f
  then String quotechar (doublequote f ++ String quotechar EmptyString)%string
  else f.

(** A row whose only field is empty is written as an empty quoted field. *)
Definition writerow (row : list string) : string :=
  match row with
  | [f] =>
      if f =? "" then String quotechar (String quotechar lineterminator)
      else (field f ++ lineterminator)%string
  | _ => (String.concat (String delimiter EmptyString) (map field row) ++ lineterminator)%string
  end.

End Csv.

(** An entry dict of [get_all_course_entries_by_academic_year_term]: the
    joined row and [course_chinese_name]. *)
Definition EntryDict : Type := EntryRow * string.

(** The value [courses_dict] holds for a course. *)
Record CourseData := mkCourseData {
  cd_subj_no : string;
  cd_ps_class_nbr : string;
  cd_course_chinese_name : string;
  cd_entries_by_sub_theme : list (string * EntryDict)
}.

(** The [column_info] dicts of [theme_columns], by their ['type']. *)
Inductive ColInfo :=
| most_relevant_code (column_name : string)
| most_relevant_name (column_name : string)
| indicator (column_name sub_theme_code : string)
| week (column_name sub_theme_code : string).

(** ** business_model/school_year_business.py *)

Module SchoolYearBusiness.

Definition create_course_entry (entry_data : CourseEntryCreateRequest) : M EntryRow :=
  SimpleTokenAuth.verify_token (cr_token entry_data) (cr_user_id entry_data) ;;
  result <- try_except
      (CourseEntriesDAO.create_course_entry
         (cr_subj_no entry_data) (cr_ps_class_nbr entry_data)
         (cr_academic_year entry_data) (cr_academic_term entry_data)
         (cr_sub_theme_code entry_data) (cr_indicator_value entry_data)
         (cr_week_numbers entry_data) (cr_is_most_relevant entry_data)
         (Some (cr_user_id entry_data)))
      (fun e => if is_ValueError e then raise (HTTPException HTTP_400_BAD_REQUEST)
                else raise e) ;;
  match result with
  | None => raise (HTTPException HTTP_400_BAD_REQUEST)
  | Some r => ret r
  end.

(** [entry_copy = entry.copy(); entry_copy['created_by'] = user_id] *)
Definition with_created_by (user_id : string) (entry : CourseEntryCreateRequest) : EntryData :=
  mkEntryData (cr_subj_no entry) (cr_ps_class_nbr entry) (cr_academic_year entry)
    (cr_academic_term entry) (cr_sub_theme_code entry) (cr_indicator_value entry)
    (cr_week_numbers entry) (cr_is_most_relevant entry) (Some user_id).

Definition create_course_entries_batch (entries_data : list CourseEntryCreateRequest)
    (user_id token : string) : M (list EntryRow) :=
  SimpleTokenAuth.verify_token token user_id ;;
  let entries_with_user := map (with_created_by user_id) entries_data in
  results <- CourseEntriesDAO.create_course_entries_batch entries_with_user ;;
  match results with
  | [] => raise (HTTPException HTTP_400_BAD_REQUEST)
  | _ => ret results
  end.

Definition update_course_entry_by_id (entry_id : uuid) (entry_data : CourseEntryUpdateRequest)
    : M EntryRow :=
  SimpleTokenAuth.verify_token (ur_token entry_data) (ur_user_id entry_data) ;;
  let is_most_relevant := ur_is_most_relevant entry_data in
  (match is_most_relevant with
   | None => ret tt
   | Some flag =>
       existing_entry <- CourseEntriesDAO.get_course_entry_by_id entry_id ;;
       match existing_entry with
       | None => ret tt
       | Some existing_entry =>
           if flag then
             has_existing <- CourseEntriesDAO.check_most_relevant_validation
                 (ce_subj_no (er_entry existing_entry))
                 (ce_ps_class_nbr (er_entry existing_entry))
                 (ce_academic_year (er_entry existing_entry))
                 (ce_academic_term (er_entry existing_entry))
                 (er_theme_code existing_entry)
                 (Some (er_sub_theme_code existing_entry)) ;;
             if has_existing then raise (HTTPException HTTP_400_BAD_REQUEST) else ret tt
           else ret tt
       end
   end) ;;
  result <- CourseEntriesDAO.update_course_entry_by_id entry_id
              (ur_indicator_value entry_data) (ur_week_numbers entry_data)
              is_most_relevant (Some (ur_user_id entry_data)) ;;
  match result with
  | None => raise (HTTPException HTTP_404_NOT_FOUND)
  | Some r => ret r
  end.

(** The loop over [source_entries], on the pair (copied_count, skipped_count). *)
Definition copy_step (subj_no ps_class_nbr : string) (target_academic_year target_academic_term : Z)
    (user_id : string) (enabled_set : list (string * string))
    (counts : Z * Z) (entry : EntryRow) : M (Z * Z) :=
  if existsb (fun k => (fst k =? er_theme_code entry) && (snd k =? er_sub_theme_code entry))
             enabled_set
  then
    CourseEntriesDAO.copy_course_entry_with_new_user subj_no ps_class_nbr
      target_academic_year target_academic_term (er_sub_theme_code entry)
      (ce_indicator_value (er_entry entry))
      (week_numbers_json (ce_week_numbers (er_entry entry)))
      (ce_is_most_relevant (er_entry entry)) user_id ;;
    ret ((fst counts + 1)%Z, snd counts)
  else ret (fst counts, (snd counts + 1)%Z).

Definition copy_course_entries (data : CourseEntriesCopyRequest) : M CopyEntriesCounts :=
  SimpleTokenAuth.verify_token (cc_token data) (cc_user_id data) ;;
  let subj_no := cc_subj_no data in
  let ps_class_nbr := cc_ps_class_nbr data in
  try_except
    (source_entries <- CourseEntriesDAO.get_course_entries_by_subj_no subj_no ps_class_nbr
                         (cc_source_academic_year data) (cc_source_academic_term data) ;;
     match source_entries with
     | [] => raise (HTTPException HTTP_404_NOT_FOUND)
     | _ =>
       target_enabled_settings <- CourseEntriesDAO.get_enabled_theme_sub_themes
                         (cc_target_academic_year data) (cc_target_academic_term data) ;;
       match target_enabled_settings with
       | [] => raise (HTTPException HTTP_404_NOT_FOUND)
       | _ =>
         let enabled_set := target_enabled_settings in
         existing_target_entries <- CourseEntriesDAO.get_course_entries_by_subj_no
                         subj_no ps_class_nbr
                         (cc_target_academic_year data) (cc_target_academic_term data) ;;
         let deleted_count := count_rows existing_target_entries in
         for_each existing_target_entries (fun entry =>
             CourseEntriesDAO.delete_course_entry subj_no ps_class_nbr
               (cc_target_academic_year data) (cc_target_academic_term data)
               (er_sub_theme_code entry) ;;
             ret tt) ;;
         counts <- for_fold source_entries (0%Z, 0%Z)
             (copy_step subj_no ps_class_nbr
                        (cc_target_academic_year data) (cc_target_academic_term data)
                        (cc_user_id data) enabled_set) ;;
         ret (mkCopyEntriesCounts (fst counts) (snd counts) deleted_count)
       end
     end)
    (fun e => if is_HTTPException e then raise e
              else raise (HTTPException HTTP_500_INTERNAL_SERVER_ERROR)).

(** [update_course_entry]: no [try] around the DAO call, so its
    [ValueError] goes up as it is. *)
Definition update_course_entry (subj_no ps_class_nbr : string) (academic_year academic_term : Z)
    (sub_theme_code : string) (entry_data : CourseEntryUpdateRequest) : M EntryRow :=
  SimpleTokenAuth.verify_token (ur_token entry_data) (ur_user_id entry_data) ;;
  result <- CourseEntriesDAO.update_course_entry subj_no ps_class_nbr academic_year
              academic_term sub_theme_code (ur_indicator_value entry_data)
              (ur_week_numbers entry_data) (ur_is_most_relevant entry_data)
              (Some (ur_user_id entry_data)) ;;
  match result with
  | None => raise (HTTPException HTTP_404_NOT_FOUND)
  | Some r => ret r
  end.

Definition delete_course_entry (subj_no ps_class_nbr : string) (academic_year academic_term : Z)
    (sub_theme_code : string) (delete_data : DeleteRequest) : M EntryRow :=
  SimpleTokenAuth.verify_token (dr_token delete_data) (dr_user_id delete_data) ;;
  result <- CourseEntriesDAO.delete_course_entry subj_no ps_class_nbr academic_year
              academic_term sub_theme_code ;;
  match result with
  | None => raise (HTTPException HTTP_404_NOT_FOUND)
  | Some r => ret r
  end.

Definition delete_course_entry_by_id (entry_id : uuid) (delete_data : DeleteRequest)
    : M EntryRow :=
  SimpleTokenAuth.verify_token (dr_token delete_data) (dr_user_id delete_data) ;;
  result <- CourseEntriesDAO.delete_course_entry_by_id entry_id ;;
  match result with
  | None => raise (HTTPException HTTP_404_NOT_FOUND)
  | Some r => ret r
  end.

Definition check_course_entries_exist (subj_no ps_class_nbr : string)
    (academic_year academic_term : Z) : M bool :=
  CourseEntriesDAO.check_course_entries_exist subj_no ps_class_nbr academic_year academic_term.

(** *** export_course_entries_to_csv *)

(** The body of [for entry in all_entries]: [courses_dict] is a
    [defaultdict] whose default has empty strings and no entry. *)
Definition default_course : CourseData := mkCourseData "" "" "" [].

Definition add_entry (courses_dict : list ((string * string) * CourseData)) (entry : EntryDict)
    : list ((string * string) * CourseData) :=
  let subj_no := ce_subj_no (er_entry (fst entry)) in
  let ps_class_nbr := ce_ps_class_nbr (er_entry (fst entry)) in
  let course_key := (subj_no, ps_class_nbr) in
  let course_data := match dict_get key_eqb course_key courses_dict with
                     | Some d => d
                     | None => default_course
                     end in
  dict_set key_eqb course_key
    (mkCourseData subj_no ps_class_nbr
       (if negb (snd entry =? "") then snd entry else cd_course_chinese_name course_data)
       (dict_set String.eqb (er_sub_theme_code (fst entry)) entry
                 (cd_entries_by_sub_theme course_data)))
    courses_dict.

Definition base_columns : list string :=
  ["學年期"; "OPMS_COURSE_NO"; "PS_CLASS_NBR"; "課程名稱"].

Definition sdgs_number_map : list (string * string) :=
  [ ("01", "1.消除貧窮"); ("02", "2.消除飢餓"); ("03", "3.健康與福祉");
    ("04", "4.教育品質"); ("05", "5.性別平等"); ("06", "6.淨水與衛生");
    ("07", "7.可負擔能源"); ("08", "8.就業與經濟成長"); ("09", "9.工業、創新基礎建設");
    ("10", "10.減少不平等"); ("11", "11.永續城市"); ("12", "12.責任消費與生產");
    ("13", "13.氣候行動"); ("14", "14.海洋生態"); ("15", "15.陸地生態");
    ("16", "16.和平與正義制度"); ("17", "17.全球夥伴") ].

Definition week_name_map : list ((string * string) * string) :=
  [ (("A301", "1020"), "實作週次");
    (("A301", "1080"), "人文關懷週次");
    (("A301", "1120"), "媒體識讀或資訊判讀週次");
    (("A301", "1130"), "媒體識讀或資訊判讀週次");
    (("A401", "1010"), "資訊科技週次");
    (("A501", "1010"), "在地關懷週次") ].

Definition theme_order : list string := ["A101"; "A301"; "A401"; "A501"; "A601"].

(** The name of the indicator column of a sub-theme, by theme. *)
Definition column_name_of (theme_code sub_theme_code sub_theme_name : string) : string :=
  if theme_code =? "A101" then
    match dict_get String.eqb sub_theme_code sdgs_number_map with
    | Some name => name
    | None => sub_theme_name
    end
  else if theme_code =? "A401" then
    if negb (sub_theme_name =? "資訊科技") then ("UCAN" ++ sub_theme_name)%string
    else "資訊科技(UCAN)"
  else if theme_code =? "A501" then (sub_theme_name ++ "(USR)")%string
  else if theme_code =? "A601" then ("STEAM" ++ sub_theme_name)%string
  else (sub_theme_name ++ "(主題:指標主題)")%string.

(** [week_name_map.get((theme_code, sub_theme_code))], and the sub-theme name
    followed by 週次 when that is falsy. *)
Definition week_col_name_of (theme_code sub_theme_code sub_theme_name : string) : string :=
  match dict_get key_eqb (theme_code, sub_theme_code) week_name_map with
  | Some name => if name =? "" then (sub_theme_name ++ "週次")%string else name
  | None => (sub_theme_name ++ "週次")%string
  end.

(** The body of [for sub_theme in theme_setting.get('sub_themes', [])], on
    [csv_columns] and [theme_columns[theme_code]].  [week_column_map] is
    written here and read nowhere. *)
Definition add_sub_theme_columns (theme_code : string) (fill_in_week_enabled : bool)
    (acc : list string * list ColInfo) (sub_theme : SubTheme * bool)
    : list string * list ColInfo :=
  if negb (snd sub_theme) then acc else
  let sub_theme_code := st_sub_theme_code (fst sub_theme) in
  let sub_theme_name := st_sub_theme_name (fst sub_theme) in
  let column_name := column_name_of theme_code sub_theme_code sub_theme_name in
  let csv_columns := fst acc ++ [column_name] in
  let columns := snd acc ++ [indicator column_name sub_theme_code] in
  if fill_in_week_enabled then
    let week_col_name := week_col_name_of theme_code sub_theme_code sub_theme_name in
    (if negb (existsb (String.eqb week_col_name) csv_columns)
     then csv_columns ++ [week_col_name] else csv_columns,
     columns ++ [week week_col_name sub_theme_code])
  else (csv_columns, columns).

(** The body of [for theme_code in theme_order], on [csv_columns] and
    [theme_columns]. *)
Definition add_theme_columns (theme_settings : list ThemeSettingInfo)
    (acc : list string * list (string * list ColInfo)) (theme_code : string)
    : list string * list (string * list ColInfo) :=
  match find (fun ts => t_theme_code (tsi_theme ts) =? theme_code) theme_settings with
  | None => acc
  | Some theme_setting =>
      let theme_name := t_theme_name (tsi_theme theme_setting) in
      let most_relevant_code_col := (theme_name ++ "最相關子主題代碼")%string in
      let most_relevant_name_col := (theme_name ++ "最相關子主題名稱")%string in
      let start :=
        if ts_select_most_relevant_sub_theme_enabled (tsi_setting theme_setting)
        then (fst acc ++ [most_relevant_code_col; most_relevant_name_col],
              [most_relevant_code most_relevant_code_col;
               most_relevant_name most_relevant_name_col])
        else (fst acc, []) in
      let done := fold_left
                    (add_sub_theme_columns theme_code (tsi_fill_in_week_enabled theme_setting))
                    (tsi_sub_themes theme_setting) start in
      (fst done, dict_set String.eqb theme_code (snd done) (snd acc))
  end.

Definition build_columns (theme_settings : list ThemeSettingInfo)
    : list string * list (string * list ColInfo) :=
  fold_left (add_theme_columns theme_settings) theme_order (base_columns, []).

(** [','.join(str(w) for w in week_numbers)], empty when [week_numbers] is
    falsy. *)
Definition week_str (week_numbers : option (list Z)) : string :=
  match week_numbers with
  | Some (w :: ws) => String.concat "," (map str_of_Z (w :: ws))
  | _ => ""
  end.

(** What a column appends to the row of a course. *)
Definition cell (entries_by_sub_theme : list (string * EntryDict))
    (most_relevant_sub_theme : option EntryDict) (col_info : ColInfo) : string :=
  match col_info with
  | most_relevant_code _ =>
      match most_relevant_sub_theme with
      | Some entry => er_sub_theme_code (fst entry)
      | None => ""
      end
  | most_relevant_name _ =>
      match most_relevant_sub_theme with
      | Some entry => er_sub_theme_name (fst entry)
      | None => ""
      end
  | indicator _ sub_theme_code =>
      match dict_get String.eqb sub_theme_code entries_by_sub_theme with
      | Some entry => ce_indicator_value (er_entry (fst entry))
      | None => ""
      end
  | week _ sub_theme_code =>
      match dict_get String.eqb sub_theme_code entries_by_sub_theme with
      | Some entry => week_str (ce_week_numbers (er_entry (fst entry)))
      | None => ""
      end
  end.

(** The first entry of the course, in the order of the dict, that is under
    the theme and flagged most relevant. *)
Definition most_relevant_in (entries_by_sub_theme : list (string * EntryDict))
    (theme_code : string) : option EntryDict :=
  match find (fun kv => (er_theme_code (fst (snd kv)) =? theme_code)
                        && ce_is_most_relevant (er_entry (fst (snd kv))))
             entries_by_sub_theme with
  | Some kv => Some (snd kv)
  | None => None
  end.

Definition theme_cells (theme_columns : list (string * list ColInfo))
    (course_data : CourseData) (theme_code : string) : list string :=
  match dict_get String.eqb theme_code theme_columns with
  | None => []
  | Some columns =>
      let entries_by_sub_theme := cd_entries_by_sub_theme course_data in
      map (cell entries_by_sub_theme (most_relevant_in entries_by_sub_theme theme_code)) columns
  end.

Definition csv_row (year_term_str : string) (theme_columns : list (string * list ColInfo))
    (course_data : CourseData) : list string :=
  [year_term_str; cd_subj_no course_data; cd_ps_class_nbr course_data;
   cd_course_chinese_name course_data]
  ++ flat_map (theme_cells theme_columns course_data) theme_order.

(** The rows handed to [writer.writerow]: the header, then one row per key of
    [courses_dict] in sorted order. *)
Definition csv_table (theme_settings : list ThemeSettingInfo) (all_entries : list EntryDict)
    (academic_year academic_term : Z) : list string * list (list string) :=
  let courses_dict := fold_left add_entry all_entries [] in
  let columns := build_columns theme_settings in
  let year_term_str := (str_of_Z academic_year ++ str_of_Z academic_term)%string in
  (fst columns,
   map (fun course_key =>
          csv_row year_term_str (snd columns)
            match dict_get key_eqb course_key courses_dict with
            | Some course_data => course_data
            | None => default_course
            end)
       (order_by pair_leb (map fst courses_dict))).

(** U+FEFF, as the bytes of its UTF-8 encoding like every other character of
    the strings here. *)
Definition BOM : string :=
  String "239"%char (String "187"%char (String "191"%char EmptyString)).

Definition export_course_entries_to_csv (academic_year academic_term : Z) : M string :=
  theme_settings <- SchoolYearThemeSettingsDAO.get_school_year_theme_settings_by_year
                      academic_year academic_term ;;
  match theme_settings with
  | [] => raise (HTTPException HTTP_404_NOT_FOUND)
  | _ =>
    all_entries <- CourseEntriesDAO.get_all_course_entries_by_academic_year_term
                     academic_year academic_term ;;
    let table := csv_table theme_settings all_entries academic_year academic_term in
    ret (BOM ++ Csv.writerow (fst table)
             ++ String.concat "" (map Csv.writerow (snd table)))%string
  end.

End SchoolYearBusiness.

(** ** The constraints of the schema *)

Fixpoint nodupb {A} (same : A -> A -> bool) (l : list A) : bool :=
  match l with
  | [] => true
  | x :: l' => negb (existsb (same x) l') && nodupb same l'
  end.

(** [id] is the primary key of every table. *)
Definition primary_keys_ok (s : Store) : bool :=
  nodupb Nat.eqb (map t_id (coures_themes s))
  && nodupb Nat.eqb (map st_id (coures_sub_themes s))
  && nodupb Nat.eqb (map ts_id (academic_year_coures_themes_setting s))
  && nodupb Nat.eqb (map ss_id (academic_year_coures_sub_theme_settings s))
  && nodupb Nat.eqb (map ce_id (course_entries s)).

(** Modelled from the spec: the unique keys of the tables, whose definitions
    are not in the repository: [theme_code] for themes, (theme_id,
    sub_theme_code) for sub-themes, and the keys of the three year-term
    tables that the INSERT statements are checked against. *)
Definition unique_keys_ok (s : Store) : bool :=
  nodupb String.eqb (map t_theme_code (coures_themes s))
  && nodupb (fun a b => (st_coures_themes_id a =? st_coures_themes_id b)%nat
                        && (st_sub_theme_code a =? st_sub_theme_code b))
            (coures_sub_themes s)
  && nodupb ts_same_key (academic_year_coures_themes_setting s)
  && nodupb ss_same_key (academic_year_coures_sub_theme_settings s)
  && nodupb ce_same_key (course_entries s).

(** Every reference column points at a row of the table it names. *)
Definition foreign_keys_ok (s : Store) : bool :=
  forallb (fun st => existsb (fun t => (t_id t =? st_coures_themes_id st)%nat) (coures_themes s))
          (coures_sub_themes s)
  && forallb (fun r => existsb (fun t => (t_id t =? ts_coures_themes_id r)%nat) (coures_themes s))
             (academic_year_coures_themes_setting s)
  && forallb (fun r => existsb (fun st => (st_id st =? ss_coures_sub_themes_id r)%nat)
                               (coures_sub_themes s))
             (academic_year_coures_sub_theme_settings s)
  && forallb (fun r => existsb (fun st => (st_id st =? ce_coures_sub_themes_id r)%nat)
                               (coures_sub_themes s))
             (course_entries s).

(** The ids [uuid4] will hand out are not in use. *)
Definition uuids_fresh (s : Store) : bool :=
  forallb (fun i => i <? next_uuid s)%nat
    (map t_id (coures_themes s) ++ map st_id (coures_sub_themes s)
     ++ map ts_id (academic_year_coures_themes_setting s)
     ++ map ss_id (academic_year_coures_sub_theme_settings s)
     ++ map ce_id (course_entries s)).

Definition constraints_ok (s : Store) : bool :=
  primary_keys_ok s && unique_keys_ok s && foreign_keys_ok s && uuids_fresh s.

(** ** Sample data *)

Module Sample.

Definition themes : list Theme :=
  [ mkTheme 1 "A301" "通識素養"; mkTheme 2 "A401" "UCAN"; mkTheme 3 "A501" "USR" ].

Definition sub_themes : list SubTheme :=
  [ mkSubTheme 10 1 "1020" "實作";
    mkSubTheme 11 1 "1080" "人文關懷";
    mkSubTheme 20 2 "1010" "資訊科技";
    mkSubTheme 30 3 "1010" "在地關懷" ].

Definition md5 (user_id : string) : string := "md5:" ++ user_id.

Definition theme_setting (id : uuid) (y t : Z) (theme : uuid) (week : bool) (most : bool)
    : ThemeSetting :=
  mkThemeSetting id y t theme week 3 most (Some "admin") (Some "admin") 100 100.

Definition sub_setting (id : uuid) (y t : Z) (sub_theme : uuid) (enabled : bool)
    : SubThemeSetting :=
  mkSubThemeSetting id y t sub_theme enabled (Some "admin") (Some "admin") 100 100.

Definition entry (id : uuid) (subj cls : string) (y t : Z) (sub_theme : uuid) (v : string)
    (weeks : option (list Z)) (most : bool) : CourseEntry :=
  mkCourseEntry id subj cls y t sub_theme v weeks most (Some "t01") (Some "t01") 200 200.

Definition store (tss : list ThemeSetting) (sss : list SubThemeSetting)
    (ces : list CourseEntry) : Store :=
  mkStore themes sub_themes tss sss ces [mkCofsubj "C1" (Some "微積分")] 1000 500 md5.

End Sample.

(** ** The claims that fail on the code, as they are stated *)

(** C8 as stated: a field that the update request leaves out keeps its stored
    value; in particular [week_numbers]. *)
Definition omitted_week_numbers_are_retained : Prop :=
  forall (s : Store) (entry_id : uuid) (indicator_value : string)
         (is_most_relevant : option bool) (updated_by : option string) (r : CourseEntry),
    In r (course_entries s) -> ce_id r = entry_id ->
    exists r', In r' (course_entries
                        (fst (CourseEntriesDAO.update_course_entry_by_id entry_id indicator_value
                                None is_most_relevant updated_by s)))
               /\ ce_id r' = entry_id
               /\ ce_week_numbers r' = ce_week_numbers r.

(** ** Auxiliary notions for the statements *)

Definition lift_entry (g : CourseEntry -> CourseEntry) (r : EntryRow) : EntryRow :=
  (g (fst (fst r)), snd (fst r), snd r).

(** The key predicate of the entries table, as the SELECT of
    [get_course_entry_by_sub_theme_id] writes it. *)
Definition ce_has_key (subj cls : string) (y t : Z) (sid : uuid) (r : CourseEntry) : bool :=
  ce_of_course subj cls y t r && (ce_coures_sub_themes_id r =? sid)%nat.

(** A rewriting of entries that leaves the id and the key columns alone. *)
Definition keeps_entry_keys (g : CourseEntry -> CourseEntry) : Prop :=
  forall r, ce_id (g r) = ce_id r /\ ce_subj_no (g r) = ce_subj_no r
            /\ ce_ps_class_nbr (g r) = ce_ps_class_nbr r
            /\ ce_academic_year (g r) = ce_academic_year r
            /\ ce_academic_term (g r) = ce_academic_term r
            /\ ce_coures_sub_themes_id (g r) = ce_coures_sub_themes_id r.

(** The store after [uuid4] has handed out [next_uuid s]. *)
Definition after_uuid4 (s : Store) : Store := fst (uuid4 s).

(** An enabled YearTermSubThemeSetting exists for (year, term, sub_theme_code). *)
Definition enabled_setting_exists (s : Store) (y t : Z) (code : string) : Prop :=
  exists st systs,
    In st (coures_sub_themes s) /\ In systs (academic_year_coures_sub_theme_settings s)
    /\ ss_coures_sub_themes_id systs = st_id st /\ st_sub_theme_code st = code
    /\ ss_academic_year systs = y /\ ss_academic_term systs = t /\ ss_enabled systs = true.

(** Another sub-theme of the same theme already holds the most-relevant mark
    for the course and year-term of the joined entry row [e]. *)
Definition most_relevant_sibling (s : Store) (e : EntryRow) : Prop :=
  exists r, In r (CourseEntriesDAO.entries_joined s)
    /\ ce_of_course (ce_subj_no (er_entry e)) (ce_ps_class_nbr (er_entry e))
                    (ce_academic_year (er_entry e)) (ce_academic_term (er_entry e))
                    (er_entry r) = true
    /\ er_theme_code r = er_theme_code e
    /\ ce_is_most_relevant (er_entry r) = true
    /\ er_sub_theme_code r <> er_sub_theme_code e.

(** C6 as stated: the second most-relevant mark under a theme is refused with
    a Conflict-class error. *)
Definition second_most_relevant_is_conflict : Prop :=
  forall (s : Store) (entry_id : uuid) (req : CourseEntryUpdateRequest) (e : EntryRow),
    ur_token req = md5_today s (ur_user_id req) ->
    ur_is_most_relevant req = Some true ->
    CourseEntriesDAO.get_course_entry_by_id entry_id s = (s, Ok (Some e)) ->
    most_relevant_sibling s e ->
    SchoolYearBusiness.update_course_entry_by_id entry_id req s
    = (s, Raise (HTTPException HTTP_409_CONFLICT)).

(** The DAO call the batch makes for one dict of [entries_data]. *)
Definition create_from_data (entry_data : EntryData) : M (option EntryRow) :=
  CourseEntriesDAO.create_course_entry (ed_subj_no entry_data) (ed_ps_class_nbr entry_data)
    (ed_academic_year entry_data) (ed_academic_term entry_data)
    (ed_sub_theme_code entry_data) (ed_indicator_value entry_data)
    (ed_week_numbers entry_data) (ed_is_most_relevant entry_data)
    (ed_created_by entry_data).

(** The spec's reading of the batch: the entries are tried one after the
    other, each on the store its predecessors left; the rows of those that
    succeed are collected in order, the others are passed over. *)
Fixpoint batch_successes (entries_data : list EntryData) (s : Store) : Store * list EntryRow :=
  match entries_data with
  | [] => (s, [])
  | entry_data :: rest =>
      match create_from_data entry_data s with
      | (s1, Ok (Some row)) =>
          let (s2, rows) := batch_successes rest s1 in (s2, row :: rows)
      | (s1, _) => batch_successes rest s1
      end
  end.

(** C9 as stated: the batch call never reports per-item failures as an error
    and returns the list of successes, whatever it is. *)
Definition batch_returns_successes : Prop :=
  forall (s : Store) (entries_data : list CourseEntryCreateRequest) (user_id token : string),
    token = md5_today s user_id ->
    SchoolYearBusiness.create_course_entries_batch entries_data user_id token s
    = (fst (batch_successes (map (SchoolYearBusiness.with_created_by user_id) entries_data) s),
       Ok (snd (batch_successes (map (SchoolYearBusiness.with_created_by user_id) entries_data) s))).

(** The five tables of two stores hold the same rows. *)
Definition same_tables (s s' : Store) : Prop :=
  coures_themes s' = coures_themes s
  /\ coures_sub_themes s' = coures_sub_themes s
  /\ academic_year_coures_themes_setting s' = academic_year_coures_themes_setting s
  /\ academic_year_coures_sub_theme_settings s' = academic_year_coures_sub_theme_settings s
  /\ course_entries s' = course_entries s.

Definition lift_setting (g : SubThemeSetting -> SubThemeSetting)
    (r : SubThemeSetting * SubTheme * Theme) : SubThemeSetting * SubTheme * Theme :=
  (g (fst (fst r)), snd (fst r), snd r).

(** The key predicate of the sub-theme settings table. *)
Definition ss_has_key (y t : Z) (sub_theme_id : uuid) (r : SubThemeSetting) : bool :=
  ss_in_year_term y t r && (ss_coures_sub_themes_id r =? sub_theme_id)%nat.

(** The catalog sub-themes of a theme. *)
Definition sub_themes_of (s : Store) (theme : Theme) : list SubTheme :=
  filter (fun st => (st_coures_themes_id st =? t_id theme)%nat) (coures_sub_themes s).

(** A sub-theme has a setting row in the year-term. *)
Definition has_setting_row (s : Store) (y t : Z) (st : SubTheme) : bool :=
  existsb (ss_has_key y t (st_id st)) (academic_year_coures_sub_theme_settings s).

(** C1 as stated: after a successful creation of the theme setting, the
    year-term holds exactly N sub-theme-setting rows for the N sub-themes of
    the theme, all of them enabled. *)
Definition materializes_n_enabled_rows : Prop :=
  forall (s : Store) (y t : Z) (theme : Theme) (fill : bool) (scale : Z) (mr : bool)
         (created_by : option string) (s' : Store) (info : option ThemeSettingInfo),
    constraints_ok s = true -> In theme (coures_themes s) ->
    SchoolYearThemeSettingsDAO.create_school_year_theme_setting
      y t (t_theme_code theme) fill scale mr created_by s = (s', Ok info) ->
    let rows := filter (fun r => ss_in_year_term y t r
                                 && existsb (fun st => (st_id st =? ss_coures_sub_themes_id r)%nat)
                                            (sub_themes_of s theme))
                       (academic_year_coures_sub_theme_settings s') in
    length rows = length (sub_themes_of s theme) /\ forallb ss_enabled rows = true.

(** ** The copy of theme settings, in the spec's words *)

(** The configuration a theme setting carries. *)
Definition ts_config (r : ThemeSetting) : uuid * bool * Z * bool :=
  (ts_coures_themes_id r, ts_fill_in_week_enabled r, ts_scale_max r,
   ts_select_most_relevant_sub_theme_enabled r).

(** The sub-theme a setting row is for, and its flag. *)
Definition ss_flag (r : SubThemeSetting) : uuid * bool :=
  (ss_coures_sub_themes_id r, ss_enabled r).

Definition theme_settings_in (s : Store) (y t : Z) : list ThemeSetting :=
  filter (ts_in_year_term y t) (academic_year_coures_themes_setting s).

Definition sub_theme_settings_in (s : Store) (y t : Z) : list SubThemeSetting :=
  filter (ss_in_year_term y t) (academic_year_coures_sub_theme_settings s).

(** The source's enabled flag of a sub-theme, disabled when the source has no
    row for it. *)
Definition source_enabled (s : Store) (y t : Z) (sub : SubTheme) : bool :=
  match find (ss_has_key y t (st_id sub)) (academic_year_coures_sub_theme_settings s) with
  | Some r => ss_enabled r
  | None => false
  end.

(** What the copy derives from the source year-term: for each source theme
    setting, each catalog sub-theme under that theme with the source's flag. *)
Definition derived_sub_theme_flags (s : Store) (y t : Z) : list (uuid * bool) :=
  flat_map (fun ts =>
              map (fun sub => (st_id sub, source_enabled s y t sub))
                  (filter (fun sub => (st_coures_themes_id sub =? ts_coures_themes_id ts)%nat)
                          (coures_sub_themes s)))
           (theme_settings_in s y t).

(** C4 as stated: after a successful copy the settings of the target
    year-term are exactly those derived from the source. *)
Definition copy_leaves_exactly_the_source : Prop :=
  forall (s : Store) (sy st ty tt : Z) (created_by : option string)
         (s' : Store) (counts : CopyCounts),
    constraints_ok s = true ->
    SchoolYearThemeSettingsDAO.copy_school_year_theme_settings sy st ty tt created_by s
    = (s', Ok counts) ->
    Permutation (map ts_config (theme_settings_in s' ty tt))
                (map ts_config (theme_settings_in s sy st))
    /\ Permutation (map ss_flag (sub_theme_settings_in s' ty tt))
                   (derived_sub_theme_flags s sy st).

(** The settings that stay in the sub-theme table when the copy starts to
    insert: all of them when the target has no theme setting, those of the
    other year-terms when it has. *)
Definition kept_sub_settings (s : Store) (ty tt : Z) : list SubThemeSetting :=
  match theme_settings_in s ty tt with
  | [] => academic_year_coures_sub_theme_settings s
  | _ => Database.delete_where (ss_in_year_term ty tt) (academic_year_coures_sub_theme_settings s)
  end.

(** A course with an entry in 113-1 and, in the target 114-1, an entry whose
    sub-theme has lost its setting row there (sub-theme settings are deleted
    without regard to entries). *)
Definition stale_entry : CourseEntry :=
  Sample.entry 51 "C1" "0001" 114 1 11 "1" None false.

Definition stale_target_store : Store :=
  Sample.store []
    [Sample.sub_setting 40 113 1 10 true; Sample.sub_setting 41 114 1 10 true]
    [Sample.entry 50 "C1" "0001" 113 1 10 "2" (Some [1; 2]%Z) false; stale_entry].

Definition stale_copy_request : CourseEntriesCopyRequest :=
  mkCourseEntriesCopyRequest 113 1 114 1 "C1" "0001" "t01" "md5:t01".

(** ** The CSV export, as the spec words it *)

(** What the two getters of the export answer on a store. *)
Definition year_theme_settings (s : Store) (y t : Z) : list ThemeSettingInfo :=
  match SchoolYearThemeSettingsDAO.get_school_year_theme_settings_by_year y t s with
  | (_, Ok theme_settings) => theme_settings
  | (_, Raise _) => []
  end.

Definition year_entries (s : Store) (y t : Z) : list EntryDict :=
  match CourseEntriesDAO.get_all_course_entries_by_academic_year_term y t s with
  | (_, Ok all_entries) => all_entries
  | (_, Raise _) => []
  end.

(** The header row the export writes. *)
Definition csv_header (s : Store) (y t : Z) : list string :=
  fst (SchoolYearBusiness.build_columns (year_theme_settings s y t)).

(** C10 as stated, for the header: every enabled sub-theme of a theme that
    has a setting in the year-term has its column in the header row. *)
Definition header_has_every_enabled_sub_theme : Prop :=
  forall (s : Store) (y t : Z) (theme_setting : ThemeSettingInfo) (sub : SubTheme),
    constraints_ok s = true ->
    In theme_setting (year_theme_settings s y t) ->
    In (sub, true) (tsi_sub_themes theme_setting) ->
    In (SchoolYearBusiness.column_name_of (t_theme_code (tsi_theme theme_setting))
          (st_sub_theme_code sub) (st_sub_theme_name sub))
       (csv_header s y t).

(** A catalog with a theme that is not in the fixed order of the export, set
    up for 113-1 with its sub-theme enabled. *)
Definition other_theme_store : Store :=
  mkStore (Sample.themes ++ [mkTheme 4 "A201" "專業"])
          (Sample.sub_themes ++ [mkSubTheme 40 4 "2010" "專題"])
          [Sample.theme_setting 60 113 1 4 false false]
          [Sample.sub_setting 70 113 1 40 true]
          [Sample.entry 50 "C1" "0001" 113 1 40 "2" None false]
          [mkCofsubj "C1" (Some "微積分")] 1000 500 Sample.md5.

(** The key of a course: [(subj_no, ps_class_nbr)]. *)
Definition course_key (e : CourseEntry) : string * string :=
  (ce_subj_no e, ce_ps_class_nbr e).

(** The entry a course has stored for a sub-theme in the year-term. *)
Definition stored_entry (s : Store) (y t : Z) (k : string * string) (sub : SubTheme)
    : option CourseEntry :=
  find (ce_has_key (fst k) (snd k) y t (st_id sub)) (course_entries s).

(** The entry of a course that is flagged most relevant under a theme, the
    first by sub-theme code when several are. *)
Definition most_relevant_entry (s : Store) (y t : Z) (k : string * string)
    (theme_code : string) : option EntryRow :=
  find (fun r => key_eqb (course_key (er_entry r)) k
                 && (er_theme_code r =? theme_code)
                 && ce_is_most_relevant (er_entry r))
       (map fst (year_entries s y t)).

(** A column of the table: its name and the cell it holds for a course. *)
Definition Column : Type := string * (string * string -> string).

(** The columns of an enabled sub-theme: its indicator column, and a week
    column when the theme asks for weeks. *)
Definition spec_sub_theme_columns (s : Store) (y t : Z) (theme_code : string)
    (fill_in_week_enabled : bool) (sub : SubTheme) : list Column :=
  (SchoolYearBusiness.column_name_of theme_code (st_sub_theme_code sub) (st_sub_theme_name sub),
   fun k => match stored_entry s y t k sub with
            | Some e => ce_indicator_value e
            | None => ""
            end)
  :: (if fill_in_week_enabled
      then [(SchoolYearBusiness.week_col_name_of theme_code (st_sub_theme_code sub)
               (st_sub_theme_name sub),
             fun k => match stored_entry s y t k sub with
                      | Some e => SchoolYearBusiness.week_str (ce_week_numbers e)
                      | None => ""
                      end)]
      else []).

(** The columns of a theme: the two most-relevant columns when the theme asks
    for them, then the columns of its enabled sub-themes, by code. *)
Definition spec_theme_columns (s : Store) (y t : Z) (theme_code : string)
    (theme_setting : ThemeSettingInfo) : list Column :=
  (if ts_select_most_relevant_sub_theme_enabled (tsi_setting theme_setting)
   then [((t_theme_name (tsi_theme theme_setting) ++ "最相關子主題代碼")%string,
          fun k => match most_relevant_entry s y t k theme_code with
                   | Some r => er_sub_theme_code r
                   | None => ""
                   end);
         ((t_theme_name (tsi_theme theme_setting) ++ "最相關子主題名稱")%string,
          fun k => match most_relevant_entry s y t k theme_code with
                   | Some r => er_sub_theme_name r
                   | None => ""
                   end)]
   else [])
  ++ flat_map (spec_sub_theme_columns s y t theme_code
                 (tsi_fill_in_week_enabled theme_setting))
              (map fst (filter snd (tsi_sub_themes theme_setting))).

(** The columns after the four base columns: those of the themes that have a
    setting in the year-term, in the fixed order. *)
Definition spec_columns (s : Store) (y t : Z) : list Column :=
  flat_map (fun theme_code =>
              match find (fun ts => t_theme_code (tsi_theme ts) =? theme_code)
                         (year_theme_settings s y t) with
              | Some theme_setting => spec_theme_columns s y t theme_code theme_setting
              | None => []
              end)
           SchoolYearBusiness.theme_order.

Definition spec_header (s : Store) (y t : Z) : list string :=
  SchoolYearBusiness.base_columns ++ map fst (spec_columns s y t).

Definition spec_row (s : Store) (y t : Z) (course_name : string) (k : string * string)
    : list string :=
  [(str_of_Z y ++ str_of_Z t)%string; fst k; snd k; course_name]
  ++ map (fun c : Column => snd c k) (spec_columns s y t).

(** A line of the file: the fields, quoted where they must be, between
    commas, and a line feed. *)
Definition csv_line (row : list string) : string :=
  (String.concat "," (map Csv.field row) ++ String Csv.LF EmptyString)%string.

(** The sub-themes that have columns in the table. *)
Definition displayed_sub_themes (s : Store) (y t : Z) : list SubTheme :=
  flat_map (fun theme_code =>
              match find (fun ts => t_theme_code (tsi_theme ts) =? theme_code)
                         (year_theme_settings s y t) with
              | Some theme_setting => map fst (filter snd (tsi_sub_themes theme_setting))
              | None => []
              end)
           SchoolYearBusiness.theme_order.

(** No entry of the year-term is filed under a sub-theme whose code is also
    the code of another sub-theme that has columns in the table or entries
    in the year-term. *)
Definition entry_codes_unambiguous (s : Store) (y t : Z) : bool :=
  forallb (fun r : EntryDict =>
             forallb (fun st => implb (st_sub_theme_code st =? er_sub_theme_code (fst r))
                                      (st_id st =? ce_coures_sub_themes_id (er_entry (fst r)))%nat)
                     (displayed_sub_themes s y t
                      ++ map (fun r' : EntryDict => snd (fst (fst r'))) (year_entries s y t)))
          (year_entries s y t).

(** No two columns of the table bear the same name. *)
Definition column_names_distinct (s : Store) (y t : Z) : bool :=
  nodupb String.eqb (spec_header s y t).
(** The entries of a course among the entries of the year-term, and what
    [courses_dict] holds for the course after the loop over them. *)
Definition in_course (k : string * string) (e : EntryDict) : bool :=
  key_eqb (course_key (er_entry (fst e))) k.

Definition entries_dict (entries : list EntryDict) : list (string * EntryDict) :=
  fold_left (fun d e => dict_set String.eqb (er_sub_theme_code (fst e)) e d) entries [].

Definition last_name (entries : list EntryDict) : string :=
  fold_left (fun name (e : EntryDict) => if negb (snd e =? "") then snd e else name) entries "".

Definition course_data_of (k : string * string) (entries : list EntryDict) : CourseData :=
  mkCourseData (fst k) (snd k) (last_name (filter (in_course k) entries))
               (entries_dict (filter (in_course k) entries)).
(** The [column_info] dicts of a sub-theme and of a theme, and what
    [theme_columns] holds after the loop over the theme codes. *)
Definition col_name (c : ColInfo) : string :=
  match c with
  | most_relevant_code name | most_relevant_name name | indicator name _ | week name _ => name
  end.

Definition sub_theme_infos (theme_code : string) (fill_in_week_enabled : bool) (sub : SubTheme)
    : list ColInfo :=
  indicator (SchoolYearBusiness.column_name_of theme_code (st_sub_theme_code sub)
               (st_sub_theme_name sub))
            (st_sub_theme_code sub)
  :: (if fill_in_week_enabled
      then [week (SchoolYearBusiness.week_col_name_of theme_code (st_sub_theme_code sub)
                    (st_sub_theme_name sub))
                 (st_sub_theme_code sub)]
      else []).

Definition theme_infos (theme_code : string) (theme_setting : ThemeSettingInfo) : list ColInfo :=
  (if ts_select_most_relevant_sub_theme_enabled (tsi_setting theme_setting)
   then [most_relevant_code (t_theme_name (tsi_theme theme_setting) ++ "最相關子主題代碼")%string;
         most_relevant_name (t_theme_name (tsi_theme theme_setting) ++ "最相關子主題名稱")%string]
   else [])
  ++ flat_map (sub_theme_infos theme_code (tsi_fill_in_week_enabled theme_setting))
              (map fst (filter snd (tsi_sub_themes theme_setting))).

Definition displayed_infos (theme_settings : list ThemeSettingInfo) (codes : list string)
    : list (string * list ColInfo) :=
  flat_map (fun theme_code =>
              match find (fun ts => t_theme_code (tsi_theme ts) =? theme_code) theme_settings with
              | Some theme_setting => [(theme_code, theme_infos theme_code theme_setting)]
              | None => []
              end)
           codes.
(** A year-term to export: two themes set up for 113-1, the first asking for
    weeks and for the most relevant sub-theme, and two courses with entries. *)
Definition export_store : Store :=
  Sample.store
    [Sample.theme_setting 60 113 1 1 true true; Sample.theme_setting 61 113 1 2 false false]
    [Sample.sub_setting 40 113 1 10 true; Sample.sub_setting 41 113 1 11 false;
     Sample.sub_setting 42 113 1 20 true]
    [Sample.entry 50 "C1" "0001" 113 1 10 "2" (Some [1; 2]%Z) true;
     Sample.entry 51 "C1" "0001" 113 1 20 "3" None false;
     Sample.entry 52 "B1" "0002" 113 1 20 "1" None false].

(** * Properties *)

(** ** Running a computation *)

Ltac run :=
  cbv beta iota delta [bind ret raise query execute try_except datetime_now uuid4].

Lemma nth_error_update_where {A} (p : A -> bool) (set : A -> A) (rows : list A) n :
  nth_error (Database.update_where p set rows) n =
  option_map (fun r => if p r then set r else r) (nth_error rows n).
Proof.
  unfold Database.update_where. apply nth_error_map.
Qed.

(** ** Partial update of an entry *)

(** The store [update_course_entry_by_id] leaves behind. *)
Lemma update_course_entry_by_id_store s entry_id v w m u :
  fst (CourseEntriesDAO.update_course_entry_by_id entry_id v w m u s) =
  with_course_entries
    (Database.update_where (fun r => (ce_id r =? entry_id)%nat)
                           (CourseEntriesDAO.set_entry v w m u (clock s))) s.
Proof. reflexivity. Qed.

(** C8, counterexample: an entry stored with weeks [1; 2] loses them when the
    update request leaves [week_numbers] out. *)
Lemma week_numbers_not_retained : ~ omitted_week_numbers_are_retained.
Proof.
  intro H.
  pose (e := Sample.entry 50 "C1" "0001" 113 1 10 "2" (Some [1; 2]%Z) false).
  destruct (H (Sample.store [] [] [e]) 50 "3" None None e) as [r' [Hin [_ Hw]]].
  - simpl. auto.
  - reflexivity.
  - simpl in Hin. destruct Hin as [<- | []]. discriminate Hw.
Qed.

(** C8, amended: [update_course_entry_by_id] touches only the course_entries
    rows with the given id.  In such a row [indicator_value] and
    [week_numbers] are always overwritten (an omitted or empty
    [week_numbers] stores NULL), [is_most_relevant] and [updated_by] keep
    their stored value when the request omits them, [updated_at] is set to
    the current time, and the id, the natural key and the creation audit
    columns stay. *)
Theorem update_course_entry_by_id_partial :
  forall s entry_id v w m u n r,
    nth_error (course_entries s) n = Some r ->
    let s' := fst (CourseEntriesDAO.update_course_entry_by_id entry_id v w m u s) in
    coures_themes s' = coures_themes s
    /\ coures_sub_themes s' = coures_sub_themes s
    /\ academic_year_coures_themes_setting s' = academic_year_coures_themes_setting s
    /\ academic_year_coures_sub_theme_settings s' = academic_year_coures_sub_theme_settings s
    /\ length (course_entries s') = length (course_entries s)
    /\ exists r', nth_error (course_entries s') n = Some r'
         /\ (ce_id r <> entry_id -> r' = r)
         /\ (ce_id r = entry_id ->
               ce_indicator_value r' = v
               /\ ce_week_numbers r' = (if truthy_list w then w else None)
               /\ ce_is_most_relevant r'
                  = match m with Some b => b | None => ce_is_most_relevant r end
               /\ ce_updated_by r'
                  = match u with Some x => Some x | None => ce_updated_by r end
               /\ ce_updated_at r' = clock s
               /\ ce_id r' = ce_id r
               /\ ce_subj_no r' = ce_subj_no r
               /\ ce_ps_class_nbr r' = ce_ps_class_nbr r
               /\ ce_academic_year r' = ce_academic_year r
               /\ ce_academic_term r' = ce_academic_term r
               /\ ce_coures_sub_themes_id r' = ce_coures_sub_themes_id r
               /\ ce_created_by r' = ce_created_by r
               /\ ce_created_at r' = ce_created_at r).
Proof.
  intros s entry_id v w m u n r Hn s'.
  subst s'. rewrite update_course_entry_by_id_store. simpl.
  repeat split; try reflexivity.
  - unfold Database.update_where. apply length_map.
  - rewrite nth_error_update_where, Hn. simpl.
    destruct (Nat.eqb_spec (ce_id r) entry_id) as [E | E].
    + eexists. split; [reflexivity |]. split; [intro E'; contradiction |].
      intros _. simpl. unfold week_numbers_json. repeat split; reflexivity.
    + eexists. split; [reflexivity |]. split; [reflexivity |].
      intro E'. contradiction.
Qed.

Lemma update_course_entry_by_id_partial_witness :
  nth_error (course_entries
     (Sample.store [] [] [Sample.entry 50 "C1" "0001" 113 1 10 "2" (Some [1; 2]%Z) true])) 0
  = Some (Sample.entry 50 "C1" "0001" 113 1 10 "2" (Some [1; 2]%Z) true)
  /\ exists r',
       nth_error (course_entries (fst (CourseEntriesDAO.update_course_entry_by_id
          50 "3" None None None
          (Sample.store [] [] [Sample.entry 50 "C1" "0001" 113 1 10 "2" (Some [1; 2]%Z) true])))) 0
       = Some r'
       /\ ce_indicator_value r' = "3" /\ ce_week_numbers r' = None
       /\ ce_is_most_relevant r' = true.
Proof.
  split; [reflexivity |].
  destruct (update_course_entry_by_id_partial
              (Sample.store [] [] [Sample.entry 50 "C1" "0001" 113 1 10 "2" (Some [1; 2]%Z) true])
              50 "3" None None None 0
              (Sample.entry 50 "C1" "0001" 113 1 10 "2" (Some [1; 2]%Z) true) eq_refl)
    as (_ & _ & _ & _ & _ & r' & Hr' & _ & Hset).
  exists r'. split; [exact Hr' |].
  destruct (Hset eq_refl) as (Hv & Hw & Hm & _).
  repeat split; assumption.
Defined.

(** ** Lists, joins and the first row of a query *)

Lemma in_inner_join {A B} (on : A -> B -> bool) l r a b :
  In (a, b) (inner_join on l r) <-> In a l /\ In b r /\ on a b = true.
Proof.
  unfold inner_join. rewrite in_flat_map. split.
  - intros [a' [Ha Hin]]. apply in_map_iff in Hin as [b' [E Hb]].
    inversion E; subst. apply filter_In in Hb as [Hb Hon]. auto.
  - intros (Ha & Hb & Hon). exists a. split; [assumption |].
    apply in_map_iff. exists b. split; [reflexivity |].
    apply filter_In. auto.
Qed.

Lemma inner_join_app_l {A B} (on : A -> B -> bool) l1 l2 r :
  inner_join on (l1 ++ l2) r = inner_join on l1 r ++ inner_join on l2 r.
Proof. unfold inner_join. apply flat_map_app. Qed.

(** Rewriting the left rows of a join in a way the join condition does not see. *)
Lemma inner_join_map_l {A B} (on : A -> B -> bool) (f : A -> A) l r :
  (forall a b, on (f a) b = on a b) ->
  inner_join on (map f l) r = map (fun p => (f (fst p), snd p)) (inner_join on l r).
Proof.
  intros Hon. unfold inner_join. induction l as [| a l IH]; simpl; [reflexivity |].
  rewrite map_app, IH. f_equal.
  rewrite map_map. simpl.
  rewrite (filter_ext (on (f a)) (on a)) by (intro b; apply Hon).
  reflexivity.
Qed.

Lemma fetchrow_filter_Some {A} (p : A -> bool) l x :
  fetchrow (filter p l) = Some x -> In x l /\ p x = true.
Proof.
  unfold fetchrow. intros H.
  assert (Hin : In x (filter p l)).
  { destruct (filter p l); simpl in H; [discriminate | inversion H; subst; simpl; auto]. }
  apply filter_In in Hin. exact Hin.
Qed.

Lemma fetchrow_filter_None {A} (p : A -> bool) l :
  fetchrow (filter p l) = None -> forall x, In x l -> p x = false.
Proof.
  unfold fetchrow. intros H x Hx.
  destruct (p x) eqn:E; [| reflexivity].
  assert (Hin : In x (filter p l)) by (apply filter_In; auto).
  destruct (filter p l); simpl in *; [contradiction | discriminate].
Qed.

Lemma fetchrow_filter_exists {A} (p : A -> bool) l x :
  In x l -> p x = true -> exists y, fetchrow (filter p l) = Some y.
Proof.
  intros Hx Hp.
  destruct (fetchrow (filter p l)) eqn:E; [eauto |].
  rewrite (fetchrow_filter_None p l E x Hx) in Hp. discriminate.
Qed.

Lemma existsb_false_forall {A} (p : A -> bool) l :
  existsb p l = false <-> forall x, In x l -> p x = false.
Proof.
  split.
  - intros H x Hx. destruct (p x) eqn:E; [| reflexivity].
    assert (existsb p l = true) by (apply existsb_exists; eauto). congruence.
  - intros H. destruct (existsb p l) eqn:E; [| reflexivity].
    apply existsb_exists in E as [x [Hx Hp]]. rewrite (H x Hx) in Hp. discriminate.
Qed.

Lemma nodupb_app_one {A} (same : A -> A -> bool) l x :
  nodupb same (l ++ [x]) = nodupb same l && negb (existsb (fun y => same y x) l).
Proof.
  induction l as [| a l IH]; simpl; [reflexivity |].
  rewrite IH, existsb_app. simpl. rewrite orb_false_r.
  destruct (existsb (same a) l), (same a x), (nodupb same l),
           (existsb (fun y => same y x) l); reflexivity.
Qed.

Lemma existsb_map {A B} (p : B -> bool) (f : A -> B) l :
  existsb p (map f l) = existsb (fun a => p (f a)) l.
Proof.
  induction l as [| a l IH]; simpl; [reflexivity |]. rewrite IH. reflexivity.
Qed.

Lemma existsb_ext {A} (p q : A -> bool) l :
  (forall a, p a = q a) -> existsb p l = existsb q l.
Proof.
  intros H. induction l as [| a l IH]; simpl; [reflexivity |]. rewrite H, IH. reflexivity.
Qed.

Lemma nodupb_map {A} (same : A -> A -> bool) (f : A -> A) l :
  (forall a b, same (f a) (f b) = same a b) ->
  nodupb same (map f l) = nodupb same l.
Proof.
  intros Hs. induction l as [| a l IH]; simpl; [reflexivity |].
  rewrite IH, existsb_map.
  rewrite (existsb_ext (fun b => same (f a) (f b)) (same a)) by (intro b; apply Hs).
  reflexivity.
Qed.

Lemma filter_map_comm {A} (p : A -> bool) (f : A -> A) l :
  (forall a, p (f a) = p a) -> filter p (map f l) = map f (filter p l).
Proof.
  intros H. induction l as [| a l IH]; simpl; [reflexivity |].
  rewrite H, IH. destruct (p a); reflexivity.
Qed.

Lemma fetchrow_map {A B} (f : A -> B) l : fetchrow (map f l) = option_map f (fetchrow l).
Proof. destruct l; reflexivity. Qed.

(** In a table without duplicates for [same], the rows selected by a
    predicate [K] that any two rows can satisfy only when they are the same
    are at most one. *)
Lemma nodupb_filter_unique {A} (same : A -> A -> bool) (K : A -> bool) l x :
  (forall a b, K a = true -> K b = true -> same a b = true) ->
  nodupb same l = true -> In x l -> K x = true ->
  filter K l = [x].
Proof.
  intros HK. induction l as [| a l IH]; simpl; intros Hnd Hin Hx; [contradiction |].
  apply andb_true_iff in Hnd as [Hna Hnd].
  apply negb_true_iff in Hna.
  assert (Hnone : K a = true -> forall z, In z l -> K z = false).
  { intros Ka z Hz. destruct (K z) eqn:Kz; [| reflexivity].
    rewrite existsb_false_forall in Hna. specialize (Hna z Hz).
    rewrite (HK a z Ka Kz) in Hna. discriminate. }
  destruct (K a) eqn:Ka.
  - destruct Hin as [-> | Hin].
    + f_equal. specialize (Hnone eq_refl).
      clear - Hnone. induction l as [| b l IHl]; simpl; [reflexivity |].
      rewrite (Hnone b) by (simpl; auto). apply IHl. intros z Hz. apply Hnone. simpl; auto.
    + rewrite (Hnone eq_refl x Hin) in Hx. discriminate.
  - destruct Hin as [-> | Hin]; [congruence |]. apply IH; assumption.
Qed.

Lemma nodupb_eqb_NoDup (l : list nat) : nodupb Nat.eqb l = true -> NoDup l.
Proof.
  induction l as [| a l IH]; simpl; intros H; [constructor |].
  apply andb_true_iff in H as [Ha Hl]. apply negb_true_iff in Ha.
  constructor; [| auto].
  intro Hin. rewrite existsb_false_forall in Ha. specialize (Ha a Hin).
  rewrite Nat.eqb_refl in Ha. discriminate.
Qed.

(** Rows of a table are told apart by a duplicate-free key. *)
Lemma NoDup_map_inj {A} (key : A -> nat) l x y :
  NoDup (map key l) -> In x l -> In y l -> key x = key y -> x = y.
Proof.
  induction l as [| a l IH]; simpl; intros Hnd Hx Hy E; [contradiction |].
  inversion Hnd as [| ? ? Hnotin Hnd']; subst.
  destruct Hx as [-> | Hx], Hy as [-> | Hy]; auto.
  - exfalso. apply Hnotin. rewrite E. apply in_map. assumption.
  - exfalso. apply Hnotin. rewrite <- E. apply in_map. assumption.
Qed.

(** ** What the constraints say *)

Section Constraints.

Variable s : Store.
Hypothesis Hok : constraints_ok s = true.

Lemma constraints_parts :
  primary_keys_ok s = true /\ unique_keys_ok s = true
  /\ foreign_keys_ok s = true /\ uuids_fresh s = true.
Proof.
  pose proof Hok as H. unfold constraints_ok in H.
  apply andb_true_iff in H as [H H4]. apply andb_true_iff in H as [H H3].
  apply andb_true_iff in H as [H1 H2]. auto.
Qed.

Lemma pk_course_entries : NoDup (map ce_id (course_entries s)).
Proof.
  destruct constraints_parts as (H & _). unfold primary_keys_ok in H.
  repeat (apply andb_true_iff in H as [H ?]). apply nodupb_eqb_NoDup. assumption.
Qed.

Lemma pk_sub_theme_settings : NoDup (map ss_id (academic_year_coures_sub_theme_settings s)).
Proof.
  destruct constraints_parts as (H & _). unfold primary_keys_ok in H.
  repeat (apply andb_true_iff in H as [H ?]). apply nodupb_eqb_NoDup. assumption.
Qed.

Lemma pk_themes_setting : NoDup (map ts_id (academic_year_coures_themes_setting s)).
Proof.
  destruct constraints_parts as (H & _). unfold primary_keys_ok in H.
  repeat (apply andb_true_iff in H as [H ?]). apply nodupb_eqb_NoDup. assumption.
Qed.

Lemma pk_sub_themes : NoDup (map st_id (coures_sub_themes s)).
Proof.
  destruct constraints_parts as (H & _). unfold primary_keys_ok in H.
  repeat (apply andb_true_iff in H as [H ?]). apply nodupb_eqb_NoDup. assumption.
Qed.

Lemma pk_themes : NoDup (map t_id (coures_themes s)).
Proof.
  destruct constraints_parts as (H & _). unfold primary_keys_ok in H.
  repeat (apply andb_true_iff in H as [H ?]). apply nodupb_eqb_NoDup. assumption.
Qed.

Lemma uk_course_entries : nodupb ce_same_key (course_entries s) = true.
Proof.
  destruct constraints_parts as (_ & H & _). unfold unique_keys_ok in H.
  repeat (apply andb_true_iff in H as [H ?]). assumption.
Qed.

Lemma uk_sub_theme_settings :
  nodupb ss_same_key (academic_year_coures_sub_theme_settings s) = true.
Proof.
  destruct constraints_parts as (_ & H & _). unfold unique_keys_ok in H.
  repeat (apply andb_true_iff in H as [H ?]). assumption.
Qed.

Lemma uk_themes_setting :
  nodupb ts_same_key (academic_year_coures_themes_setting s) = true.
Proof.
  destruct constraints_parts as (_ & H & _). unfold unique_keys_ok in H.
  repeat (apply andb_true_iff in H as [H ?]). assumption.
Qed.

Lemma uk_theme_code : nodupb String.eqb (map t_theme_code (coures_themes s)) = true.
Proof.
  destruct constraints_parts as (_ & H & _). unfold unique_keys_ok in H.
  repeat (apply andb_true_iff in H as [H ?]). assumption.
Qed.

Lemma fk_sub_theme st :
  In st (coures_sub_themes s) ->
  exists t, In t (coures_themes s) /\ t_id t = st_coures_themes_id st.
Proof.
  intros Hin. destruct constraints_parts as (_ & _ & H & _). unfold foreign_keys_ok in H.
  repeat (apply andb_true_iff in H as [H ?]).
  rewrite forallb_forall in H. specialize (H st Hin).
  apply existsb_exists in H as [t [Ht E]]. apply Nat.eqb_eq in E. eauto.
Qed.

Lemma fk_themes_setting r :
  In r (academic_year_coures_themes_setting s) ->
  exists t, In t (coures_themes s) /\ t_id t = ts_coures_themes_id r.
Proof.
  intros Hin. destruct constraints_parts as (_ & _ & H & _). unfold foreign_keys_ok in H.
  repeat (apply andb_true_iff in H as [H ?]).
  match goal with H : forallb _ (academic_year_coures_themes_setting s) = true |- _ =>
    rewrite forallb_forall in H; specialize (H r Hin);
    apply existsb_exists in H as [t [Ht E]]; apply Nat.eqb_eq in E; eauto end.
Qed.

Lemma fk_sub_theme_settings r :
  In r (academic_year_coures_sub_theme_settings s) ->
  exists st, In st (coures_sub_themes s) /\ st_id st = ss_coures_sub_themes_id r.
Proof.
  intros Hin. destruct constraints_parts as (_ & _ & H & _). unfold foreign_keys_ok in H.
  repeat (apply andb_true_iff in H as [H ?]).
  match goal with H : forallb _ (academic_year_coures_sub_theme_settings s) = true |- _ =>
    rewrite forallb_forall in H; specialize (H r Hin);
    apply existsb_exists in H as [t [Ht E]]; apply Nat.eqb_eq in E; eauto end.
Qed.

Lemma fk_course_entries r :
  In r (course_entries s) ->
  exists st, In st (coures_sub_themes s) /\ st_id st = ce_coures_sub_themes_id r.
Proof.
  intros Hin. destruct constraints_parts as (_ & _ & H & _). unfold foreign_keys_ok in H.
  repeat (apply andb_true_iff in H as [H ?]).
  match goal with H : forallb _ (course_entries s) = true |- _ =>
    rewrite forallb_forall in H; specialize (H r Hin);
    apply existsb_exists in H as [t [Ht E]]; apply Nat.eqb_eq in E; eauto end.
Qed.

Lemma fresh_ids :
  (forall r, In r (academic_year_coures_themes_setting s) -> ts_id r < next_uuid s)
  /\ (forall r, In r (academic_year_coures_sub_theme_settings s) -> ss_id r < next_uuid s)
  /\ (forall r, In r (course_entries s) -> ce_id r < next_uuid s).
Proof.
  destruct constraints_parts as (_ & _ & _ & H). unfold uuids_fresh in H.
  rewrite forallb_forall in H.
  repeat split; intros r Hr; apply Nat.ltb_lt; apply H;
    repeat (apply in_or_app; first [ left; apply in_map; exact Hr | right ]);
    apply in_map; exact Hr.
Qed.

(** Under the foreign keys, the three-way join loses no entry. *)
Lemma entry_is_joined ce :
  In ce (course_entries s) ->
  exists st t, In (ce, st, t) (CourseEntriesDAO.entries_joined s).
Proof.
  intros Hce.
  destruct (fk_course_entries ce Hce) as [st [Hst Est]].
  destruct (fk_sub_theme st Hst) as [t [Ht Et]].
  exists st, t. unfold CourseEntriesDAO.entries_joined.
  apply in_inner_join. split; [| split; [assumption |]].
  - apply in_inner_join. split; [assumption | split; [assumption |]].
    apply Nat.eqb_eq. auto.
  - simpl. apply Nat.eqb_eq. auto.
Qed.

Lemma setting_is_joined r :
  In r (academic_year_coures_sub_theme_settings s) ->
  exists st t, In (r, st, t) (SchoolYearSubThemeSettingsDAO.settings_joined s).
Proof.
  intros Hr.
  destruct (fk_sub_theme_settings r Hr) as [st [Hst Est]].
  destruct (fk_sub_theme st Hst) as [t [Ht Et]].
  exists st, t. unfold SchoolYearSubThemeSettingsDAO.settings_joined.
  apply in_inner_join. split; [| split; [assumption |]].
  - apply in_inner_join. split; [assumption | split; [assumption |]].
    apply Nat.eqb_eq. auto.
  - simpl. apply Nat.eqb_eq. auto.
Qed.

End Constraints.

Lemma in_entries_joined s ce st t :
  In (ce, st, t) (CourseEntriesDAO.entries_joined s) ->
  In ce (course_entries s) /\ In st (coures_sub_themes s) /\ In t (coures_themes s)
  /\ ce_coures_sub_themes_id ce = st_id st /\ st_coures_themes_id st = t_id t.
Proof.
  unfold CourseEntriesDAO.entries_joined. intros H.
  apply in_inner_join in H as (H1 & Ht & E2). simpl in E2.
  apply in_inner_join in H1 as (Hce & Hst & E1).
  apply Nat.eqb_eq in E1, E2. auto.
Qed.

(** ** Course entries under updates and inserts *)

Lemma entries_joined_map s g :
  (forall r, ce_coures_sub_themes_id (g r) = ce_coures_sub_themes_id r) ->
  CourseEntriesDAO.entries_joined (with_course_entries (map g) s)
  = map (lift_entry g) (CourseEntriesDAO.entries_joined s).
Proof.
  intros Hg. unfold CourseEntriesDAO.entries_joined. simpl.
  rewrite inner_join_map_l by (intros a b; rewrite Hg; reflexivity).
  rewrite (inner_join_map_l _ (fun p : CourseEntry * SubTheme => (g (fst p), snd p)))
    by (intros a b; reflexivity).
  apply map_ext. intros [[ce st] t]. reflexivity.
Qed.

Lemma set_entry_sub_theme v w m u now r :
  ce_coures_sub_themes_id (CourseEntriesDAO.set_entry v w m u now r) = ce_coures_sub_themes_id r.
Proof. reflexivity. Qed.

Lemma entries_joined_app s s' e :
  coures_themes s' = coures_themes s ->
  coures_sub_themes s' = coures_sub_themes s ->
  course_entries s' = course_entries s ++ [e] ->
  CourseEntriesDAO.entries_joined s'
  = CourseEntriesDAO.entries_joined s
    ++ inner_join (fun (r : CourseEntry * SubTheme) t => (st_coures_themes_id (snd r) =? t_id t)%nat)
         (inner_join (fun ce st => (ce_coures_sub_themes_id ce =? st_id st)%nat)
                     [e] (coures_sub_themes s))
         (coures_themes s).
Proof.
  intros Ht Hst Hce. unfold CourseEntriesDAO.entries_joined.
  rewrite Ht, Hst, Hce, !inner_join_app_l. reflexivity.
Qed.

Lemma ce_has_key_same subj cls y t sid a b :
  ce_has_key subj cls y t sid a = true -> ce_has_key subj cls y t sid b = true ->
  ce_same_key a b = true.
Proof.
  unfold ce_has_key, ce_same_key, ce_of_course. intros Ha Hb.
  repeat (apply andb_true_iff in Ha as [Ha ?]).
  repeat (apply andb_true_iff in Hb as [Hb ?]).
  repeat match goal with
         | H : (_ =? _)%string = true |- _ => apply String.eqb_eq in H
         | H : (_ =? _)%Z = true |- _ => apply Z.eqb_eq in H
         | H : (_ =? _)%nat = true |- _ => apply Nat.eqb_eq in H
         end.
  repeat (apply andb_true_iff; split);
    first [ apply String.eqb_eq | apply Z.eqb_eq | apply Nat.eqb_eq ]; congruence.
Qed.

Lemma ce_same_key_has_key a b :
  ce_same_key a b
  = ce_has_key (ce_subj_no b) (ce_ps_class_nbr b) (ce_academic_year b) (ce_academic_term b)
               (ce_coures_sub_themes_id b) a.
Proof. reflexivity. Qed.

Lemma keeps_same_key g a b : keeps_entry_keys g -> ce_same_key (g a) (g b) = ce_same_key a b.
Proof.
  intros Hg. unfold ce_same_key, ce_of_course.
  destruct (Hg a) as (_ & -> & -> & -> & -> & ->).
  destruct (Hg b) as (_ & -> & -> & -> & -> & ->). reflexivity.
Qed.

Lemma keeps_has_key g subj cls y t sid a :
  keeps_entry_keys g -> ce_has_key subj cls y t sid (g a) = ce_has_key subj cls y t sid a.
Proof.
  intros Hg. unfold ce_has_key, ce_of_course.
  destruct (Hg a) as (_ & -> & -> & -> & -> & ->). reflexivity.
Qed.

Lemma forallb_map {A B} (p : B -> bool) (f : A -> B) l :
  forallb p (map f l) = forallb (fun a => p (f a)) l.
Proof.
  induction l as [| a l IH]; simpl; [reflexivity |]. rewrite IH. reflexivity.
Qed.

Lemma forallb_ext {A} (p q : A -> bool) l :
  (forall a, p a = q a) -> forallb p l = forallb q l.
Proof.
  intros H. induction l as [| a l IH]; simpl; [reflexivity |]. rewrite H, IH. reflexivity.
Qed.

Lemma constraints_update_entries s g :
  keeps_entry_keys g ->
  constraints_ok (with_course_entries (map g) s) = constraints_ok s.
Proof.
  intros Hg.
  assert (Hid : map ce_id (map g (course_entries s)) = map ce_id (course_entries s)).
  { rewrite map_map. apply map_ext. intro r. apply Hg. }
  unfold constraints_ok, primary_keys_ok, unique_keys_ok, foreign_keys_ok, uuids_fresh.
  simpl. rewrite Hid.
  rewrite (nodupb_map ce_same_key g) by (intros; apply keeps_same_key; assumption).
  rewrite (forallb_map _ g).
  rewrite (forallb_ext (fun a => existsb (fun st => (st_id st =? ce_coures_sub_themes_id (g a))%nat)
                                         (coures_sub_themes s))
                       (fun a => existsb (fun st => (st_id st =? ce_coures_sub_themes_id a)%nat)
                                         (coures_sub_themes s))).
  - reflexivity.
  - intro a. destruct (Hg a) as (_ & _ & _ & _ & _ & ->). reflexivity.
Qed.

Lemma update_where_as_map {A} (p : A -> bool) (set : A -> A) :
  Database.update_where p set = map (fun r => if p r then set r else r).
Proof. reflexivity. Qed.

Lemma set_entry_keeps_keys (p : CourseEntry -> bool) v w m u now :
  keeps_entry_keys (fun r => if p r then CourseEntriesDAO.set_entry v w m u now r else r).
Proof.
  intro r. destruct (p r); simpl; repeat split; reflexivity.
Qed.

Lemma constraints_insert_entry s e :
  constraints_ok s = true ->
  ce_id e = next_uuid s ->
  existsb (fun r => ce_same_key r e) (course_entries s) = false ->
  (exists st, In st (coures_sub_themes s) /\ st_id st = ce_coures_sub_themes_id e) ->
  constraints_ok (with_course_entries (fun rows => rows ++ [e]) (after_uuid4 s)) = true.
Proof.
  intros Hok Hid Hkey [st [Hst Est]].
  destruct (constraints_parts s Hok) as (Hpk & Huk & Hfk & Hfr).
  destruct (fresh_ids s Hok) as (F1 & F2 & F3).
  unfold constraints_ok.
  apply andb_true_iff; split; [apply andb_true_iff; split; [apply andb_true_iff; split |] |].
  - unfold primary_keys_ok in *. simpl.
    repeat (apply andb_true_iff in Hpk as [Hpk ?]).
    repeat (apply andb_true_iff; split); try assumption.
    rewrite map_app. simpl. rewrite nodupb_app_one.
    apply andb_true_iff; split; [assumption |].
    apply negb_true_iff. apply existsb_false_forall.
    intros i Hi. apply in_map_iff in Hi as [r [<- Hr]].
    apply Nat.eqb_neq. specialize (F3 r Hr). lia.
  - unfold unique_keys_ok in *. simpl.
    repeat (apply andb_true_iff in Huk as [Huk ?]).
    repeat (apply andb_true_iff; split); try assumption.
    rewrite nodupb_app_one. apply andb_true_iff; split; [assumption |].
    rewrite Hkey. reflexivity.
  - unfold foreign_keys_ok in *. simpl.
    repeat (apply andb_true_iff in Hfk as [Hfk ?]).
    repeat (apply andb_true_iff; split); try assumption.
    rewrite forallb_app. apply andb_true_iff; split; [assumption |].
    simpl. rewrite andb_true_r. apply existsb_exists. exists st.
    split; [assumption |]. apply Nat.eqb_eq. assumption.
  - unfold uuids_fresh in *. simpl.
    rewrite forallb_forall in Hfr. apply forallb_forall. intros i Hi.
    apply Nat.ltb_lt.
    rewrite map_app in Hi. rewrite !app_assoc in Hi.
    apply in_app_or in Hi as [Hi | Hi].
    + assert (i < next_uuid s); [| lia].
      apply Nat.ltb_lt. apply Hfr. rewrite !app_assoc. exact Hi.
    + simpl in Hi. destruct Hi as [<- | []]. lia.
Qed.

Lemma in_sub_themes_set_in s y t code st systs :
  In (st, systs) (CourseEntriesDAO.sub_themes_set_in y t code s) <->
  In st (coures_sub_themes s) /\ In systs (academic_year_coures_sub_theme_settings s)
  /\ st_id st = ss_coures_sub_themes_id systs
  /\ ss_academic_year systs = y /\ ss_academic_term systs = t
  /\ st_sub_theme_code st = code.
Proof.
  unfold CourseEntriesDAO.sub_themes_set_in, select_where, ss_in_year_term.
  rewrite filter_In, in_inner_join. simpl.
  rewrite !andb_true_iff, !Z.eqb_eq, Nat.eqb_eq, String.eqb_eq. tauto.
Qed.

Lemma create_course_entry_runs s subj cls y t code v w m u st systs :
  constraints_ok s = true ->
  fetchrow (select_where (fun r => ss_enabled (snd r))
                         (CourseEntriesDAO.sub_themes_set_in y t code s)) = Some (st, systs) ->
  exists s' row,
    CourseEntriesDAO.create_course_entry subj cls y t code v w m u s = (s', Ok (Some row))
    /\ coures_themes s' = coures_themes s
    /\ coures_sub_themes s' = coures_sub_themes s
    /\ academic_year_coures_themes_setting s' = academic_year_coures_themes_setting s
    /\ academic_year_coures_sub_theme_settings s' = academic_year_coures_sub_theme_settings s
    /\ constraints_ok s' = true
    /\ filter (ce_has_key subj cls y t (st_id st)) (course_entries s') = [er_entry row]
    /\ ce_indicator_value (er_entry row) = v
    /\ ce_week_numbers (er_entry row) = week_numbers_json w
    /\ In row (CourseEntriesDAO.entries_joined s')
    /\ length (course_entries s')
       = length (course_entries s)
         + (if existsb (ce_has_key subj cls y t (st_id st)) (course_entries s) then 0 else 1).
Proof.
  intros Hok Hq.
  pose proof (fetchrow_filter_Some _ _ _ Hq) as [Hin _].
  apply in_sub_themes_set_in in Hin as (Hst & _).
  unfold CourseEntriesDAO.create_course_entry, CourseEntriesDAO.get_course_entry_by_sub_theme_id.
  run. rewrite Hq. cbv beta iota. unfold fst at 1.
  match goal with |- context [fetchrow ?L] => destruct (fetchrow L) as [ex |] eqn:Hex end.
  - (* the entry exists: UPDATE *)
    apply fetchrow_filter_Some in Hex as [Hexin Hexkey].
    destruct ex as [[ce0 st0] t0].
    change (ce_has_key subj cls y t (st_id st) ce0 = true) in Hexkey.
    pose proof (in_entries_joined _ _ _ _ Hexin) as (Hce0 & _).
    unfold CourseEntriesDAO.update_course_entry_by_id, CourseEntriesDAO.get_course_entry_by_id.
    run. change (er_entry (ce0, st0, t0)) with ce0.
    set (g := fun r : CourseEntry =>
                if (ce_id r =? ce_id ce0)%nat
                then CourseEntriesDAO.set_entry v w m u (clock s) r else r).
    assert (Hg : keeps_entry_keys g) by apply set_entry_keeps_keys.
    rewrite update_where_as_map. fold g.
    rewrite entries_joined_map by (intro r; apply Hg).
    unfold select_where.
    rewrite (filter_map_comm (fun r => (ce_id (er_entry r) =? ce_id ce0)%nat) (lift_entry g)).
    2:{ intros [[a b] c]. unfold er_entry, lift_entry. simpl.
        destruct (Hg a) as (-> & _). reflexivity. }
    rewrite fetchrow_map.
    destruct (fetchrow_filter_exists (fun r => (ce_id (er_entry r) =? ce_id ce0)%nat)
                (CourseEntriesDAO.entries_joined s) (ce0, st0, t0) Hexin)
      as [[[ce1 st1] t1] H1].
    { unfold er_entry. simpl. apply Nat.eqb_refl. }
    rewrite H1. simpl.
    apply fetchrow_filter_Some in H1 as [H1in H1id].
    unfold er_entry in H1id. simpl in H1id. apply Nat.eqb_eq in H1id.
    pose proof (in_entries_joined _ _ _ _ H1in) as (Hce1 & _).
    assert (ce1 = ce0).
    { apply (NoDup_map_inj ce_id (course_entries s)); auto using pk_course_entries. }
    subst ce1.
    eexists. eexists. split; [reflexivity |].
    simpl. repeat split; try reflexivity.
    + rewrite constraints_update_entries; assumption.
    + rewrite (filter_map_comm (ce_has_key subj cls y t (st_id st)) g)
        by (intro a; apply keeps_has_key; assumption).
      rewrite (nodupb_filter_unique ce_same_key _ (course_entries s) ce0).
      * unfold lift_entry, er_entry. simpl. reflexivity.
      * intros a b. apply ce_has_key_same.
      * apply uk_course_entries. assumption.
      * assumption.
      * assumption.
    + unfold lift_entry, er_entry, g. simpl. rewrite Nat.eqb_refl. reflexivity.
    + unfold lift_entry, er_entry, g. simpl. rewrite Nat.eqb_refl. reflexivity.
    + rewrite entries_joined_map by (intro r; apply Hg). apply in_map. assumption.
    + assert (Hex : existsb (ce_has_key subj cls y t (st_id st)) (course_entries s) = true)
        by (apply existsb_exists; eauto).
      rewrite Hex, length_map. lia.
  - (* no entry yet: INSERT *)
    pose proof (fetchrow_filter_None _ _ Hex) as Hnone.
    assert (Hnokey : forall r, In r (course_entries s) ->
                               ce_has_key subj cls y t (st_id st) r = false).
    { intros r Hr. destruct (entry_is_joined s Hok r Hr) as (st' & t' & Hj).
      apply (Hnone _ Hj). }
    cbv beta iota.
    destruct (fresh_ids s Hok) as (_ & _ & F3).
    unfold Database.insert_course_entries. simpl.
    set (e := {| ce_id := next_uuid s; ce_subj_no := subj; ce_ps_class_nbr := cls;
                 ce_academic_year := y; ce_academic_term := t;
                 ce_coures_sub_themes_id := st_id st; ce_indicator_value := v;
                 ce_week_numbers := week_numbers_json w;
                 ce_is_most_relevant := truthy_bool m; ce_created_by := u;
                 ce_updated_by := u; ce_created_at := clock s; ce_updated_at := clock s |}).
    assert (Hchk : existsb (fun r => (ce_id r =? next_uuid s)%nat || ce_same_key r e)
                           (course_entries s) = false).
    { apply existsb_false_forall. intros r Hr. apply orb_false_iff. split.
      - apply Nat.eqb_neq. specialize (F3 r Hr). lia.
      - rewrite ce_same_key_has_key. simpl. apply Hnokey. assumption. }
    rewrite Hchk. simpl.
    unfold CourseEntriesDAO.get_course_entry_by_id. run.
    match goal with |- context [CourseEntriesDAO.entries_joined ?S] => set (s1 := S) end.
    destruct (fk_sub_theme s Hok st Hst) as [th [Hth Eth]].
    assert (Hjoin : CourseEntriesDAO.entries_joined s1
                    = CourseEntriesDAO.entries_joined s
                      ++ inner_join (fun (r : CourseEntry * SubTheme) t =>
                                       (st_coures_themes_id (snd r) =? t_id t)%nat)
                           (inner_join (fun ce st => (ce_coures_sub_themes_id ce =? st_id st)%nat)
                                       [e] (coures_sub_themes s))
                           (coures_themes s)).
    { apply entries_joined_app; reflexivity. }
    assert (Hnew : In (e, st, th) (CourseEntriesDAO.entries_joined s1)).
    { rewrite Hjoin. apply in_or_app. right.
      apply in_inner_join. split; [| split; [assumption |]].
      - apply in_inner_join. simpl. split; [auto | split; [assumption |]].
        apply Nat.eqb_refl.
      - simpl. apply Nat.eqb_eq. auto. }
    destruct (fetchrow_filter_exists (fun r => (ce_id (er_entry r) =? next_uuid s)%nat)
                (CourseEntriesDAO.entries_joined s1) (e, st, th) Hnew)
      as [[[ce1 st1] t1] H1].
    { unfold er_entry. simpl. apply Nat.eqb_refl. }
    unfold select_where. rewrite H1.
    apply fetchrow_filter_Some in H1 as [H1in H1id].
    unfold er_entry in H1id. simpl in H1id. apply Nat.eqb_eq in H1id.
    assert (ce1 = e).
    { rewrite Hjoin in H1in. apply in_app_or in H1in as [Hold | Hn].
      - apply in_entries_joined in Hold as (Hold & _). specialize (F3 _ Hold). lia.
      - apply in_inner_join in Hn as (Hn & _). apply in_inner_join in Hn as (Hn & _).
        simpl in Hn. destruct Hn as [<- | []]. reflexivity. }
    subst ce1.
    eexists. eexists. split; [reflexivity |].
    repeat split; try reflexivity.
    + apply (constraints_insert_entry s e Hok eq_refl).
      * apply existsb_false_forall. intros r Hr.
        rewrite ce_same_key_has_key. simpl. apply Hnokey. assumption.
      * exists st. auto.
    + subst s1. simpl. rewrite filter_app.
      assert (Hf : filter (ce_has_key subj cls y t (st_id st)) (course_entries s) = []).
      { clear - Hnokey. induction (course_entries s) as [| a l IH]; simpl; [reflexivity |].
        rewrite (Hnokey a) by (simpl; auto). apply IH. intros r Hr. apply Hnokey. simpl; auto. }
      rewrite Hf. simpl.
      unfold ce_has_key, ce_of_course. simpl.
      rewrite !String.eqb_refl, !Z.eqb_refl, Nat.eqb_refl. reflexivity.
    + assumption.
    + assert (Hex0 : existsb (ce_has_key subj cls y t (st_id st)) (course_entries s) = false)
        by (apply existsb_false_forall; assumption).
      rewrite Hex0. subst s1. simpl. rewrite length_app. reflexivity.
Qed.

(** ** The write guard of [create_course_entry] *)

Lemma enabled_setting_query s y t code :
  enabled_setting_exists s y t code <->
  exists r, fetchrow (select_where (fun r => ss_enabled (snd r))
                        (CourseEntriesDAO.sub_themes_set_in y t code s)) = Some r.
Proof.
  split.
  - intros (st & systs & Hst & Hss & E & Hc & Hy & Ht & He).
    apply (fetchrow_filter_exists _ _ (st, systs)); [| exact He].
    apply in_sub_themes_set_in. auto 10.
  - intros [[st systs] H]. apply fetchrow_filter_Some in H as [Hin He].
    apply in_sub_themes_set_in in Hin as (Hst & Hss & E & Hy & Ht & Hc).
    exists st, systs. simpl in He. auto 10.
Qed.

Lemma no_enabled_setting_query s y t code :
  ~ enabled_setting_exists s y t code ->
  fetchrow (select_where (fun r => ss_enabled (snd r))
              (CourseEntriesDAO.sub_themes_set_in y t code s)) = None.
Proof.
  intros H. destruct (fetchrow _) eqn:E; [| reflexivity].
  exfalso. apply H. apply enabled_setting_query. eauto.
Qed.

Lemma create_course_entry_refused s subj cls y t code v w m u :
  ~ enabled_setting_exists s y t code ->
  CourseEntriesDAO.create_course_entry subj cls y t code v w m u s = (s, Raise ValueError).
Proof.
  intros H. unfold CourseEntriesDAO.create_course_entry. run.
  rewrite (no_enabled_setting_query _ _ _ _ H). reflexivity.
Qed.

Lemma verify_token_ok s token user_id :
  token = md5_today s user_id ->
  SimpleTokenAuth.verify_token token user_id s = (s, Ok true).
Proof.
  intros ->. unfold SimpleTokenAuth.verify_token. rewrite String.eqb_refl. reflexivity.
Qed.

(** C2: with a valid token, [create_course_entry] fails with the BadRequest
    domain error (a ValueError in the DAO) and writes nothing whenever no
    enabled sub-theme setting exists for (academic_year, academic_term,
    sub_theme_code); when one exists, in a store that satisfies its
    constraints, it succeeds and the entry it returns is stored under the
    requested course, year-term and an enabled sub-theme with that code,
    holding the requested value. *)
Theorem create_course_entry_write_guard :
  forall s req,
    cr_token req = md5_today s (cr_user_id req) ->
    (~ enabled_setting_exists s (cr_academic_year req) (cr_academic_term req)
                                (cr_sub_theme_code req) ->
       CourseEntriesDAO.create_course_entry
         (cr_subj_no req) (cr_ps_class_nbr req) (cr_academic_year req) (cr_academic_term req)
         (cr_sub_theme_code req) (cr_indicator_value req) (cr_week_numbers req)
         (cr_is_most_relevant req) (Some (cr_user_id req)) s = (s, Raise ValueError)
       /\ SchoolYearBusiness.create_course_entry req s
          = (s, Raise (HTTPException HTTP_400_BAD_REQUEST)))
    /\ (enabled_setting_exists s (cr_academic_year req) (cr_academic_term req)
                                 (cr_sub_theme_code req) ->
        constraints_ok s = true ->
        exists s' row st systs,
          SchoolYearBusiness.create_course_entry req s = (s', Ok row)
          /\ In (er_entry row) (course_entries s')
          /\ ce_subj_no (er_entry row) = cr_subj_no req
          /\ ce_ps_class_nbr (er_entry row) = cr_ps_class_nbr req
          /\ ce_academic_year (er_entry row) = cr_academic_year req
          /\ ce_academic_term (er_entry row) = cr_academic_term req
          /\ ce_indicator_value (er_entry row) = cr_indicator_value req
          /\ ce_coures_sub_themes_id (er_entry row) = st_id st
          /\ In st (coures_sub_themes s') /\ st_sub_theme_code st = cr_sub_theme_code req
          /\ In systs (academic_year_coures_sub_theme_settings s')
          /\ ss_coures_sub_themes_id systs = st_id st
          /\ ss_academic_year systs = cr_academic_year req
          /\ ss_academic_term systs = cr_academic_term req
          /\ ss_enabled systs = true).
Proof.
  intros s req Htok. split.
  - intros Hno. pose proof (create_course_entry_refused s
        (cr_subj_no req) (cr_ps_class_nbr req) (cr_academic_year req) (cr_academic_term req)
        (cr_sub_theme_code req) (cr_indicator_value req) (cr_week_numbers req)
        (cr_is_most_relevant req) (Some (cr_user_id req)) Hno) as Hdao.
    split; [exact Hdao |].
    unfold SchoolYearBusiness.create_course_entry. run.
    rewrite (verify_token_ok _ _ _ Htok). cbv beta iota.
    rewrite Hdao. reflexivity.
  - intros Hex Hok.
    apply enabled_setting_query in Hex as [[st systs] Hq].
    destruct (create_course_entry_runs s
        (cr_subj_no req) (cr_ps_class_nbr req) (cr_academic_year req) (cr_academic_term req)
        (cr_sub_theme_code req) (cr_indicator_value req) (cr_week_numbers req)
        (cr_is_most_relevant req) (Some (cr_user_id req)) st systs Hok Hq)
      as (s' & row & Hrun & Ht & Hst & Hts & Hss & Hok' & Hfil & Hv & Hw & Hj & Hlen).
    exists s', row, st, systs.
    apply fetchrow_filter_Some in Hq as [Hin He]. simpl in He.
    apply in_sub_themes_set_in in Hin as (Hst0 & Hss0 & E & Hy & Hterm & Hc).
    assert (Hrow : In (er_entry row) (filter (ce_has_key (cr_subj_no req) (cr_ps_class_nbr req)
                     (cr_academic_year req) (cr_academic_term req) (st_id st)) (course_entries s')))
      by (rewrite Hfil; simpl; auto).
    apply filter_In in Hrow as [Hrow Hkey].
    unfold ce_has_key, ce_of_course in Hkey.
    repeat (apply andb_true_iff in Hkey as [Hkey ?]).
    repeat match goal with
           | H : (_ =? _)%string = true |- _ => apply String.eqb_eq in H
           | H : (_ =? _)%Z = true |- _ => apply Z.eqb_eq in H
           | H : (_ =? _)%nat = true |- _ => apply Nat.eqb_eq in H
           end.
    split.
    { unfold SchoolYearBusiness.create_course_entry. run.
      rewrite (verify_token_ok _ _ _ Htok). cbv beta iota.
      rewrite Hrun. reflexivity. }
    rewrite Hst, Hss. repeat split; auto.
Qed.

Lemma create_course_entry_write_guard_witness :
  let s := Sample.store [] [Sample.sub_setting 40 113 1 10 true] [] in
  let req := mkCourseEntryCreateRequest "C1" "0001" 113 1 "1020" "2" (Some [3; 4]%Z)
                                        (Some false) "t01" "md5:t01" in
  cr_token req = md5_today s (cr_user_id req)
  /\ constraints_ok s = true
  /\ exists s' row,
       SchoolYearBusiness.create_course_entry req s = (s', Ok row)
       /\ In (er_entry row) (course_entries s')
       /\ ce_indicator_value (er_entry row) = "2".
Proof.
  intros s req. split; [reflexivity |]. split; [reflexivity |].
  destruct (create_course_entry_write_guard s req eq_refl) as [_ H].
  destruct H as (s' & row & st & systs & Hrun & Hin & _ & _ & _ & _ & Hv & _).
  - exists (mkSubTheme 10 1 "1020" "實作"), (Sample.sub_setting 40 113 1 10 true).
    simpl. repeat split; auto.
  - reflexivity.
  - exists s', row. repeat split; assumption.
Defined.

(** ** Creating the same entry twice *)

Lemma sub_themes_set_in_same s s' y t code :
  coures_sub_themes s' = coures_sub_themes s ->
  academic_year_coures_sub_theme_settings s' = academic_year_coures_sub_theme_settings s ->
  CourseEntriesDAO.sub_themes_set_in y t code s' = CourseEntriesDAO.sub_themes_set_in y t code s.
Proof.
  intros H1 H2. unfold CourseEntriesDAO.sub_themes_set_in. rewrite H1, H2. reflexivity.
Qed.

(** C3: in a store that satisfies its constraints and has an enabled setting
    for (year, term, sub_theme_code), two calls of [create_course_entry] with
    the same course, year-term and sub-theme code both succeed; the second
    inserts no row, and afterwards exactly one row has that natural key and it
    holds the indicator value of the second call. *)
Theorem create_course_entry_twice :
  forall s subj cls y t code v1 w1 m1 u1 v2 w2 m2 u2,
    constraints_ok s = true ->
    enabled_setting_exists s y t code ->
    exists s1 row1 s2 row2 st,
      CourseEntriesDAO.create_course_entry subj cls y t code v1 w1 m1 u1 s = (s1, Ok (Some row1))
      /\ CourseEntriesDAO.create_course_entry subj cls y t code v2 w2 m2 u2 s1
         = (s2, Ok (Some row2))
      /\ In st (coures_sub_themes s) /\ st_sub_theme_code st = code
      /\ length (course_entries s2) = length (course_entries s1)
      /\ filter (ce_has_key subj cls y t (st_id st)) (course_entries s2) = [er_entry row2]
      /\ ce_indicator_value (er_entry row2) = v2.
Proof.
  intros s subj cls y t code v1 w1 m1 u1 v2 w2 m2 u2 Hok Hex.
  apply enabled_setting_query in Hex as [[st systs] Hq].
  destruct (create_course_entry_runs s subj cls y t code v1 w1 m1 u1 st systs Hok Hq)
    as (s1 & row1 & Hrun1 & Ht & Hst & Hts & Hss & Hok1 & Hfil1 & _ & _ & _ & _).
  assert (Hq1 : fetchrow (select_where (fun r => ss_enabled (snd r))
                   (CourseEntriesDAO.sub_themes_set_in y t code s1)) = Some (st, systs))
    by (rewrite (sub_themes_set_in_same s s1) by assumption; exact Hq).
  destruct (create_course_entry_runs s1 subj cls y t code v2 w2 m2 u2 st systs Hok1 Hq1)
    as (s2 & row2 & Hrun2 & _ & _ & _ & _ & _ & Hfil2 & Hv2 & _ & _ & Hlen).
  exists s1, row1, s2, row2, st.
  apply fetchrow_filter_Some in Hq as [Hin _].
  apply in_sub_themes_set_in in Hin as (Hst0 & _ & _ & _ & _ & Hc).
  repeat split; try assumption.
  assert (Hex1 : existsb (ce_has_key subj cls y t (st_id st)) (course_entries s1) = true).
  { apply existsb_exists. exists (er_entry row1).
    assert (Hin1 : In (er_entry row1)
                      (filter (ce_has_key subj cls y t (st_id st)) (course_entries s1)))
      by (rewrite Hfil1; simpl; auto).
    apply filter_In in Hin1. exact Hin1. }
  rewrite Hex1 in Hlen. lia.
Qed.

Lemma create_course_entry_twice_witness :
  let s := Sample.store [] [Sample.sub_setting 40 113 1 10 true] [] in
  constraints_ok s = true
  /\ enabled_setting_exists s 113 1 "1020"
  /\ exists s1 row1 s2 row2,
       CourseEntriesDAO.create_course_entry "C1" "0001" 113 1 "1020" "1" None None (Some "t01") s
       = (s1, Ok (Some row1))
       /\ CourseEntriesDAO.create_course_entry "C1" "0001" 113 1 "1020" "3" None None
            (Some "t01") s1 = (s2, Ok (Some row2))
       /\ filter (ce_has_key "C1" "0001" 113 1 10) (course_entries s2) = [er_entry row2]
       /\ ce_indicator_value (er_entry row2) = "3".
Proof.
  intros s.
  assert (Hen : enabled_setting_exists s 113 1 "1020").
  { exists (mkSubTheme 10 1 "1020" "實作"), (Sample.sub_setting 40 113 1 10 true).
    simpl. repeat split; auto. }
  split; [reflexivity |]. split; [exact Hen |].
  destruct (create_course_entry_twice s "C1" "0001" 113 1 "1020"
              "1" None None (Some "t01") "3" None None (Some "t01") eq_refl Hen)
    as (s1 & row1 & s2 & row2 & st & H1 & H2 & Hst & Hc & _ & Hf & Hv).
  exists s1, row1, s2, row2. repeat split; try assumption.
  simpl in Hst.
  destruct Hst as [<- | [<- | [<- | [<- | []]]]]; simpl in Hc; try discriminate Hc.
  exact Hf.
Defined.

(** ** The most-relevant mark on the update-by-id path *)

Lemma count_rows_pos {A} (l : list A) : (0 <? count_rows l)%Z = true <-> exists x, In x l.
Proof.
  unfold count_rows. destruct l as [| a l]; simpl.
  - split; [discriminate | intros [x []]].
  - split; [intros _; exists a; auto | intros _; reflexivity].
Qed.

Lemma count_rows_zero {A} (l : list A) : (0 <? count_rows l)%Z = false <-> l = [].
Proof.
  unfold count_rows. destruct l as [| a l]; simpl.
  - split; reflexivity.
  - split; discriminate.
Qed.

Lemma check_most_relevant_validation_spec s e :
  er_sub_theme_code e <> "" ->
  (most_relevant_sibling s e <->
   CourseEntriesDAO.check_most_relevant_validation
     (ce_subj_no (er_entry e)) (ce_ps_class_nbr (er_entry e))
     (ce_academic_year (er_entry e)) (ce_academic_term (er_entry e))
     (er_theme_code e) (Some (er_sub_theme_code e)) s = (s, Ok true)).
Proof.
  intros Hne.
  unfold CourseEntriesDAO.check_most_relevant_validation. run.
  assert (Htr : truthy_str (Some (er_sub_theme_code e)) = true).
  { simpl. apply negb_true_iff. apply String.eqb_neq. assumption. }
  rewrite Htr. unfold most_relevant_sibling, select_where.
  split.
  - intros (r & Hin & Hc & Ht & Hm & Hd).
    f_equal. f_equal. apply count_rows_pos. exists r. apply filter_In. split; [assumption |].
    rewrite Hc, Hm. simpl. apply andb_true_iff. split.
    + rewrite andb_true_r. apply String.eqb_eq. assumption.
    + apply negb_true_iff. apply String.eqb_neq. assumption.
  - intros H. injection H as Hc. apply count_rows_pos in Hc as [r Hr].
    apply filter_In in Hr as [Hin Hp].
    apply andb_true_iff in Hp as [Hp Hd].
    apply andb_true_iff in Hp as [Hp Hm].
    apply andb_true_iff in Hp as [Hc' Ht].
    exists r. repeat split; try assumption.
    + apply String.eqb_eq. assumption.
    + apply String.eqb_neq. apply negb_true_iff. assumption.
Qed.

Lemma check_most_relevant_validation_total s a b y t c x :
  exists flag, CourseEntriesDAO.check_most_relevant_validation a b y t c x s = (s, Ok flag).
Proof. unfold CourseEntriesDAO.check_most_relevant_validation. run. eauto. Qed.

(** An UPDATE by id followed by the SELECT by id gives the first joined row
    of that id, rewritten. *)
Lemma update_course_entry_by_id_runs s entry_id v w m u e :
  CourseEntriesDAO.get_course_entry_by_id entry_id s = (s, Ok (Some e)) ->
  CourseEntriesDAO.update_course_entry_by_id entry_id v w m u s
  = (with_course_entries
       (Database.update_where (fun r => (ce_id r =? entry_id)%nat)
                              (CourseEntriesDAO.set_entry v w m u (clock s))) s,
     Ok (Some (lift_entry (CourseEntriesDAO.set_entry v w m u (clock s)) e))).
Proof.
  unfold CourseEntriesDAO.update_course_entry_by_id, CourseEntriesDAO.get_course_entry_by_id.
  run. intros H. injection H as Hq.
  f_equal. f_equal.
  set (g := fun r : CourseEntry =>
              if (ce_id r =? entry_id)%nat
              then CourseEntriesDAO.set_entry v w m u (clock s) r else r).
  assert (Hg : keeps_entry_keys g) by apply set_entry_keeps_keys.
  rewrite update_where_as_map. fold g.
  rewrite entries_joined_map by (intro r; apply Hg).
  unfold select_where in *.
  rewrite (filter_map_comm (fun r => (ce_id (er_entry r) =? entry_id)%nat) (lift_entry g)).
  2:{ intros [[a b] c]. unfold er_entry, lift_entry. simpl.
      destruct (Hg a) as (-> & _). reflexivity. }
  rewrite fetchrow_map, Hq. simpl. f_equal.
  apply fetchrow_filter_Some in Hq as [_ Hid].
  destruct e as [[ce st] t]. unfold lift_entry, er_entry, g in *. simpl in *.
  rewrite Hid. reflexivity.
Qed.

(** C6, counterexample: with sub-theme 1020 of theme A301 already marked,
    marking 1080 for the same course is refused with status 400, not 409. *)
Lemma second_most_relevant_is_bad_request : ~ second_most_relevant_is_conflict.
Proof.
  intro H.
  pose (e50 := Sample.entry 50 "C1" "0001" 113 1 10 "2" None true).
  pose (e51 := Sample.entry 51 "C1" "0001" 113 1 11 "1" None false).
  pose (s := Sample.store [] [] [e50; e51]).
  specialize (H s 51 (mkCourseEntryUpdateRequest "1" None (Some true) "t01" "md5:t01")
                (e51, mkSubTheme 11 1 "1080" "人文關懷", mkTheme 1 "A301" "通識素養")
                eq_refl eq_refl eq_refl).
  assert (Hsib : most_relevant_sibling s
            (e51, mkSubTheme 11 1 "1080" "人文關懷", mkTheme 1 "A301" "通識素養")).
  { exists (e50, mkSubTheme 10 1 "1020" "實作", mkTheme 1 "A301" "通識素養").
    repeat split; try reflexivity.
    - vm_compute. auto.
    - vm_compute. discriminate. }
  specialize (H Hsib). vm_compute in H. discriminate H.
Qed.

(** C6, amended: with a valid token, setting is_most_relevant = true through
    [update_course_entry_by_id] on an existing entry (of a non-empty
    sub-theme code) is refused with the BadRequest error, HTTP 400, and
    leaves the store as it was, when an entry of another sub-theme of the
    same theme is already marked for that course and year-term; when there
    is none the update is accepted and the entry comes back marked. *)
Theorem update_course_entry_by_id_most_relevant :
  forall s entry_id req e,
    ur_token req = md5_today s (ur_user_id req) ->
    ur_is_most_relevant req = Some true ->
    CourseEntriesDAO.get_course_entry_by_id entry_id s = (s, Ok (Some e)) ->
    er_sub_theme_code e <> "" ->
    (most_relevant_sibling s e ->
       SchoolYearBusiness.update_course_entry_by_id entry_id req s
       = (s, Raise (HTTPException HTTP_400_BAD_REQUEST)))
    /\ (~ most_relevant_sibling s e ->
        exists s' row,
          SchoolYearBusiness.update_course_entry_by_id entry_id req s = (s', Ok row)
          /\ ce_id (er_entry row) = entry_id
          /\ ce_is_most_relevant (er_entry row) = true
          /\ ce_indicator_value (er_entry row) = ur_indicator_value req
          /\ course_entries s'
             = Database.update_where (fun r => (ce_id r =? entry_id)%nat)
                 (CourseEntriesDAO.set_entry (ur_indicator_value req) (ur_week_numbers req)
                    (Some true) (Some (ur_user_id req)) (clock s))
                 (course_entries s)).
Proof.
  intros s entry_id req e Htok Hm Hget Hne.
  pose proof (check_most_relevant_validation_spec s e Hne) as Hspec.
  destruct (check_most_relevant_validation_total s
              (ce_subj_no (er_entry e)) (ce_ps_class_nbr (er_entry e))
              (ce_academic_year (er_entry e)) (ce_academic_term (er_entry e))
              (er_theme_code e) (Some (er_sub_theme_code e))) as [flag Hflag].
  split.
  - intros Hsib. apply Hspec in Hsib.
    unfold SchoolYearBusiness.update_course_entry_by_id. run.
    rewrite (verify_token_ok _ _ _ Htok). cbv beta iota.
    rewrite Hm. cbv beta iota. rewrite Hget. cbv beta iota.
    rewrite Hsib. reflexivity.
  - intros Hno.
    assert (flag = false).
    { destruct flag; [| reflexivity]. exfalso. apply Hno. apply Hspec. assumption. }
    subst flag.
    eexists. eexists. split.
    + unfold SchoolYearBusiness.update_course_entry_by_id. run.
      rewrite (verify_token_ok _ _ _ Htok). cbv beta iota.
      rewrite Hm. cbv beta iota. rewrite Hget. cbv beta iota.
      rewrite Hflag. cbv beta iota.
      rewrite (update_course_entry_by_id_runs s entry_id _ _ _ _ e Hget).
      reflexivity.
    + unfold CourseEntriesDAO.get_course_entry_by_id in Hget. run.
      injection Hget as Hq. apply fetchrow_filter_Some in Hq as [_ Hid].
      apply Nat.eqb_eq in Hid.
      destruct e as [[ce st] t]. unfold lift_entry, er_entry in *. simpl in *.
      repeat split; try reflexivity. assumption.
Qed.

Lemma update_course_entry_by_id_most_relevant_witness :
  let e50 := Sample.entry 50 "C1" "0001" 113 1 10 "2" None true in
  let e51 := Sample.entry 51 "C1" "0001" 113 1 11 "1" None false in
  let s := Sample.store [] [] [e50; e51] in
  let req := mkCourseEntryUpdateRequest "1" None (Some true) "t01" "md5:t01" in
  let e := (e51, mkSubTheme 11 1 "1080" "人文關懷", mkTheme 1 "A301" "通識素養") in
  ur_token req = md5_today s (ur_user_id req)
  /\ ur_is_most_relevant req = Some true
  /\ CourseEntriesDAO.get_course_entry_by_id 51 s = (s, Ok (Some e))
  /\ er_sub_theme_code e <> ""
  /\ most_relevant_sibling s e
  /\ SchoolYearBusiness.update_course_entry_by_id 51 req s
     = (s, Raise (HTTPException HTTP_400_BAD_REQUEST)).
Proof.
  intros e50 e51 s req e.
  assert (Hne : er_sub_theme_code e <> "") by (vm_compute; discriminate).
  assert (Hsib : most_relevant_sibling s e).
  { exists (e50, mkSubTheme 10 1 "1020" "實作", mkTheme 1 "A301" "通識素養").
    repeat split; try reflexivity.
    - vm_compute. auto.
    - vm_compute. discriminate. }
  split; [reflexivity |]. split; [reflexivity |]. split; [reflexivity |].
  split; [exact Hne |]. split; [exact Hsib |].
  exact (proj1 (update_course_entry_by_id_most_relevant s 51 req e eq_refl eq_refl eq_refl Hne)
               Hsib).
Defined.

(** ** Batch creation *)

Lemma batch_step_unfold results entry_data s :
  CourseEntriesDAO.batch_step results entry_data s
  = match create_from_data entry_data s with
    | (s1, Ok (Some row)) => (s1, Ok (results ++ [row]))
    | (s1, _) => (s1, Ok results)
    end.
Proof.
  unfold CourseEntriesDAO.batch_step, create_from_data. run.
  destruct (CourseEntriesDAO.create_course_entry _ _ _ _ _ _ _ _ _ s) as [s1 [[row |] | e]];
    reflexivity.
Qed.

Lemma for_fold_batch entries_data : forall results s,
  for_fold entries_data results CourseEntriesDAO.batch_step s
  = (fst (batch_successes entries_data s), Ok (results ++ snd (batch_successes entries_data s))).
Proof.
  induction entries_data as [| d rest IH]; intros results s; simpl.
  - unfold ret. rewrite app_nil_r. reflexivity.
  - unfold bind at 1. rewrite batch_step_unfold.
    destruct (create_from_data d s) as [s1 [[row |] | e]].
    + rewrite IH. destruct (batch_successes rest s1) as [s2 rows]. simpl.
      rewrite <- app_assoc. reflexivity.
    + apply IH.
    + apply IH.
Qed.

Lemma create_course_entries_batch_successes entries_data s :
  CourseEntriesDAO.create_course_entries_batch entries_data s
  = (fst (batch_successes entries_data s), Ok (snd (batch_successes entries_data s))).
Proof.
  unfold CourseEntriesDAO.create_course_entries_batch. rewrite for_fold_batch. reflexivity.
Qed.

(** A call of [create_course_entry] that raises has written no row. *)
Lemma create_course_entry_raise_writes_nothing s subj cls y t code v w m u s' e :
  CourseEntriesDAO.create_course_entry subj cls y t code v w m u s = (s', Raise e) ->
  same_tables s s'.
Proof.
  unfold CourseEntriesDAO.create_course_entry, CourseEntriesDAO.get_course_entry_by_sub_theme_id,
    CourseEntriesDAO.update_course_entry_by_id, CourseEntriesDAO.get_course_entry_by_id,
    Database.insert_course_entries.
  run.
  destruct (fetchrow (select_where _ (CourseEntriesDAO.sub_themes_set_in y t code s))) as [r |].
  - cbv beta iota.
    match goal with |- context [fetchrow ?L] => destruct (fetchrow L) as [ex |] end.
    + intros H. discriminate H.
    + cbv beta iota.
      match goal with |- context [existsb ?P ?L] => destruct (existsb P L) end.
      * intros H. injection H as <- _. repeat split.
      * intros H. discriminate H.
  - intros H. injection H as <- _. repeat split.
Qed.

(** C9, counterexample: a batch whose only entry targets a sub-theme that is
    not enabled is answered with an error, not with the empty list. *)
Lemma batch_of_failures_is_an_error : ~ batch_returns_successes.
Proof.
  intro H.
  specialize (H (Sample.store [] [] [])
                [mkCourseEntryCreateRequest "C1" "0001" 113 1 "1020" "2" None (Some false)
                                            "t01" "md5:t01"]
                "t01" "md5:t01" eq_refl).
  vm_compute in H. discriminate H.
Qed.

(** C9, amended: the batch tries the entries one after the other, each on the
    store its predecessors left; an entry whose creation raises is passed
    over, having written no row, and the rows written for the others stay.
    The DAO returns exactly the list of created or updated entries and never
    raises.  With a valid token the business call returns that list when it
    is not empty; when no entry succeeded (the empty batch included) it
    raises the BadRequest error, HTTP 400. *)
Theorem create_course_entries_batch_partial :
  forall s entries_data user_id token,
    token = md5_today s user_id ->
    let batch := map (SchoolYearBusiness.with_created_by user_id) entries_data in
    CourseEntriesDAO.create_course_entries_batch batch s
    = (fst (batch_successes batch s), Ok (snd (batch_successes batch s)))
    /\ (forall entry_data s0 s1 e,
          create_from_data entry_data s0 = (s1, Raise e) -> same_tables s0 s1)
    /\ SchoolYearBusiness.create_course_entries_batch entries_data user_id token s
       = (fst (batch_successes batch s),
          match snd (batch_successes batch s) with
          | [] => Raise (HTTPException HTTP_400_BAD_REQUEST)
          | rows => Ok rows
          end).
Proof.
  intros s entries_data user_id token Htok batch.
  split; [apply create_course_entries_batch_successes |].
  split.
  - intros entry_data s0 s1 e H. unfold create_from_data in H.
    eapply create_course_entry_raise_writes_nothing. exact H.
  - unfold SchoolYearBusiness.create_course_entries_batch. run.
    rewrite (verify_token_ok _ _ _ Htok). cbv beta iota.
    fold batch. rewrite create_course_entries_batch_successes.
    destruct (snd (batch_successes batch s)); reflexivity.
Qed.

Lemma create_course_entries_batch_partial_witness :
  let s := Sample.store [] [Sample.sub_setting 40 113 1 10 true] [] in
  let good := mkCourseEntryCreateRequest "C1" "0001" 113 1 "1020" "2" None (Some false)
                                         "t01" "md5:t01" in
  let bad := mkCourseEntryCreateRequest "C1" "0001" 113 1 "1080" "1" None (Some false)
                                        "t01" "md5:t01" in
  "md5:t01" = md5_today s "t01"
  /\ exists s' row,
       SchoolYearBusiness.create_course_entries_batch [bad; good] "t01" "md5:t01" s
       = (s', Ok [row])
       /\ ce_indicator_value (er_entry row) = "2".
Proof.
  intros s good bad. split; [reflexivity |].
  destruct (create_course_entries_batch_partial s [bad; good] "t01" "md5:t01" eq_refl)
    as (_ & _ & H).
  eexists. eexists. split; [exact H |]. reflexivity.
Defined.

(** ** Sub-theme settings under updates and inserts *)

Lemma in_settings_joined s r st t :
  In (r, st, t) (SchoolYearSubThemeSettingsDAO.settings_joined s) ->
  In r (academic_year_coures_sub_theme_settings s) /\ In st (coures_sub_themes s)
  /\ In t (coures_themes s)
  /\ ss_coures_sub_themes_id r = st_id st /\ st_coures_themes_id st = t_id t.
Proof.
  unfold SchoolYearSubThemeSettingsDAO.settings_joined. intros H.
  apply in_inner_join in H as (H1 & Ht & E2). simpl in E2.
  apply in_inner_join in H1 as (Hr & Hst & E1).
  apply Nat.eqb_eq in E1, E2. auto.
Qed.

Lemma settings_joined_map s g :
  (forall r, ss_coures_sub_themes_id (g r) = ss_coures_sub_themes_id r) ->
  SchoolYearSubThemeSettingsDAO.settings_joined (with_sub_theme_settings (map g) s)
  = map (lift_setting g) (SchoolYearSubThemeSettingsDAO.settings_joined s).
Proof.
  intros Hg. unfold SchoolYearSubThemeSettingsDAO.settings_joined. simpl.
  rewrite inner_join_map_l by (intros a b; rewrite Hg; reflexivity).
  rewrite (inner_join_map_l _ (fun p : SubThemeSetting * SubTheme => (g (fst p), snd p)))
    by (intros a b; reflexivity).
  apply map_ext. intros [[r st] t]. reflexivity.
Qed.

Lemma settings_joined_app s s' e :
  coures_themes s' = coures_themes s ->
  coures_sub_themes s' = coures_sub_themes s ->
  academic_year_coures_sub_theme_settings s' = academic_year_coures_sub_theme_settings s ++ [e] ->
  SchoolYearSubThemeSettingsDAO.settings_joined s'
  = SchoolYearSubThemeSettingsDAO.settings_joined s
    ++ inner_join (fun (r : SubThemeSetting * SubTheme) t =>
                     (st_coures_themes_id (snd r) =? t_id t)%nat)
         (inner_join (fun systs st => (ss_coures_sub_themes_id systs =? st_id st)%nat)
                     [e] (coures_sub_themes s))
         (coures_themes s).
Proof.
  intros Ht Hst Hss. unfold SchoolYearSubThemeSettingsDAO.settings_joined.
  rewrite Ht, Hst, Hss, !inner_join_app_l. reflexivity.
Qed.

Lemma ss_has_key_same y t sid a b :
  ss_has_key y t sid a = true -> ss_has_key y t sid b = true -> ss_same_key a b = true.
Proof.
  unfold ss_has_key, ss_same_key, ss_in_year_term. intros Ha Hb.
  repeat (apply andb_true_iff in Ha as [Ha ?]).
  repeat (apply andb_true_iff in Hb as [Hb ?]).
  repeat match goal with
         | H : (_ =? _)%Z = true |- _ => apply Z.eqb_eq in H
         | H : (_ =? _)%nat = true |- _ => apply Nat.eqb_eq in H
         end.
  repeat (apply andb_true_iff; split);
    first [ apply Z.eqb_eq | apply Nat.eqb_eq ]; congruence.
Qed.

Lemma ss_same_key_has_key a b :
  ss_same_key a b
  = ss_has_key (ss_academic_year b) (ss_academic_term b) (ss_coures_sub_themes_id b) a.
Proof. reflexivity. Qed.

Lemma setting_by_id_found s r :
  constraints_ok s = true ->
  In r (academic_year_coures_sub_theme_settings s) ->
  exists st t,
    SchoolYearSubThemeSettingsDAO.get_school_year_sub_theme_setting_by_id (ss_id r) s
    = (s, Ok (Some (r, st, t))).
Proof.
  intros Hok Hr. destruct (setting_is_joined s Hok r Hr) as (st & t & Hj).
  unfold SchoolYearSubThemeSettingsDAO.get_school_year_sub_theme_setting_by_id. run.
  destruct (fetchrow_filter_exists (fun x => (ss_id (fst (fst x)) =? ss_id r)%nat)
              (SchoolYearSubThemeSettingsDAO.settings_joined s) (r, st, t) Hj)
    as [[[r1 st1] t1] H1].
  { simpl. apply Nat.eqb_refl. }
  unfold select_where. rewrite H1.
  apply fetchrow_filter_Some in H1 as [H1in H1id]. simpl in H1id. apply Nat.eqb_eq in H1id.
  apply in_settings_joined in H1in as (Hr1 & _).
  assert (r1 = r)
    by (apply (NoDup_map_inj ss_id (academic_year_coures_sub_theme_settings s));
        auto using pk_sub_theme_settings).
  subst r1. eauto.
Qed.

Lemma setting_by_id_none s id :
  (forall r, In r (academic_year_coures_sub_theme_settings s) -> ss_id r <> id) ->
  SchoolYearSubThemeSettingsDAO.get_school_year_sub_theme_setting_by_id id s = (s, Ok None).
Proof.
  intros Hno.
  unfold SchoolYearSubThemeSettingsDAO.get_school_year_sub_theme_setting_by_id. run.
  destruct (fetchrow _) as [[[r st] t] |] eqn:E; [| reflexivity].
  apply fetchrow_filter_Some in E as [Hin Hid]. simpl in Hid. apply Nat.eqb_eq in Hid.
  apply in_settings_joined in Hin as (Hr & _). exfalso. exact (Hno r Hr Hid).
Qed.

Lemma setting_by_id_Some s id row :
  SchoolYearSubThemeSettingsDAO.get_school_year_sub_theme_setting_by_id id s = (s, Ok (Some row)) ->
  In (fst (fst row)) (academic_year_coures_sub_theme_settings s) /\ ss_id (fst (fst row)) = id.
Proof.
  unfold SchoolYearSubThemeSettingsDAO.get_school_year_sub_theme_setting_by_id. run.
  intros H. injection H as Hq. apply fetchrow_filter_Some in Hq as [Hin Hid].
  destruct row as [[r st] t]. simpl in *. apply Nat.eqb_eq in Hid.
  apply in_settings_joined in Hin as (Hr & _). auto.
Qed.

Lemma setting_by_id_joined s id r st t :
  SchoolYearSubThemeSettingsDAO.get_school_year_sub_theme_setting_by_id id s
  = (s, Ok (Some (r, st, t))) ->
  In st (coures_sub_themes s) /\ st_id st = ss_coures_sub_themes_id r
  /\ In t (coures_themes s) /\ t_id t = st_coures_themes_id st.
Proof.
  unfold SchoolYearSubThemeSettingsDAO.get_school_year_sub_theme_setting_by_id. run.
  intros H. injection H as Hq. apply fetchrow_filter_Some in Hq as [Hin _].
  apply in_settings_joined in Hin as (_ & Hst & Ht & E1 & E2). auto.
Qed.

Lemma update_enabled_by_id_run s id enabled u now :
  SchoolYearSubThemeSettingsDAO.update_enabled_by_id id enabled u now s
  = (with_sub_theme_settings
       (Database.update_where (fun r => (ss_id r =? id)%nat)
          (SchoolYearSubThemeSettingsDAO.set_enabled enabled u now)) s, Ok tt).
Proof. reflexivity. Qed.

(** The SELECT by id after the UPDATE of the enabled flag by id. *)
Lemma get_setting_after_update s id enabled u now row :
  SchoolYearSubThemeSettingsDAO.get_school_year_sub_theme_setting_by_id id s = (s, Ok (Some row)) ->
  let s' := with_sub_theme_settings
       (Database.update_where (fun r => (ss_id r =? id)%nat)
          (SchoolYearSubThemeSettingsDAO.set_enabled enabled u now)) s in
  SchoolYearSubThemeSettingsDAO.get_school_year_sub_theme_setting_by_id id s'
  = (s', Ok (Some (lift_setting (SchoolYearSubThemeSettingsDAO.set_enabled enabled u now) row))).
Proof.
  unfold SchoolYearSubThemeSettingsDAO.get_school_year_sub_theme_setting_by_id.
  run. intros H. injection H as Hq. f_equal. f_equal.
  set (g := fun r : SubThemeSetting =>
              if (ss_id r =? id)%nat
              then SchoolYearSubThemeSettingsDAO.set_enabled enabled u now r else r).
  assert (Hg1 : forall r, ss_coures_sub_themes_id (g r) = ss_coures_sub_themes_id r)
    by (intro r; unfold g; destruct (ss_id r =? id)%nat; reflexivity).
  assert (Hg2 : forall r, ss_id (g r) = ss_id r)
    by (intro r; unfold g; destruct (ss_id r =? id)%nat; reflexivity).
  rewrite update_where_as_map. fold g.
  rewrite settings_joined_map by exact Hg1.
  unfold select_where in *.
  rewrite (filter_map_comm (fun r => (ss_id (fst (fst r)) =? id)%nat) (lift_setting g)).
  2:{ intros [[a b] c]. unfold lift_setting. simpl. rewrite Hg2. reflexivity. }
  rewrite fetchrow_map, Hq. simpl. f_equal.
  apply fetchrow_filter_Some in Hq as [_ Hid].
  destruct row as [[r st] t]. unfold lift_setting, g in *. simpl in *.
  rewrite Hid. reflexivity.
Qed.

Lemma sub_theme_by_id_found s st :
  constraints_ok s = true -> In st (coures_sub_themes s) ->
  exists r, fetchrow (select_where (fun r => (st_id (fst r) =? st_id st)%nat)
                                   (SubThemeDAO.sub_themes_with_theme s)) = Some r.
Proof.
  intros Hok Hst. destruct (fk_sub_theme s Hok st Hst) as [t [Ht Et]].
  apply (fetchrow_filter_exists _ _ (st, t)).
  - unfold SubThemeDAO.sub_themes_with_theme. apply in_inner_join.
    split; [assumption | split; [assumption |]]. apply Nat.eqb_eq. auto.
  - simpl. apply Nat.eqb_refl.
Qed.

Lemma sub_theme_by_id_none s id :
  (forall st, In st (coures_sub_themes s) -> st_id st <> id) ->
  fetchrow (select_where (fun r => (st_id (fst r) =? id)%nat)
                         (SubThemeDAO.sub_themes_with_theme s)) = None.
Proof.
  intros Hno. destruct (fetchrow _) as [[st t] |] eqn:E; [| reflexivity].
  apply fetchrow_filter_Some in E as [Hin Hid]. simpl in Hid. apply Nat.eqb_eq in Hid.
  unfold SubThemeDAO.sub_themes_with_theme in Hin. apply in_inner_join in Hin as (Hst & _).
  exfalso. exact (Hno st Hst Hid).
Qed.

(** The SELECT by id after the INSERT of a fresh row for a catalog sub-theme. *)
Lemma get_setting_after_insert s e st :
  constraints_ok s = true ->
  ss_id e = next_uuid s ->
  In st (coures_sub_themes s) -> st_id st = ss_coures_sub_themes_id e ->
  let s' := with_sub_theme_settings (fun rows => rows ++ [e]) (after_uuid4 s) in
  exists t,
    SchoolYearSubThemeSettingsDAO.get_school_year_sub_theme_setting_by_id (next_uuid s) s'
    = (s', Ok (Some (e, st, t))).
Proof.
  intros Hok Hid Hst Est s'.
  destruct (fk_sub_theme s Hok st Hst) as [th [Hth Eth]].
  destruct (fresh_ids s Hok) as (_ & F2 & _).
  assert (Hjoin := settings_joined_app s s' e eq_refl eq_refl eq_refl).
  assert (Hnew : In (e, st, th) (SchoolYearSubThemeSettingsDAO.settings_joined s')).
  { rewrite Hjoin. apply in_or_app. right.
    apply in_inner_join. split; [| split; [assumption |]].
    - apply in_inner_join. simpl. split; [auto | split; [assumption |]].
      apply Nat.eqb_eq. auto.
    - simpl. apply Nat.eqb_eq. auto. }
  unfold SchoolYearSubThemeSettingsDAO.get_school_year_sub_theme_setting_by_id. run.
  destruct (fetchrow_filter_exists (fun r => (ss_id (fst (fst r)) =? next_uuid s)%nat)
              (SchoolYearSubThemeSettingsDAO.settings_joined s') (e, st, th) Hnew)
    as [[[r1 st1] t1] H1].
  { simpl. rewrite Hid. apply Nat.eqb_refl. }
  unfold select_where. rewrite H1.
  apply fetchrow_filter_Some in H1 as [H1in H1id]. simpl in H1id. apply Nat.eqb_eq in H1id.
  rewrite Hjoin in H1in. apply in_app_or in H1in as [Hold | Hn].
  - apply in_settings_joined in Hold as (Hold & _). specialize (F2 _ Hold). lia.
  - apply in_inner_join in Hn as (Hn & Ht1 & _). apply in_inner_join in Hn as (Hn & Hst1 & E1).
    simpl in Hn. destruct Hn as [<- | []]. apply Nat.eqb_eq in E1.
    assert (st1 = st).
    { apply (NoDup_map_inj st_id (coures_sub_themes s)); auto using pk_sub_themes. congruence. }
    subst st1. eauto.
Qed.

Lemma filter_nil_forall {A} (p : A -> bool) l :
  (forall x, In x l -> p x = false) -> filter p l = [].
Proof.
  induction l as [| a l IH]; simpl; intros H; [reflexivity |].
  rewrite (H a) by auto. apply IH. intros x Hx. apply H. auto.
Qed.

(** ** The two-path upsert of a sub-theme setting *)

Section Upsert.

Variable s : Store.
Variable setting_id : uuid.
Variable data : SubThemeSettingUpdateData.
Hypothesis Htok : su_token data = md5_today s (su_user_id data).
Hypothesis Hok : constraints_ok s = true.

Let set := SchoolYearSubThemeSettingsDAO.set_enabled (su_enabled data) (Some (su_user_id data))
                                                     (clock s).
Let outcome :=
  SchoolYearSubThemeSettingsBusiness.update_school_year_sub_theme_setting setting_id data s.

Lemma upsert_by_setting_id r :
  In r (academic_year_coures_sub_theme_settings s) -> ss_id r = setting_id ->
  exists st t,
    outcome = (with_sub_theme_settings
                 (Database.update_where (fun x => (ss_id x =? setting_id)%nat) set) s,
               Ok (set r, st, t))
    /\ In st (coures_sub_themes s) /\ st_id st = ss_coures_sub_themes_id r
    /\ In t (coures_themes s) /\ t_id t = st_coures_themes_id st.
Proof.
  intros Hr Hid. destruct (setting_by_id_found s r Hok Hr) as (st & t & Hget).
  rewrite Hid in Hget. exists st, t.
  split; [| exact (setting_by_id_joined s setting_id r st t Hget)].
  unfold outcome, SchoolYearSubThemeSettingsBusiness.update_school_year_sub_theme_setting,
    SchoolYearSubThemeSettingsDAO.update_school_year_sub_theme_setting.
  run. rewrite (verify_token_ok _ _ _ Htok). cbv beta iota.
  rewrite Hget. cbv beta iota. rewrite update_enabled_by_id_run. cbv beta iota.
  rewrite (get_setting_after_update s setting_id _ _ _ _ Hget). reflexivity.
Qed.

Lemma upsert_without_year_term :
  (forall r, In r (academic_year_coures_sub_theme_settings s) -> ss_id r <> setting_id) ->
  su_academic_year data = None \/ su_academic_term data = None ->
  outcome = (s, Raise (HTTPException HTTP_404_NOT_FOUND)).
Proof.
  intros Hno Hyt.
  unfold outcome, SchoolYearSubThemeSettingsBusiness.update_school_year_sub_theme_setting,
    SchoolYearSubThemeSettingsDAO.update_school_year_sub_theme_setting.
  run. rewrite (verify_token_ok _ _ _ Htok). cbv beta iota.
  rewrite (setting_by_id_none s setting_id Hno). cbv beta iota.
  destruct Hyt as [-> | ->]; [reflexivity |].
  destruct (su_academic_year data); reflexivity.
Qed.

Lemma upsert_without_sub_theme y t :
  (forall r, In r (academic_year_coures_sub_theme_settings s) -> ss_id r <> setting_id) ->
  su_academic_year data = Some y -> su_academic_term data = Some t ->
  (forall st, In st (coures_sub_themes s) -> st_id st <> setting_id) ->
  outcome = (s, Raise (HTTPException HTTP_404_NOT_FOUND)).
Proof.
  intros Hno Hy Ht Hnost.
  unfold outcome, SchoolYearSubThemeSettingsBusiness.update_school_year_sub_theme_setting,
    SchoolYearSubThemeSettingsDAO.update_school_year_sub_theme_setting.
  run. rewrite (verify_token_ok _ _ _ Htok). cbv beta iota.
  rewrite (setting_by_id_none s setting_id Hno). cbv beta iota.
  rewrite Hy, Ht. cbv beta iota.
  rewrite (sub_theme_by_id_none s setting_id Hnost). reflexivity.
Qed.

Lemma upsert_by_sub_theme_id_update y t st r0 :
  (forall r, In r (academic_year_coures_sub_theme_settings s) -> ss_id r <> setting_id) ->
  su_academic_year data = Some y -> su_academic_term data = Some t ->
  In st (coures_sub_themes s) -> st_id st = setting_id ->
  In r0 (academic_year_coures_sub_theme_settings s) -> ss_has_key y t setting_id r0 = true ->
  exists st' t',
    outcome = (with_sub_theme_settings
                 (Database.update_where (fun x => (ss_id x =? ss_id r0)%nat) set) s,
               Ok (set r0, st', t'))
    /\ In st' (coures_sub_themes s) /\ st_id st' = ss_coures_sub_themes_id r0
    /\ In t' (coures_themes s) /\ t_id t' = st_coures_themes_id st'.
Proof.
  intros Hno Hy Ht Hst Est Hr0 Hkey.
  destruct (setting_by_id_found s r0 Hok Hr0) as (st' & t' & Hget).
  destruct (sub_theme_by_id_found s st Hok Hst) as [r Hsub]. rewrite Est in Hsub.
  exists st', t'.
  split; [| exact (setting_by_id_joined s (ss_id r0) r0 st' t' Hget)].
  unfold outcome, SchoolYearSubThemeSettingsBusiness.update_school_year_sub_theme_setting,
    SchoolYearSubThemeSettingsDAO.update_school_year_sub_theme_setting.
  run. rewrite (verify_token_ok _ _ _ Htok). cbv beta iota.
  rewrite (setting_by_id_none s setting_id Hno). cbv beta iota.
  rewrite Hy, Ht. cbv beta iota. rewrite Hsub. cbv beta iota.
  change (fun r1 : SubThemeSetting =>
            ss_in_year_term y t r1 && (ss_coures_sub_themes_id r1 =? setting_id)%nat)
    with (ss_has_key y t setting_id).
  unfold select_where.
  rewrite (nodupb_filter_unique ss_same_key (ss_has_key y t setting_id)
             (academic_year_coures_sub_theme_settings s) r0
             (ss_has_key_same y t setting_id) (uk_sub_theme_settings s Hok) Hr0 Hkey).
  change (fetchrow [r0]) with (Some r0). cbv beta iota.
  rewrite update_enabled_by_id_run. cbv beta iota.
  rewrite (get_setting_after_update s (ss_id r0) _ _ _ _ Hget). reflexivity.
Qed.

Lemma upsert_by_sub_theme_id_insert y t st :
  (forall r, In r (academic_year_coures_sub_theme_settings s) -> ss_id r <> setting_id) ->
  su_academic_year data = Some y -> su_academic_term data = Some t ->
  In st (coures_sub_themes s) -> st_id st = setting_id ->
  (forall r0, In r0 (academic_year_coures_sub_theme_settings s) ->
              ss_has_key y t setting_id r0 = false) ->
  let new := mkSubThemeSetting (next_uuid s) y t setting_id (su_enabled data)
               (Some (su_user_id data)) (Some (su_user_id data)) (clock s) (clock s) in
  exists t',
    outcome = (with_sub_theme_settings (fun rows => rows ++ [new]) (after_uuid4 s),
               Ok (new, st, t'))
    /\ In t' (coures_themes s) /\ t_id t' = st_coures_themes_id st.
Proof.
  intros Hno Hy Ht Hst Est Hnokey new.
  destruct (sub_theme_by_id_found s st Hok Hst) as [r Hsub]. rewrite Est in Hsub.
  destruct (get_setting_after_insert s new st Hok eq_refl Hst Est) as [t' Hget].
  destruct (fresh_ids s Hok) as (_ & F2 & _).
  exists t'.
  split; [| destruct (setting_by_id_joined _ _ _ _ _ Hget) as (_ & _ & Ht' & Et'); auto].
  unfold outcome, SchoolYearSubThemeSettingsBusiness.update_school_year_sub_theme_setting,
    SchoolYearSubThemeSettingsDAO.update_school_year_sub_theme_setting.
  run. rewrite (verify_token_ok _ _ _ Htok). cbv beta iota.
  rewrite (setting_by_id_none s setting_id Hno). cbv beta iota.
  rewrite Hy, Ht. cbv beta iota. rewrite Hsub. cbv beta iota.
  change (fun r1 : SubThemeSetting =>
            ss_in_year_term y t r1 && (ss_coures_sub_themes_id r1 =? setting_id)%nat)
    with (ss_has_key y t setting_id).
  unfold select_where. rewrite (filter_nil_forall _ _ Hnokey).
  change (fetchrow (@nil SubThemeSetting)) with (@None SubThemeSetting). cbv beta iota.
  unfold Database.insert_sub_theme_settings. simpl.
  fold new.
  assert (Hchk : existsb (fun r1 => (ss_id r1 =? next_uuid s)%nat || ss_same_key r1 new)
                         (academic_year_coures_sub_theme_settings s) = false).
  { apply existsb_false_forall. intros r1 Hr1. apply orb_false_iff. split.
    - apply Nat.eqb_neq. specialize (F2 r1 Hr1). lia.
    - rewrite ss_same_key_has_key. simpl. apply Hnokey. assumption. }
  rewrite Hchk.
  change (mkStore (coures_themes s) (coures_sub_themes s)
            (academic_year_coures_themes_setting s)
            (academic_year_coures_sub_theme_settings s)
            (course_entries s) (COFSUBJ s) (S (next_uuid s)) (clock s) (md5_today s))
    with (after_uuid4 s).
  rewrite Hget. reflexivity.
Qed.

End Upsert.

Lemma existsb_decide {A} (p : A -> bool) l :
  (exists x, In x l /\ p x = true) \/ (forall x, In x l -> p x = false).
Proof.
  destruct (existsb p l) eqn:E.
  - left. apply existsb_exists. assumption.
  - right. apply existsb_false_forall. assumption.
Qed.

(** C7: with a valid token, in a store that satisfies its constraints,
    [update_school_year_sub_theme_setting] (a) updates in place the
    sub-theme-setting row whose id is given, when there is one; (b)
    otherwise, when year and term are supplied and the id is that of a
    catalog sub-theme, updates the setting of that (year, term, sub-theme)
    when it exists and inserts a new row for it when it does not; (c) fails,
    with NotFound, exactly when neither reading resolves.  Updating in place
    means: the table keeps its rows and their order, the row with the id
    takes the requested [enabled], the user as [updated_by] and the current
    time as [updated_at], and keeps its id, year, term, sub-theme and
    creation columns; every other row and every other table is as before,
    and the rewritten row is the one returned. *)
Theorem update_school_year_sub_theme_setting_upsert :
  forall s setting_id data,
    su_token data = md5_today s (su_user_id data) ->
    constraints_ok s = true ->
    let settings := academic_year_coures_sub_theme_settings s in
    let updated := fun r : SubThemeSetting =>
      mkSubThemeSetting (ss_id r) (ss_academic_year r) (ss_academic_term r)
        (ss_coures_sub_themes_id r) (su_enabled data) (ss_created_by r)
        (Some (su_user_id data)) (ss_created_at r) (clock s) in
    let rewritten := fun id : uuid =>
      mkStore (coures_themes s) (coures_sub_themes s)
        (academic_year_coures_themes_setting s)
        (map (fun x => if (ss_id x =? id)%nat then updated x else x) settings)
        (course_entries s) (COFSUBJ s) (next_uuid s) (clock s) (md5_today s) in
    let outcome :=
      SchoolYearSubThemeSettingsBusiness.update_school_year_sub_theme_setting setting_id data s in
    (forall r, In r settings -> ss_id r = setting_id ->
       exists st t,
         outcome = (rewritten setting_id, Ok (updated r, st, t))
         /\ In st (coures_sub_themes s) /\ st_id st = ss_coures_sub_themes_id r
         /\ In t (coures_themes s) /\ t_id t = st_coures_themes_id st)
    /\ ((forall r, In r settings -> ss_id r <> setting_id) ->
        forall y t st,
          su_academic_year data = Some y -> su_academic_term data = Some t ->
          In st (coures_sub_themes s) -> st_id st = setting_id ->
          (forall r0, In r0 settings -> ss_has_key y t setting_id r0 = true ->
             exists st' t',
               outcome = (rewritten (ss_id r0), Ok (updated r0, st', t'))
               /\ In st' (coures_sub_themes s) /\ st_id st' = ss_coures_sub_themes_id r0
               /\ In t' (coures_themes s) /\ t_id t' = st_coures_themes_id st')
          /\ ((forall r0, In r0 settings -> ss_has_key y t setting_id r0 = false) ->
              let new := mkSubThemeSetting (next_uuid s) y t setting_id (su_enabled data)
                           (Some (su_user_id data)) (Some (su_user_id data))
                           (clock s) (clock s) in
              exists t',
                outcome = (with_sub_theme_settings (fun rows => rows ++ [new]) (after_uuid4 s),
                           Ok (new, st, t'))
                /\ In t' (coures_themes s) /\ t_id t' = st_coures_themes_id st))
    /\ ((exists s' e, outcome = (s', Raise e)) <->
        (forall r, In r settings -> ss_id r <> setting_id)
        /\ (su_academic_year data = None \/ su_academic_term data = None
            \/ forall st, In st (coures_sub_themes s) -> st_id st <> setting_id))
    /\ (forall s' e, outcome = (s', Raise e) ->
          s' = s /\ e = HTTPException HTTP_404_NOT_FOUND).
Proof.
  intros s setting_id data Htok Hok settings updated rewritten outcome.
  set (set := SchoolYearSubThemeSettingsDAO.set_enabled (su_enabled data)
                (Some (su_user_id data)) (clock s)).
  assert (P1 := upsert_by_setting_id s setting_id data Htok Hok).
  assert (P2 := upsert_without_year_term s setting_id data Htok).
  assert (P3 := upsert_without_sub_theme s setting_id data Htok).
  assert (P4 := upsert_by_sub_theme_id_update s setting_id data Htok Hok).
  assert (P5 := upsert_by_sub_theme_id_insert s setting_id data Htok Hok).
  fold settings set outcome in P1, P2, P3, P4, P5.
  (* every run ends in one of the five cases *)
  assert (Cases :
    (exists x, outcome = (fst outcome, Ok x)
       /\ ((exists r, In r settings /\ ss_id r = setting_id)
           \/ (exists y t st, su_academic_year data = Some y /\ su_academic_term data = Some t
                 /\ In st (coures_sub_themes s) /\ st_id st = setting_id)))
    \/ (outcome = (s, Raise (HTTPException HTTP_404_NOT_FOUND))
        /\ (forall r, In r settings -> ss_id r <> setting_id)
        /\ (su_academic_year data = None \/ su_academic_term data = None
            \/ forall st, In st (coures_sub_themes s) -> st_id st <> setting_id))).
  { destruct (existsb_decide (fun r => (ss_id r =? setting_id)%nat) settings)
      as [[r [Hr Hid]] | Hno].
    - apply Nat.eqb_eq in Hid. destruct (P1 r Hr Hid) as (st & t & -> & _).
      left. eexists. split; [reflexivity |]. left. eauto.
    - assert (Hno' : forall r, In r settings -> ss_id r <> setting_id)
        by (intros r Hr; apply Nat.eqb_neq; auto).
      destruct (su_academic_year data) as [y |] eqn:Hy;
        [| right; split; [apply P2; auto | auto]].
      destruct (su_academic_term data) as [t |] eqn:Ht;
        [| right; split; [apply P2; auto | auto]].
      destruct (existsb_decide (fun st => (st_id st =? setting_id)%nat) (coures_sub_themes s))
        as [[st [Hst Est]] | Hnost].
      + apply Nat.eqb_eq in Est.
        destruct (existsb_decide (ss_has_key y t setting_id) settings) as [[r0 [Hr0 Hk]] | Hnk].
        * destruct (P4 y t st r0 Hno' eq_refl eq_refl Hst Est Hr0 Hk) as (st' & t' & -> & _).
          left. eexists. split; [reflexivity |]. right. exists y, t, st. auto.
        * destruct (P5 y t st Hno' eq_refl eq_refl Hst Est Hnk) as (t' & -> & _).
          left. eexists. split; [reflexivity |]. right. exists y, t, st. auto.
      + assert (Hnost' : forall st, In st (coures_sub_themes s) -> st_id st <> setting_id)
          by (intros st Hst; apply Nat.eqb_neq; auto).
        right. split; [apply (P3 y t); auto | auto]. }
  split; [exact P1 |]. split.
  { intros Hno y t st Hy Ht Hst Est. split.
    - intros r0 Hr0 Hk. apply (P4 y t st r0); assumption.
    - intros Hnk. apply (P5 y t st); assumption. }
  split.
  - split.
    + intros (s' & e & Hout).
      destruct Cases as [(x & Hx & _) | (_ & Hn)]; [| exact Hn].
      rewrite Hx in Hout. discriminate Hout.
    + intros [Hno Hn].
      destruct Cases as [(x & Hx & Hres) | (Hout & _)]; [| eauto].
      exfalso. destruct Hres as [(r & Hr & Hid) | (y & t & st & Hy & Ht & Hst & Est)].
      * exact (Hno r Hr Hid).
      * destruct Hn as [Hn | [Hn | Hn]]; try congruence. exact (Hn st Hst Est).
  - intros s' e Hout.
    destruct Cases as [(x & Hx & _) | (Hnf & _)].
    + rewrite Hx in Hout. discriminate Hout.
    + rewrite Hnf in Hout. injection Hout as <- <-. auto.
Qed.

Lemma update_school_year_sub_theme_setting_upsert_witness :
  let s := Sample.store [] [Sample.sub_setting 40 113 1 10 true;
                            Sample.sub_setting 41 113 1 11 true] [] in
  let data := mkSubThemeSettingUpdateData false "t01" "md5:t01" (Some 113%Z) (Some 2%Z) in
  let data1 := mkSubThemeSettingUpdateData false "t01" "md5:t01" (Some 113%Z) (Some 1%Z) in
  let row40 := mkSubThemeSetting 40 113 1 10 false (Some "admin") (Some "t01") 100 500 in
  let kept41 := mkSubThemeSetting 41 113 1 11 true (Some "admin") (Some "admin") 100 100 in
  su_token data = md5_today s (su_user_id data)
  /\ constraints_ok s = true
  /\ (exists st t,
        SchoolYearSubThemeSettingsBusiness.update_school_year_sub_theme_setting 40 data s
        = (Sample.store [] [row40; kept41] [], Ok (row40, st, t)))
  /\ (exists st t,
        SchoolYearSubThemeSettingsBusiness.update_school_year_sub_theme_setting 10 data1 s
        = (Sample.store [] [row40; kept41] [], Ok (row40, st, t)))
  /\ exists t',
       SchoolYearSubThemeSettingsBusiness.update_school_year_sub_theme_setting 11 data s
       = (with_sub_theme_settings
            (fun rows => rows ++ [mkSubThemeSetting 1000 113 2 11 false (Some "t01")
                                                    (Some "t01") 500 500])
            (after_uuid4 s),
          Ok (mkSubThemeSetting 1000 113 2 11 false (Some "t01") (Some "t01") 500 500,
              mkSubTheme 11 1 "1080" "人文關懷", t')).
Proof.
  intros s data data1 row40 kept41.
  assert (Hno : forall id, id <> 40 -> id <> 41 ->
                  forall r, In r (academic_year_coures_sub_theme_settings s) -> ss_id r <> id).
  { intros id H40 H41 r Hr. simpl in Hr. destruct Hr as [<- | [<- | []]]; simpl; auto. }
  split; [reflexivity |]. split; [reflexivity |]. split; [| split].
  - destruct (update_school_year_sub_theme_setting_upsert s 40 data eq_refl eq_refl)
      as (H & _).
    destruct (H (Sample.sub_setting 40 113 1 10 true)) as (st & t & Hrun & _).
    + left. reflexivity.
    + reflexivity.
    + exists st, t. exact Hrun.
  - destruct (update_school_year_sub_theme_setting_upsert s 10 data1 eq_refl eq_refl)
      as (_ & H & _).
    assert (H10 : forall r, In r (academic_year_coures_sub_theme_settings s) -> ss_id r <> 10)
      by (apply Hno; discriminate).
    destruct (proj1 (H H10 113%Z 1%Z (mkSubTheme 10 1 "1020" "實作")
                       eq_refl eq_refl (or_introl eq_refl) eq_refl)
                (Sample.sub_setting 40 113 1 10 true) (or_introl eq_refl) eq_refl)
      as (st & t & Hrun & _).
    exists st, t. exact Hrun.
  - destruct (update_school_year_sub_theme_setting_upsert s 11 data eq_refl eq_refl)
      as (_ & H & _).
    assert (H11 : forall r, In r (academic_year_coures_sub_theme_settings s) -> ss_id r <> 11)
      by (apply Hno; discriminate).
    destruct (proj2 (H H11 113%Z 2%Z (mkSubTheme 11 1 "1080" "人文關懷")
                       eq_refl eq_refl (or_intror (or_introl eq_refl)) eq_refl))
      as (t' & Hrun & _).
    + intros r0 Hr0. simpl in Hr0. destruct Hr0 as [<- | [<- | []]]; reflexivity.
    + exists t'. exact Hrun.
Defined.

(** ** ORDER BY, and joins along a foreign key *)

Lemma insert_sorted_perm {A} (leb : A -> A -> bool) x l :
  Permutation (insert_sorted leb x l) (x :: l).
Proof.
  induction l as [| y l IH]; simpl; [reflexivity |].
  destruct (leb x y); [reflexivity |].
  rewrite IH. apply perm_swap.
Qed.

Lemma order_by_perm {A} (leb : A -> A -> bool) l : Permutation (order_by leb l) l.
Proof.
  unfold order_by. induction l as [| x l IH]; simpl; [reflexivity |].
  rewrite insert_sorted_perm. constructor. exact IH.
Qed.

Lemma Permutation_filter {A} (p : A -> bool) l l' :
  Permutation l l' -> Permutation (filter p l) (filter p l').
Proof.
  induction 1; simpl.
  - reflexivity.
  - destruct (p x); [constructor |]; assumption.
  - destruct (p x), (p y); try reflexivity. apply perm_swap.
  - etransitivity; eassumption.
Qed.

Lemma filter_key_unique {A} (key : A -> nat) l x :
  NoDup (map key l) -> In x l -> filter (fun z => (key x =? key z)%nat) l = [x].
Proof.
  induction l as [| a l IH]; simpl; intros Hnd Hin; [contradiction |].
  inversion Hnd as [| ? ? Hnotin Hnd']; subst.
  destruct Hin as [-> | Hin].
  - rewrite Nat.eqb_refl. f_equal. apply filter_nil_forall.
    intros z Hz. apply Nat.eqb_neq. intro E. apply Hnotin. rewrite E. apply in_map. assumption.
  - destruct (Nat.eqb_spec (key x) (key a)) as [E | E].
    + exfalso. apply Hnotin. rewrite <- E. apply in_map. assumption.
    + apply IH; assumption.
Qed.

(** A join along a foreign key into a primary key pairs every left row with
    exactly one right row. *)
Lemma inner_join_fk {A B} (fk : A -> nat) (pk : B -> nat) (l : list A) (r : list B) :
  NoDup (map pk r) ->
  (forall a, In a l -> exists b, In b r /\ pk b = fk a) ->
  map fst (inner_join (fun a b => (fk a =? pk b)%nat) l r) = l.
Proof.
  intros Hnd Hfk. unfold inner_join.
  induction l as [| a l IH]; simpl; [reflexivity |].
  rewrite map_app, IH by (intros a' Ha'; apply Hfk; simpl; auto).
  destruct (Hfk a) as [b [Hb Eb]]; [simpl; auto |].
  rewrite <- Eb, (filter_key_unique pk r b Hnd Hb). reflexivity.
Qed.

Lemma map_fst_filter {A B} (p : A -> bool) (l : list (A * B)) :
  map fst (filter (fun r => p (fst r)) l) = filter p (map fst l).
Proof.
  induction l as [| a l IH]; simpl; [reflexivity |].
  destruct (p (fst a)); simpl; rewrite IH; reflexivity.
Qed.

Lemma sub_themes_with_theme_fst s :
  constraints_ok s = true ->
  map fst (SubThemeDAO.sub_themes_with_theme s) = coures_sub_themes s.
Proof.
  intros Hok. unfold SubThemeDAO.sub_themes_with_theme.
  apply (inner_join_fk st_coures_themes_id t_id).
  - apply pk_themes. assumption.
  - intros st Hst. destruct (fk_sub_theme s Hok st Hst) as [t [Ht E]]. eauto.
Qed.

(** The sub-themes [get_sub_themes_by_theme_id] returns are those of the
    catalog under the theme, in another order. *)
Lemma get_sub_themes_by_theme_id_perm s theme_id :
  constraints_ok s = true ->
  exists L,
    SubThemeDAO.get_sub_themes_by_theme_id theme_id s = (s, Ok L)
    /\ Permutation (map fst L)
         (filter (fun st => (st_coures_themes_id st =? theme_id)%nat) (coures_sub_themes s)).
Proof.
  intros Hok. unfold SubThemeDAO.get_sub_themes_by_theme_id. run.
  eexists. split; [reflexivity |].
  rewrite (Permutation_map fst (order_by_perm _ _)).
  unfold select_where.
  rewrite (map_fst_filter (fun st => (st_coures_themes_id st =? theme_id)%nat)).
  rewrite sub_themes_with_theme_fst by assumption. reflexivity.
Qed.

Lemma nodupb_map_key {A B} (eqb : B -> B -> bool) (key : A -> B) l :
  nodupb eqb (map key l) = nodupb (fun a b => eqb (key a) (key b)) l.
Proof.
  induction l as [| a l IH]; simpl; [reflexivity |].
  rewrite IH, existsb_map. reflexivity.
Qed.

Lemma get_theme_by_code_found s theme :
  constraints_ok s = true -> In theme (coures_themes s) ->
  ThemeDAO.get_theme_by_code (t_theme_code theme) s = (s, Ok (Some theme)).
Proof.
  intros Hok Hin. unfold ThemeDAO.get_theme_by_code. run. unfold select_where.
  rewrite (nodupb_filter_unique (fun a b => t_theme_code a =? t_theme_code b)
             (fun t => t_theme_code t =? t_theme_code theme) (coures_themes s) theme).
  - reflexivity.
  - intros a b Ha Hb. apply String.eqb_eq in Ha, Hb. apply String.eqb_eq. congruence.
  - rewrite <- nodupb_map_key. apply uk_theme_code. assumption.
  - assumption.
  - apply String.eqb_refl.
Qed.

(** ** Materializing the sub-theme settings of a theme *)

Lemma materialize_sub_theme_step y t by_ now (p : SubTheme * Theme) s :
  (forall r, In r (academic_year_coures_sub_theme_settings s) -> ss_id r < next_uuid s) ->
  SchoolYearThemeSettingsDAO.materialize_sub_theme y t by_ now p s
  = if existsb (ss_has_key y t (st_id (fst p))) (academic_year_coures_sub_theme_settings s)
    then (after_uuid4 s, Ok tt)
    else (with_sub_theme_settings
            (fun rows => rows ++ [mkSubThemeSetting (next_uuid s) y t (st_id (fst p)) true
                                                    by_ by_ now now])
            (after_uuid4 s), Ok tt).
Proof.
  intros Hfresh.
  unfold SchoolYearThemeSettingsDAO.materialize_sub_theme, Database.insert_sub_theme_settings.
  run. simpl.
  set (new := mkSubThemeSetting (next_uuid s) y t (st_id (fst p)) true by_ by_ now now).
  assert (E : existsb (fun r => (ss_id r =? next_uuid s)%nat || ss_same_key r new)
                      (academic_year_coures_sub_theme_settings s)
              = existsb (ss_has_key y t (st_id (fst p)))
                        (academic_year_coures_sub_theme_settings s)).
  { clear - Hfresh. induction (academic_year_coures_sub_theme_settings s) as [| a l IH];
      simpl; [reflexivity |].
    rewrite IH by (intros r Hr; apply Hfresh; simpl; auto).
    assert (Ha : (ss_id a =? next_uuid s)%nat = false).
    { apply Nat.eqb_neq. specialize (Hfresh a (or_introl eq_refl)). lia. }
    rewrite Ha. reflexivity. }
  rewrite E.
  destruct (existsb (ss_has_key y t (st_id (fst p))) (academic_year_coures_sub_theme_settings s));
    reflexivity.
Qed.

Lemma materialize_loop y t by_ now : forall (L : list (SubTheme * Theme)) s,
  (forall r, In r (academic_year_coures_sub_theme_settings s) -> ss_id r < next_uuid s) ->
  NoDup (map (fun p => st_id (fst p)) L) ->
  exists s' new_rows,
    for_each L (SchoolYearThemeSettingsDAO.materialize_sub_theme y t by_ now) s = (s', Ok tt)
    /\ academic_year_coures_sub_theme_settings s'
       = academic_year_coures_sub_theme_settings s ++ new_rows
    /\ coures_themes s' = coures_themes s
    /\ coures_sub_themes s' = coures_sub_themes s
    /\ academic_year_coures_themes_setting s' = academic_year_coures_themes_setting s
    /\ course_entries s' = course_entries s
    /\ next_uuid s <= next_uuid s'
    /\ (forall r, In r new_rows -> next_uuid s <= ss_id r < next_uuid s')
    /\ map ss_coures_sub_themes_id new_rows
       = map (fun p => st_id (fst p))
           (filter (fun p => negb (existsb (ss_has_key y t (st_id (fst p)))
                                           (academic_year_coures_sub_theme_settings s))) L)
    /\ (forall r, In r new_rows ->
          ss_enabled r = true /\ ss_academic_year r = y /\ ss_academic_term r = t).
Proof.
  induction L as [| p L IH]; intros s Hfresh Hnd.
  - exists s, []. simpl. unfold ret. rewrite app_nil_r.
    repeat split; try reflexivity; try lia; intros r [].
  - inversion Hnd as [| ? ? Hnotin Hnd']; subst.
    simpl for_each. unfold bind at 1.
    rewrite (materialize_sub_theme_step y t by_ now p s Hfresh).
    destruct (existsb (ss_has_key y t (st_id (fst p)))
                      (academic_year_coures_sub_theme_settings s)) eqn:Hex.
    + (* the row exists: skipped *)
      destruct (IH (after_uuid4 s)) as (s' & rows & Hrun & Hs & Ht & Hst & Hts & Hce & Hn & Hid & Hm & He).
      { intros r Hr. simpl in *. specialize (Hfresh r Hr). lia. }
      { assumption. }
      exists s', rows. simpl in *. rewrite Hex. simpl.
      repeat split; try assumption; try lia.
      * specialize (Hid r H). lia.
      * specialize (Hid r H). lia.
      * apply He. assumption.
      * apply He. assumption.
      * apply He. assumption.
    + (* no row yet: inserted *)
      set (new := mkSubThemeSetting (next_uuid s) y t (st_id (fst p)) true by_ by_ now now).
      destruct (IH (with_sub_theme_settings (fun rows => rows ++ [new]) (after_uuid4 s)))
        as (s' & rows & Hrun & Hs & Ht & Hst & Hts & Hce & Hn & Hid & Hm & He).
      { intros r Hr. simpl in *. apply in_app_or in Hr as [Hr | [<- | []]].
        - specialize (Hfresh r Hr). lia.
        - simpl. lia. }
      { assumption. }
      exists s', (new :: rows). simpl in *. rewrite Hex. simpl.
      assert (Hfil : forall q, In q L ->
                existsb (ss_has_key y t (st_id (fst q)))
                        (academic_year_coures_sub_theme_settings s ++ [new])
                = existsb (ss_has_key y t (st_id (fst q)))
                          (academic_year_coures_sub_theme_settings s)).
      { intros q Hq. rewrite existsb_app. simpl. rewrite orb_false_r.
        unfold ss_has_key at 2. simpl.
        assert (E : (st_id (fst p) =? st_id (fst q))%nat = false).
        { apply Nat.eqb_neq. intro E. apply Hnotin. rewrite E.
          apply (in_map (fun p0 => st_id (fst p0))). assumption. }
        rewrite E, andb_false_r, orb_false_r. reflexivity. }
      repeat split; try assumption; try lia.
      * rewrite Hs, <- app_assoc. reflexivity.
      * destruct H as [<- | Hr]; [simpl; lia | specialize (Hid r Hr); lia].
      * destruct H as [<- | Hr]; [simpl; lia | specialize (Hid r Hr); lia].
      * rewrite Hm. f_equal. f_equal. apply filter_ext_in. intros q Hq.
        rewrite Hfil by assumption. reflexivity.
      * destruct H as [<- | Hr]; [reflexivity | apply He; assumption].
      * destruct H as [<- | Hr]; [reflexivity | apply He; assumption].
      * destruct H as [<- | Hr]; [reflexivity | apply He; assumption].
Qed.

Lemma NoDup_nodupb (l : list nat) : NoDup l -> nodupb Nat.eqb l = true.
Proof.
  induction 1 as [| a l Hnotin Hnd IH]; simpl; [reflexivity |].
  rewrite IH, andb_true_r. apply negb_true_iff. apply existsb_false_forall.
  intros x Hx. apply Nat.eqb_neq. intro E. subst. contradiction.
Qed.

(** Among rows of one year-term with pairwise distinct sub-themes, the rows
    of a given sub-theme are one or none. *)
Lemma filter_has_key_new_rows y t k rows :
  NoDup (map ss_coures_sub_themes_id rows) ->
  (forall r, In r rows -> ss_academic_year r = y /\ ss_academic_term r = t) ->
  (In k (map ss_coures_sub_themes_id rows) ->
     exists r, In r rows /\ filter (ss_has_key y t k) rows = [r])
  /\ (~ In k (map ss_coures_sub_themes_id rows) -> filter (ss_has_key y t k) rows = []).
Proof.
  intros Hnd Hyt. split.
  - intros Hk. apply in_map_iff in Hk as [r [Ek Hr]]. exists r. split; [assumption |].
    apply (nodupb_filter_unique
             (fun a b => (ss_coures_sub_themes_id a =? ss_coures_sub_themes_id b)%nat)).
    + intros a b Ha Hb. unfold ss_has_key in Ha, Hb.
      apply andb_true_iff in Ha as [_ Ha]. apply andb_true_iff in Hb as [_ Hb].
      apply Nat.eqb_eq in Ha, Hb. apply Nat.eqb_eq. congruence.
    + rewrite <- nodupb_map_key. apply NoDup_nodupb. assumption.
    + assumption.
    + unfold ss_has_key, ss_in_year_term. destruct (Hyt r Hr) as [-> ->].
      rewrite !Z.eqb_refl, Ek, Nat.eqb_refl. reflexivity.
  - intros Hk. apply filter_nil_forall. intros r Hr.
    unfold ss_has_key. apply andb_false_iff. right. apply Nat.eqb_neq.
    intro E. apply Hk. rewrite <- E. apply in_map. assumption.
Qed.

Lemma map_filter_fst {A B C} (f : A -> C) (p : A -> bool) (L : list (A * B)) :
  map (fun q => f (fst q)) (filter (fun q => p (fst q)) L) = map f (filter p (map fst L)).
Proof.
  induction L as [| a L IH]; simpl; [reflexivity |].
  destruct (p (fst a)); simpl; rewrite IH; reflexivity.
Qed.

(** C1, amended: in a store that satisfies its constraints, creating the
    theme setting of a catalog theme that has none yet in the year-term
    succeeds; it appends exactly one theme-setting row, and one sub-theme
    setting row, enabled, for every catalog sub-theme of the theme that has
    no row yet in the year-term.  Sub-themes that already have a row are
    skipped and their row is kept as it is.  Afterwards every one of the N
    sub-themes of the theme has exactly one row in the year-term; when none
    had a row before, N rows are created, all enabled. *)
Theorem create_school_year_theme_setting_materializes :
  forall s y t theme fill scale mr created_by,
    constraints_ok s = true ->
    In theme (coures_themes s) ->
    (forall r, In r (academic_year_coures_themes_setting s) ->
       ts_in_year_term y t r && (ts_coures_themes_id r =? t_id theme)%nat = false) ->
    exists s' info new_rows,
      SchoolYearThemeSettingsDAO.create_school_year_theme_setting
        y t (t_theme_code theme) fill scale mr created_by s = (s', Ok (Some info))
      /\ academic_year_coures_themes_setting s'
         = academic_year_coures_themes_setting s
           ++ [mkThemeSetting (next_uuid s) y t (t_id theme) fill scale mr
                               created_by created_by (clock s) (clock s)]
      /\ academic_year_coures_sub_theme_settings s'
         = academic_year_coures_sub_theme_settings s ++ new_rows
      /\ coures_themes s' = coures_themes s
      /\ coures_sub_themes s' = coures_sub_themes s
      /\ course_entries s' = course_entries s
      /\ Permutation (map ss_coures_sub_themes_id new_rows)
           (map st_id (filter (fun st => negb (has_setting_row s y t st)) (sub_themes_of s theme)))
      /\ (forall r, In r new_rows ->
            ss_enabled r = true /\ ss_academic_year r = y /\ ss_academic_term r = t)
      /\ (forall st, In st (sub_themes_of s theme) ->
            exists r,
              filter (ss_has_key y t (st_id st)) (academic_year_coures_sub_theme_settings s') = [r]
              /\ (has_setting_row s y t st = true ->
                    In r (academic_year_coures_sub_theme_settings s))
              /\ (has_setting_row s y t st = false -> In r new_rows))
      /\ ((forall st, In st (sub_themes_of s theme) -> has_setting_row s y t st = false) ->
          length new_rows = length (sub_themes_of s theme)).
Proof.
  intros s y t theme fill scale mr created_by Hok Htheme Hnone.
  destruct (fresh_ids s Hok) as (F1 & F2 & _).
  set (new_ts := mkThemeSetting (next_uuid s) y t (t_id theme) fill scale mr
                                created_by created_by (clock s) (clock s)).
  set (s2 := with_themes_setting (fun rows => rows ++ [new_ts]) (after_uuid4 s)).
  (* the sub-themes the loop runs over *)
  destruct (get_sub_themes_by_theme_id_perm s (t_id theme) Hok) as (L & HL & HLperm).
  assert (HL2 : SubThemeDAO.get_sub_themes_by_theme_id (t_id theme) s2 = (s2, Ok L)).
  { unfold SubThemeDAO.get_sub_themes_by_theme_id in *. run.
    injection HL as <-. reflexivity. }
  fold (sub_themes_of s theme) in HLperm.
  assert (HLnd : NoDup (map (fun p => st_id (fst p)) L)).
  { rewrite <- (map_map fst st_id).
    apply (Permutation_NoDup (Permutation_sym (Permutation_map st_id HLperm))).
    unfold sub_themes_of.
    assert (Hpk := pk_sub_themes s Hok).
    clear - Hpk. induction (coures_sub_themes s) as [| a l IH]; simpl; [constructor |].
    inversion Hpk as [| ? ? Hnotin Hnd]; subst.
    destruct (st_coures_themes_id a =? t_id theme)%nat; simpl; [| auto].
    constructor; [| auto]. intro Hin. apply Hnotin.
    apply in_map_iff in Hin as [x [Ex Hx]]. apply filter_In in Hx as [Hx _].
    rewrite <- Ex. apply in_map. assumption. }
  destruct (materialize_loop y t created_by (clock s) L s2)
    as (s' & new_rows & Hloop & Hss & Hth & Hsts & Hts & Hce & _ & Hids & Hmap & Hen).
  { intros r Hr. simpl in *. specialize (F2 r Hr). lia. }
  { assumption. }
  (* the theme setting just inserted is found again *)
  assert (Hget : exists r, SchoolYearThemeSettingsDAO.get_school_year_theme_setting_by_code
                             y t (t_theme_code theme) s2 = (s2, Ok (Some r))).
  { unfold SchoolYearThemeSettingsDAO.get_school_year_theme_setting_by_code. run.
    destruct (fetchrow_filter_exists
                (fun r : ThemeSetting * Theme =>
                   ts_in_year_term y t (fst r) && (t_theme_code (snd r) =? t_theme_code theme))
                (SchoolYearThemeSettingsDAO.settings_with_theme s2) (new_ts, theme))
      as [r Hr].
    - unfold SchoolYearThemeSettingsDAO.settings_with_theme. apply in_inner_join.
      simpl. split; [apply in_or_app; right; simpl; auto |].
      split; [assumption | apply Nat.eqb_refl].
    - unfold ts_in_year_term. simpl. rewrite !Z.eqb_refl, String.eqb_refl. reflexivity.
    - unfold select_where. rewrite Hr. eauto. }
  destruct Hget as [info0 Hget].
  assert (Hsub_perm : Permutation (map ss_coures_sub_themes_id new_rows)
            (map st_id (filter (fun st => negb (has_setting_row s y t st))
                               (sub_themes_of s theme)))).
  { rewrite Hmap.
    rewrite (map_filter_fst st_id
               (fun st => negb (existsb (ss_has_key y t (st_id st))
                                        (academic_year_coures_sub_theme_settings s2))) L).
    apply Permutation_map. apply Permutation_filter. exact HLperm. }
  assert (Hnd_new : NoDup (map ss_coures_sub_themes_id new_rows)).
  { rewrite Hmap.
    rewrite (map_filter_fst st_id
               (fun st => negb (existsb (ss_has_key y t (st_id st))
                                        (academic_year_coures_sub_theme_settings s2))) L).
    rewrite <- (map_map fst st_id) in HLnd.
    clear - HLnd. induction (map fst L) as [| a l IH]; simpl; [constructor |].
    inversion HLnd as [| ? ? Hnotin Hnd]; subst.
    destruct (negb _); simpl; [| auto].
    constructor; [| auto]. intro Hin. apply Hnotin.
    apply in_map_iff in Hin as [x [Ex Hx]]. apply filter_In in Hx as [Hx _].
    rewrite <- Ex. apply in_map. assumption. }
  exists s', (mkThemeSettingInfo (tsi_setting info0) (tsi_theme info0) fill
                                 (tsi_sub_themes info0)), new_rows.
  split.
  { unfold SchoolYearThemeSettingsDAO.create_school_year_theme_setting. run.
    rewrite (get_theme_by_code_found s theme Hok Htheme). cbv beta iota.
    unfold Database.insert_themes_setting. simpl.
    fold new_ts.
    assert (Hchk : existsb (fun r => (ts_id r =? next_uuid s)%nat || ts_same_key r new_ts)
                           (academic_year_coures_themes_setting s) = false).
    { apply existsb_false_forall. intros r Hr. apply orb_false_iff. split.
      - apply Nat.eqb_neq. specialize (F1 r Hr). lia.
      - unfold ts_same_key. simpl. apply Hnone. assumption. }
    rewrite Hchk.
    change (with_themes_setting (fun rows => rows ++ [new_ts])
              (mkStore (coures_themes s) (coures_sub_themes s)
                 (academic_year_coures_themes_setting s)
                 (academic_year_coures_sub_theme_settings s)
                 (course_entries s) (COFSUBJ s) (S (next_uuid s)) (clock s) (md5_today s)))
      with s2.
    unfold SchoolYearThemeSettingsDAO.get_school_year_theme_setting_by_code in Hget.
    unfold SubThemeDAO.get_sub_themes_by_theme_id in HL2.
    cbv beta iota delta [query] in Hget, HL2.
    injection Hget as Hget. injection HL2 as HL2.
    rewrite Hget. cbv beta iota. rewrite HL2, Hloop. reflexivity. }
  split; [rewrite Hts; reflexivity |].
  split; [rewrite Hss; reflexivity |].
  split; [rewrite Hth; reflexivity |].
  split; [rewrite Hsts; reflexivity |].
  split; [rewrite Hce; reflexivity |].
  split; [exact Hsub_perm |].
  split; [exact Hen |].
  split.
  - intros st Hst.
    destruct (filter_has_key_new_rows y t (st_id st) new_rows Hnd_new)
      as [Hone Hzero].
    { intros r Hr. destruct (Hen r Hr) as (_ & ? & ?). auto. }
    rewrite Hss. simpl academic_year_coures_sub_theme_settings. rewrite filter_app.
    assert (Hmem : In (st_id st) (map ss_coures_sub_themes_id new_rows)
                   <-> has_setting_row s y t st = false).
    { rewrite (Permutation_in' eq_refl Hsub_perm).
      rewrite in_map_iff. split.
      - intros [x [Ex Hx]]. apply filter_In in Hx as [Hx Hneg].
        assert (x = st).
        { apply filter_In in Hx as [Hx _]. apply filter_In in Hst as [Hst _].
          apply (NoDup_map_inj st_id (coures_sub_themes s)); auto using pk_sub_themes. }
        subst x. apply negb_true_iff. assumption.
      - intros Hf. exists st. split; [reflexivity |]. apply filter_In.
        split; [assumption | apply negb_true_iff; assumption]. }
    destruct (has_setting_row s y t st) eqn:Hrow.
    + unfold has_setting_row in Hrow. apply existsb_exists in Hrow as [r0 [Hr0 Hk]].
      exists r0.
      rewrite (nodupb_filter_unique ss_same_key (ss_has_key y t (st_id st))
                 (academic_year_coures_sub_theme_settings s) r0
                 (ss_has_key_same y t (st_id st)) (uk_sub_theme_settings s Hok) Hr0 Hk).
      rewrite Hzero by (intro Hin; apply Hmem in Hin; discriminate).
      repeat split; auto. discriminate.
    + destruct Hone as [r [Hr Hf]]; [apply Hmem; reflexivity |].
      exists r.
      rewrite (filter_nil_forall (ss_has_key y t (st_id st))
                 (academic_year_coures_sub_theme_settings s)).
      2:{ apply existsb_false_forall. exact Hrow. }
      rewrite Hf. repeat split; auto. discriminate.
  - intros Hall.
    rewrite <- (length_map ss_coures_sub_themes_id), (Permutation_length Hsub_perm), length_map.
    f_equal. clear - Hall.
    induction (sub_themes_of s theme) as [| a l IH]; simpl; [reflexivity |].
    rewrite (Hall a) by (simpl; auto). simpl. f_equal. apply IH.
    intros st Hst. apply Hall. simpl; auto.
Qed.

(** C1, counterexample: sub-theme 1020 of theme A301 already has a disabled
    row in 113-1; creating the theme setting skips it, so the year-term ends
    with a disabled row among the theme's sub-theme settings. *)
Lemma existing_disabled_row_is_kept : ~ materializes_n_enabled_rows.
Proof.
  intro H.
  pose (s := Sample.store [] [Sample.sub_setting 40 113 1 10 false] []).
  pose (theme := mkTheme 1 "A301" "通識素養").
  destruct (SchoolYearThemeSettingsDAO.create_school_year_theme_setting
              113 1 "A301" true 3 false (Some "admin") s) as [s' [info | e]] eqn:E.
  - specialize (H s 113%Z 1%Z theme true 3%Z false (Some "admin") s' info
                  eq_refl (or_introl eq_refl) E).
    vm_compute in E. injection E as <- <-.
    destruct H as [_ H]. vm_compute in H. discriminate H.
  - vm_compute in E. discriminate E.
Qed.

Lemma create_school_year_theme_setting_materializes_witness :
  let s := Sample.store [] [] [] in
  let theme := mkTheme 1 "A301" "通識素養" in
  constraints_ok s = true
  /\ In theme (coures_themes s)
  /\ exists s' info new_rows,
       SchoolYearThemeSettingsDAO.create_school_year_theme_setting
         113 1 "A301" true 3 false (Some "admin") s = (s', Ok (Some info))
       /\ academic_year_coures_sub_theme_settings s' = new_rows
       /\ length new_rows = 2
       /\ forall r, In r new_rows -> ss_enabled r = true.
Proof.
  intros s theme. split; [reflexivity |]. split; [simpl; auto |].
  destruct (create_school_year_theme_setting_materializes
              s 113 1 theme true 3 false (Some "admin") eq_refl (or_introl eq_refl))
    as (s' & info & new_rows & Hrun & _ & Hss & _ & _ & _ & _ & Hen & _ & Hlen).
  - intros r [].
  - exists s', info, new_rows. split; [exact Hrun |]. split; [exact Hss |]. split.
    + rewrite Hlen; [reflexivity |]. intros st _. reflexivity.
    + intros r Hr. apply Hen. assumption.
Defined.

(** ** The LEFT JOIN of the catalog with the settings of a year-term *)

Lemma filter_filter {A} (p q : A -> bool) l :
  filter p (filter q l) = filter (fun x => q x && p x) l.
Proof.
  induction l as [| a l IH]; simpl; [reflexivity |].
  destruct (q a); simpl; [destruct (p a) |]; rewrite IH; reflexivity.
Qed.

Lemma find_filter {A} (p : A -> bool) l : find p l = hd_error (filter p l).
Proof.
  induction l as [| a l IH]; simpl; [reflexivity |]. destruct (p a); [reflexivity | exact IH].
Qed.

(** With at most one setting per sub-theme and year-term, the LEFT JOIN has
    one row per catalog sub-theme, carrying its setting if there is one. *)
Lemma left_join_unique {A B} (on : A -> B -> bool) (l : list A) (r : list B) :
  (forall a, In a l -> forall b bs, filter (on a) r = b :: bs -> bs = []) ->
  left_join on l r = map (fun a => (a, hd_error (filter (on a) r))) l.
Proof.
  unfold left_join. induction l as [| a l IH]; intros H; [reflexivity |].
  change (flat_map ?f (a :: l)) with (f a ++ flat_map f l).
  rewrite IH by (intros a' Ha'; apply H; simpl; auto).
  change (map ?g (a :: l)) with (g a :: map g l). cbv beta.
  destruct (filter (on a) r) as [| b bs] eqn:Hf; [reflexivity |].
  rewrite (H a (or_introl eq_refl) b bs Hf). reflexivity.
Qed.

Lemma sub_themes_left_join_rows s y t theme_id :
  nodupb ss_same_key (academic_year_coures_sub_theme_settings s) = true ->
  SchoolYearThemeSettingsDAO.sub_themes_left_join y t theme_id s
  = map (fun sub => (sub, find (ss_has_key y t (st_id sub))
                               (academic_year_coures_sub_theme_settings s)))
        (filter (fun sub => (st_coures_themes_id sub =? theme_id)%nat) (coures_sub_themes s)).
Proof.
  intros Huk. unfold SchoolYearThemeSettingsDAO.sub_themes_left_join, select_where.
  assert (E : forall sub r,
            ((st_id sub =? ss_coures_sub_themes_id r)%nat && ss_in_year_term y t r)
            = ss_has_key y t (st_id sub) r).
  { intros sub r. unfold ss_has_key. rewrite Nat.eqb_sym. apply andb_comm. }
  rewrite left_join_unique.
  - induction (coures_sub_themes s) as [| sub l IH]; [reflexivity |].
    cbn [map filter fst]. rewrite IH.
    destruct (st_coures_themes_id sub =? theme_id)%nat; [| reflexivity].
    cbn [map]. f_equal. f_equal. rewrite find_filter. f_equal.
    apply filter_ext. intro r. apply E.
  - intros sub _ b bs Hf.
    rewrite (filter_ext _ _ (E sub)) in Hf.
    assert (Hb : In b (filter (ss_has_key y t (st_id sub))
                              (academic_year_coures_sub_theme_settings s)))
      by (rewrite Hf; simpl; auto).
    apply filter_In in Hb as [Hb Hk].
    rewrite (nodupb_filter_unique ss_same_key _ _ b (ss_has_key_same y t (st_id sub)) Huk Hb Hk)
      in Hf.
    injection Hf as <-. reflexivity.
Qed.

(** The LEFT JOIN for a year-term sees only the catalog and the settings of
    that year-term. *)
Lemma sub_themes_left_join_same s s' y t theme_id :
  coures_sub_themes s' = coures_sub_themes s ->
  sub_theme_settings_in s' y t = sub_theme_settings_in s y t ->
  SchoolYearThemeSettingsDAO.sub_themes_left_join y t theme_id s'
  = SchoolYearThemeSettingsDAO.sub_themes_left_join y t theme_id s.
Proof.
  intros Hst Hss. unfold SchoolYearThemeSettingsDAO.sub_themes_left_join, left_join.
  rewrite Hst. f_equal. apply flat_map_ext. intro sub.
  assert (E : forall rows,
            filter (fun systs => (st_id sub =? ss_coures_sub_themes_id systs)%nat
                                 && ss_in_year_term y t systs) rows
            = filter (fun systs => (st_id sub =? ss_coures_sub_themes_id systs)%nat)
                     (filter (ss_in_year_term y t) rows)).
  { intro rows. rewrite filter_filter. apply filter_ext. intro r. apply andb_comm. }
  rewrite !E. unfold sub_theme_settings_in in Hss. rewrite Hss. reflexivity.
Qed.

Lemma NoDup_app_disjoint {A} (l1 l2 : list A) :
  NoDup (l1 ++ l2) -> forall a, In a l1 -> ~ In a l2.
Proof.
  induction l1 as [| x l1 IH]; simpl; intros Hnd a Ha; [contradiction |].
  inversion Hnd as [| ? ? Hnotin Hnd']; subst.
  destruct Ha as [-> | Ha].
  - intro Hin. apply Hnotin. apply in_or_app. auto.
  - apply IH; assumption.
Qed.

(** ** The loops of the settings copy *)

Lemma copy_sub_theme_step ty tt by_ now c (p : SubTheme * option SubThemeSetting) s :
  (forall r, In r (academic_year_coures_sub_theme_settings s) -> ss_id r < next_uuid s) ->
  SchoolYearThemeSettingsDAO.copy_sub_theme ty tt by_ now c p s
  = if existsb (ss_has_key ty tt (st_id (fst p))) (academic_year_coures_sub_theme_settings s)
    then (after_uuid4 s, Ok c)
    else (with_sub_theme_settings
            (fun rows => rows ++ [mkSubThemeSetting (next_uuid s) ty tt (st_id (fst p))
                                    (snd (SchoolYearThemeSettingsDAO.coalesce_enabled p))
                                    by_ by_ now now])
            (after_uuid4 s), Ok (c + 1)%Z).
Proof.
  intros Hfresh.
  unfold SchoolYearThemeSettingsDAO.copy_sub_theme, Database.insert_sub_theme_settings.
  run. simpl.
  set (new := mkSubThemeSetting (next_uuid s) ty tt (st_id (fst p))
                (match snd p with Some systs => ss_enabled systs | None => false end)
                by_ by_ now now).
  assert (E : existsb (fun r => (ss_id r =? next_uuid s)%nat || ss_same_key r new)
                      (academic_year_coures_sub_theme_settings s)
              = existsb (ss_has_key ty tt (st_id (fst p)))
                        (academic_year_coures_sub_theme_settings s)).
  { clear - Hfresh. induction (academic_year_coures_sub_theme_settings s) as [| a l IH];
      simpl; [reflexivity |].
    rewrite IH by (intros r Hr; apply Hfresh; simpl; auto).
    assert (Ha : (ss_id a =? next_uuid s)%nat = false).
    { apply Nat.eqb_neq. specialize (Hfresh a (or_introl eq_refl)). lia. }
    rewrite Ha. reflexivity. }
  rewrite E.
  destruct (existsb (ss_has_key ty tt (st_id (fst p))) (academic_year_coures_sub_theme_settings s));
    reflexivity.
Qed.

Lemma copy_sub_loop ty tt by_ now :
  forall (R : list (SubTheme * option SubThemeSetting)) c s,
  (forall r, In r (academic_year_coures_sub_theme_settings s) -> ss_id r < next_uuid s) ->
  NoDup (map (fun p => st_id (fst p)) R) ->
  exists s' new_rows,
    for_fold R c (SchoolYearThemeSettingsDAO.copy_sub_theme ty tt by_ now) s
    = (s', Ok (c + Z.of_nat (length new_rows))%Z)
    /\ academic_year_coures_sub_theme_settings s'
       = academic_year_coures_sub_theme_settings s ++ new_rows
    /\ coures_themes s' = coures_themes s
    /\ coures_sub_themes s' = coures_sub_themes s
    /\ academic_year_coures_themes_setting s' = academic_year_coures_themes_setting s
    /\ course_entries s' = course_entries s
    /\ clock s' = clock s
    /\ next_uuid s <= next_uuid s'
    /\ (forall r, In r new_rows -> ss_id r < next_uuid s')
    /\ map ss_flag new_rows
       = map (fun p => (st_id (fst p), snd (SchoolYearThemeSettingsDAO.coalesce_enabled p)))
           (filter (fun p => negb (existsb (ss_has_key ty tt (st_id (fst p)))
                                           (academic_year_coures_sub_theme_settings s))) R)
    /\ (forall r, In r new_rows -> ss_in_year_term ty tt r = true).
Proof.
  induction R as [| p R IH]; intros c s Hfresh Hnd.
  - exists s, []. simpl. unfold ret. rewrite app_nil_r, Z.add_0_r.
    repeat split; try reflexivity; try lia; contradiction.
  - inversion Hnd as [| ? ? Hnotin Hnd']; subst.
    simpl for_fold. unfold bind at 1.
    rewrite (copy_sub_theme_step ty tt by_ now c p s Hfresh).
    destruct (existsb (ss_has_key ty tt (st_id (fst p)))
                      (academic_year_coures_sub_theme_settings s)) eqn:Hex.
    + destruct (IH c (after_uuid4 s))
        as (s' & rows & Hrun & Hs & Ht & Hst & Hts & Hce & Hck & Hn & Hid & Hm & He).
      { intros r Hr. simpl in *. specialize (Hfresh r Hr). lia. }
      { assumption. }
      exists s', rows. simpl in *. rewrite Hex. simpl.
      split; [exact Hrun |]. split; [exact Hs |].
      repeat (split; [assumption |]).
      split; [lia |]. split; [exact Hid |]. split; [exact Hm | exact He].
    + set (new := mkSubThemeSetting (next_uuid s) ty tt (st_id (fst p))
                    (snd (SchoolYearThemeSettingsDAO.coalesce_enabled p)) by_ by_ now now).
      destruct (IH (c + 1)%Z (with_sub_theme_settings (fun rows => rows ++ [new]) (after_uuid4 s)))
        as (s' & rows & Hrun & Hs & Ht & Hst & Hts & Hce & Hck & Hn & Hid & Hm & He).
      { intros r Hr. simpl in *. apply in_app_or in Hr as [Hr | [<- | []]].
        - specialize (Hfresh r Hr). lia.
        - simpl. lia. }
      { assumption. }
      exists s', (new :: rows). simpl in *. rewrite Hex. simpl.
      assert (Hfil : forall q, In q R ->
                existsb (ss_has_key ty tt (st_id (fst q)))
                        (academic_year_coures_sub_theme_settings s ++ [new])
                = existsb (ss_has_key ty tt (st_id (fst q)))
                          (academic_year_coures_sub_theme_settings s)).
      { intros q Hq. rewrite existsb_app. simpl. rewrite orb_false_r.
        unfold ss_has_key at 2. simpl.
        assert (E : (st_id (fst p) =? st_id (fst q))%nat = false).
        { apply Nat.eqb_neq. intro E. apply Hnotin. rewrite E.
          apply (in_map (fun p0 => st_id (fst p0))). assumption. }
        rewrite E, andb_false_r, orb_false_r. reflexivity. }
      split.
      { rewrite Hrun. f_equal. f_equal. lia. }
      split; [rewrite Hs, <- app_assoc; reflexivity |].
      repeat (split; [assumption |]).
      split; [lia |].
      split.
      { intros r [<- | Hr]; [simpl; lia | apply Hid; assumption]. }
      split.
      { rewrite Hm. f_equal. f_equal. apply filter_ext_in. intros q Hq.
        rewrite Hfil by assumption. reflexivity. }
      { intros r [<- | Hr]; [| apply He; assumption].
        unfold ss_in_year_term. simpl. rewrite !Z.eqb_refl. reflexivity. }
Qed.

Lemma map_filter_comm {A B} (g : A -> B) (P : B -> bool) (l : list A) :
  map g (filter (fun a => P (g a)) l) = filter P (map g l).
Proof.
  induction l as [| a l IH]; simpl; [reflexivity |].
  destruct (P (g a)); simpl; rewrite IH; reflexivity.
Qed.

Lemma year_term_apart sy st ty tt r :
  (sy, st) <> (ty, tt) -> ss_in_year_term ty tt r = true -> ss_in_year_term sy st r = false.
Proof.
  unfold ss_in_year_term. intros Hneq H. apply andb_true_iff in H as [Hy Ht].
  apply Z.eqb_eq in Hy, Ht. apply andb_false_iff.
  destruct (Z.eqb_spec (ss_academic_year r) sy) as [E1 | E1]; [| auto].
  destruct (Z.eqb_spec (ss_academic_term r) st) as [E2 | E2]; [| auto].
  exfalso. apply Hneq. congruence.
Qed.

Section CopyLoop.

Variable s0 : Store.
Variables sy st ty tt : Z.
Variable by_ : option string.
Variable now : Z.
Hypothesis Hneq : (sy, st) <> (ty, tt).

(** The rows of the LEFT JOIN for a source theme setting, and the flags they give. *)
Let R (ts : ThemeSetting) :=
  SchoolYearThemeSettingsDAO.sub_themes_left_join sy st (ts_coures_themes_id ts) s0.
Let flags (ts : ThemeSetting) :=
  map (fun p => (st_id (fst p), snd (SchoolYearThemeSettingsDAO.coalesce_enabled p))) (R ts).

Lemma copy_theme_loop : forall (T : list ThemeSetting) c1 c2 s,
  coures_sub_themes s = coures_sub_themes s0 ->
  sub_theme_settings_in s sy st = sub_theme_settings_in s0 sy st ->
  (forall r, In r (academic_year_coures_themes_setting s) -> ts_id r < next_uuid s) ->
  (forall r, In r (academic_year_coures_sub_theme_settings s) -> ss_id r < next_uuid s) ->
  (forall r ts, In r (academic_year_coures_themes_setting s) -> In ts T ->
     ts_in_year_term ty tt r && (ts_coures_themes_id r =? ts_coures_themes_id ts)%nat = false) ->
  NoDup (map ts_coures_themes_id T) ->
  NoDup (flat_map (fun ts => map (fun p => st_id (fst p)) (R ts)) T) ->
  exists s' new_ts new_ss,
    for_fold T (c1, c2) (SchoolYearThemeSettingsDAO.copy_theme sy st ty tt by_ now) s
    = (s', Ok ((c1 + Z.of_nat (length T))%Z, (c2 + Z.of_nat (length new_ss))%Z))
    /\ academic_year_coures_themes_setting s' = academic_year_coures_themes_setting s ++ new_ts
    /\ map ts_config new_ts = map ts_config T
    /\ (forall r, In r new_ts -> ts_in_year_term ty tt r = true)
    /\ academic_year_coures_sub_theme_settings s'
       = academic_year_coures_sub_theme_settings s ++ new_ss
    /\ map ss_flag new_ss
       = filter (fun f => negb (existsb (ss_has_key ty tt (fst f))
                                        (academic_year_coures_sub_theme_settings s)))
                (flat_map flags T)
    /\ (forall r, In r new_ss -> ss_in_year_term ty tt r = true)
    /\ coures_themes s' = coures_themes s
    /\ coures_sub_themes s' = coures_sub_themes s
    /\ course_entries s' = course_entries s.
Proof.
  induction T as [| ts T IH]; intros c1 c2 s Hcat Hsrc F1 F2 Hnot Hnd1 Hnd2.
  - exists s, [], []. simpl. unfold ret. rewrite !app_nil_r, !Z.add_0_r.
    repeat split; try reflexivity; contradiction.
  - inversion Hnd1 as [| ? ? Hnotin1 Hnd1']; subst.
    simpl in Hnd2.
    pose proof (NoDup_app_remove_r _ _ Hnd2) as HndR.
    pose proof (NoDup_app_remove_l _ _ Hnd2) as HndT.
    pose proof (NoDup_app_disjoint _ _ Hnd2) as Hdisj.
    set (new := mkThemeSetting (next_uuid s) ty tt (ts_coures_themes_id ts)
                  (ts_fill_in_week_enabled ts) (ts_scale_max ts)
                  (ts_select_most_relevant_sub_theme_enabled ts) by_ by_ now now).
    set (s1 := with_themes_setting (fun rows => rows ++ [new]) (after_uuid4 s)).
    assert (HR1 : SchoolYearThemeSettingsDAO.sub_themes_left_join sy st
                    (ts_coures_themes_id ts) s1 = R ts).
    { unfold R. apply sub_themes_left_join_same; [exact Hcat | exact Hsrc]. }
    destruct (copy_sub_loop ty tt by_ now (R ts) c2 s1)
      as (s2 & rows & Hrun2 & Hs2 & Hth2 & Hst2 & Hts2 & Hce2 & Hck2 & Hn2 & Hid2 & Hm2 & He2).
    { intros r Hr. simpl in *. specialize (F2 r Hr). lia. }
    { exact HndR. }
    destruct (IH (c1 + 1)%Z (c2 + Z.of_nat (length rows))%Z s2)
      as (s' & new_ts & new_ss & Hrun & Hts & Hcfg & Hyt & Hss & Hfl & Hyt2 & Hth & Hst & Hce).
    { rewrite Hst2. exact Hcat. }
    { unfold sub_theme_settings_in in *. rewrite Hs2, filter_app.
      simpl academic_year_coures_sub_theme_settings.
      rewrite (filter_nil_forall (ss_in_year_term sy st) rows), app_nil_r; [exact Hsrc |].
      intros r Hr. apply (year_term_apart sy st ty tt); auto. }
    { intros r Hr. rewrite Hts2 in Hr. simpl in Hr.
      apply in_app_or in Hr as [Hr | [<- | []]].
      - specialize (F1 r Hr). simpl in Hn2. lia.
      - simpl in *. lia. }
    { intros r Hr. rewrite Hs2 in Hr. simpl in Hr.
      apply in_app_or in Hr as [Hr | Hr].
      - specialize (F2 r Hr). simpl in Hn2. lia.
      - apply Hid2. assumption. }
    { intros r ts' Hr Hts'. rewrite Hts2 in Hr. simpl in Hr.
      apply in_app_or in Hr as [Hr | [<- | []]].
      - apply Hnot; simpl; auto.
      - simpl. apply andb_false_iff. right. apply Nat.eqb_neq. intro E.
        apply Hnotin1. rewrite E. apply in_map. assumption. }
    { exact Hnd1'. }
    { exact HndT. }
    exists s', (new :: new_ts), (rows ++ new_ss).
    split.
    { simpl for_fold. unfold bind at 1.
      unfold SchoolYearThemeSettingsDAO.copy_theme at 1, Database.insert_themes_setting.
      run. simpl.
      fold new.
      assert (Hchk : existsb (fun r => (ts_id r =? next_uuid s)%nat || ts_same_key r new)
                             (academic_year_coures_themes_setting s) = false).
      { apply existsb_false_forall. intros r Hr. apply orb_false_iff. split.
        - apply Nat.eqb_neq. specialize (F1 r Hr). lia.
        - unfold ts_same_key. simpl. apply Hnot; simpl; auto. }
      rewrite Hchk.
      change (with_themes_setting (fun rows => rows ++ [new])
                (mkStore (coures_themes s) (coures_sub_themes s)
                   (academic_year_coures_themes_setting s)
                   (academic_year_coures_sub_theme_settings s)
                   (course_entries s) (COFSUBJ s) (S (next_uuid s)) (clock s) (md5_today s)))
        with s1.
      rewrite HR1, Hrun2. cbv beta iota. simpl fst. simpl snd.
      rewrite Hrun. f_equal. f_equal. f_equal.
      - simpl length. lia.
      - rewrite length_app. lia. }
    split.
    { rewrite Hts, Hts2. simpl. rewrite <- app_assoc. reflexivity. }
    split.
    { simpl. rewrite Hcfg. reflexivity. }
    split.
    { intros r [<- | Hr]; [| apply Hyt; assumption].
      unfold ts_in_year_term. simpl. rewrite !Z.eqb_refl. reflexivity. }
    split.
    { rewrite Hss, Hs2. simpl. rewrite <- app_assoc. reflexivity. }
    split.
    { rewrite map_app, Hm2, Hfl. simpl flat_map. rewrite filter_app. f_equal.
      - unfold flags.
        rewrite <- (map_filter_comm
                      (fun p => (st_id (fst p),
                                 snd (SchoolYearThemeSettingsDAO.coalesce_enabled p)))
                      (fun f => negb (existsb (ss_has_key ty tt (fst f))
                                              (academic_year_coures_sub_theme_settings s)))).
        reflexivity.
      - apply filter_ext_in. intros f Hf. f_equal.
        rewrite Hs2. simpl academic_year_coures_sub_theme_settings.
        rewrite existsb_app.
        assert (Hrows : existsb (ss_has_key ty tt (fst f)) rows = false).
        { apply existsb_false_forall. intros r Hr.
          unfold ss_has_key. apply andb_false_iff. right. apply Nat.eqb_neq. intro E.
          apply (Hdisj (fst f)).
          - assert (Hin : In (ss_flag r) (map ss_flag rows)) by (apply in_map; assumption).
            rewrite Hm2 in Hin. apply in_map_iff in Hin as [p [Ep Hp]].
            apply filter_In in Hp as [Hp _].
            apply in_map_iff. exists p. split; [| assumption].
            unfold ss_flag in Ep. injection Ep as Ep _. congruence.
          - apply in_flat_map in Hf as [ts' [Hts' Hf]].
            apply in_flat_map. exists ts'. split; [assumption |].
            unfold flags in Hf. apply in_map_iff in Hf as [p [Ep Hp]].
            apply in_map_iff. exists p. split; [| assumption]. rewrite <- Ep. reflexivity. }
        rewrite Hrows, orb_false_r. reflexivity. }
    split.
    { intros r Hr. apply in_app_or in Hr as [Hr | Hr]; [apply He2 | apply Hyt2]; assumption. }
    split; [rewrite Hth, Hth2; reflexivity |].
    split; [rewrite Hst, Hst2; reflexivity |].
    rewrite Hce, Hce2. reflexivity.
Qed.

End CopyLoop.

(** ** The settings copy as a whole *)

Lemma ts_year_term_apart sy st ty tt r :
  (sy, st) <> (ty, tt) -> ts_in_year_term sy st r = true -> ts_in_year_term ty tt r = false.
Proof.
  unfold ts_in_year_term. intros Hneq H. apply andb_true_iff in H as [Hy Ht].
  apply Z.eqb_eq in Hy, Ht. apply andb_false_iff.
  destruct (Z.eqb_spec (ts_academic_year r) ty) as [E1 | E1]; [| auto].
  destruct (Z.eqb_spec (ts_academic_term r) tt) as [E2 | E2]; [| auto].
  exfalso. apply Hneq. congruence.
Qed.

Lemma filter_delete_where_apart {A} (p q : A -> bool) rows :
  (forall r, p r = true -> q r = false) ->
  filter p (Database.delete_where q rows) = filter p rows.
Proof.
  intros H. unfold Database.delete_where. rewrite filter_filter.
  apply filter_ext. intro r. destruct (p r) eqn:E.
  - rewrite (H r E). reflexivity.
  - apply andb_false_r.
Qed.

Lemma filter_delete_where_same {A} (p : A -> bool) rows :
  filter p (Database.delete_where p rows) = [].
Proof.
  unfold Database.delete_where. rewrite filter_filter.
  apply filter_nil_forall. intros r _. destruct (p r); reflexivity.
Qed.

Lemma delete_where_none {A} (p : A -> bool) rows :
  filter p rows = [] -> Database.delete_where p rows = rows.
Proof.
  unfold Database.delete_where. induction rows as [| a l IH]; simpl; [reflexivity |].
  destruct (p a); simpl; [discriminate |]. intros H. rewrite IH by assumption. reflexivity.
Qed.

Lemma in_delete_where {A} (p : A -> bool) rows r :
  In r (Database.delete_where p rows) -> In r rows.
Proof. unfold Database.delete_where. intros H. apply filter_In in H. tauto. Qed.

(** The theme settings of one year-term are for pairwise distinct themes. *)
Lemma theme_ids_nodup y t rows :
  nodupb ts_same_key rows = true ->
  NoDup (map ts_coures_themes_id (filter (ts_in_year_term y t) rows)).
Proof.
  induction rows as [| a l IH]; simpl; intros H; [constructor |].
  apply andb_true_iff in H as [Ha Hl]. apply negb_true_iff in Ha.
  destruct (ts_in_year_term y t a) eqn:Ea; [| auto].
  simpl. constructor; [| auto].
  intro Hin. apply in_map_iff in Hin as [r [Er Hr]]. apply filter_In in Hr as [Hr Eyr].
  rewrite existsb_false_forall in Ha. specialize (Ha r Hr).
  unfold ts_same_key, ts_in_year_term in *.
  apply andb_true_iff in Ea as [E1 E2]. apply andb_true_iff in Eyr as [E3 E4].
  apply Z.eqb_eq in E1, E2, E3, E4.
  rewrite E3, E4, <- E1, <- E2, !Z.eqb_refl, Er, Nat.eqb_refl in Ha. discriminate.
Qed.

(** The catalog sub-themes under pairwise distinct themes are pairwise distinct. *)
Lemma sub_theme_ids_nodup (subs : list SubTheme) (T : list ThemeSetting) :
  NoDup (map st_id subs) -> NoDup (map ts_coures_themes_id T) ->
  NoDup (flat_map (fun ts =>
           map st_id (filter (fun sub => (st_coures_themes_id sub =? ts_coures_themes_id ts)%nat)
                             subs)) T).
Proof.
  intros Hsubs. induction T as [| ts T IH]; simpl; intros HT; [constructor |].
  inversion HT as [| ? ? Hnotin HT']; subst.
  apply NoDup_app.
  - clear - Hsubs. induction subs as [| a l IHs]; simpl; [constructor |].
    inversion Hsubs as [| ? ? Hn Hs]; subst.
    destruct (st_coures_themes_id a =? ts_coures_themes_id ts)%nat; simpl; [| auto].
    constructor; [| auto]. intro Hin. apply Hn.
    apply in_map_iff in Hin as [x [Ex Hx]]. apply filter_In in Hx as [Hx _].
    rewrite <- Ex. apply in_map. assumption.
  - apply IH. assumption.
  - intros id H1 H2.
    apply in_map_iff in H1 as [a [Ea Ha]]. apply filter_In in Ha as [Ha Eta].
    apply in_flat_map in H2 as [ts' [Hts' H2]].
    apply in_map_iff in H2 as [b [Eb Hb]]. apply filter_In in Hb as [Hb Etb].
    apply Nat.eqb_eq in Eta, Etb.
    assert (a = b) by (apply (NoDup_map_inj st_id subs); auto; congruence).
    subst b. apply Hnotin. rewrite <- Eta, Etb. apply in_map. assumption.
Qed.

Lemma flags_of_left_join s y t ts :
  nodupb ss_same_key (academic_year_coures_sub_theme_settings s) = true ->
  map (fun p => (st_id (fst p), snd (SchoolYearThemeSettingsDAO.coalesce_enabled p)))
      (SchoolYearThemeSettingsDAO.sub_themes_left_join y t (ts_coures_themes_id ts) s)
  = map (fun sub => (st_id sub, source_enabled s y t sub))
        (filter (fun sub => (st_coures_themes_id sub =? ts_coures_themes_id ts)%nat)
                (coures_sub_themes s)).
Proof.
  intros Huk. rewrite sub_themes_left_join_rows by assumption.
  rewrite map_map. apply map_ext. intro sub. reflexivity.
Qed.

Lemma ids_of_left_join s y t ts :
  nodupb ss_same_key (academic_year_coures_sub_theme_settings s) = true ->
  map (fun p => st_id (fst p))
      (SchoolYearThemeSettingsDAO.sub_themes_left_join y t (ts_coures_themes_id ts) s)
  = map st_id (filter (fun sub => (st_coures_themes_id sub =? ts_coures_themes_id ts)%nat)
                      (coures_sub_themes s)).
Proof.
  intros Huk. rewrite sub_themes_left_join_rows by assumption.
  rewrite map_map. apply map_ext. intro sub. reflexivity.
Qed.

Lemma count_rows_zero_nil {A} (l : list A) : (count_rows l =? 0)%Z = true <-> l = [].
Proof.
  unfold count_rows. destruct l; simpl; split; try reflexivity; discriminate.
Qed.

Lemma copy_school_year_theme_settings_runs s sy st ty tt created_by :
  constraints_ok s = true ->
  (sy, st) <> (ty, tt) ->
  theme_settings_in s sy st <> [] ->
  exists s' new_ts new_ss,
    SchoolYearThemeSettingsDAO.copy_school_year_theme_settings sy st ty tt created_by s
    = (s', Ok (mkCopyCounts
                 (Z.of_nat (length (theme_settings_in s sy st)))
                 (Z.of_nat (length new_ss))
                 (Z.of_nat (length (theme_settings_in s ty tt)))
                 (match theme_settings_in s ty tt with
                  | [] => 0%Z
                  | _ => Z.of_nat (length (sub_theme_settings_in s ty tt))
                  end)))
    /\ academic_year_coures_themes_setting s'
       = Database.delete_where (ts_in_year_term ty tt) (academic_year_coures_themes_setting s)
         ++ new_ts
    /\ map ts_config new_ts = map ts_config (theme_settings_in s sy st)
    /\ (forall r, In r new_ts -> ts_in_year_term ty tt r = true)
    /\ academic_year_coures_sub_theme_settings s' = kept_sub_settings s ty tt ++ new_ss
    /\ map ss_flag new_ss
       = filter (fun f => negb (existsb (ss_has_key ty tt (fst f)) (kept_sub_settings s ty tt)))
                (derived_sub_theme_flags s sy st)
    /\ (forall r, In r new_ss -> ss_in_year_term ty tt r = true)
    /\ coures_themes s' = coures_themes s
    /\ coures_sub_themes s' = coures_sub_themes s
    /\ course_entries s' = course_entries s.
Proof.
  intros Hok Hneq Hsrc.
  destruct (fresh_ids s Hok) as (F1 & F2 & _).
  pose proof (uk_sub_theme_settings s Hok) as Huk.
  set (T := theme_settings_in s sy st) in *.
  (* the store when the loop starts *)
  set (sd := match theme_settings_in s ty tt with
             | [] => s
             | _ => with_themes_setting (Database.delete_where (ts_in_year_term ty tt))
                      (with_sub_theme_settings (Database.delete_where (ss_in_year_term ty tt)) s)
             end).
  assert (Hsd_ts : academic_year_coures_themes_setting sd
                   = Database.delete_where (ts_in_year_term ty tt)
                       (academic_year_coures_themes_setting s)).
  { unfold sd. destruct (theme_settings_in s ty tt) eqn:E; [| reflexivity].
    symmetry. apply delete_where_none. exact E. }
  assert (Hsd_ss : academic_year_coures_sub_theme_settings sd = kept_sub_settings s ty tt).
  { unfold sd, kept_sub_settings. destruct (theme_settings_in s ty tt); reflexivity. }
  assert (Hsd_cat : coures_sub_themes sd = coures_sub_themes s
                    /\ coures_themes sd = coures_themes s
                    /\ course_entries sd = course_entries s
                    /\ next_uuid sd = next_uuid s /\ clock sd = clock s).
  { unfold sd. destruct (theme_settings_in s ty tt); repeat split. }
  destruct Hsd_cat as (Hc1 & Hc2 & Hc3 & Hc4 & Hc5).
  assert (Hkept_in : forall r, In r (kept_sub_settings s ty tt) ->
                               In r (academic_year_coures_sub_theme_settings s)).
  { unfold kept_sub_settings. destruct (theme_settings_in s ty tt); [auto |].
    intros r. apply in_delete_where. }
  assert (Hsrc_ss : sub_theme_settings_in sd sy st = sub_theme_settings_in s sy st).
  { unfold sub_theme_settings_in. rewrite Hsd_ss. unfold kept_sub_settings.
    destruct (theme_settings_in s ty tt); [reflexivity |].
    apply filter_delete_where_apart. intros r Hr.
    apply (year_term_apart ty tt sy st); [congruence | assumption]. }
  assert (HT : select_where (ts_in_year_term sy st) (academic_year_coures_themes_setting sd) = T).
  { unfold select_where. rewrite Hsd_ts. apply filter_delete_where_apart.
    intros r Hr. apply (ts_year_term_apart sy st ty tt); assumption. }
  destruct (copy_theme_loop s sy st ty tt created_by (clock s) Hneq T 0%Z 0%Z sd)
    as (s' & new_ts & new_ss & Hrun & Hts & Hcfg & Hyt & Hss & Hfl & Hyt2 & Hth & Hst & Hce).
  { exact Hc1. }
  { exact Hsrc_ss. }
  { intros r Hr. rewrite Hsd_ts in Hr. apply in_delete_where in Hr. rewrite Hc4. auto. }
  { intros r Hr. rewrite Hsd_ss in Hr. rewrite Hc4. auto. }
  { intros r ts Hr _. rewrite Hsd_ts in Hr. unfold Database.delete_where in Hr.
    apply filter_In in Hr as [_ Hr]. apply negb_true_iff in Hr. rewrite Hr. reflexivity. }
  { apply theme_ids_nodup. apply uk_themes_setting. assumption. }
  { rewrite (flat_map_ext _ _ (fun ts => ids_of_left_join s sy st ts Huk)).
    apply sub_theme_ids_nodup.
    - apply pk_sub_themes. assumption.
    - apply theme_ids_nodup. apply uk_themes_setting. assumption. }
  exists s', new_ts, new_ss.
  split.
  { unfold SchoolYearThemeSettingsDAO.copy_school_year_theme_settings. run.
    fold (theme_settings_in s sy st). fold T.
    assert (E0 : (count_rows T =? 0)%Z = false).
    { destruct (count_rows T =? 0)%Z eqn:E; [| reflexivity].
      apply count_rows_zero_nil in E. contradiction. }
    unfold select_where at 1. fold (theme_settings_in s sy st). fold T. rewrite E0.
    unfold select_where at 1. fold (theme_settings_in s ty tt).
    unfold select_where at 1. fold (sub_theme_settings_in s ty tt).
    match goal with
    | |- (let (_, _) := ?X in _) = _ => remember X as br eqn:Hbr
    end.
    assert (Hbranch : br = (sd, @Ok (Z * Z) (Z.of_nat (length (theme_settings_in s ty tt)),
                         match theme_settings_in s ty tt with
                         | [] => 0%Z
                         | _ => Z.of_nat (length (sub_theme_settings_in s ty tt))
                         end))).
    { rewrite Hbr.
      unfold sd, theme_settings_in, sub_theme_settings_in, select_where, count_rows.
      destruct (filter (ts_in_year_term ty tt) (academic_year_coures_themes_setting s));
        reflexivity. }
    rewrite Hbranch. cbv beta iota. rewrite HT, Hc5, Hrun. reflexivity. }
  split; [rewrite Hts, Hsd_ts; reflexivity |].
  split; [exact Hcfg |].
  split; [exact Hyt |].
  split; [rewrite Hss, Hsd_ss; reflexivity |].
  split.
  { rewrite Hfl, Hsd_ss. f_equal. unfold derived_sub_theme_flags. fold T.
    apply flat_map_ext. intro ts. apply flags_of_left_join. assumption. }
  split; [exact Hyt2 |].
  split; [rewrite Hth; exact Hc2 |].
  split; [rewrite Hst; exact Hc1 |].
  rewrite Hce. exact Hc3.
Qed.

Lemma filter_all {A} (p : A -> bool) l : (forall x, In x l -> p x = true) -> filter p l = l.
Proof.
  induction l as [| a l IH]; simpl; intros H; [reflexivity |].
  rewrite (H a) by auto. f_equal. apply IH. intros x Hx. apply H. auto.
Qed.

Lemma no_target_row_no_key ty tt rows :
  filter (ss_in_year_term ty tt) rows = [] ->
  forall id, existsb (ss_has_key ty tt id) rows = false.
Proof.
  intros H id. apply existsb_false_forall. intros r Hr.
  unfold ss_has_key. destruct (ss_in_year_term ty tt r) eqn:E; [| reflexivity].
  assert (Hin : In r (filter (ss_in_year_term ty tt) rows)) by (apply filter_In; auto).
  rewrite H in Hin. contradiction.
Qed.

Lemma copy_school_year_theme_settings_refused s sy st ty tt created_by :
  theme_settings_in s sy st = [] ->
  SchoolYearThemeSettingsDAO.copy_school_year_theme_settings sy st ty tt created_by s
  = (s, Raise ValueError).
Proof.
  unfold theme_settings_in. intros H.
  unfold SchoolYearThemeSettingsDAO.copy_school_year_theme_settings. run.
  unfold select_where. rewrite H. reflexivity.
Qed.

(** C4, amended: with a valid token, in a store that satisfies its
    constraints and for a target year-term other than the source,
    [copy_school_year_theme_settings] fails with the BadRequest domain error
    when the source has no theme setting.  Otherwise it succeeds: when the
    target has theme settings it deletes all theme and sub-theme settings of
    the target and reports their numbers (it reports and deletes nothing
    when the target has no theme setting); it inserts one target theme
    setting per source theme setting, with the same configuration, and one
    target sub-theme setting, with the source's flag or disabled when the
    source has no row, per catalog sub-theme under each copied theme that
    has no row left in the target; the counts it returns are the numbers
    inserted.  When the target had theme settings, or had no sub-theme
    setting, its settings afterwards are exactly those derived from the
    source. *)
Theorem copy_school_year_theme_settings_overwrites :
  forall s sy st ty tt user_id token,
    token = md5_today s user_id ->
    constraints_ok s = true ->
    (sy, st) <> (ty, tt) ->
    let data := mkThemeSettingsCopyRequest sy st ty tt user_id token in
    (theme_settings_in s sy st = [] ->
       SchoolYearThemeSettingsCopyBusiness.copy_school_year_theme_settings data s
       = (s, Raise (HTTPException HTTP_400_BAD_REQUEST)))
    /\ (theme_settings_in s sy st <> [] ->
        exists s' new_ts new_ss,
          SchoolYearThemeSettingsCopyBusiness.copy_school_year_theme_settings data s
          = (s', Ok (mkCopyCounts
                       (Z.of_nat (length (theme_settings_in s sy st)))
                       (Z.of_nat (length new_ss))
                       (Z.of_nat (length (theme_settings_in s ty tt)))
                       (match theme_settings_in s ty tt with
                        | [] => 0%Z
                        | _ => Z.of_nat (length (sub_theme_settings_in s ty tt))
                        end)))
          /\ academic_year_coures_themes_setting s'
             = Database.delete_where (ts_in_year_term ty tt)
                 (academic_year_coures_themes_setting s) ++ new_ts
          /\ map ts_config new_ts = map ts_config (theme_settings_in s sy st)
          /\ (forall r, In r new_ts -> ts_in_year_term ty tt r = true)
          /\ academic_year_coures_sub_theme_settings s' = kept_sub_settings s ty tt ++ new_ss
          /\ map ss_flag new_ss
             = filter (fun f => negb (existsb (ss_has_key ty tt (fst f))
                                              (kept_sub_settings s ty tt)))
                      (derived_sub_theme_flags s sy st)
          /\ (forall r, In r new_ss -> ss_in_year_term ty tt r = true)
          /\ coures_themes s' = coures_themes s
          /\ coures_sub_themes s' = coures_sub_themes s
          /\ course_entries s' = course_entries s
          /\ (theme_settings_in s ty tt <> [] \/ sub_theme_settings_in s ty tt = [] ->
              map ts_config (theme_settings_in s' ty tt)
              = map ts_config (theme_settings_in s sy st)
              /\ map ss_flag (sub_theme_settings_in s' ty tt) = derived_sub_theme_flags s sy st
              /\ length new_ss = length (derived_sub_theme_flags s sy st))).
Proof.
  intros s sy st ty tt user_id token Htok Hok Hneq data. split.
  - intros Hsrc.
    unfold SchoolYearThemeSettingsCopyBusiness.copy_school_year_theme_settings. run.
    simpl tc_token. simpl tc_user_id.
    rewrite (verify_token_ok _ _ _ Htok). cbv beta iota.
    simpl tc_source_academic_year. simpl tc_source_academic_term.
    simpl tc_target_academic_year. simpl tc_target_academic_term.
    rewrite (copy_school_year_theme_settings_refused s sy st ty tt (Some user_id) Hsrc).
    reflexivity.
  - intros Hsrc.
    destruct (copy_school_year_theme_settings_runs s sy st ty tt (Some user_id) Hok Hneq Hsrc)
      as (s' & new_ts & new_ss & Hrun & Hts & Hcfg & Hyt & Hss & Hfl & Hyt2 & Hth & Hst & Hce).
    exists s', new_ts, new_ss.
    split.
    { unfold SchoolYearThemeSettingsCopyBusiness.copy_school_year_theme_settings. run.
      simpl tc_token. simpl tc_user_id.
      rewrite (verify_token_ok _ _ _ Htok). cbv beta iota.
      simpl tc_source_academic_year. simpl tc_source_academic_term.
      simpl tc_target_academic_year. simpl tc_target_academic_term.
      rewrite Hrun. reflexivity. }
    repeat (split; [assumption |]).
    intros Hclean.
    assert (Hkept : filter (ss_in_year_term ty tt) (kept_sub_settings s ty tt) = []).
    { unfold kept_sub_settings.
      destruct (theme_settings_in s ty tt) eqn:E.
      - destruct Hclean as [Hc | Hc]; [contradiction | exact Hc].
      - apply filter_delete_where_same. }
    assert (Hall : map ss_flag new_ss = derived_sub_theme_flags s sy st).
    { rewrite Hfl. apply filter_all. intros f _.
      rewrite (no_target_row_no_key ty tt _ Hkept). reflexivity. }
    split.
    { unfold theme_settings_in at 1. rewrite Hts, filter_app, filter_delete_where_same.
      simpl. rewrite (filter_all _ _ Hyt). exact Hcfg. }
    split.
    { unfold sub_theme_settings_in. rewrite Hss, filter_app, Hkept. simpl.
      rewrite (filter_all _ _ Hyt2). exact Hall. }
    rewrite <- Hall. symmetry. apply length_map.
Qed.

(** C4, counterexample: the target 114-1 has no theme setting but holds a
    stray sub-theme setting; the copy from 113-1 deletes nothing, and the
    stray row is still there afterwards. *)
Lemma stray_target_setting_survives : ~ copy_leaves_exactly_the_source.
Proof.
  intro H.
  pose (s := Sample.store [Sample.theme_setting 60 113 1 1 true false]
                          [Sample.sub_setting 40 113 1 10 true;
                           Sample.sub_setting 41 114 1 20 true] []).
  destruct (SchoolYearThemeSettingsDAO.copy_school_year_theme_settings
              113 1 114 1 (Some "admin") s) as [s' [counts | e]] eqn:E.
  - specialize (H s 113%Z 1%Z 114%Z 1%Z (Some "admin") s' counts eq_refl E).
    vm_compute in E. injection E as <- <-.
    destruct H as [_ H]. apply Permutation_length in H. vm_compute in H. discriminate H.
  - vm_compute in E. discriminate E.
Qed.

Lemma copy_school_year_theme_settings_overwrites_witness :
  let s := Sample.store [Sample.theme_setting 60 113 1 1 true false;
                         Sample.theme_setting 61 114 1 2 false false]
                        [Sample.sub_setting 40 113 1 10 true;
                         Sample.sub_setting 41 114 1 20 true] [] in
  "md5:admin" = md5_today s "admin"
  /\ constraints_ok s = true
  /\ (113%Z, 1%Z) <> (114%Z, 1%Z)
  /\ exists s' n,
       SchoolYearThemeSettingsCopyBusiness.copy_school_year_theme_settings
         (mkThemeSettingsCopyRequest 113 1 114 1 "admin" "md5:admin") s
       = (s', Ok (mkCopyCounts 1 n 1 1))
       /\ map ss_flag (sub_theme_settings_in s' 114 1) = [(10, true); (11, false)].
Proof.
  intros s.
  assert (Hneq : (113%Z, 1%Z) <> (114%Z, 1%Z)) by discriminate.
  split; [reflexivity |]. split; [reflexivity |]. split; [exact Hneq |].
  destruct (copy_school_year_theme_settings_overwrites s 113 1 114 1 "admin" "md5:admin"
              eq_refl eq_refl Hneq) as [_ H].
  destruct H as (s' & new_ts & new_ss & Hrun & _ & _ & _ & _ & _ & _ & _ & _ & _ & Hclean).
  - discriminate.
  - destruct Hclean as (_ & Hflags & _); [left; discriminate |].
    exists s', (Z.of_nat (length new_ss)). split; [exact Hrun | exact Hflags].
Defined.

(** ** Copying the entries of a course *)

(** C5: on a store that satisfies its constraints, [copy_course_entries]
    answers copied 1, skipped 0, deleted 1, yet the entry of the course that
    was in the target year-term before the copy is still stored afterwards:
    [delete_course_entry] looks the entry up through a setting row of its
    sub-theme code and finds none.  [delete_course_entries_by_subj_no], on
    the same store, removes it. *)
Theorem copy_course_entries_keeps_stale_target_entry :
  constraints_ok stale_target_store = true
  /\ (exists s',
        SchoolYearBusiness.copy_course_entries stale_copy_request stale_target_store
        = (s', Ok (mkCopyEntriesCounts 1 0 1))
        /\ In stale_entry (course_entries s')
        /\ length (filter (ce_of_course "C1" "0001" 114 1) (course_entries s')) = 2)
  /\ (exists s2,
        CourseEntriesDAO.delete_course_entries_by_subj_no "C1" "0001" 114 1 stale_target_store
        = (s2, Ok 1%Z)
        /\ filter (ce_of_course "C1" "0001" 114 1) (course_entries s2) = []).
Proof.
  split; [reflexivity |]. split.
  - eexists. split; [vm_compute; reflexivity |]. split.
    + simpl. right. left. reflexivity.
    + reflexivity.
  - eexists. split; [vm_compute; reflexivity |]. reflexivity.
Qed.

(** ** Dicts *)

Lemma NoDup_snoc {A} (l : list A) x : NoDup l -> ~ In x l -> NoDup (l ++ [x]).
Proof.
  intros Hnd Hx. apply (Permutation_NoDup (Permutation_cons_append l x)).
  constructor; assumption.
Qed.

Section Dict.

Context {K V : Type}.
Variable eqb : K -> K -> bool.
Hypothesis eqb_spec : forall a b, eqb a b = true <-> a = b.

Lemma dict_get_set_same k (v : V) d : dict_get eqb k (dict_set eqb k v d) = Some v.
Proof.
  unfold dict_get. induction d as [| kv d IH]; simpl.
  - rewrite (proj2 (eqb_spec k k) eq_refl). reflexivity.
  - destruct (eqb (fst kv) k) eqn:E; simpl; rewrite E; [reflexivity | exact IH].
Qed.

Lemma dict_get_set_other k k' (v : V) d :
  k' <> k -> dict_get eqb k' (dict_set eqb k v d) = dict_get eqb k' d.
Proof.
  intros Hne. unfold dict_get. induction d as [| kv d IH]; simpl.
  - destruct (eqb k k') eqn:E; [| reflexivity].
    apply eqb_spec in E. congruence.
  - destruct (eqb (fst kv) k) eqn:E; simpl.
    + apply eqb_spec in E. destruct (eqb (fst kv) k') eqn:E'; [| reflexivity].
      apply eqb_spec in E'. congruence.
    + destruct (eqb (fst kv) k'); [reflexivity | exact IH].
Qed.

Lemma dict_get_In k (d : list (K * V)) :
  In k (map fst d) <-> dict_get eqb k d <> None.
Proof.
  unfold dict_get. induction d as [| kv d IH]; simpl.
  - split; [contradiction | congruence].
  - destruct (eqb (fst kv) k) eqn:E.
    + apply eqb_spec in E. split; [discriminate | auto].
    + split.
      * intros [H | H]; [apply eqb_spec in H; congruence | apply IH; exact H].
      * intros H. right. apply IH. exact H.
Qed.

Lemma dict_set_keys k (v : V) d :
  map fst (dict_set eqb k v d)
  = if existsb (fun k' => eqb k' k) (map fst d) then map fst d else map fst d ++ [k].
Proof.
  induction d as [| kv d IH]; simpl; [reflexivity |].
  destruct (eqb (fst kv) k) eqn:E; simpl; [reflexivity |].
  rewrite IH. destruct (existsb _ (map fst d)); reflexivity.
Qed.

Lemma dict_set_NoDup k (v : V) d :
  NoDup (map fst d) -> NoDup (map fst (dict_set eqb k v d)).
Proof.
  intros Hnd. rewrite dict_set_keys.
  destruct (existsb (fun k' => eqb k' k) (map fst d)) eqn:E; [exact Hnd |].
  apply NoDup_snoc; [exact Hnd |]. intros Hx.
  assert (Hf : forall y, In y (map fst d) -> eqb y k = false)
    by (apply existsb_false_forall; exact E).
  specialize (Hf k Hx). rewrite (proj2 (eqb_spec k k) eq_refl) in Hf. discriminate.
Qed.

Lemma dict_set_fresh k (v : V) d :
  ~ In k (map fst d) -> dict_set eqb k v d = d ++ [(k, v)].
Proof.
  induction d as [| kv d IH]; simpl; intros Hn; [reflexivity |].
  destruct (eqb (fst kv) k) eqn:E.
  - apply eqb_spec in E. tauto.
  - f_equal. apply IH. tauto.
Qed.

End Dict.

Lemma key_eqb_spec a b : key_eqb a b = true <-> a = b.
Proof.
  unfold key_eqb. destruct a as [a1 a2], b as [b1 b2]. simpl.
  rewrite andb_true_iff, !String.eqb_eq. split; [intros [-> ->]; reflexivity |].
  intros H. injection H as -> ->. auto.
Qed.

Lemma string_eqb_spec (a b : string) : (a =? b) = true <-> a = b.
Proof. apply String.eqb_eq. Qed.

Lemma entries_dict_get c entries :
  dict_get String.eqb c (entries_dict entries)
  = find (fun e : EntryDict => er_sub_theme_code (fst e) =? c) (rev entries).
Proof.
  unfold entries_dict. induction entries as [| e entries IH] using rev_ind; [reflexivity |].
  rewrite fold_left_app, rev_app_distr. simpl.
  destruct (er_sub_theme_code (fst e) =? c) eqn:E.
  - apply String.eqb_eq in E. subst c. apply dict_get_set_same. exact string_eqb_spec.
  - rewrite dict_get_set_other; [exact IH | exact string_eqb_spec |].
    intros ->. rewrite String.eqb_refl in E. discriminate.
Qed.

Lemma filter_none {A} (p : A -> bool) l : existsb p l = false -> filter p l = [].
Proof.
  induction l as [| a l IH]; simpl; [reflexivity |].
  destruct (p a); simpl; [discriminate | exact IH].
Qed.

Lemma courses_dict_get k entries :
  dict_get key_eqb k (fold_left SchoolYearBusiness.add_entry entries [])
  = if existsb (in_course k) entries then Some (course_data_of k entries) else None.
Proof.
  induction entries as [| e entries IH] using rev_ind; [reflexivity |].
  rewrite fold_left_app, existsb_app. simpl. rewrite orb_false_r.
  unfold SchoolYearBusiness.add_entry at 1.
  set (k0 := (ce_subj_no (er_entry (fst e)), ce_ps_class_nbr (er_entry (fst e)))).
  destruct (in_course k e) eqn:Ek.
  - rewrite orb_true_r.
    assert (k0 = k) by (apply key_eqb_spec; exact Ek). subst k.
    rewrite dict_get_set_same by exact key_eqb_spec.
    f_equal. unfold course_data_of. rewrite filter_app. simpl. rewrite Ek.
    unfold last_name, entries_dict. rewrite !fold_left_app. simpl.
    rewrite IH. destruct (existsb (in_course k0) entries) eqn:Ex.
    + reflexivity.
    + rewrite (filter_none _ _ Ex). reflexivity.
  - rewrite orb_false_r.
    rewrite dict_get_set_other; [| exact key_eqb_spec |].
    + rewrite IH. unfold course_data_of. rewrite filter_app. simpl. rewrite Ek, app_nil_r.
      reflexivity.
    + intros ->. unfold in_course, course_key in Ek. fold k0 in Ek.
      rewrite (proj2 (key_eqb_spec k0 k0) eq_refl) in Ek. discriminate.
Qed.

Lemma courses_dict_keys_NoDup entries :
  NoDup (map fst (fold_left SchoolYearBusiness.add_entry entries [])).
Proof.
  induction entries as [| e entries IH] using rev_ind; [constructor |].
  rewrite fold_left_app. simpl. unfold SchoolYearBusiness.add_entry at 1.
  apply dict_set_NoDup; [exact key_eqb_spec | exact IH].
Qed.

Lemma courses_dict_keys k entries :
  In k (map fst (fold_left SchoolYearBusiness.add_entry entries []))
  <-> exists e, In e entries /\ course_key (er_entry (fst e)) = k.
Proof.
  rewrite (dict_get_In key_eqb key_eqb_spec), courses_dict_get.
  destruct (existsb (in_course k) entries) eqn:E.
  - apply existsb_exists in E as [e [He Hk]]. split; [| discriminate].
    intros _. exists e. split; [exact He | apply key_eqb_spec; exact Hk].
  - split; [congruence |]. intros [e [He Hk]].
    assert (Hf : forall x, In x entries -> in_course k x = false)
      by (apply existsb_false_forall; exact E).
    specialize (Hf e He). unfold in_course in Hf.
    rewrite (proj2 (key_eqb_spec _ _) Hk) in Hf. discriminate.
Qed.

(** ** The columns *)

Lemma nodupb_string_NoDup (l : list string) : nodupb String.eqb l = true -> NoDup l.
Proof.
  induction l as [| a l IH]; simpl; intros H; [constructor |].
  apply andb_true_iff in H as [Ha Hl]. apply negb_true_iff in Ha.
  constructor; [| apply IH; exact Hl].
  intros Hin.
  assert (Hf : forall x, In x l -> String.eqb a x = false)
    by (apply existsb_false_forall; exact Ha).
  specialize (Hf a Hin). rewrite String.eqb_refl in Hf. discriminate.
Qed.

Lemma not_in_existsb (x : string) l : ~ In x l -> existsb (String.eqb x) l = false.
Proof.
  intros Hn. apply existsb_false_forall. intros y Hy.
  destruct (String.eqb x y) eqn:E; [| reflexivity].
  apply String.eqb_eq in E. subst y. contradiction.
Qed.

Lemma fold_sub_theme_columns theme_code wk subs :
  forall csv cols,
    NoDup (csv ++ map col_name (flat_map (sub_theme_infos theme_code wk)
                                         (map fst (filter snd subs)))) ->
    fold_left (SchoolYearBusiness.add_sub_theme_columns theme_code wk) subs (csv, cols)
    = (csv ++ map col_name (flat_map (sub_theme_infos theme_code wk) (map fst (filter snd subs))),
       cols ++ flat_map (sub_theme_infos theme_code wk) (map fst (filter snd subs))).
Proof.
  induction subs as [| [sub en] subs IH]; intros csv cols Hnd.
  - simpl. rewrite !app_nil_r. reflexivity.
  - cbn [fold_left]. unfold SchoolYearBusiness.add_sub_theme_columns at 2.
    cbn [snd fst filter] in Hnd |- *. destruct en; cbn [negb map flat_map] in Hnd |- *.
    + change (fst (sub, true)) with sub in *.
      specialize (IH (csv ++ map col_name (sub_theme_infos theme_code wk sub))
                     (cols ++ sub_theme_infos theme_code wk sub)).
      remember (flat_map (sub_theme_infos theme_code wk) (map fst (filter snd subs)))
        as rest eqn:Hrest.
      rewrite map_app, app_assoc in Hnd. specialize (IH Hnd).
      rewrite map_app, !app_assoc. rewrite <- IH. clear IH.
      unfold sub_theme_infos in Hnd |- *. destruct wk; cbn [app map col_name] in Hnd |- *.
      * set (cname := SchoolYearBusiness.column_name_of _ _ _) in *.
        set (wname := SchoolYearBusiness.week_col_name_of _ _ _) in *.
        assert (Hfresh : ~ In wname (csv ++ [cname])).
        { intros Hin. apply NoDup_app_remove_r in Hnd.
          change (csv ++ [cname; wname]) with (csv ++ [cname] ++ [wname]) in Hnd.
          rewrite app_assoc in Hnd.
          apply (NoDup_app_disjoint _ _ Hnd wname Hin). left. reflexivity. }
        rewrite (not_in_existsb _ _ Hfresh). cbn [negb].
        rewrite <- !app_assoc. reflexivity.
      * reflexivity.
    + apply IH. exact Hnd.
Qed.

Lemma add_theme_columns_found theme_settings theme_code theme_setting csv dict :
  find (fun ts => t_theme_code (tsi_theme ts) =? theme_code) theme_settings = Some theme_setting ->
  NoDup (csv ++ map col_name (theme_infos theme_code theme_setting)) ->
  SchoolYearBusiness.add_theme_columns theme_settings (csv, dict) theme_code
  = (csv ++ map col_name (theme_infos theme_code theme_setting),
     dict_set String.eqb theme_code (theme_infos theme_code theme_setting) dict).
Proof.
  intros Hfind Hnd. unfold SchoolYearBusiness.add_theme_columns. rewrite Hfind.
  unfold theme_infos in *. cbn [fst snd].
  destruct (ts_select_most_relevant_sub_theme_enabled (tsi_setting theme_setting)).
  - rewrite fold_sub_theme_columns.
    + cbn [fst snd]. rewrite map_app, app_assoc. reflexivity.
    + rewrite map_app, app_assoc in Hnd. exact Hnd.
  - rewrite fold_sub_theme_columns.
    + reflexivity.
    + exact Hnd.
Qed.

Lemma fold_theme_columns theme_settings codes :
  forall csv dict,
    NoDup codes ->
    (forall c, In c codes -> ~ In c (map fst dict)) ->
    NoDup (csv ++ map col_name (flat_map snd (displayed_infos theme_settings codes))) ->
    fold_left (SchoolYearBusiness.add_theme_columns theme_settings) codes (csv, dict)
    = (csv ++ map col_name (flat_map snd (displayed_infos theme_settings codes)),
       dict ++ displayed_infos theme_settings codes).
Proof.
  induction codes as [| c codes IH]; intros csv dict Hcodes Hfresh Hnd.
  - simpl. rewrite !app_nil_r. reflexivity.
  - inversion Hcodes as [| ? ? Hc Hcodes']; subst.
    cbn [fold_left]. unfold displayed_infos in Hnd |- *. cbn [flat_map] in Hnd |- *.
    destruct (find (fun ts => t_theme_code (tsi_theme ts) =? c) theme_settings)
      as [theme_setting |] eqn:Hfind.
    + fold (displayed_infos theme_settings codes) in Hnd |- *.
      cbn [app flat_map snd] in Hnd |- *.
      rewrite map_app, app_assoc in Hnd.
      rewrite (add_theme_columns_found _ _ _ _ _ Hfind)
        by (apply NoDup_app_remove_r in Hnd; exact Hnd).
      rewrite dict_set_fresh by (try exact string_eqb_spec; apply Hfresh; left; reflexivity).
      rewrite IH.
      * rewrite map_app, <- !app_assoc. reflexivity.
      * exact Hcodes'.
      * intros c' Hc' Hin. rewrite map_app in Hin. apply in_app_or in Hin as [Hin | Hin].
        -- apply (Hfresh c'); [right; exact Hc' | exact Hin].
        -- simpl in Hin. destruct Hin as [<- | []]. contradiction.
      * exact Hnd.
    + fold (displayed_infos theme_settings codes) in Hnd |- *.
      unfold SchoolYearBusiness.add_theme_columns at 2. rewrite Hfind.
      cbn [app]. apply IH; [exact Hcodes' | | exact Hnd].
      intros c' Hc'. apply Hfresh. right. exact Hc'.
Qed.

Lemma flat_map_ext_In {A B} (f g : A -> list B) l :
  (forall a, In a l -> f a = g a) -> flat_map f l = flat_map g l.
Proof.
  induction l as [| a l IH]; intros H; [reflexivity |].
  simpl. rewrite (H a) by (left; reflexivity). rewrite IH; [reflexivity |].
  intros a' Ha'. apply H. right. exact Ha'.
Qed.

Lemma map_flat_map {A B C} (g : B -> C) (f : A -> list B) l :
  map g (flat_map f l) = flat_map (fun a => map g (f a)) l.
Proof.
  induction l as [| a l IH]; [reflexivity |]. simpl. rewrite map_app, IH. reflexivity.
Qed.

Lemma spec_theme_columns_names s y t theme_code theme_setting :
  map fst (spec_theme_columns s y t theme_code theme_setting)
  = map col_name (theme_infos theme_code theme_setting).
Proof.
  unfold spec_theme_columns, theme_infos. rewrite !map_app. f_equal.
  - destruct (ts_select_most_relevant_sub_theme_enabled (tsi_setting theme_setting));
      reflexivity.
  - rewrite !map_flat_map. apply flat_map_ext_In. intros sub _.
    unfold spec_sub_theme_columns, sub_theme_infos.
    destruct (tsi_fill_in_week_enabled theme_setting); reflexivity.
Qed.

Lemma flat_map_flat_map {A B C} (g : B -> list C) (f : A -> list B) l :
  flat_map g (flat_map f l) = flat_map (fun a => flat_map g (f a)) l.
Proof.
  induction l as [| a l IH]; [reflexivity |]. simpl. rewrite flat_map_app, IH. reflexivity.
Qed.

Lemma spec_columns_names s y t :
  map fst (spec_columns s y t)
  = map col_name (flat_map snd (displayed_infos (year_theme_settings s y t)
                                                SchoolYearBusiness.theme_order)).
Proof.
  unfold spec_columns, displayed_infos.
  rewrite flat_map_flat_map, !map_flat_map. apply flat_map_ext_In. intros c _.
  destruct (find _ _) as [theme_setting |]; [| reflexivity].
  simpl. rewrite app_nil_r. apply spec_theme_columns_names.
Qed.

Lemma theme_order_NoDup : NoDup SchoolYearBusiness.theme_order.
Proof.
  apply nodupb_string_NoDup. reflexivity.
Qed.

Lemma build_columns_spec s y t :
  column_names_distinct s y t = true ->
  SchoolYearBusiness.build_columns (year_theme_settings s y t)
  = (spec_header s y t,
     displayed_infos (year_theme_settings s y t) SchoolYearBusiness.theme_order).
Proof.
  intros Hnd. apply nodupb_string_NoDup in Hnd. unfold spec_header in *.
  rewrite spec_columns_names in *.
  unfold SchoolYearBusiness.build_columns.
  rewrite fold_theme_columns; [reflexivity | exact theme_order_NoDup | | exact Hnd].
  intros c _ [].
Qed.

Lemma displayed_infos_keys theme_settings codes c :
  In c (map fst (displayed_infos theme_settings codes)) -> In c codes.
Proof.
  unfold displayed_infos. induction codes as [| c' codes IH]; [intros [] |].
  cbn [flat_map]. rewrite map_app, in_app_iff. intros [H | H].
  - destruct (find _ _); [| contradiction]. destruct H as [<- | []]. left. reflexivity.
  - right. apply IH. exact H.
Qed.

Lemma dict_get_displayed theme_settings codes c :
  NoDup codes -> In c codes ->
  dict_get String.eqb c (displayed_infos theme_settings codes)
  = match find (fun ts => t_theme_code (tsi_theme ts) =? c) theme_settings with
    | Some theme_setting => Some (theme_infos c theme_setting)
    | None => None
    end.
Proof.
  induction codes as [| c' codes IH]; intros Hnd Hin; [contradiction |].
  inversion Hnd as [| ? ? Hc Hnd']; subst.
  unfold displayed_infos. cbn [flat_map]. fold (displayed_infos theme_settings codes).
  destruct (String.eqb c' c) eqn:E.
  - apply String.eqb_eq in E. subst c'.
    destruct (find _ theme_settings) as [theme_setting |].
    + unfold dict_get. simpl. rewrite String.eqb_refl. reflexivity.
    + cbn [app]. destruct (dict_get String.eqb c (displayed_infos theme_settings codes)) eqn:G;
        [| reflexivity].
      exfalso. apply Hc. apply (displayed_infos_keys theme_settings).
      apply (dict_get_In String.eqb string_eqb_spec). rewrite G. discriminate.
  - destruct Hin as [-> | Hin]; [rewrite String.eqb_refl in E; discriminate |].
    rewrite <- (IH Hnd' Hin).
    destruct (find (fun ts => t_theme_code (tsi_theme ts) =? c') theme_settings);
      [| reflexivity].
    unfold dict_get. simpl. rewrite E. reflexivity.
Qed.

(** ** The entries of the year-term *)

Lemma in_left_join_fst {A B} (on : A -> B -> bool) l r a ob :
  In (a, ob) (left_join on l r) -> In a l.
Proof.
  unfold left_join. intros H. apply in_flat_map in H as [a' [Ha' H]].
  destruct (filter (on a') r) as [| b bs].
  - destruct H as [H | []]. injection H as <- _. exact Ha'.
  - apply in_map_iff in H as [b' [H _]]. injection H as <- _. exact Ha'.
Qed.

Lemma left_join_total {A B} (on : A -> B -> bool) l r a :
  In a l -> exists ob, In (a, ob) (left_join on l r).
Proof.
  intros Ha. unfold left_join.
  destruct (filter (on a) r) as [| b bs] eqn:E.
  - exists None. apply in_flat_map. exists a. split; [exact Ha |]. rewrite E. left. reflexivity.
  - exists (Some b). apply in_flat_map. exists a. split; [exact Ha |]. rewrite E.
    left. reflexivity.
Qed.

Lemma year_entries_in s y t e :
  In e (year_entries s y t) ->
  In (fst e) (CourseEntriesDAO.entries_joined s)
  /\ ce_academic_year (er_entry (fst e)) = y /\ ce_academic_term (er_entry (fst e)) = t.
Proof.
  unfold year_entries, CourseEntriesDAO.get_all_course_entries_by_academic_year_term, query.
  intros H. apply in_map_iff in H as [[r ob] [<- H]].
  apply (Permutation_in _ (order_by_perm _ _)) in H.
  unfold select_where in H. apply filter_In in H as [H Hyt].
  apply in_left_join_fst in H. cbn [fst] in *.
  apply andb_true_iff in Hyt as [Hy Ht]. apply Z.eqb_eq in Hy, Ht. auto.
Qed.

Lemma year_entries_total s y t r :
  In r (CourseEntriesDAO.entries_joined s) ->
  ce_academic_year (er_entry r) = y -> ce_academic_term (er_entry r) = t ->
  exists name, In (r, name) (year_entries s y t).
Proof.
  intros Hr Hy Ht.
  destruct (left_join_total
              (fun (r : EntryRow) cb => cb_subj_no cb =? ce_subj_no (er_entry r))
              _ (COFSUBJ s) r Hr) as [ob Hob].
  unfold year_entries, CourseEntriesDAO.get_all_course_entries_by_academic_year_term, query.
  eexists. apply in_map_iff. exists (r, ob). split; [reflexivity |].
  apply (Permutation_in _ (Permutation_sym (order_by_perm _ _))).
  unfold select_where. apply filter_In. split; [exact Hob |].
  cbn [fst]. rewrite Hy, Ht, !Z.eqb_refl. reflexivity.
Qed.

Lemma year_theme_settings_sub_themes s y t theme_setting sub en :
  In theme_setting (year_theme_settings s y t) ->
  In (sub, en) (tsi_sub_themes theme_setting) ->
  In sub (coures_sub_themes s).
Proof.
  unfold year_theme_settings, SchoolYearThemeSettingsDAO.get_school_year_theme_settings_by_year,
    query.
  intros H Hsub. apply in_map_iff in H as [row [<- _]]. cbn [tsi_sub_themes] in Hsub.
  unfold SchoolYearThemeSettingsDAO.sub_themes_of_setting in Hsub.
  apply in_map_iff in Hsub as [[sub' ob] [E H]].
  unfold SchoolYearThemeSettingsDAO.coalesce_enabled in E. cbn [fst snd] in E.
  injection E as -> _.
  apply (Permutation_in _ (order_by_perm _ _)) in H.
  unfold SchoolYearThemeSettingsDAO.sub_themes_left_join, select_where in H.
  apply filter_In in H as [H _]. apply in_left_join_fst in H. exact H.
Qed.

Lemma displayed_sub_themes_in s y t sub :
  In sub (displayed_sub_themes s y t) ->
  exists theme_code theme_setting,
    In theme_code SchoolYearBusiness.theme_order
    /\ find (fun ts => t_theme_code (tsi_theme ts) =? theme_code) (year_theme_settings s y t)
       = Some theme_setting
    /\ In (sub, true) (tsi_sub_themes theme_setting).
Proof.
  unfold displayed_sub_themes. intros H. apply in_flat_map in H as [c [Hc H]].
  destruct (find _ _) as [theme_setting |] eqn:Hfind; [| contradiction].
  exists c, theme_setting. split; [exact Hc |]. split; [exact Hfind |].
  apply in_map_iff in H as [[sub' en] [E H]]. cbn [fst] in E. subst sub'.
  apply filter_In in H as [H Hen]. cbn [snd] in Hen. subst en. exact H.
Qed.

Lemma displayed_sub_themes_of s y t theme_code theme_setting sub :
  In theme_code SchoolYearBusiness.theme_order ->
  find (fun ts => t_theme_code (tsi_theme ts) =? theme_code) (year_theme_settings s y t)
  = Some theme_setting ->
  In sub (map fst (filter snd (tsi_sub_themes theme_setting))) ->
  In sub (displayed_sub_themes s y t).
Proof.
  intros Hc Hfind Hsub. unfold displayed_sub_themes. apply in_flat_map.
  exists theme_code. split; [exact Hc |]. rewrite Hfind. exact Hsub.
Qed.

Section Cells.

Variable s : Store.
Variables y t : Z.
Hypothesis Hok : constraints_ok s = true.
Hypothesis Hcodes : entry_codes_unambiguous s y t = true.

Lemma displayed_in_catalog sub :
  In sub (displayed_sub_themes s y t) -> In sub (coures_sub_themes s).
Proof.
  intros H. apply displayed_sub_themes_in in H as (c & theme_setting & _ & Hfind & Hsub).
  apply find_some in Hfind as [Hin _].
  exact (year_theme_settings_sub_themes _ _ _ _ _ _ Hin Hsub).
Qed.

Lemma code_names_sub_theme (r : EntryDict) st :
  In r (year_entries s y t) ->
  In st (displayed_sub_themes s y t
         ++ map (fun r' : EntryDict => snd (fst (fst r'))) (year_entries s y t)) ->
  st_sub_theme_code st = er_sub_theme_code (fst r) ->
  st_id st = ce_coures_sub_themes_id (er_entry (fst r)).
Proof.
  intros Hr Hst Hcode. unfold entry_codes_unambiguous in Hcodes.
  rewrite forallb_forall in Hcodes. specialize (Hcodes r Hr).
  rewrite forallb_forall in Hcodes. specialize (Hcodes st Hst).
  rewrite Hcode, String.eqb_refl in Hcodes. simpl in Hcodes.
  apply Nat.eqb_eq in Hcodes. exact Hcodes.
Qed.

Lemma stored_entry_unique k sub ce :
  In ce (course_entries s) ->
  ce_has_key (fst k) (snd k) y t (st_id sub) ce = true ->
  stored_entry s y t k sub = Some ce.
Proof.
  intros Hin Hkey. unfold stored_entry. rewrite find_filter.
  rewrite (nodupb_filter_unique ce_same_key _ _ ce); [reflexivity | | | exact Hin | exact Hkey].
  - intros a b. apply ce_has_key_same.
  - apply uk_course_entries. exact Hok.
Qed.

Lemma entry_has_key (e : EntryDict) k sub :
  In e (year_entries s y t) -> in_course k e = true ->
  st_id sub = ce_coures_sub_themes_id (er_entry (fst e)) ->
  ce_has_key (fst k) (snd k) y t (st_id sub) (er_entry (fst e)) = true.
Proof.
  intros He Hk Hid. apply year_entries_in in He as (_ & Hy & Ht).
  unfold in_course in Hk. apply key_eqb_spec in Hk. subst k.
  unfold ce_has_key, ce_of_course, course_key. cbn [fst snd].
  rewrite Hy, Ht, Hid, !String.eqb_refl, !Z.eqb_refl, Nat.eqb_refl. reflexivity.
Qed.

Lemma entry_lookup k sub :
  In sub (displayed_sub_themes s y t) ->
  option_map (fun e : EntryDict => er_entry (fst e))
    (dict_get String.eqb (st_sub_theme_code sub)
       (entries_dict (filter (in_course k) (year_entries s y t))))
  = stored_entry s y t k sub.
Proof.
  intros Hsub. rewrite entries_dict_get.
  destruct (find _ (rev _)) as [e |] eqn:Hfind; cbn [option_map].
  - apply find_some in Hfind as [He Hcode]. apply String.eqb_eq in Hcode.
    apply in_rev in He. apply filter_In in He as [He Hk].
    symmetry. apply stored_entry_unique.
    + destruct e as [[[ce st'] th] name]. apply year_entries_in in He as [He _].
      apply in_entries_joined in He. apply He.
    + apply entry_has_key; [exact He | exact Hk |].
      apply code_names_sub_theme; [exact He | | symmetry; exact Hcode].
      apply in_or_app. left. exact Hsub.
  - destruct (stored_entry s y t k sub) as [ce |] eqn:Hstored; [| reflexivity].
    exfalso. unfold stored_entry in Hstored. apply find_some in Hstored as [Hce Hkey].
    destruct (entry_is_joined s Hok ce Hce) as (st' & th & Hjoin).
    pose proof (in_entries_joined _ _ _ _ Hjoin) as (_ & Hst' & _ & Hid & _).
    unfold ce_has_key in Hkey. apply andb_true_iff in Hkey as [Hcourse Hsid].
    apply Nat.eqb_eq in Hsid.
    assert (st' = sub).
    { apply (NoDup_map_inj st_id (coures_sub_themes s));
        [apply pk_sub_themes; exact Hok | exact Hst' | apply displayed_in_catalog; exact Hsub |].
      congruence. }
    subst st'.
    unfold ce_of_course in Hcourse.
    repeat (apply andb_true_iff in Hcourse as [Hcourse ?]).
    repeat match goal with
           | H : (_ =? _)%string = true |- _ => apply String.eqb_eq in H
           | H : (_ =? _)%Z = true |- _ => apply Z.eqb_eq in H
           end.
    destruct (year_entries_total s y t (ce, sub, th) Hjoin) as [name Hname];
      [assumption | assumption |].
    assert (Hin : In (ce, sub, th, name) (rev (filter (in_course k) (year_entries s y t)))).
    { apply in_rev. rewrite rev_involutive. apply filter_In. split; [exact Hname |].
      unfold in_course, course_key. apply key_eqb_spec. destruct k. cbn [fst snd] in *.
      cbn. congruence. }
    pose proof (find_none _ _ Hfind _ Hin) as Hno.
    unfold er_sub_theme_code in Hno. cbn [fst snd] in Hno.
    rewrite String.eqb_refl in Hno. discriminate.
Qed.

End Cells.

(** ** The most relevant entry of a course under a theme *)

Lemma find_app {A} (p : A -> bool) l1 l2 :
  find p (l1 ++ l2) = match find p l1 with Some x => Some x | None => find p l2 end.
Proof.
  induction l1 as [| a l1 IH]; simpl; [reflexivity |]. destruct (p a); [reflexivity | exact IH].
Qed.

Lemma find_map {A B} (p : B -> bool) (f : A -> B) l :
  find p (map f l) = option_map f (find (fun a => p (f a)) l).
Proof.
  induction l as [| a l IH]; simpl; [reflexivity |]. destruct (p (f a)); [reflexivity | exact IH].
Qed.

Lemma find_ext {A} (p q : A -> bool) l : (forall a, p a = q a) -> find p l = find q l.
Proof.
  intros H. induction l as [| a l IH]; simpl; [reflexivity |]. rewrite H, IH. reflexivity.
Qed.

Lemma dict_set_in {K V} (eqb : K -> K -> bool) (k : K) (v : V) d x :
  (forall a b, eqb a b = true <-> a = b) ->
  In x (dict_set eqb k v d) -> x = (k, v) \/ In x d.
Proof.
  intros eqb_spec. induction d as [| kv d IH]; simpl.
  - intros [<- | []]. left. reflexivity.
  - destruct (eqb (fst kv) k) eqn:E; simpl.
    + apply eqb_spec in E. intros [<- | H]; [left; rewrite E; reflexivity | right; right; exact H].
    + intros [<- | H]; [right; left; reflexivity |].
      destruct (IH H) as [-> | H']; [left; reflexivity | right; right; exact H'].
Qed.

Lemma dict_set_values {K V W} (eqb : K -> K -> bool) (g : V -> W) (k : K) (v : V) d :
  (forall a b, eqb a b = true <-> a = b) ->
  In k (map fst d) ->
  (forall kv, In kv d -> fst kv = k -> g (snd kv) = g v) ->
  map (fun kv => g (snd kv)) (dict_set eqb k v d) = map (fun kv => g (snd kv)) d.
Proof.
  intros eqb_spec. induction d as [| kv d IH]; simpl; intros Hin Hg; [contradiction |].
  destruct (eqb (fst kv) k) eqn:E; simpl.
  - f_equal. symmetry. apply Hg; [left; reflexivity | apply eqb_spec; exact E].
  - f_equal. apply IH.
    + destruct Hin as [H | H]; [| exact H].
      apply eqb_spec in H. congruence.
    + intros kv0 H0. apply Hg. right. exact H0.
Qed.

Lemma entries_dict_snoc entries (e : EntryDict) :
  entries_dict (entries ++ [e])
  = dict_set String.eqb (er_sub_theme_code (fst e)) e (entries_dict entries).
Proof. unfold entries_dict. rewrite fold_left_app. reflexivity. Qed.

Lemma entries_dict_in entries kv :
  In kv (entries_dict entries) ->
  In (snd kv) entries /\ er_sub_theme_code (fst (snd kv)) = fst kv.
Proof.
  revert kv.
  induction entries as [| e entries IH] using rev_ind; intros kv; [intros [] |].
  rewrite entries_dict_snoc. intros H.
  apply dict_set_in in H as [-> | H]; [| | exact string_eqb_spec].
  - split; [apply in_or_app; right; left; reflexivity | reflexivity].
  - destruct (IH kv H) as [H1 H2]. split; [apply in_or_app; left; exact H1 | exact H2].
Qed.

Lemma entries_dict_find (P : EntryRow -> bool) entries :
  (forall e1 e2 : EntryDict, In e1 entries -> In e2 entries ->
     er_sub_theme_code (fst e1) = er_sub_theme_code (fst e2) -> fst e1 = fst e2) ->
  find P (map (fun kv : string * EntryDict => fst (snd kv)) (entries_dict entries))
  = find P (map fst entries).
Proof.
  induction entries as [| e entries IH] using rev_ind; intros Hsame; [reflexivity |].
  assert (IH' : find P (map (fun kv : string * EntryDict => fst (snd kv)) (entries_dict entries))
                = find P (map fst entries)).
  { apply IH. intros e1 e2 H1 H2. apply Hsame; apply in_or_app; left; assumption. }
  clear IH. rewrite entries_dict_snoc, map_app, find_app. simpl.
  destruct (in_dec string_dec (er_sub_theme_code (fst e)) (map fst (entries_dict entries)))
    as [Hin | Hout].
  - rewrite (dict_set_values String.eqb (fun v : EntryDict => fst v));
      [| exact string_eqb_spec | exact Hin |].
    + cbv beta. rewrite IH'. unfold EntryDict in *.
      destruct (find P (map fst entries)) eqn:Hf; [reflexivity |].
      apply in_map_iff in Hin as [kv [Hk Hkv]].
      apply (entries_dict_in entries) in Hkv as [Hkv Hcode].
      assert (E : fst (snd kv) = fst e).
      { apply Hsame; [apply in_or_app; left; exact Hkv | apply in_or_app; right; left; reflexivity |].
        transitivity (fst kv); [exact Hcode | exact Hk]. }
      assert (Hp : P (fst (snd kv)) = false).
      { apply (find_none _ _ Hf). apply in_map. exact Hkv. }
      rewrite <- E, Hp. reflexivity.
    + intros kv Hkv Hk. apply (entries_dict_in entries) in Hkv as [Hkv Hcode].
      apply Hsame; [apply in_or_app; left; exact Hkv | apply in_or_app; right; left; reflexivity |].
      transitivity (fst kv); [exact Hcode | exact Hk].
  - rewrite dict_set_fresh by (try exact string_eqb_spec; exact Hout).
    rewrite map_app, find_app, IH'. reflexivity.
Qed.

Lemma most_relevant_in_find (d : list (string * EntryDict)) theme_code :
  option_map fst (SchoolYearBusiness.most_relevant_in d theme_code)
  = find (fun r : EntryRow => (er_theme_code r =? theme_code)
                              && ce_is_most_relevant (er_entry r))
         (map (fun kv : string * EntryDict => fst (snd kv)) d).
Proof.
  unfold SchoolYearBusiness.most_relevant_in, EntryDict in *.
  induction d as [| kv d IH]; [reflexivity |]. simpl.
  destruct ((er_theme_code (fst (snd kv)) =? theme_code)
            && ce_is_most_relevant (er_entry (fst (snd kv)))); [reflexivity | exact IH].
Qed.

Section MostRelevant.

Variable s : Store.
Variables y t : Z.
Hypothesis Hok : constraints_ok s = true.
Hypothesis Hcodes : entry_codes_unambiguous s y t = true.

Lemma same_code_same_row k (e1 e2 : EntryDict) :
  In e1 (filter (in_course k) (year_entries s y t)) ->
  In e2 (filter (in_course k) (year_entries s y t)) ->
  er_sub_theme_code (fst e1) = er_sub_theme_code (fst e2) ->
  fst e1 = fst e2.
Proof.
  intros H1 H2 Hcode.
  apply filter_In in H1 as [H1 K1]. apply filter_In in H2 as [H2 K2].
  assert (Hid : st_id (snd (fst (fst e2))) = ce_coures_sub_themes_id (er_entry (fst e1))).
  { apply (code_names_sub_theme s y t Hcodes e1); [exact H1 | | symmetry; exact Hcode].
    apply in_or_app. right.
    apply (in_map (fun r' : EntryDict => snd (fst (fst r')))). exact H2. }
  pose proof (entry_has_key s y t e1 k (snd (fst (fst e2))) H1 K1 Hid) as Hk1.
  destruct e1 as [[[ce1 st1] th1] n1], e2 as [[[ce2 st2] th2] n2].
  pose proof (year_entries_in _ _ _ _ H1) as (J1 & _).
  pose proof (year_entries_in _ _ _ _ H2) as (J2 & _).
  cbn [fst snd] in *.
  pose proof (in_entries_joined _ _ _ _ J1) as (C1 & S1 & T1 & E1 & F1).
  pose proof (in_entries_joined _ _ _ _ J2) as (C2 & S2 & T2 & E2 & F2).
  unfold er_entry in *. cbn [fst snd] in *.
  assert (st1 = st2).
  { apply (NoDup_map_inj st_id (coures_sub_themes s));
      [apply pk_sub_themes; exact Hok | exact S1 | exact S2 | congruence]. }
  subst st2.
  assert (th1 = th2).
  { apply (NoDup_map_inj t_id (coures_themes s));
      [apply pk_themes; exact Hok | exact T1 | exact T2 | congruence]. }
  subst th2.
  assert (Hk2 : ce_has_key (fst k) (snd k) y t (st_id st1) ce2 = true).
  { apply (entry_has_key s y t (ce2, st1, th1, n2) k st1 H2 K2). symmetry. exact E2. }
  pose proof (stored_entry_unique s y t Hok k st1 ce1 C1 Hk1) as U1.
  pose proof (stored_entry_unique s y t Hok k st1 ce2 C2 Hk2) as U2.
  rewrite U1 in U2. injection U2 as ->. reflexivity.
Qed.

Lemma most_relevant_lookup k theme_code :
  option_map fst
    (SchoolYearBusiness.most_relevant_in
       (entries_dict (filter (in_course k) (year_entries s y t))) theme_code)
  = most_relevant_entry s y t k theme_code.
Proof.
  rewrite most_relevant_in_find. unfold most_relevant_entry.
  rewrite entries_dict_find by (apply same_code_same_row).
  rewrite !find_map. f_equal.
  rewrite find_filter, filter_filter, <- find_filter.
  apply find_ext. intros e. unfold in_course. rewrite andb_assoc. reflexivity.
Qed.

End MostRelevant.

(** ** The order of the rows *)

Lemma pair_leb_total a b : pair_leb a b = true \/ pair_leb b a = true.
Proof.
  unfold pair_leb. rewrite (String.compare_antisym (fst b) (fst a)).
  destruct (String.compare (fst a) (fst b)); simpl; auto.
  apply String.leb_total.
Qed.

Section OrderBy.

Context {A : Type}.
Variable leb : A -> A -> bool.
Hypothesis leb_total : forall a b, leb a b = true \/ leb b a = true.

Lemma insert_sorted_HdRel x y l :
  HdRel (fun a b => leb a b = true) y l -> leb y x = true ->
  HdRel (fun a b => leb a b = true) y (insert_sorted leb x l).
Proof.
  intros H Hyx. destruct l as [| z l]; simpl.
  - constructor. exact Hyx.
  - destruct (leb x z); constructor; [exact Hyx |].
    inversion H; subst. assumption.
Qed.

Lemma insert_sorted_Sorted x l :
  Sorted (fun a b => leb a b = true) l ->
  Sorted (fun a b => leb a b = true) (insert_sorted leb x l).
Proof.
  induction l as [| y l IH]; simpl; intros H.
  - repeat constructor.
  - destruct (leb x y) eqn:E.
    + constructor; [exact H |]. constructor. exact E.
    + inversion H as [| ? ? Hl Hhd]; subst.
      constructor; [apply IH; exact Hl |].
      apply insert_sorted_HdRel; [exact Hhd |].
      destruct (leb_total x y) as [Hxy | Hyx]; [congruence | exact Hyx].
Qed.

Lemma order_by_Sorted l : Sorted (fun a b => leb a b = true) (order_by leb l).
Proof.
  unfold order_by. induction l as [| x l IH]; simpl; [constructor |].
  apply insert_sorted_Sorted. exact IH.
Qed.

End OrderBy.

(** ** The exported table *)

Lemma year_theme_settings_nonempty s y t :
  constraints_ok s = true ->
  theme_settings_in s y t <> [] -> year_theme_settings s y t <> [].
Proof.
  intros Hok Hne. unfold theme_settings_in in Hne.
  destruct (filter (ts_in_year_term y t) (academic_year_coures_themes_setting s))
    as [| r rows] eqn:E; [congruence |].
  assert (Hr : In r (filter (ts_in_year_term y t) (academic_year_coures_themes_setting s)))
    by (rewrite E; left; reflexivity).
  apply filter_In in Hr as [Hr Hyt].
  destruct (fk_themes_setting s Hok r Hr) as [th [Hth Hid]].
  assert (Hin : In (mkThemeSettingInfo r th (ts_fill_in_week_enabled r)
                      (SchoolYearThemeSettingsDAO.sub_themes_of_setting y t
                         (ts_coures_themes_id r) s))
                   (year_theme_settings s y t)).
  { unfold year_theme_settings,
      SchoolYearThemeSettingsDAO.get_school_year_theme_settings_by_year, query.
    apply in_map_iff. exists (r, th). split; [reflexivity |].
    apply (Permutation_in _ (Permutation_sym (order_by_perm _ _))).
    unfold select_where. apply filter_In. split; [| exact Hyt].
    unfold SchoolYearThemeSettingsDAO.settings_with_theme. apply in_inner_join.
    split; [exact Hr | split; [exact Hth |]]. apply Nat.eqb_eq. symmetry. exact Hid. }
  intros Hnil. rewrite Hnil in Hin. contradiction.
Qed.

Lemma writerow_line a b row : Csv.writerow (a :: b :: row) = csv_line (a :: b :: row).
Proof. reflexivity. Qed.

Section Table.

Variable s : Store.
Variables y t : Z.
Hypothesis Hok : constraints_ok s = true.
Hypothesis Hcodes : entry_codes_unambiguous s y t = true.
Hypothesis Hnames : column_names_distinct s y t = true.

Lemma theme_cells_spec k theme_code :
  In theme_code SchoolYearBusiness.theme_order ->
  SchoolYearBusiness.theme_cells
    (displayed_infos (year_theme_settings s y t) SchoolYearBusiness.theme_order)
    (course_data_of k (year_entries s y t)) theme_code
  = map (fun c : Column => snd c k)
        match find (fun ts => t_theme_code (tsi_theme ts) =? theme_code)
                   (year_theme_settings s y t) with
        | Some theme_setting => spec_theme_columns s y t theme_code theme_setting
        | None => []
        end.
Proof.
  intros Hc. unfold SchoolYearBusiness.theme_cells.
  rewrite (dict_get_displayed _ _ _ theme_order_NoDup Hc).
  destruct (find _ (year_theme_settings s y t)) as [theme_setting |] eqn:Hfind;
    [| reflexivity].
  cbn [course_data_of cd_entries_by_sub_theme].
  unfold theme_infos, spec_theme_columns. rewrite !map_app. f_equal.
  - pose proof (most_relevant_lookup s y t Hok Hcodes k theme_code) as Hmost.
    destruct (ts_select_most_relevant_sub_theme_enabled (tsi_setting theme_setting));
      [| reflexivity].
    cbn [map snd SchoolYearBusiness.cell]. rewrite <- Hmost.
    destruct (SchoolYearBusiness.most_relevant_in _ theme_code); reflexivity.
  - rewrite !map_flat_map. apply flat_map_ext_In. intros sub Hsub.
    pose proof (entry_lookup s y t Hok Hcodes k sub
                  (displayed_sub_themes_of _ _ _ _ _ _ Hc Hfind Hsub)) as Hentry.
    unfold sub_theme_infos, spec_sub_theme_columns.
    destruct (tsi_fill_in_week_enabled theme_setting);
      cbn [map snd SchoolYearBusiness.cell]; rewrite <- Hentry;
      destruct (dict_get String.eqb (st_sub_theme_code sub) _); reflexivity.
Qed.

Lemma csv_row_spec k :
  existsb (in_course k) (year_entries s y t) = true ->
  SchoolYearBusiness.csv_row (str_of_Z y ++ str_of_Z t)%string
    (displayed_infos (year_theme_settings s y t) SchoolYearBusiness.theme_order)
    match dict_get key_eqb k (fold_left SchoolYearBusiness.add_entry (year_entries s y t) []) with
    | Some course_data => course_data
    | None => SchoolYearBusiness.default_course
    end
  = spec_row s y t (last_name (filter (in_course k) (year_entries s y t))) k.
Proof.
  intros Hk. rewrite courses_dict_get, Hk.
  unfold SchoolYearBusiness.csv_row, spec_row. cbn [course_data_of cd_subj_no cd_ps_class_nbr
    cd_course_chinese_name].
  f_equal. unfold spec_columns. rewrite map_flat_map.
  apply flat_map_ext_In. intros c Hc. apply theme_cells_spec. exact Hc.
Qed.

Lemma course_keys_spec k :
  In k (map fst (fold_left SchoolYearBusiness.add_entry (year_entries s y t) []))
  <-> exists e, In e (course_entries s) /\ ce_academic_year e = y /\ ce_academic_term e = t
                /\ course_key e = k.
Proof.
  rewrite courses_dict_keys. split.
  - intros [e [He Hk]]. exists (er_entry (fst e)).
    apply year_entries_in in He as (Hj & Hy & Ht).
    destruct e as [[[ce st] th] name]. apply in_entries_joined in Hj as (Hce & _).
    auto.
  - intros [ce (Hce & Hy & Ht & Hk)].
    destruct (entry_is_joined s Hok ce Hce) as (st & th & Hj).
    destruct (year_entries_total s y t (ce, st, th) Hj Hy Ht) as [name Hname].
    exists (ce, st, th, name). split; [exact Hname | exact Hk].
Qed.

End Table.




(** * Further properties of the settings, entries and export code *)

(** ** The token check *)

Lemma verify_token_bad s token user_id :
  token <> md5_today s user_id ->
  SimpleTokenAuth.verify_token token user_id s = (s, Raise UnauthorizedException).
Proof.
  intros H. unfold SimpleTokenAuth.verify_token.
  destruct (token =? md5_today s user_id) eqn:E; [| reflexivity].
  apply String.eqb_eq in E. contradiction.
Qed.

Ltac refuse H :=
  cbv beta iota delta [bind]; rewrite (verify_token_bad _ _ _ H); reflexivity.

(** X1: a token other than the digest of the day for the user is refused by
    each of the eighteen operations of [SchoolYearBusiness],
    [SchoolYearThemeSettingsBusiness], [SchoolYearSubThemeSettingsBusiness]
    and [SchoolYearThemeSettingsCopyBusiness] that take one, which are all
    the functions of school_year_business.py and
    school_year_settings_business.py that call [verify_token]: the call
    stands before any [try] and any read or write of the tables, so the
    operation raises [UnauthorizedException] and leaves the store as it
    was. *)
Theorem invalid_token_writes_nothing :
  forall s user_id token,
    token <> md5_today s user_id ->
    (forall d, cr_user_id d = user_id -> cr_token d = token ->
       SchoolYearBusiness.create_course_entry d s = (s, Raise UnauthorizedException))
    /\ (forall ds,
          SchoolYearBusiness.create_course_entries_batch ds user_id token s
          = (s, Raise UnauthorizedException))
    /\ (forall subj cls y t code d, ur_user_id d = user_id -> ur_token d = token ->
          SchoolYearBusiness.update_course_entry subj cls y t code d s
          = (s, Raise UnauthorizedException))
    /\ (forall id d, ur_user_id d = user_id -> ur_token d = token ->
          SchoolYearBusiness.update_course_entry_by_id id d s
          = (s, Raise UnauthorizedException))
    /\ (forall subj cls y t code d, dr_user_id d = user_id -> dr_token d = token ->
          SchoolYearBusiness.delete_course_entry subj cls y t code d s
          = (s, Raise UnauthorizedException))
    /\ (forall id d, dr_user_id d = user_id -> dr_token d = token ->
          SchoolYearBusiness.delete_course_entry_by_id id d s
          = (s, Raise UnauthorizedException))
    /\ (forall d, cc_user_id d = user_id -> cc_token d = token ->
          SchoolYearBusiness.copy_course_entries d s = (s, Raise UnauthorizedException))
    /\ (forall d, tr_user_id d = user_id -> tr_token d = token ->
          SchoolYearThemeSettingsBusiness.create_school_year_theme_setting d s
          = (s, Raise UnauthorizedException))
    /\ (forall id d, tu_user_id d = user_id -> tu_token d = token ->
          SchoolYearThemeSettingsBusiness.update_school_year_theme_setting id d s
          = (s, Raise UnauthorizedException))
    /\ (forall y t code d, tu_user_id d = user_id -> tu_token d = token ->
          SchoolYearThemeSettingsBusiness.update_school_year_theme_setting_by_code y t code d s
          = (s, Raise UnauthorizedException))
    /\ (forall id d, dr_user_id d = user_id -> dr_token d = token ->
          SchoolYearThemeSettingsBusiness.delete_school_year_theme_setting id d s
          = (s, Raise UnauthorizedException))
    /\ (forall y t code d, dr_user_id d = user_id -> dr_token d = token ->
          SchoolYearThemeSettingsBusiness.delete_school_year_theme_setting_by_code y t code d s
          = (s, Raise UnauthorizedException))
    /\ (forall d, sr_user_id d = user_id -> sr_token d = token ->
          SchoolYearSubThemeSettingsBusiness.create_school_year_sub_theme_setting d s
          = (s, Raise UnauthorizedException))
    /\ (forall id d, su_user_id d = user_id -> su_token d = token ->
          SchoolYearSubThemeSettingsBusiness.update_school_year_sub_theme_setting id d s
          = (s, Raise UnauthorizedException))
    /\ (forall y t tc sc d, su_user_id d = user_id -> su_token d = token ->
          SchoolYearSubThemeSettingsBusiness.update_school_year_sub_theme_setting_by_code
            y t tc sc d s
          = (s, Raise UnauthorizedException))
    /\ (forall id d, dr_user_id d = user_id -> dr_token d = token ->
          SchoolYearSubThemeSettingsBusiness.delete_school_year_sub_theme_setting id d s
          = (s, Raise UnauthorizedException))
    /\ (forall y t tc sc d, dr_user_id d = user_id -> dr_token d = token ->
          SchoolYearSubThemeSettingsBusiness.delete_school_year_sub_theme_setting_by_code
            y t tc sc d s
          = (s, Raise UnauthorizedException))
    /\ (forall d, tc_user_id d = user_id -> tc_token d = token ->
          SchoolYearThemeSettingsCopyBusiness.copy_school_year_theme_settings d s
          = (s, Raise UnauthorizedException)).
Proof.
  intros s user_id token H.
  repeat match goal with |- _ /\ _ => split end; intros;
    repeat match goal with
           | E : _ = user_id |- _ => rewrite <- E in H; clear E
           end;
    repeat match goal with
           | E : _ = token |- _ => rewrite <- E in H; clear E
           end.
  - unfold SchoolYearBusiness.create_course_entry. refuse H.
  - unfold SchoolYearBusiness.create_course_entries_batch. refuse H.
  - unfold SchoolYearBusiness.update_course_entry. refuse H.
  - unfold SchoolYearBusiness.update_course_entry_by_id. refuse H.
  - unfold SchoolYearBusiness.delete_course_entry. refuse H.
  - unfold SchoolYearBusiness.delete_course_entry_by_id. refuse H.
  - unfold SchoolYearBusiness.copy_course_entries. refuse H.
  - unfold SchoolYearThemeSettingsBusiness.create_school_year_theme_setting. refuse H.
  - unfold SchoolYearThemeSettingsBusiness.update_school_year_theme_setting. refuse H.
  - unfold SchoolYearThemeSettingsBusiness.update_school_year_theme_setting_by_code. refuse H.
  - unfold SchoolYearThemeSettingsBusiness.delete_school_year_theme_setting. refuse H.
  - unfold SchoolYearThemeSettingsBusiness.delete_school_year_theme_setting_by_code. refuse H.
  - unfold SchoolYearSubThemeSettingsBusiness.create_school_year_sub_theme_setting. refuse H.
  - unfold SchoolYearSubThemeSettingsBusiness.update_school_year_sub_theme_setting. refuse H.
  - unfold SchoolYearSubThemeSettingsBusiness.update_school_year_sub_theme_setting_by_code.
    refuse H.
  - unfold SchoolYearSubThemeSettingsBusiness.delete_school_year_sub_theme_setting. refuse H.
  - unfold SchoolYearSubThemeSettingsBusiness.delete_school_year_sub_theme_setting_by_code.
    refuse H.
  - unfold SchoolYearThemeSettingsCopyBusiness.copy_school_year_theme_settings. refuse H.
Qed.

Lemma invalid_token_writes_nothing_witness :
  "stale" <> md5_today export_store "t01"
  /\ SchoolYearBusiness.delete_course_entry_by_id 50 (mkDeleteRequest "t01" "stale") export_store
     = (export_store, Raise UnauthorizedException).
Proof.
  assert (H : "stale" <> md5_today export_store "t01") by (vm_compute; discriminate).
  split; [exact H |].
  apply (invalid_token_writes_nothing export_store "t01" "stale" H); reflexivity.
Defined.

(** ** Deleting course entries *)

Lemma with_course_entries_same f s :
  f (course_entries s) = course_entries s -> with_course_entries f s = s.
Proof.
  intros H. unfold with_course_entries. rewrite H. destruct s; reflexivity.
Qed.

Lemma with_themes_setting_same f s :
  f (academic_year_coures_themes_setting s) = academic_year_coures_themes_setting s ->
  with_themes_setting f s = s.
Proof.
  intros H. unfold with_themes_setting. rewrite H. destruct s; reflexivity.
Qed.

Lemma with_sub_theme_settings_same f s :
  f (academic_year_coures_sub_theme_settings s) = academic_year_coures_sub_theme_settings s ->
  with_sub_theme_settings f s = s.
Proof.
  intros H. unfold with_sub_theme_settings. rewrite H. destruct s; reflexivity.
Qed.

Lemma update_where_nothing {A} (p : A -> bool) set rows :
  filter p rows = [] -> Database.update_where p set rows = rows.
Proof.
  unfold Database.update_where. induction rows as [| a rows IH]; simpl; [reflexivity |].
  destruct (p a); simpl; [discriminate |]. intros H. rewrite IH by exact H. reflexivity.
Qed.

(** X2: [delete_course_entries_by_subj_no] answers the number of entries the
    course has in the year-term and removes exactly those: the entries of
    other courses and year-terms stay, in their order, the other tables are
    not touched, and [check_course_entries_exist] then answers false. *)
Theorem delete_course_entries_by_subj_no_removes_the_course :
  forall s subj_no ps_class_nbr y t,
    exists s',
      CourseEntriesDAO.delete_course_entries_by_subj_no subj_no ps_class_nbr y t s
      = (s', Ok (Z.of_nat (length (filter (ce_of_course subj_no ps_class_nbr y t)
                                          (course_entries s)))))
      /\ course_entries s'
         = filter (fun r => negb (ce_of_course subj_no ps_class_nbr y t r)) (course_entries s)
      /\ coures_themes s' = coures_themes s
      /\ coures_sub_themes s' = coures_sub_themes s
      /\ academic_year_coures_themes_setting s' = academic_year_coures_themes_setting s
      /\ academic_year_coures_sub_theme_settings s' = academic_year_coures_sub_theme_settings s
      /\ CourseEntriesDAO.check_course_entries_exist subj_no ps_class_nbr y t s'
         = (s', Ok false).
Proof.
  intros s subj_no ps_class_nbr y t.
  unfold CourseEntriesDAO.delete_course_entries_by_subj_no,
    CourseEntriesDAO.check_course_entries_exist.
  run. unfold select_where, count_rows.
  destruct (filter (ce_of_course subj_no ps_class_nbr y t) (course_entries s))
    as [| e rows] eqn:E.
  - exists s. simpl. repeat split; try reflexivity.
    + symmetry. apply (delete_where_none _ _ E).
    + rewrite E. reflexivity.
  - exists (with_course_entries
              (Database.delete_where (ce_of_course subj_no ps_class_nbr y t)) s).
    assert (Hpos : (0 <? Z.of_nat (length (e :: rows)))%Z = true)
      by (apply Z.ltb_lt; simpl; lia).
    rewrite Hpos. cbv beta iota. repeat split; try reflexivity.
    unfold with_course_entries. cbn [course_entries].
    rewrite filter_delete_where_same. reflexivity.
Qed.

Lemma get_course_entry_by_id_none s entry_id :
  (forall e, In e (course_entries s) -> ce_id e <> entry_id) ->
  CourseEntriesDAO.get_course_entry_by_id entry_id s = (s, Ok None).
Proof.
  intros H. unfold CourseEntriesDAO.get_course_entry_by_id. run.
  destruct (fetchrow _) as [[[ce st] th] |] eqn:E; [| reflexivity].
  apply fetchrow_filter_Some in E as [Hin Hid]. apply Nat.eqb_eq in Hid.
  apply in_entries_joined in Hin as (Hce & _).
  exfalso. exact (H ce Hce Hid).
Qed.

Lemma get_course_entry_by_id_found s e :
  constraints_ok s = true -> In e (course_entries s) ->
  exists row, CourseEntriesDAO.get_course_entry_by_id (ce_id e) s = (s, Ok (Some row))
              /\ er_entry row = e.
Proof.
  intros Hok He. unfold CourseEntriesDAO.get_course_entry_by_id. run.
  destruct (entry_is_joined s Hok e He) as (st & th & Hj).
  destruct (fetchrow _) as [[[ce st'] th'] |] eqn:E.
  - exists (ce, st', th'). split; [reflexivity |].
    apply fetchrow_filter_Some in E as [Hin Hid]. apply Nat.eqb_eq in Hid.
    apply in_entries_joined in Hin as (Hce & _).
    apply (NoDup_map_inj ce_id (course_entries s));
      [apply pk_course_entries; exact Hok | exact Hce | exact He | exact Hid].
  - exfalso. pose proof (fetchrow_filter_None _ _ E (e, st, th) Hj) as Hno.
    unfold er_entry in Hno. simpl in Hno. rewrite Nat.eqb_refl in Hno. discriminate.
Qed.

Lemma filter_other_ids_length s e :
  constraints_ok s = true -> In e (course_entries s) ->
  length (filter (fun r => negb (ce_id r =? ce_id e)%nat) (course_entries s)) + 1
  = length (course_entries s).
Proof.
  intros Hok He.
  rewrite <- (filter_length (fun r => (ce_id r =? ce_id e)%nat) (course_entries s)).
  assert (H1 : filter (fun r => (ce_id r =? ce_id e)%nat) (course_entries s) = [e]).
  { rewrite <- (filter_key_unique ce_id (course_entries s) e (pk_course_entries s Hok) He).
    apply filter_ext. intros r. apply Nat.eqb_sym. }
  rewrite H1. simpl. lia.
Qed.

(** X3: with a valid token, in a store that satisfies its constraints,
    [delete_course_entry_by_id] on the id of a stored entry answers the
    entry's row and removes that entry and no other, leaving the other
    tables alone; asked again, it answers 404.  On an id no entry bears it
    answers 404 and changes nothing. *)
Theorem delete_course_entry_by_id_removes_one :
  forall s entry_id d,
    dr_token d = md5_today s (dr_user_id d) ->
    constraints_ok s = true ->
    (forall e, In e (course_entries s) -> ce_id e = entry_id ->
       exists row s',
         SchoolYearBusiness.delete_course_entry_by_id entry_id d s = (s', Ok row)
         /\ er_entry row = e
         /\ ~ In e (course_entries s')
         /\ (forall e', In e' (course_entries s') <-> In e' (course_entries s) /\ e' <> e)
         /\ length (course_entries s') + 1 = length (course_entries s)
         /\ coures_themes s' = coures_themes s
         /\ coures_sub_themes s' = coures_sub_themes s
         /\ academic_year_coures_themes_setting s' = academic_year_coures_themes_setting s
         /\ academic_year_coures_sub_theme_settings s'
            = academic_year_coures_sub_theme_settings s
         /\ SchoolYearBusiness.delete_course_entry_by_id entry_id d s'
            = (s', Raise (HTTPException HTTP_404_NOT_FOUND)))
    /\ ((forall e, In e (course_entries s) -> ce_id e <> entry_id) ->
        SchoolYearBusiness.delete_course_entry_by_id entry_id d s
        = (s, Raise (HTTPException HTTP_404_NOT_FOUND))).
Proof.
  intros s entry_id d Htok Hok. split.
  - intros e He Hid. subst entry_id.
    destruct (get_course_entry_by_id_found s e Hok He) as (row & Hget & Hrow).
    set (s' := with_course_entries
                 (Database.delete_where (fun r => (ce_id r =? ce_id e)%nat)) s).
    assert (Hmem : forall e', In e' (course_entries s') <-> In e' (course_entries s) /\ e' <> e).
    { intros e'. unfold s', with_course_entries, Database.delete_where. cbn [course_entries].
      rewrite filter_In, negb_true_iff, Nat.eqb_neq. split.
      - intros [H1 H2]. split; [exact H1 |]. intros ->. apply H2. reflexivity.
      - intros [H1 H2]. split; [exact H1 |]. intros Hid. apply H2.
        apply (NoDup_map_inj ce_id (course_entries s));
          [apply pk_course_entries; exact Hok | exact H1 | exact He | exact Hid]. }
    exists row, s'. split.
    { unfold SchoolYearBusiness.delete_course_entry_by_id,
        CourseEntriesDAO.delete_course_entry_by_id.
      cbv beta iota delta [bind]. rewrite (verify_token_ok _ _ _ Htok). cbv beta iota.
      rewrite Hget. reflexivity. }
    split; [exact Hrow |].
    split; [intros Hin; apply Hmem in Hin as [_ Hne]; apply Hne; reflexivity |].
    split; [exact Hmem |].
    split; [apply (filter_other_ids_length s e Hok He) |].
    repeat (split; [reflexivity |]).
    unfold SchoolYearBusiness.delete_course_entry_by_id,
      CourseEntriesDAO.delete_course_entry_by_id.
    cbv beta iota delta [bind].
    rewrite (verify_token_ok s' _ _ Htok). cbv beta iota.
    rewrite get_course_entry_by_id_none; [reflexivity |].
    intros e' He' Hid. apply Hmem in He' as [He' Hne]. apply Hne.
    apply (NoDup_map_inj ce_id (course_entries s));
      [apply pk_course_entries; exact Hok | exact He' | exact He | exact Hid].
  - intros Hnone.
    unfold SchoolYearBusiness.delete_course_entry_by_id,
      CourseEntriesDAO.delete_course_entry_by_id.
    cbv beta iota delta [bind]. rewrite (verify_token_ok _ _ _ Htok). cbv beta iota.
    rewrite (get_course_entry_by_id_none s entry_id Hnone). reflexivity.
Qed.

Lemma delete_course_entry_by_id_removes_one_witness :
  let d := mkDeleteRequest "t01" "md5:t01" in
  dr_token d = md5_today export_store (dr_user_id d)
  /\ constraints_ok export_store = true
  /\ exists row s',
       SchoolYearBusiness.delete_course_entry_by_id 51 d export_store = (s', Ok row)
       /\ length (course_entries s') + 1 = length (course_entries export_store).
Proof.
  intros d. split; [reflexivity |]. split; [reflexivity |].
  destruct (delete_course_entry_by_id_removes_one export_store 51 d eq_refl eq_refl) as [H _].
  destruct (H (Sample.entry 51 "C1" "0001" 113 1 20 "3" None false))
    as (row & s' & Hrun & _ & _ & _ & Hlen & _).
  - right. left. reflexivity.
  - reflexivity.
  - exists row, s'. split; [exact Hrun | exact Hlen].
Defined.

(** ** Theme settings: lookup, update and delete *)

Lemma nodupb_same_eq {A} (same : A -> A -> bool) l a b :
  (forall x y z, same x z = true -> same y z = true -> same x y = true) ->
  (forall x, same x x = true) ->
  nodupb same l = true -> In a l -> In b l -> same a b = true -> a = b.
Proof.
  intros Htrans Hrefl Hnd Ha Hb Hab.
  pose proof (nodupb_filter_unique same (fun x => same x b) l a
                (fun x y Hx Hy => Htrans x y b Hx Hy) Hnd Ha Hab) as H1.
  pose proof (nodupb_filter_unique same (fun x => same x b) l b
                (fun x y Hx Hy => Htrans x y b Hx Hy) Hnd Hb (Hrefl b)) as H2.
  rewrite H1 in H2. injection H2 as ->. reflexivity.
Qed.

Lemma ts_same_key_spec a b :
  ts_same_key a b = true <->
  ts_academic_year a = ts_academic_year b /\ ts_academic_term a = ts_academic_term b
  /\ ts_coures_themes_id a = ts_coures_themes_id b.
Proof.
  unfold ts_same_key, ts_in_year_term.
  rewrite !andb_true_iff, !Z.eqb_eq, Nat.eqb_eq. tauto.
Qed.

Lemma theme_setting_by_key s a b :
  constraints_ok s = true ->
  In a (academic_year_coures_themes_setting s) ->
  In b (academic_year_coures_themes_setting s) ->
  ts_same_key a b = true -> a = b.
Proof.
  intros Hok Ha Hb Hab.
  apply (nodupb_same_eq ts_same_key (academic_year_coures_themes_setting s));
    [| | apply uk_themes_setting; exact Hok | exact Ha | exact Hb | exact Hab].
  - intros x y z Hx Hy. apply ts_same_key_spec in Hx, Hy. apply ts_same_key_spec.
    destruct Hx as (? & ? & ?), Hy as (? & ? & ?). repeat split; congruence.
  - intros x. apply ts_same_key_spec. auto.
Qed.

Lemma theme_by_code s a b :
  constraints_ok s = true -> In a (coures_themes s) -> In b (coures_themes s) ->
  t_theme_code a = t_theme_code b -> a = b.
Proof.
  intros Hok Ha Hb Hab.
  pose proof (uk_theme_code s Hok) as Hnd.
  revert Ha Hb Hnd. induction (coures_themes s) as [| x l IH]; simpl; [contradiction |].
  intros Ha Hb Hnd. apply andb_true_iff in Hnd as [Hx Hl]. apply negb_true_iff in Hx.
  assert (Hno : forall c, In c (map t_theme_code l) -> String.eqb (t_theme_code x) c = false)
    by (apply existsb_false_forall; exact Hx).
  destruct Ha as [-> | Ha], Hb as [-> | Hb]; auto.
  - specialize (Hno (t_theme_code b) (in_map _ _ _ Hb)).
    rewrite Hab, String.eqb_refl in Hno. discriminate.
  - specialize (Hno (t_theme_code a) (in_map _ _ _ Ha)).
    rewrite <- Hab, String.eqb_refl in Hno. discriminate.
Qed.

Lemma theme_by_id s a b :
  constraints_ok s = true -> In a (coures_themes s) -> In b (coures_themes s) ->
  t_id a = t_id b -> a = b.
Proof.
  intros Hok. apply (NoDup_map_inj t_id). apply pk_themes. exact Hok.
Qed.

Lemma in_settings_with_theme s r th :
  In (r, th) (SchoolYearThemeSettingsDAO.settings_with_theme s)
  <-> In r (academic_year_coures_themes_setting s) /\ In th (coures_themes s)
      /\ ts_coures_themes_id r = t_id th.
Proof.
  unfold SchoolYearThemeSettingsDAO.settings_with_theme.
  rewrite in_inner_join, Nat.eqb_eq. reflexivity.
Qed.

(** What the getters answer for the row [r] of theme [th]. *)
Lemma theme_setting_by_id_found s r th :
  constraints_ok s = true ->
  In r (academic_year_coures_themes_setting s) -> In th (coures_themes s) ->
  ts_coures_themes_id r = t_id th ->
  SchoolYearThemeSettingsDAO.get_school_year_theme_setting_by_id (ts_id r) s
  = (s, Ok (Some (mkThemeSettingInfo r th (ts_fill_in_week_enabled r)
                    (SchoolYearThemeSettingsDAO.sub_themes_of_setting
                       (ts_academic_year r) (ts_academic_term r)
                       (ts_coures_themes_id r) s)))).
Proof.
  intros Hok Hr Hth Hfk.
  unfold SchoolYearThemeSettingsDAO.get_school_year_theme_setting_by_id. run.
  destruct (fetchrow _) as [[r2 th2] |] eqn:E.
  - apply fetchrow_filter_Some in E as [Hin Hid]. cbn [fst] in Hid. apply Nat.eqb_eq in Hid.
    apply in_settings_with_theme in Hin as (Hr2 & Hth2 & Hfk2).
    assert (r2 = r)
      by (apply (NoDup_map_inj ts_id (academic_year_coures_themes_setting s));
          [apply pk_themes_setting; exact Hok | exact Hr2 | exact Hr | exact Hid]).
    subst r2.
    assert (th2 = th) by (apply (theme_by_id s); [exact Hok | exact Hth2 | exact Hth | congruence]).
    subst th2. reflexivity.
  - exfalso.
    pose proof (fetchrow_filter_None _ _ E (r, th)
                  (proj2 (in_settings_with_theme s r th) (conj Hr (conj Hth Hfk)))) as Hno.
    cbn [fst] in Hno. rewrite Nat.eqb_refl in Hno. discriminate.
Qed.

Lemma theme_setting_by_id_none s id :
  (forall r, In r (academic_year_coures_themes_setting s) -> ts_id r <> id) ->
  SchoolYearThemeSettingsDAO.get_school_year_theme_setting_by_id id s = (s, Ok None).
Proof.
  intros Hno. unfold SchoolYearThemeSettingsDAO.get_school_year_theme_setting_by_id. run.
  destruct (fetchrow _) as [[r th] |] eqn:E; [| reflexivity].
  apply fetchrow_filter_Some in E as [Hin Hid]. cbn [fst] in Hid. apply Nat.eqb_eq in Hid.
  apply in_settings_with_theme in Hin as (Hr & _).
  exfalso. exact (Hno r Hr Hid).
Qed.

Lemma theme_setting_by_code_found s r th :
  constraints_ok s = true ->
  In r (academic_year_coures_themes_setting s) -> In th (coures_themes s) ->
  ts_coures_themes_id r = t_id th ->
  SchoolYearThemeSettingsDAO.get_school_year_theme_setting_by_code
    (ts_academic_year r) (ts_academic_term r) (t_theme_code th) s
  = (s, Ok (Some (mkThemeSettingInfo r th (ts_fill_in_week_enabled r)
                    (SchoolYearThemeSettingsDAO.sub_themes_of_setting
                       (ts_academic_year r) (ts_academic_term r)
                       (ts_coures_themes_id r) s)))).
Proof.
  intros Hok Hr Hth Hfk.
  unfold SchoolYearThemeSettingsDAO.get_school_year_theme_setting_by_code. run.
  destruct (fetchrow _) as [[r2 th2] |] eqn:E.
  - apply fetchrow_filter_Some in E as [Hin Hp]. cbn [fst snd] in Hp.
    apply andb_true_iff in Hp as [Hyt Hcode]. apply String.eqb_eq in Hcode.
    apply in_settings_with_theme in Hin as (Hr2 & Hth2 & Hfk2).
    assert (th2 = th) by (apply (theme_by_code s); assumption).
    subst th2.
    assert (r2 = r).
    { apply (theme_setting_by_key s); [exact Hok | exact Hr2 | exact Hr |].
      unfold ts_same_key. rewrite Hyt. apply Nat.eqb_eq. congruence. }
    subst r2. reflexivity.
  - exfalso.
    pose proof (fetchrow_filter_None _ _ E (r, th)
                  (proj2 (in_settings_with_theme s r th) (conj Hr (conj Hth Hfk)))) as Hno.
    cbn [fst snd] in Hno. unfold ts_in_year_term in Hno.
    rewrite !Z.eqb_refl, String.eqb_refl in Hno. discriminate.
Qed.

Lemma constraints_update_themes_setting s g :
  (forall r, ts_id (g r) = ts_id r /\ ts_academic_year (g r) = ts_academic_year r
             /\ ts_academic_term (g r) = ts_academic_term r
             /\ ts_coures_themes_id (g r) = ts_coures_themes_id r) ->
  constraints_ok (with_themes_setting (map g) s) = constraints_ok s.
Proof.
  intros Hg.
  assert (Hid : map ts_id (map g (academic_year_coures_themes_setting s))
                = map ts_id (academic_year_coures_themes_setting s)).
  { rewrite map_map. apply map_ext. intro r. apply Hg. }
  unfold constraints_ok, primary_keys_ok, unique_keys_ok, foreign_keys_ok, uuids_fresh.
  simpl. rewrite Hid.
  rewrite (nodupb_map ts_same_key g).
  2:{ intros a b. unfold ts_same_key, ts_in_year_term.
      destruct (Hg a) as (_ & -> & -> & ->). destruct (Hg b) as (_ & -> & -> & ->).
      reflexivity. }
  rewrite (forallb_map _ g).
  rewrite (forallb_ext (fun a => existsb (fun t => (t_id t =? ts_coures_themes_id (g a))%nat)
                                         (coures_themes s))
                       (fun a => existsb (fun t => (t_id t =? ts_coures_themes_id a)%nat)
                                         (coures_themes s))).
  - reflexivity.
  - intro a. destruct (Hg a) as (_ & _ & _ & ->). reflexivity.
Qed.

Lemma update_school_year_theme_setting_writes id fill scale sel updated_by :
  (fill, scale, sel) <> (None, None, None) ->
  SchoolYearThemeSettingsDAO.update_school_year_theme_setting id fill scale sel updated_by
  = bind datetime_now (fun current_time =>
      bind (execute (with_themes_setting
                       (Database.update_where (fun r => (ts_id r =? id)%nat)
                          (SchoolYearThemeSettingsDAO.set_theme_setting fill scale sel
                             updated_by current_time))))
           (fun _ => SchoolYearThemeSettingsDAO.reload_theme_setting id)).
Proof.
  intros H. unfold SchoolYearThemeSettingsDAO.update_school_year_theme_setting.
  destruct fill, scale, sel; try reflexivity. congruence.
Qed.

Lemma reload_theme_setting_found s r th :
  constraints_ok s = true ->
  In r (academic_year_coures_themes_setting s) -> In th (coures_themes s) ->
  ts_coures_themes_id r = t_id th ->
  SchoolYearThemeSettingsDAO.reload_theme_setting (ts_id r) s
  = (s, Ok (Some (mkThemeSettingInfo r th (ts_fill_in_week_enabled r)
                    (SchoolYearThemeSettingsDAO.sub_themes_of_setting
                       (ts_academic_year r) (ts_academic_term r)
                       (ts_coures_themes_id r) s)))).
Proof.
  intros Hok Hr Hth Hfk. unfold SchoolYearThemeSettingsDAO.reload_theme_setting.
  cbv beta iota delta [bind].
  rewrite (theme_setting_by_id_found s r th Hok Hr Hth Hfk). cbv beta iota.
  cbn [tsi_setting tsi_theme].
  apply (theme_setting_by_code_found s r th Hok Hr Hth Hfk).
Qed.

Lemma reload_theme_setting_none s id :
  (forall r, In r (academic_year_coures_themes_setting s) -> ts_id r <> id) ->
  SchoolYearThemeSettingsDAO.reload_theme_setting id s = (s, Ok None).
Proof.
  intros Hno. unfold SchoolYearThemeSettingsDAO.reload_theme_setting.
  cbv beta iota delta [bind]. rewrite (theme_setting_by_id_none s id Hno). reflexivity.
Qed.

Lemma filter_id_none {A} (key : A -> nat) id rows :
  (forall r, In r rows -> key r <> id) -> filter (fun r => (key r =? id)%nat) rows = [].
Proof.
  intros H. induction rows as [| a rows IH]; simpl; [reflexivity |].
  destruct (Nat.eqb_spec (key a) id) as [E | _].
  - exfalso. apply (H a); [left; reflexivity | exact E].
  - apply IH. intros r Hr. apply H. right. exact Hr.
Qed.

(** X4: [update_school_year_theme_setting] is a partial update.  In a store
    that satisfies its constraints: a call that supplies none of the three
    fields writes nothing, [updated_by] included; a call that supplies one
    rewrites the row of that id alone, with the supplied values, the omitted
    fields as they were, [updated_by] replaced when given and [updated_at]
    set to the time of the call, and answers the row as it now is with its
    theme; the constraints still hold.  On an id no row bears it answers
    [None] and changes nothing. *)
Theorem update_school_year_theme_setting_partial :
  forall s setting_id fill scale sel updated_by,
    constraints_ok s = true ->
    (fst (SchoolYearThemeSettingsDAO.update_school_year_theme_setting
            setting_id None None None updated_by s) = s)
    /\ (forall r,
          In r (academic_year_coures_themes_setting s) -> ts_id r = setting_id ->
          (fill, scale, sel) <> (None, None, None) ->
          exists th s',
            let r' := SchoolYearThemeSettingsDAO.set_theme_setting fill scale sel updated_by
                        (clock s) r in
            SchoolYearThemeSettingsDAO.update_school_year_theme_setting
              setting_id fill scale sel updated_by s
            = (s', Ok (Some (mkThemeSettingInfo r' th (ts_fill_in_week_enabled r')
                               (SchoolYearThemeSettingsDAO.sub_themes_of_setting
                                  (ts_academic_year r) (ts_academic_term r)
                                  (ts_coures_themes_id r) s))))
            /\ In th (coures_themes s) /\ t_id th = ts_coures_themes_id r
            /\ academic_year_coures_themes_setting s'
               = map (fun x => if (ts_id x =? setting_id)%nat then r' else x)
                     (academic_year_coures_themes_setting s)
            /\ ts_fill_in_week_enabled r'
               = match fill with Some b => b | None => ts_fill_in_week_enabled r end
            /\ ts_scale_max r' = match scale with Some n => n | None => ts_scale_max r end
            /\ ts_select_most_relevant_sub_theme_enabled r'
               = match sel with
                 | Some b => b
                 | None => ts_select_most_relevant_sub_theme_enabled r
                 end
            /\ ts_updated_by r'
               = match updated_by with Some u => Some u | None => ts_updated_by r end
            /\ ts_updated_at r' = clock s
            /\ ts_created_by r' = ts_created_by r /\ ts_created_at r' = ts_created_at r
            /\ coures_themes s' = coures_themes s
            /\ coures_sub_themes s' = coures_sub_themes s
            /\ academic_year_coures_sub_theme_settings s'
               = academic_year_coures_sub_theme_settings s
            /\ course_entries s' = course_entries s
            /\ constraints_ok s' = true)
    /\ ((forall r, In r (academic_year_coures_themes_setting s) -> ts_id r <> setting_id) ->
        SchoolYearThemeSettingsDAO.update_school_year_theme_setting
          setting_id fill scale sel updated_by s
        = (s, Ok None)).
Proof.
  intros s setting_id fill scale sel updated_by Hok. split; [| split].
  - unfold SchoolYearThemeSettingsDAO.update_school_year_theme_setting,
      SchoolYearThemeSettingsDAO.reload_theme_setting,
      SchoolYearThemeSettingsDAO.get_school_year_theme_setting_by_id,
      SchoolYearThemeSettingsDAO.get_school_year_theme_setting_by_code.
    run. destruct (fetchrow _); reflexivity.
  - intros r Hr Hid Hsome. subst setting_id.
    destruct (fk_themes_setting s Hok r Hr) as [th [Hth Hfk]].
    set (set := SchoolYearThemeSettingsDAO.set_theme_setting fill scale sel updated_by (clock s)).
    set (g := fun x => if (ts_id x =? ts_id r)%nat then set x else x).
    set (s' := with_themes_setting (map g) s).
    assert (Hg : forall x, ts_id (g x) = ts_id x /\ ts_academic_year (g x) = ts_academic_year x
                           /\ ts_academic_term (g x) = ts_academic_term x
                           /\ ts_coures_themes_id (g x) = ts_coures_themes_id x).
    { intros x. unfold g. destruct (ts_id x =? ts_id r)%nat; auto. }
    assert (Hok' : constraints_ok s' = true)
      by (unfold s'; rewrite (constraints_update_themes_setting s g Hg); exact Hok).
    assert (Hgr : g r = set r) by (unfold g; rewrite Nat.eqb_refl; reflexivity).
    assert (Hr' : In (set r) (academic_year_coures_themes_setting s')).
    { rewrite <- Hgr. unfold s', with_themes_setting. cbn [academic_year_coures_themes_setting].
      apply in_map. exact Hr. }
    exists th, s'. cbv zeta. fold set.
    split.
    { rewrite (update_school_year_theme_setting_writes _ _ _ _ _ Hsome).
      cbv beta iota delta [bind datetime_now query execute].
      rewrite update_where_as_map. fold set g s'.
      pose proof (reload_theme_setting_found s' (set r) th Hok' Hr' Hth (eq_sym Hfk)) as Hre.
      exact Hre. }
    split; [exact Hth |]. split; [exact Hfk |].
    split.
    { unfold s', with_themes_setting. cbn [academic_year_coures_themes_setting].
      apply map_ext_in. intros x Hx. unfold g.
      destruct (Nat.eqb_spec (ts_id x) (ts_id r)) as [E | _]; [| reflexivity].
      f_equal. apply (NoDup_map_inj ts_id (academic_year_coures_themes_setting s));
        [apply pk_themes_setting; exact Hok | exact Hx | exact Hr | exact E]. }
    repeat (split; [reflexivity |]). exact Hok'.
  - intros Hno.
    destruct (SchoolYearThemeSettingsDAO.update_school_year_theme_setting
                setting_id fill scale sel updated_by s) as [s1 r1] eqn:E.
    revert E. unfold SchoolYearThemeSettingsDAO.update_school_year_theme_setting.
    assert (Hsame : forall now,
              with_themes_setting
                (Database.update_where (fun r => (ts_id r =? setting_id)%nat)
                   (SchoolYearThemeSettingsDAO.set_theme_setting fill scale sel updated_by now)) s
              = s).
    { intros now. apply with_themes_setting_same, update_where_nothing, filter_id_none.
      exact Hno. }
    destruct fill, scale, sel;
      cbv beta iota delta [bind datetime_now query execute];
      rewrite ?Hsame, (reload_theme_setting_none s setting_id Hno);
      intros E; symmetry; exact E.
Qed.

Lemma update_school_year_theme_setting_partial_witness :
  constraints_ok export_store = true
  /\ exists th s',
       SchoolYearThemeSettingsDAO.update_school_year_theme_setting
         60 None (Some 5%Z) None (Some "admin2") export_store
       = (s', Ok (Some (mkThemeSettingInfo
                          (mkThemeSetting 60 113 1 1 true 5 true (Some "admin") (Some "admin2")
                                          100 500)
                          th true
                          (SchoolYearThemeSettingsDAO.sub_themes_of_setting 113 1 1
                             export_store))))
       /\ constraints_ok s' = true.
Proof.
  split; [reflexivity |].
  destruct (update_school_year_theme_setting_partial
              export_store 60 None (Some 5%Z) None (Some "admin2") eq_refl) as (_ & H & _).
  destruct (H (Sample.theme_setting 60 113 1 1 true true))
    as (th & s' & Hrun & _ & _ & _ & _ & _ & _ & _ & _ & _ & _ & _ & _ & _ & _ & Hok').
  - left. reflexivity.
  - reflexivity.
  - discriminate.
  - exists th, s'. split; [exact Hrun | exact Hok'].
Defined.

(** ** Deleting rows keeps the constraints *)

Lemma existsb_filter_false {A} (q p : A -> bool) l :
  existsb q l = false -> existsb q (filter p l) = false.
Proof.
  induction l as [| a l IH]; simpl; [reflexivity |].
  intros H. apply orb_false_iff in H as [Ha Hl].
  destruct (p a); simpl; [rewrite Ha |]; apply IH; exact Hl.
Qed.

Lemma nodupb_filter {A} (same : A -> A -> bool) (p : A -> bool) l :
  nodupb same l = true -> nodupb same (filter p l) = true.
Proof.
  induction l as [| a l IH]; simpl; [reflexivity |].
  intros H. apply andb_true_iff in H as [Ha Hl]. apply negb_true_iff in Ha.
  destruct (p a); simpl; [| apply IH; exact Hl].
  rewrite (existsb_filter_false _ p l Ha). simpl. apply IH. exact Hl.
Qed.

Lemma nodupb_map_filter {A} (key : A -> nat) (p : A -> bool) l :
  nodupb Nat.eqb (map key l) = true -> nodupb Nat.eqb (map key (filter p l)) = true.
Proof.
  induction l as [| a l IH]; simpl; [reflexivity |].
  intros H. apply andb_true_iff in H as [Ha Hl]. apply negb_true_iff in Ha.
  destruct (p a); simpl; [| apply IH; exact Hl].
  rewrite existsb_map in Ha |- *.
  rewrite (existsb_filter_false _ p l Ha). simpl. apply IH. exact Hl.
Qed.

Lemma forallb_filter {A} (q p : A -> bool) l :
  forallb q l = true -> forallb q (filter p l) = true.
Proof.
  rewrite !forallb_forall. intros H x Hx. apply filter_In in Hx as [Hx _]. apply H. exact Hx.
Qed.

Lemma forallb_map_filter {A} (q : nat -> bool) (key : A -> nat) (p : A -> bool) l :
  forallb q (map key l) = true -> forallb q (map key (filter p l)) = true.
Proof.
  rewrite !forallb_forall. intros H x Hx. apply in_map_iff in Hx as [a [<- Ha]].
  apply filter_In in Ha as [Ha _]. apply H. apply in_map. exact Ha.
Qed.

Lemma constraints_filter s (p : ThemeSetting -> bool) (q : SubThemeSetting -> bool)
    (w : CourseEntry -> bool) :
  constraints_ok s = true ->
  constraints_ok (with_course_entries (filter w)
                    (with_sub_theme_settings (filter q)
                       (with_themes_setting (filter p) s))) = true.
Proof.
  intros Hok. unfold constraints_ok in *.
  apply andb_true_iff in Hok as [Hok H4]. apply andb_true_iff in Hok as [Hok H3].
  apply andb_true_iff in Hok as [H1 H2].
  unfold primary_keys_ok, unique_keys_ok, foreign_keys_ok, uuids_fresh in *.
  cbn [with_course_entries with_sub_theme_settings with_themes_setting coures_themes
       coures_sub_themes academic_year_coures_themes_setting
       academic_year_coures_sub_theme_settings course_entries next_uuid] in *.
  repeat (apply andb_true_iff in H1 as [H1 ?]).
  repeat (apply andb_true_iff in H2 as [H2 ?]).
  repeat (apply andb_true_iff in H3 as [H3 ?]).
  rewrite !forallb_app in H4.
  repeat (apply andb_true_iff in H4 as [? H4]).
  repeat (apply andb_true_iff; split);
    try assumption;
    try (apply nodupb_map_filter; assumption);
    try (apply nodupb_filter; assumption);
    try (apply forallb_filter; assumption).
  rewrite !forallb_app.
  repeat (apply andb_true_iff; split);
    try assumption; apply forallb_map_filter; assumption.
Qed.

Lemma under_theme_spec y t theme s x :
  SchoolYearThemeSettingsDAO.under_theme y t theme s x = true
  <-> ss_academic_year x = y /\ ss_academic_term x = t
      /\ exists st, In st (coures_sub_themes s) /\ st_id st = ss_coures_sub_themes_id x
                    /\ st_coures_themes_id st = theme.
Proof.
  unfold SchoolYearThemeSettingsDAO.under_theme, ss_in_year_term.
  rewrite !andb_true_iff, !Z.eqb_eq, existsb_exists. split.
  - intros [[Hy Ht] [st [Hst Hb]]]. apply andb_true_iff in Hb as [H1 H2].
    apply Nat.eqb_eq in H1, H2. eauto 7.
  - intros (Hy & Ht & st & Hst & H1 & H2). split; [auto |].
    exists st. split; [exact Hst |]. rewrite H1, H2, !Nat.eqb_refl. reflexivity.
Qed.

(** X5: with a valid token, in a store that satisfies its constraints,
    [delete_school_year_theme_setting] on the id of a stored theme setting
    answers the message for that id and the code of its theme, and deletes
    the setting together with the sub-theme settings
    that the same year-term holds for the sub-themes of its theme, and no
    other row: the other theme and sub-theme settings, the catalog and the
    course entries are as before, entries filed under the deleted settings
    included.  The constraints still hold, and asked again it answers 404.
    On an id no theme setting bears it answers 404 and changes nothing. *)
Theorem delete_school_year_theme_setting_cascades :
  forall s setting_id d,
    dr_token d = md5_today s (dr_user_id d) ->
    constraints_ok s = true ->
    (forall r, In r (academic_year_coures_themes_setting s) -> ts_id r = setting_id ->
       exists th s',
         SchoolYearThemeSettingsBusiness.delete_school_year_theme_setting setting_id d s
         = (s', Ok (setting_id, t_theme_code th))
         /\ (In th (coures_themes s) /\ t_id th = ts_coures_themes_id r)
         /\ (forall x, In x (academic_year_coures_themes_setting s')
                       <-> In x (academic_year_coures_themes_setting s) /\ x <> r)
         /\ (forall x, In x (academic_year_coures_sub_theme_settings s')
                       <-> In x (academic_year_coures_sub_theme_settings s)
                           /\ ~ (ss_academic_year x = ts_academic_year r
                                 /\ ss_academic_term x = ts_academic_term r
                                 /\ exists st, In st (coures_sub_themes s)
                                      /\ st_id st = ss_coures_sub_themes_id x
                                      /\ st_coures_themes_id st = ts_coures_themes_id r))
         /\ course_entries s' = course_entries s
         /\ coures_themes s' = coures_themes s
         /\ coures_sub_themes s' = coures_sub_themes s
         /\ constraints_ok s' = true
         /\ SchoolYearThemeSettingsBusiness.delete_school_year_theme_setting setting_id d s'
            = (s', Raise (HTTPException HTTP_404_NOT_FOUND)))
    /\ ((forall r, In r (academic_year_coures_themes_setting s) -> ts_id r <> setting_id) ->
        SchoolYearThemeSettingsBusiness.delete_school_year_theme_setting setting_id d s
        = (s, Raise (HTTPException HTTP_404_NOT_FOUND))).
Proof.
  intros s setting_id d Htok Hok. split.
  - intros r Hr Hid. subst setting_id.
    destruct (fk_themes_setting s Hok r Hr) as [th [Hth Hfk]].
    set (q := SchoolYearThemeSettingsDAO.under_theme (ts_academic_year r) (ts_academic_term r)
                (ts_coures_themes_id r) s).
    set (s' := with_themes_setting
                 (Database.delete_where (fun r' => (ts_id r' =? ts_id r)%nat))
                 (with_sub_theme_settings (Database.delete_where q) s)).
    assert (Hts : forall x, In x (academic_year_coures_themes_setting s')
                            <-> In x (academic_year_coures_themes_setting s) /\ x <> r).
    { intros x. unfold s', with_themes_setting, with_sub_theme_settings, Database.delete_where.
      cbn [academic_year_coures_themes_setting].
      rewrite filter_In, negb_true_iff, Nat.eqb_neq. split.
      - intros [H1 H2]. split; [exact H1 |]. intros ->. apply H2. reflexivity.
      - intros [H1 H2]. split; [exact H1 |]. intros E. apply H2.
        apply (NoDup_map_inj ts_id (academic_year_coures_themes_setting s));
          [apply pk_themes_setting; exact Hok | exact H1 | exact Hr | exact E]. }
    assert (Hok' : constraints_ok s' = true).
    { pose proof (constraints_filter s (fun r' => negb (ts_id r' =? ts_id r)%nat)
                    (fun x => negb (q x)) (fun _ => true) Hok) as H.
      unfold s'. unfold with_course_entries in H.
      rewrite (filter_all (fun _ : CourseEntry => true)) in H by reflexivity.
      unfold constraints_ok, primary_keys_ok, unique_keys_ok, foreign_keys_ok, uuids_fresh in *.
      exact H. }
    assert (Hnone : forall x, In x (academic_year_coures_themes_setting s') ->
                              ts_id x <> ts_id r).
    { intros x Hx E. apply Hts in Hx as [Hx Hne]. apply Hne.
      apply (NoDup_map_inj ts_id (academic_year_coures_themes_setting s));
        [apply pk_themes_setting; exact Hok | exact Hx | exact Hr | exact E]. }
    exists th, s'. split.
    { unfold SchoolYearThemeSettingsBusiness.delete_school_year_theme_setting,
        SchoolYearThemeSettingsDAO.delete_school_year_theme_setting.
      cbv beta iota delta [bind]. rewrite (verify_token_ok _ _ _ Htok). cbv beta iota.
      rewrite (theme_setting_by_id_found s r th Hok Hr Hth (eq_sym Hfk)).
      cbv beta iota delta [execute ret]. cbn [tsi_setting tsi_theme]. fold q. fold s'.
      reflexivity. }
    split; [split; [exact Hth | exact Hfk] |]. split; [exact Hts |]. split.
    { intros x. unfold s', with_themes_setting, with_sub_theme_settings, Database.delete_where.
      cbn [academic_year_coures_sub_theme_settings].
      rewrite filter_In, negb_true_iff. unfold q.
      rewrite <- (under_theme_spec (ts_academic_year r) (ts_academic_term r)
                    (ts_coures_themes_id r) s x).
      destruct (SchoolYearThemeSettingsDAO.under_theme _ _ _ s x); intuition congruence. }
    repeat (split; [reflexivity |]). split; [exact Hok' |].
    unfold SchoolYearThemeSettingsBusiness.delete_school_year_theme_setting,
      SchoolYearThemeSettingsDAO.delete_school_year_theme_setting.
    cbv beta iota delta [bind]. rewrite (verify_token_ok s' _ _ Htok). cbv beta iota.
    rewrite (theme_setting_by_id_none s' (ts_id r) Hnone). reflexivity.
  - intros Hno.
    unfold SchoolYearThemeSettingsBusiness.delete_school_year_theme_setting,
      SchoolYearThemeSettingsDAO.delete_school_year_theme_setting.
    cbv beta iota delta [bind]. rewrite (verify_token_ok _ _ _ Htok). cbv beta iota.
    rewrite (theme_setting_by_id_none s setting_id Hno). reflexivity.
Qed.

Lemma delete_school_year_theme_setting_cascades_witness :
  let d := mkDeleteRequest "admin" "md5:admin" in
  dr_token d = md5_today export_store (dr_user_id d)
  /\ constraints_ok export_store = true
  /\ exists s',
       SchoolYearThemeSettingsBusiness.delete_school_year_theme_setting 60 d export_store
       = (s', Ok (60, "A301"))
       /\ course_entries s' = course_entries export_store
       /\ constraints_ok s' = true.
Proof.
  intros d. split; [reflexivity |]. split; [reflexivity |].
  destruct (delete_school_year_theme_setting_cascades export_store 60 d eq_refl eq_refl)
    as [H _].
  destruct (H (Sample.theme_setting 60 113 1 1 true true))
    as (th & s' & Hrun & [Hth Hid] & _ & _ & Hce & _ & _ & Hok' & _).
  - left. reflexivity.
  - reflexivity.
  - assert (Eth : th = mkTheme 1 "A301" "通識素養").
    { simpl in Hth. destruct Hth as [<- | [<- | [<- | []]]]; [reflexivity | |];
        discriminate Hid. }
    subst th. exists s'. split; [exact Hrun |]. split; [exact Hce | exact Hok'].
Defined.

(** ** Copying theme settings: what it leaves alone *)

Lemma copy_onto_itself_runs s y t created_by :
  theme_settings_in s y t <> [] ->
  SchoolYearThemeSettingsDAO.copy_school_year_theme_settings y t y t created_by s
  = (with_themes_setting (Database.delete_where (ts_in_year_term y t))
       (with_sub_theme_settings (Database.delete_where (ss_in_year_term y t)) s),
     Ok (mkCopyCounts 0 0 (Z.of_nat (length (theme_settings_in s y t)))
                      (Z.of_nat (length (sub_theme_settings_in s y t))))).
Proof.
  unfold theme_settings_in, sub_theme_settings_in. intros Hne.
  unfold SchoolYearThemeSettingsDAO.copy_school_year_theme_settings. run.
  unfold select_where, count_rows.
  destruct (filter (ts_in_year_term y t) (academic_year_coures_themes_setting s))
    as [| r rows] eqn:E; [congruence |].
  assert (H0 : (Z.of_nat (length (r :: rows)) =? 0)%Z = false)
    by (apply Z.eqb_neq; simpl; lia).
  assert (H1 : (0 <? Z.of_nat (length (r :: rows)))%Z = true)
    by (apply Z.ltb_lt; simpl; lia).
  rewrite H0. cbv beta iota. run. rewrite !E, H1. cbv beta iota.
  unfold with_themes_setting at 1 2. unfold with_sub_theme_settings at 1 2.
  cbn [academic_year_coures_themes_setting].
  rewrite filter_delete_where_same. reflexivity.
Qed.

(** X6: copying the theme settings of a year-term onto that same year-term
    does not keep them.  The guard counts the rows, the deletion of the
    target runs first, and the copy then reads a source that is empty: the
    call succeeds with [themes_count] and [sub_themes_count] 0, reports the
    former rows as deleted, and the year-term is left without any theme or
    sub-theme setting. *)
Theorem copy_onto_itself_empties_the_year_term :
  forall s y t created_by,
    theme_settings_in s y t <> [] ->
    exists s',
      SchoolYearThemeSettingsDAO.copy_school_year_theme_settings y t y t created_by s
      = (s', Ok (mkCopyCounts 0 0 (Z.of_nat (length (theme_settings_in s y t)))
                              (Z.of_nat (length (sub_theme_settings_in s y t)))))
      /\ theme_settings_in s' y t = []
      /\ sub_theme_settings_in s' y t = []
      /\ course_entries s' = course_entries s.
Proof.
  intros s y t created_by Hne. eexists. split; [apply copy_onto_itself_runs; exact Hne |].
  unfold theme_settings_in, sub_theme_settings_in, with_themes_setting, with_sub_theme_settings.
  cbn [academic_year_coures_themes_setting academic_year_coures_sub_theme_settings
       course_entries].
  rewrite !filter_delete_where_same. auto.
Qed.

Lemma copy_onto_itself_empties_the_year_term_witness :
  theme_settings_in export_store 113 1 <> []
  /\ exists s',
       SchoolYearThemeSettingsDAO.copy_school_year_theme_settings 113 1 113 1 (Some "admin")
         export_store
       = (s', Ok (mkCopyCounts 0 0 2 3))
       /\ theme_settings_in s' 113 1 = [].
Proof.
  assert (H : theme_settings_in export_store 113 1 <> []) by (vm_compute; discriminate).
  split; [exact H |].
  destruct (copy_onto_itself_empties_the_year_term export_store 113 1 (Some "admin") H)
    as (s' & Hrun & Hts & _).
  exists s'. split; [exact Hrun | exact Hts].
Defined.

Lemma ss_other_year_term y t ty tt r :
  (y, t) <> (ty, tt) -> ss_in_year_term y t r = true -> ss_in_year_term ty tt r = false.
Proof.
  intros Hneq H. apply (year_term_apart ty tt y t); [congruence | exact H].
Qed.

(** X7: whatever its outcome, [copy_school_year_theme_settings] changes the
    settings of no year-term but the target: in a store that satisfies its
    constraints, the theme and sub-theme settings of every other year-term,
    the source included, the catalog and the course entries are afterwards
    what they were. *)
Theorem copy_school_year_theme_settings_touches_the_target_only :
  forall s sy st ty tt created_by,
    constraints_ok s = true ->
    let s' := fst (SchoolYearThemeSettingsDAO.copy_school_year_theme_settings
                     sy st ty tt created_by s) in
    (forall y t, (y, t) <> (ty, tt) ->
       theme_settings_in s' y t = theme_settings_in s y t
       /\ sub_theme_settings_in s' y t = sub_theme_settings_in s y t)
    /\ coures_themes s' = coures_themes s
    /\ coures_sub_themes s' = coures_sub_themes s
    /\ course_entries s' = course_entries s.
Proof.
  intros s sy st ty tt created_by Hok s'.
  destruct (theme_settings_in s sy st) as [| r0 rows0] eqn:Esrc.
  - unfold s'. rewrite (copy_school_year_theme_settings_refused s sy st ty tt created_by Esrc).
    cbn [fst]. auto.
  - assert (Hsrc : theme_settings_in s sy st <> []) by (rewrite Esrc; discriminate).
    assert (Hdec : {(sy, st) = (ty, tt)} + {(sy, st) <> (ty, tt)}).
    { destruct (Z.eq_dec sy ty) as [-> | N1]; [| right; congruence].
      destruct (Z.eq_dec st tt) as [-> | N2]; [left; reflexivity | right; congruence]. }
    destruct Hdec as [E | Hneq].
    + injection E as -> ->. unfold s'. rewrite (copy_onto_itself_runs s ty tt created_by Hsrc).
      cbn [fst]. repeat split; try reflexivity.
      * unfold theme_settings_in, with_themes_setting, with_sub_theme_settings.
        cbn [academic_year_coures_themes_setting].
        apply filter_delete_where_apart. intros r. apply ts_year_term_apart. exact H.
      * unfold sub_theme_settings_in, with_themes_setting, with_sub_theme_settings.
        cbn [academic_year_coures_sub_theme_settings].
        apply filter_delete_where_apart. intros r. apply ss_other_year_term. exact H.
    + destruct (copy_school_year_theme_settings_runs s sy st ty tt created_by Hok Hneq Hsrc)
        as (s1 & new_ts & new_ss & Hrun & Hts & _ & Hyt & Hss & _ & Hyt2 & Hth & Hst & Hce).
      unfold s'. rewrite Hrun. cbn [fst]. repeat split; try assumption.
      * unfold theme_settings_in. rewrite Hts, filter_app.
        rewrite (filter_nil_forall (ts_in_year_term y t) new_ts).
        -- rewrite app_nil_r. apply filter_delete_where_apart.
           intros r. apply ts_year_term_apart. exact H.
        -- intros x Hx. destruct (ts_in_year_term y t x) eqn:Ex; [| reflexivity].
           specialize (Hyt x Hx). rewrite (ts_year_term_apart y t ty tt x H Ex) in Hyt.
           discriminate.
      * unfold sub_theme_settings_in. rewrite Hss, filter_app.
        rewrite (filter_nil_forall (ss_in_year_term y t) new_ss).
        -- rewrite app_nil_r. unfold kept_sub_settings.
           destruct (theme_settings_in s ty tt); [reflexivity |].
           apply filter_delete_where_apart. intros r. apply ss_other_year_term. exact H.
        -- intros x Hx. destruct (ss_in_year_term y t x) eqn:Ex; [| reflexivity].
           specialize (Hyt2 x Hx). rewrite (ss_other_year_term y t ty tt x H Ex) in Hyt2.
           discriminate.
Qed.

Lemma copy_school_year_theme_settings_touches_the_target_only_witness :
  constraints_ok export_store = true
  /\ theme_settings_in
       (fst (SchoolYearThemeSettingsDAO.copy_school_year_theme_settings 113 1 114 2
               (Some "admin") export_store)) 113 1
     = theme_settings_in export_store 113 1.
Proof.
  split; [reflexivity |].
  apply (copy_school_year_theme_settings_touches_the_target_only
           export_store 113 1 114 2 (Some "admin") eq_refl).
  discriminate.
Defined.
(** ** Copying the entries of a course: counts and refusals *)

Lemma order_by_length {A} (leb : A -> A -> bool) l : length (order_by leb l) = length l.
Proof. apply Permutation_length, order_by_perm. Qed.

Lemma order_by_nil_inv {A} (leb : A -> A -> bool) l : order_by leb l = [] -> l = [].
Proof.
  intros H. apply length_zero_iff_nil. rewrite <- (order_by_length leb), H. reflexivity.
Qed.

Lemma copy_course_entry_with_new_user_raises subj_no ps_class_nbr y t code v w m user_id s s' e :
  CourseEntriesDAO.copy_course_entry_with_new_user subj_no ps_class_nbr y t code v w m user_id s
  = (s', Raise e) ->
  is_HTTPException e = false.
Proof.
  unfold CourseEntriesDAO.copy_course_entry_with_new_user, CourseEntriesDAO.get_course_entry_by_id,
    Database.insert_course_entries. run.
  destruct (fetchrow _) as [r |].
  - destruct (existsb _ _).
    + intros E. injection E as _ <-. reflexivity.
    + intros E. discriminate E.
  - intros E. injection E as _ <-. reflexivity.
Qed.

Lemma delete_course_entry_returns subj_no ps_class_nbr y t code s :
  exists s' r,
    CourseEntriesDAO.delete_course_entry subj_no ps_class_nbr y t code s = (s', Ok r).
Proof.
  unfold CourseEntriesDAO.delete_course_entry, CourseEntriesDAO.get_course_entry,
    CourseEntriesDAO.get_course_entry_by_sub_theme_id,
    CourseEntriesDAO.delete_course_entry_by_id, CourseEntriesDAO.get_course_entry_by_id. run.
  destruct (fetchrow (CourseEntriesDAO.sub_themes_set_in y t code s)) as [r |]; [| eauto].
  match goal with
  | |- context [match fetchrow ?l with _ => _ end] => destruct (fetchrow l) as [e |]
  end; [| eauto].
  match goal with
  | |- context [match fetchrow ?l with _ => _ end] => destruct (fetchrow l) as [e' |]
  end; eauto.
Qed.

Lemma for_fold_copy_step_counts subj_no ps_class_nbr ty tt user_id enabled_set :
  forall (l : list EntryRow) init s s' c,
    for_fold l init
      (SchoolYearBusiness.copy_step subj_no ps_class_nbr ty tt user_id enabled_set) s
    = (s', Ok c) ->
    (fst c + snd c = fst init + snd init + Z.of_nat (length l))%Z.
Proof.
  induction l as [| x l IH]; intros init s s' c H.
  - cbn in H. injection H as _ <-. cbn [length]. lia.
  - cbn [for_fold] in H. unfold bind at 1 in H.
    destruct (SchoolYearBusiness.copy_step subj_no ps_class_nbr ty tt user_id enabled_set
                init x s) as [s1 [c1 | e]] eqn:E; [| discriminate].
    apply IH in H. rewrite H. clear H IH.
    unfold SchoolYearBusiness.copy_step in E.
    destruct (existsb _ enabled_set).
    + unfold bind at 1 in E.
      destruct (CourseEntriesDAO.copy_course_entry_with_new_user _ _ _ _ _ _ _ _ _ s)
        as [s2 [a | e]]; [| discriminate].
      injection E as _ <-. cbn [fst snd length]. lia.
    + injection E as _ <-. cbn [fst snd length]. lia.
Qed.

(** X8: with a valid token, [copy_course_entries] accounts for every entry:
    it answers 404 and writes nothing when the course has no entry in the
    source year-term, and when it has some but no sub-theme setting of the
    target year-term is enabled; when it returns, [copied_count] and
    [skipped_count] add up to the number of source entries and
    [deleted_count] is the number of entries the course had in the target;
    and whatever it raises is an HTTPException 404 or 500. *)
Theorem copy_course_entries_accounts_for_every_entry :
  forall s data,
    cc_token data = md5_today s (cc_user_id data) ->
    let of_course y t (r : EntryRow) :=
      ce_of_course (cc_subj_no data) (cc_ps_class_nbr data) y t (er_entry r) in
    let source := filter (of_course (cc_source_academic_year data)
                                    (cc_source_academic_term data)) (CourseEntriesDAO.entries_joined s) in
    let target := filter (of_course (cc_target_academic_year data)
                                    (cc_target_academic_term data)) (CourseEntriesDAO.entries_joined s) in
    let enabled :=
      filter (fun r : SubThemeSetting * SubTheme * Theme =>
                ss_in_year_term (cc_target_academic_year data) (cc_target_academic_term data)
                                (fst (fst r)) && ss_enabled (fst (fst r)))
             (SchoolYearSubThemeSettingsDAO.settings_joined s) in
    (source = [] \/ enabled = [] ->
     SchoolYearBusiness.copy_course_entries data s
     = (s, Raise (HTTPException HTTP_404_NOT_FOUND)))
    /\ (forall s' c,
          SchoolYearBusiness.copy_course_entries data s = (s', Ok c) ->
          (copied_count c + skipped_count c = Z.of_nat (length source))%Z
          /\ deleted_count c = Z.of_nat (length target)
          /\ source <> [] /\ enabled <> [])
    /\ (forall s' e,
          SchoolYearBusiness.copy_course_entries data s = (s', Raise e) ->
          e = HTTPException HTTP_404_NOT_FOUND
          \/ e = HTTPException HTTP_500_INTERNAL_SERVER_ERROR).
Proof.
  intros s data Htok of_course source target enabled.
  destruct (SchoolYearBusiness.copy_course_entries data s) as [sf rf] eqn:Erun.
  revert Erun.
  unfold SchoolYearBusiness.copy_course_entries.
  unfold bind at 1. rewrite (verify_token_ok s _ _ Htok).
  unfold try_except.
  unfold CourseEntriesDAO.get_course_entries_by_subj_no at 1.
  unfold CourseEntriesDAO.get_enabled_theme_sub_themes.
  unfold CourseEntriesDAO.get_course_entries_by_subj_no at 1.
  unfold bind at 1. unfold query at 1. unfold select_where at 1.
  fold (of_course (cc_source_academic_year data) (cc_source_academic_term data)).
  fold source.
  destruct (order_by CourseEntriesDAO.entry_row_leb source) as [| e0 src] eqn:Esrc.
  { apply order_by_nil_inv in Esrc. cbv beta iota delta [raise is_HTTPException].
    intros Erun. injection Erun as <- <-.
    split; [intros _; reflexivity |].
    split; [intros s' c H; discriminate H |].
    intros s' e H. injection H as _ <-. left; reflexivity. }
  assert (Hsrc : source <> []).
  { intros E. rewrite E in Esrc. discriminate Esrc. }
  assert (Hlen : length (e0 :: src) = length source).
  { rewrite <- Esrc. apply order_by_length. }
  unfold bind at 1. unfold query at 1. unfold select_where at 1. fold enabled.
  destruct (order_by pair_leb
              (distinct (fun a b : string * string => (fst a =? fst b) && (snd a =? snd b))
                 (map (fun r : SubThemeSetting * SubTheme * Theme =>
                         (t_theme_code (snd r), st_sub_theme_code (snd (fst r)))) enabled)))
    as [| k0 ks] eqn:Een.
  { cbv beta iota delta [raise is_HTTPException].
    intros Erun. injection Erun as <- <-. split.
    - intros _. reflexivity.
    - split; [intros s' c H; discriminate H |].
      intros s' e H. injection H as _ <-. left; reflexivity. }
  assert (Hen : enabled <> []).
  { intros E. rewrite E in Een. discriminate Een. }
  intros Erun.
  split; [intros [E | E]; contradiction |].
  revert Erun.
  unfold bind at 1. unfold query at 1. unfold select_where at 1.
  fold (of_course (cc_target_academic_year data) (cc_target_academic_term data)).
  fold target.
  unfold bind at 1.
  destruct (for_each (order_by CourseEntriesDAO.entry_row_leb target) _ s)
    as [s1 [[] | e1]] eqn:Edel.
  - unfold bind at 1. cbv beta.
    match goal with
    | |- context [for_fold ?l ?i ?b s1] =>
        destruct (for_fold l i b s1) as [s2 [c | e2]] eqn:Eloop
    end.
    + apply for_fold_copy_step_counts in Eloop.
      rewrite order_by_length in Eloop. unfold select_where in Eloop.
      change (filter (of_course (cc_source_academic_year data) (cc_source_academic_term data))
                (CourseEntriesDAO.entries_joined s)) with source in Eloop.
      cbn [fst snd] in Eloop.
      unfold ret. intros Erun. injection Erun as <- <-.
      split.
      * intros s' c' H. injection H as _ <-.
        cbn [copied_count skipped_count deleted_count].
        unfold count_rows. rewrite order_by_length. repeat split; auto; lia.
      * intros s' e H. discriminate H.
    + intros Erun.
      assert (He2 : is_HTTPException e2 = false).
      { clear Erun. revert Eloop.
        match goal with
        | |- for_fold ?l ?i _ _ = _ -> _ => generalize i; generalize s1; generalize l
        end.
        induction l as [| x l IH]; intros sa init H; [discriminate H |].
        cbn [for_fold] in H. unfold bind at 1 in H.
        destruct (SchoolYearBusiness.copy_step _ _ _ _ _ _ init x sa) as [sb [cb | eb]] eqn:E.
        - apply IH in H. exact H.
        - injection H as _ ->. unfold SchoolYearBusiness.copy_step in E.
          destruct (existsb _ _); [| discriminate E].
          unfold bind at 1 in E.
          destruct (CourseEntriesDAO.copy_course_entry_with_new_user _ _ _ _ _ _ _ _ _ sa)
            as [sc [a | ec]] eqn:Ec; [discriminate E |].
          injection E as _ <-.
          exact (copy_course_entry_with_new_user_raises _ _ _ _ _ _ _ _ _ _ _ _ Ec). }
      rewrite He2 in Erun. unfold raise in Erun. injection Erun as <- <-.
      split; [intros s' c H; discriminate H |].
      intros s' e H. injection H as _ <-. right; reflexivity.
  - exfalso. clear - Edel. revert Edel. generalize s.
    generalize (order_by CourseEntriesDAO.entry_row_leb target).
    induction l as [| x l IH]; intros sa H; [discriminate H |].
    cbn [for_each] in H. unfold bind at 1 in H.
    unfold bind at 1 in H.
    destruct (delete_course_entry_returns (cc_subj_no data) (cc_ps_class_nbr data)
                (cc_target_academic_year data) (cc_target_academic_term data)
                (er_sub_theme_code x) sa) as (sb & r & E).
    rewrite E in H. unfold ret at 1 in H. apply IH in H. exact H.
Qed.

Lemma copy_course_entries_accounts_for_every_entry_witness :
  cc_token stale_copy_request = md5_today stale_target_store (cc_user_id stale_copy_request)
  /\ forall s' c,
       SchoolYearBusiness.copy_course_entries stale_copy_request stale_target_store = (s', Ok c) ->
       (copied_count c + skipped_count c = 1)%Z /\ deleted_count c = 1%Z.
Proof.
  split; [reflexivity |]. intros s' c H.
  destruct (copy_course_entries_accounts_for_every_entry stale_target_store stale_copy_request
              eq_refl) as (_ & Hok & _).
  destruct (Hok s' c H) as (Hsum & Hdel & _). split; [exact Hsum | exact Hdel].
Defined.

(** ** The enabled pairs of a year-term *)

Section Distinct.

Context {A : Type}.
Variable eqb : A -> A -> bool.
Hypothesis eqb_spec : forall a b, eqb a b = true <-> a = b.

Lemma existsb_eqb_In x l : existsb (eqb x) l = true <-> In x l.
Proof.
  rewrite existsb_exists. split.
  - intros [y [Hy E]]. apply eqb_spec in E. subst. exact Hy.
  - intros H. exists x. split; [exact H | apply eqb_spec; reflexivity].
Qed.

Lemma distinct_In x l : In x (distinct eqb l) <-> In x l.
Proof.
  induction l as [| a l IH]; simpl; [tauto |].
  destruct (existsb (eqb a) l) eqn:E.
  - rewrite IH. split; [auto |]. intros [-> | H]; [| exact H].
    apply existsb_eqb_In. exact E.
  - simpl. rewrite IH. tauto.
Qed.

Lemma distinct_NoDup l : NoDup (distinct eqb l).
Proof.
  induction l as [| a l IH]; simpl; [constructor |].
  destruct (existsb (eqb a) l) eqn:E; [exact IH |].
  constructor; [| exact IH].
  rewrite distinct_In. intros H. apply existsb_eqb_In in H. congruence.
Qed.

End Distinct.

Lemma order_by_In {A} (leb : A -> A -> bool) x l : In x (order_by leb l) <-> In x l.
Proof.
  split; apply Permutation_in; [| apply Permutation_sym]; apply order_by_perm.
Qed.

Lemma key_pair_eqb_spec (a b : string * string) :
  (fst a =? fst b) && (snd a =? snd b) = true <-> a = b.
Proof.
  destruct a as [a1 a2], b as [b1 b2]. simpl.
  rewrite andb_true_iff, !String.eqb_eq. split; [intros [-> ->]; reflexivity |].
  intros E. injection E as -> ->. auto.
Qed.

(** X9: [get_enabled_theme_sub_themes] lists exactly the (theme_code,
    sub_theme_code) pairs that some enabled sub-theme setting of the
    year-term reaches through the catalog, each pair once, in the order of
    theme_code then sub_theme_code; it writes nothing. *)
Theorem get_enabled_theme_sub_themes_lists_the_enabled_pairs :
  forall s y t,
    exists pairs,
      CourseEntriesDAO.get_enabled_theme_sub_themes y t s = (s, Ok pairs)
      /\ (forall theme_code sub_theme_code,
            In (theme_code, sub_theme_code) pairs <->
            exists systs st th,
              In systs (academic_year_coures_sub_theme_settings s)
              /\ In st (coures_sub_themes s) /\ In th (coures_themes s)
              /\ ss_coures_sub_themes_id systs = st_id st
              /\ st_coures_themes_id st = t_id th
              /\ ss_academic_year systs = y /\ ss_academic_term systs = t
              /\ ss_enabled systs = true
              /\ t_theme_code th = theme_code /\ st_sub_theme_code st = sub_theme_code)
      /\ NoDup pairs
      /\ Sorted (fun a b => pair_leb a b = true) pairs.
Proof.
  intros s y t. eexists. split; [reflexivity |].
  split; [| split].
  - intros tc sc.
    unfold CourseEntriesDAO.get_enabled_theme_sub_themes, query. rewrite order_by_In.
    rewrite (distinct_In _ key_pair_eqb_spec).
    rewrite in_map_iff. unfold select_where. split.
    + intros [[[systs st] th] [E H]]. cbn [fst snd] in E. injection E as <- <-.
      apply filter_In in H as [H Hp]. cbn [fst snd] in Hp.
      apply andb_true_iff in Hp as [Hyt Hen].
      apply in_settings_joined in H as (H1 & H2 & H3 & H4 & H5).
      unfold ss_in_year_term in Hyt. apply andb_true_iff in Hyt as [Hy Ht].
      apply Z.eqb_eq in Hy, Ht.
      exists systs, st, th. repeat split; assumption.
    + intros (systs & st & th & H1 & H2 & H3 & H4 & H5 & Hy & Ht & Hen & <- & <-).
      exists (systs, st, th). split; [reflexivity |].
      apply filter_In. split.
      * unfold SchoolYearSubThemeSettingsDAO.settings_joined.
        apply in_inner_join. split; [| split; [exact H3 |]].
        -- apply in_inner_join. split; [exact H1 | split; [exact H2 |]].
           apply Nat.eqb_eq. exact H4.
        -- cbn [fst snd]. apply Nat.eqb_eq. exact H5.
      * cbn [fst snd]. unfold ss_in_year_term. rewrite Hen, andb_true_r.
        apply andb_true_iff. split; apply Z.eqb_eq; assumption.
  - apply (Permutation_NoDup (Permutation_sym (order_by_perm pair_leb _))).
    apply (distinct_NoDup _ key_pair_eqb_spec).
  - apply order_by_Sorted. exact pair_leb_total.
Qed.
(** ** What entry creation keeps *)

Lemma create_course_entry_outcome s subj cls y t code v w m u :
  constraints_ok s = true ->
  (exists s' row,
     CourseEntriesDAO.create_course_entry subj cls y t code v w m u s = (s', Ok (Some row))
     /\ coures_themes s' = coures_themes s
     /\ coures_sub_themes s' = coures_sub_themes s
     /\ academic_year_coures_themes_setting s' = academic_year_coures_themes_setting s
     /\ academic_year_coures_sub_theme_settings s' = academic_year_coures_sub_theme_settings s
     /\ constraints_ok s' = true
     /\ length (course_entries s) <= length (course_entries s') <= S (length (course_entries s)))
  \/ CourseEntriesDAO.create_course_entry subj cls y t code v w m u s = (s, Raise ValueError).
Proof.
  intros Hok.
  destruct (fetchrow (select_where (fun r => ss_enabled (snd r))
                        (CourseEntriesDAO.sub_themes_set_in y t code s)))
    as [[st systs] |] eqn:Hq.
  - left.
    destruct (create_course_entry_runs s subj cls y t code v w m u st systs Hok Hq)
      as (s' & row & Hrun & H1 & H2 & H3 & H4 & H5 & _ & _ & _ & _ & Hlen).
    exists s', row. repeat split; try assumption; rewrite Hlen;
      destruct (existsb _ (course_entries s)); lia.
  - right. apply create_course_entry_refused. intros H.
    apply enabled_setting_query in H as [r Hr]. congruence.
Qed.

(** X10: the batch creation keeps the store well formed.  Started from a
    store that satisfies its constraints, [create_course_entries_batch]
    returns (it never raises) at most one row per item, leaves the catalog
    and the settings as they were, ends in a store that satisfies the
    constraints, and the entries table has not shrunk and has grown by at
    most the number of rows returned. *)
Theorem create_course_entries_batch_keeps_the_constraints :
  forall entries_data s,
    constraints_ok s = true ->
    exists s' rows,
      CourseEntriesDAO.create_course_entries_batch entries_data s = (s', Ok rows)
      /\ length rows <= length entries_data
      /\ constraints_ok s' = true
      /\ coures_themes s' = coures_themes s
      /\ coures_sub_themes s' = coures_sub_themes s
      /\ academic_year_coures_themes_setting s' = academic_year_coures_themes_setting s
      /\ academic_year_coures_sub_theme_settings s' = academic_year_coures_sub_theme_settings s
      /\ length (course_entries s) <= length (course_entries s')
         <= length (course_entries s) + length rows.
Proof.
  intros entries_data s Hok.
  rewrite create_course_entries_batch_successes.
  exists (fst (batch_successes entries_data s)), (snd (batch_successes entries_data s)).
  split; [reflexivity |].
  revert s Hok. induction entries_data as [| d rest IH]; intros s Hok.
  - cbn. repeat split; auto; lia.
  - cbn [batch_successes]. unfold create_from_data.
    destruct (create_course_entry_outcome s (ed_subj_no d) (ed_ps_class_nbr d)
                (ed_academic_year d) (ed_academic_term d) (ed_sub_theme_code d)
                (ed_indicator_value d) (ed_week_numbers d) (ed_is_most_relevant d)
                (ed_created_by d) Hok)
      as [(s1 & row & Hrun & H1 & H2 & H3 & H4 & Hok1 & Hlen) | Hrun]; rewrite Hrun.
    + specialize (IH s1 Hok1).
      destruct (batch_successes rest s1) as [s2 rows]. cbn [fst snd] in *.
      destruct IH as (I0 & I1 & I2 & I3 & I4 & I5 & I6).
      cbn [length]. repeat split; try congruence; lia.
    + specialize (IH s Hok).
      destruct (batch_successes rest s) as [s2 rows]. cbn [fst snd] in *.
      destruct IH as (I0 & I1 & I2 & I3 & I4 & I5 & I6).
      cbn [length]. repeat split; try congruence; lia.
Qed.

Lemma create_course_entries_batch_keeps_the_constraints_witness :
  constraints_ok stale_target_store = true
  /\ exists s' rows,
       CourseEntriesDAO.create_course_entries_batch
         [mkEntryData "C1" "0001" 113 1 "1020" "3" None (Some true) (Some "t01");
          mkEntryData "C1" "0001" 113 1 "none" "3" None None (Some "t01")]
         stale_target_store = (s', Ok rows)
       /\ length rows <= 2
       /\ constraints_ok s' = true.
Proof.
  split; [reflexivity |].
  destruct (create_course_entries_batch_keeps_the_constraints
              [mkEntryData "C1" "0001" 113 1 "1020" "3" None (Some true) (Some "t01");
               mkEntryData "C1" "0001" 113 1 "none" "3" None None (Some "t01")]
              stale_target_store eq_refl)
    as (s' & rows & Hrun & Hlen & Hok & _).
  exists s', rows. split; [exact Hrun | split; [exact Hlen | exact Hok]].
Defined.
(** ** Updating an entry that is not there, and updating by code *)

Lemma get_course_entry_reads subj_no ps_class_nbr y t code s :
  exists found,
    CourseEntriesDAO.get_course_entry subj_no ps_class_nbr y t code s = (s, Ok found)
    /\ forall e, found = Some e -> In e (CourseEntriesDAO.entries_joined s).
Proof.
  unfold CourseEntriesDAO.get_course_entry, CourseEntriesDAO.get_course_entry_by_sub_theme_id.
  run.
  destruct (fetchrow (CourseEntriesDAO.sub_themes_set_in y t code s)) as [r |].
  - eexists. split; [reflexivity |]. intros e He.
    apply fetchrow_filter_Some in He as [Hin _]. exact Hin.
  - exists None. split; [reflexivity |]. intros e He. discriminate He.
Qed.

(** X11: [update_course_entry], the update by sub-theme code, with a valid
    token on a store that satisfies its constraints.  When
    [get_course_entry] finds no entry the call raises the DAO's ValueError
    (not the 404 its last lines prepare) and writes nothing.  When it finds
    the entry, the row with that id is rewritten by the SET list of
    [update_course_entry_by_id] and returned, with no most-relevant
    validation whatever [is_most_relevant] asks. *)
Theorem update_course_entry_by_code :
  forall s subj_no ps_class_nbr y t code entry_data,
    ur_token entry_data = md5_today s (ur_user_id entry_data) ->
    constraints_ok s = true ->
    exists found,
      CourseEntriesDAO.get_course_entry subj_no ps_class_nbr y t code s = (s, Ok found)
      /\ match found with
         | None =>
             SchoolYearBusiness.update_course_entry subj_no ps_class_nbr y t code entry_data s
             = (s, Raise ValueError)
         | Some e =>
             let set := CourseEntriesDAO.set_entry (ur_indicator_value entry_data)
                          (ur_week_numbers entry_data) (ur_is_most_relevant entry_data)
                          (Some (ur_user_id entry_data)) (clock s) in
             exists row,
               SchoolYearBusiness.update_course_entry subj_no ps_class_nbr y t code entry_data s
               = (with_course_entries
                    (Database.update_where (fun r => (ce_id r =? ce_id (er_entry e))%nat) set) s,
                  Ok row)
               /\ er_entry row = set (er_entry e)
         end.
Proof.
  intros s subj_no ps_class_nbr y t code entry_data Htok Hok.
  destruct (get_course_entry_reads subj_no ps_class_nbr y t code s) as (found & Hget & Hin).
  exists found. split; [exact Hget |].
  assert (Hrun : SchoolYearBusiness.update_course_entry subj_no ps_class_nbr y t code entry_data s
                 = match found with
                   | None => (s, Raise ValueError)
                   | Some e =>
                       match CourseEntriesDAO.update_course_entry_by_id (ce_id (er_entry e))
                               (ur_indicator_value entry_data) (ur_week_numbers entry_data)
                               (ur_is_most_relevant entry_data) (Some (ur_user_id entry_data)) s
                       with
                       | (s', Ok (Some r)) => (s', Ok r)
                       | (s', Ok None) => (s', Raise (HTTPException HTTP_404_NOT_FOUND))
                       | (s', Raise e) => (s', Raise e)
                       end
                   end).
  { unfold SchoolYearBusiness.update_course_entry, CourseEntriesDAO.update_course_entry.
    unfold bind at 1. rewrite (verify_token_ok s _ _ Htok).
    unfold bind at 1. unfold bind at 1. rewrite Hget.
    destruct found as [e |]; [| reflexivity].
    destruct (CourseEntriesDAO.update_course_entry_by_id _ _ _ _ _ s) as [s' [[r |] | ex]];
      reflexivity. }
  rewrite Hrun. clear Hrun.
  destruct found as [e |]; [| reflexivity].
  intros set.
  assert (Hce : In (er_entry e) (course_entries s)).
  { specialize (Hin e eq_refl). destruct e as [[ce st] th].
    apply in_entries_joined in Hin as (Hce & _). exact Hce. }
  destruct (get_course_entry_by_id_found s (er_entry e) Hok Hce) as (row & Hrow & Erow).
  rewrite (update_course_entry_by_id_runs s _ _ _ _ _ row Hrow).
  eexists. split; [reflexivity |].
  unfold lift_entry, er_entry in *. cbn [fst snd]. rewrite Erow. reflexivity.
Qed.

Lemma update_course_entry_by_code_witness :
  let data := mkCourseEntryUpdateRequest "3" None (Some true) "t01" "md5:t01" in
  ur_token data = md5_today stale_target_store (ur_user_id data)
  /\ constraints_ok stale_target_store = true
  /\ exists s' row,
       SchoolYearBusiness.update_course_entry "C1" "0001" 113 1 "1020" data stale_target_store
       = (s', Ok row)
       /\ ce_indicator_value (er_entry row) = "3".
Proof.
  intros data. split; [reflexivity |]. split; [reflexivity |].
  destruct (update_course_entry_by_code stale_target_store "C1" "0001" 113 1 "1020" data
              eq_refl eq_refl) as (found & Hget & H).
  vm_compute in Hget. injection Hget as <-.
  destruct H as (row & Hrun & Hrow).
  eexists. exists row. split; [exact Hrun |]. rewrite Hrow. reflexivity.
Defined.

(** X12: with a valid token, [update_course_entry_by_id] on an id that no
    entry bears answers 404 whatever the request asks, and the UPDATE it ran
    on the way has matched no row: the store is what it was. *)
Theorem update_course_entry_by_id_unknown_id :
  forall s entry_id entry_data,
    ur_token entry_data = md5_today s (ur_user_id entry_data) ->
    (forall e, In e (course_entries s) -> ce_id e <> entry_id) ->
    SchoolYearBusiness.update_course_entry_by_id entry_id entry_data s
    = (s, Raise (HTTPException HTTP_404_NOT_FOUND)).
Proof.
  intros s entry_id entry_data Htok Hid.
  pose proof (get_course_entry_by_id_none s entry_id Hid) as Hget.
  assert (Hupd : CourseEntriesDAO.update_course_entry_by_id entry_id
                   (ur_indicator_value entry_data) (ur_week_numbers entry_data)
                   (ur_is_most_relevant entry_data) (Some (ur_user_id entry_data)) s
                 = (s, Ok None)).
  { unfold CourseEntriesDAO.update_course_entry_by_id. run.
    rewrite with_course_entries_same.
    - exact Hget.
    - apply update_where_nothing. apply filter_nil_forall. intros r Hr.
      apply Nat.eqb_neq. exact (Hid r Hr). }
  unfold SchoolYearBusiness.update_course_entry_by_id.
  unfold bind at 1. rewrite (verify_token_ok s _ _ Htok).
  cbv zeta. revert Hupd.
  destruct (ur_is_most_relevant entry_data) as [flag |]; intros Hupd.
  - unfold bind at 1. unfold bind at 1. rewrite Hget. unfold ret at 1. cbv beta iota.
    unfold bind at 1. rewrite Hupd. reflexivity.
  - unfold bind at 1. unfold ret at 1. cbv beta iota.
    unfold bind at 1. rewrite Hupd. reflexivity.
Qed.

Lemma update_course_entry_by_id_unknown_id_witness :
  let data := mkCourseEntryUpdateRequest "3" None (Some true) "t01" "md5:t01" in
  ur_token data = md5_today stale_target_store (ur_user_id data)
  /\ (forall e, In e (course_entries stale_target_store) -> ce_id e <> 99)
  /\ SchoolYearBusiness.update_course_entry_by_id 99 data stale_target_store
     = (stale_target_store, Raise (HTTPException HTTP_404_NOT_FOUND)).
Proof.
  intros data.
  assert (Hid : forall e, In e (course_entries stale_target_store) -> ce_id e <> 99).
  { intros e He. simpl in He. destruct He as [<- | [<- | []]]; discriminate. }
  split; [reflexivity |]. split; [exact Hid |].
  apply (update_course_entry_by_id_unknown_id stale_target_store 99 data eq_refl Hid).
Defined.
(** ** The export, whatever the entries are *)

Lemma year_theme_settings_empty s y t :
  theme_settings_in s y t = [] -> year_theme_settings s y t = [].
Proof.
  intros Hnil. unfold year_theme_settings,
    SchoolYearThemeSettingsDAO.get_school_year_theme_settings_by_year, query.
  assert (E : select_where (fun r : ThemeSetting * Theme => ts_in_year_term y t (fst r))
                (SchoolYearThemeSettingsDAO.settings_with_theme s) = []).
  { apply filter_nil_forall. intros [r th] Hin. cbn [fst].
    unfold SchoolYearThemeSettingsDAO.settings_with_theme in Hin.
    apply in_inner_join in Hin as (Hr & _).
    destruct (ts_in_year_term y t r) eqn:Eyt; [| reflexivity].
    assert (Hf : In r (theme_settings_in s y t)) by (apply filter_In; auto).
    rewrite Hnil in Hf. contradiction. }
  rewrite E. reflexivity.
Qed.



(** ** Creating a sub-theme setting *)

Lemma sub_theme_by_theme_and_code s a b :
  constraints_ok s = true -> In a (coures_sub_themes s) -> In b (coures_sub_themes s) ->
  st_coures_themes_id a = st_coures_themes_id b ->
  st_sub_theme_code a = st_sub_theme_code b -> a = b.
Proof.
  intros Hok Ha Hb Eid Ecode.
  destruct (constraints_parts s Hok) as (_ & Huk & _). unfold unique_keys_ok in Huk.
  repeat (apply andb_true_iff in Huk as [Huk ?]).
  match goal with
  | H : nodupb ?same (coures_sub_themes s) = true |- _ =>
      apply (nodupb_same_eq same (coures_sub_themes s)); [| | exact H | exact Ha | exact Hb |]
  end.
  - intros x y z Hx Hy. apply andb_true_iff in Hx as [X1 X2], Hy as [Y1 Y2].
    apply Nat.eqb_eq in X1, Y1. apply String.eqb_eq in X2, Y2.
    apply andb_true_iff. split; [apply Nat.eqb_eq | apply String.eqb_eq]; congruence.
  - intros x. rewrite Nat.eqb_refl, String.eqb_refl. reflexivity.
  - rewrite Eid, Ecode, Nat.eqb_refl, String.eqb_refl. reflexivity.
Qed.

Lemma in_sub_themes_with_theme s st th :
  In (st, th) (SubThemeDAO.sub_themes_with_theme s)
  <-> In st (coures_sub_themes s) /\ In th (coures_themes s)
      /\ st_coures_themes_id st = t_id th.
Proof.
  unfold SubThemeDAO.sub_themes_with_theme. rewrite in_inner_join, Nat.eqb_eq. tauto.
Qed.

Lemma constraints_insert_sub_theme_setting s e :
  constraints_ok s = true ->
  ss_id e = next_uuid s ->
  existsb (fun r => ss_same_key r e) (academic_year_coures_sub_theme_settings s) = false ->
  (exists st, In st (coures_sub_themes s) /\ st_id st = ss_coures_sub_themes_id e) ->
  constraints_ok (with_sub_theme_settings (fun rows => rows ++ [e]) (after_uuid4 s)) = true.
Proof.
  intros Hok Hid Hkey [st [Hst Est]].
  destruct (constraints_parts s Hok) as (Hpk & Huk & Hfk & Hfr).
  destruct (fresh_ids s Hok) as (F1 & F2 & F3).
  unfold constraints_ok.
  apply andb_true_iff; split; [apply andb_true_iff; split; [apply andb_true_iff; split |] |].
  - unfold primary_keys_ok in *. simpl.
    repeat (apply andb_true_iff in Hpk as [Hpk ?]).
    repeat (apply andb_true_iff; split); try assumption.
    rewrite map_app. simpl. rewrite nodupb_app_one.
    apply andb_true_iff; split; [assumption |].
    apply negb_true_iff. apply existsb_false_forall.
    intros i Hi. apply in_map_iff in Hi as [r [<- Hr]].
    apply Nat.eqb_neq. specialize (F2 r Hr). lia.
  - unfold unique_keys_ok in *. simpl.
    repeat (apply andb_true_iff in Huk as [Huk ?]).
    repeat (apply andb_true_iff; split); try assumption.
    rewrite nodupb_app_one. apply andb_true_iff; split; [assumption |].
    rewrite Hkey. reflexivity.
  - unfold foreign_keys_ok in *. simpl.
    repeat (apply andb_true_iff in Hfk as [Hfk ?]).
    repeat (apply andb_true_iff; split); try assumption.
    rewrite forallb_app. apply andb_true_iff; split; [assumption |].
    simpl. rewrite andb_true_r. apply existsb_exists. exists st.
    split; [assumption |]. apply Nat.eqb_eq. assumption.
  - unfold uuids_fresh in *. simpl.
    rewrite forallb_forall in Hfr. apply forallb_forall. intros i Hi.
    apply Nat.ltb_lt.
    assert (Hcase : In i (map t_id (coures_themes s) ++ map st_id (coures_sub_themes s)
                          ++ map ts_id (academic_year_coures_themes_setting s)
                          ++ map ss_id (academic_year_coures_sub_theme_settings s)
                          ++ map ce_id (course_entries s))
                    \/ i = ss_id e).
    { rewrite map_app in Hi. rewrite !in_app_iff in Hi. rewrite !in_app_iff.
      simpl in Hi. intuition congruence. }
    destruct Hcase as [Hold | ->].
    + assert (i < next_uuid s); [| lia]. apply Nat.ltb_lt. apply Hfr. exact Hold.
    + lia.
Qed.

Lemma existsb_ext_in_settings s e :
  (forall r, In r (academic_year_coures_sub_theme_settings s) -> ss_id r < next_uuid s) ->
  ss_id e = next_uuid s ->
  existsb (fun r => (ss_id r =? ss_id e)%nat || ss_same_key r e)
          (academic_year_coures_sub_theme_settings s)
  = existsb (fun r => ss_same_key r e) (academic_year_coures_sub_theme_settings s).
Proof.
  intros F Hid. induction (academic_year_coures_sub_theme_settings s) as [| a l IH];
    [reflexivity |].
  cbn [existsb]. rewrite IH by (intros r Hr; apply F; right; exact Hr).
  assert (ss_id a < next_uuid s) by (apply F; left; reflexivity).
  replace (ss_id a =? ss_id e)%nat with false; [reflexivity |].
  symmetry. apply Nat.eqb_neq. lia.
Qed.

Lemma get_setting_by_code_after_insert s y t st th enabled by_ :
  constraints_ok s = true ->
  In (st, th) (SubThemeDAO.sub_themes_with_theme s) ->
  existsb (ss_has_key y t (st_id st)) (academic_year_coures_sub_theme_settings s) = false ->
  let e := mkSubThemeSetting (next_uuid s) y t (st_id st) enabled by_ by_ (clock s) (clock s) in
  let s' := with_sub_theme_settings (fun rows => rows ++ [e]) (after_uuid4 s) in
  SchoolYearSubThemeSettingsDAO.get_school_year_sub_theme_setting_by_code
    y t (t_theme_code th) (st_sub_theme_code st) s'
  = (s', Ok (Some (e, st, th))).
Proof.
  intros Hok Hin Hkey e s'.
  apply in_sub_themes_with_theme in Hin as (Hst & Hth & Eth).
  assert (Hjoin := settings_joined_app s s' e eq_refl eq_refl eq_refl).
  unfold SchoolYearSubThemeSettingsDAO.get_school_year_sub_theme_setting_by_code, query.
  apply (f_equal (fun r => (s', Ok r))).
  unfold select_where. rewrite Hjoin, filter_app.
  rewrite (filter_nil_forall _ (SchoolYearSubThemeSettingsDAO.settings_joined s)).
  - cbn [app].
    match goal with
    | |- fetchrow (filter ?P ?J) = _ =>
        destruct (fetchrow_filter_exists P J (e, st, th)) as [[[r1 st1] t1] H1]
    end.
    + apply in_inner_join. split; [| split; [exact Hth |]].
      * apply in_inner_join. split; [left; reflexivity | split; [exact Hst |]].
        cbn. apply Nat.eqb_refl.
      * cbn [fst snd]. apply Nat.eqb_eq. exact Eth.
    + cbv beta iota delta [fst snd ss_in_year_term ss_academic_year ss_academic_term e].
      rewrite !Z.eqb_refl, !String.eqb_refl. reflexivity.
    + rewrite H1. apply fetchrow_filter_Some in H1 as [H1 _].
      apply in_inner_join in H1 as (H1 & Ht1 & E2). cbn [fst snd] in E2.
      apply in_inner_join in H1 as (Hr1 & Hst1 & E1).
      destruct Hr1 as [<- | []]. cbn in E1. apply Nat.eqb_eq in E1, E2.
      assert (st1 = st).
      { apply (NoDup_map_inj st_id (coures_sub_themes s));
          [apply pk_sub_themes; exact Hok | exact Hst1 | exact Hst | congruence]. }
      subst st1.
      assert (t1 = th).
      { apply (theme_by_id s); [exact Hok | exact Ht1 | exact Hth | congruence]. }
      subst t1. reflexivity.
  - intros [[r st1] t1] Hr. cbn [fst snd].
    destruct (ss_in_year_term y t r) eqn:Eyt; [| reflexivity].
    destruct (t_theme_code t1 =? t_theme_code th) eqn:Et; [| reflexivity].
    destruct (st_sub_theme_code st1 =? st_sub_theme_code st) eqn:Es; [| reflexivity].
    exfalso. apply String.eqb_eq in Et, Es.
    apply in_settings_joined in Hr as (Hr & Hst1 & Ht1 & E1 & E2).
    assert (t1 = th) by (apply (theme_by_code s); assumption). subst t1.
    assert (st1 = st).
    { apply (sub_theme_by_theme_and_code s); try assumption. congruence. }
    subst st1.
    rewrite existsb_false_forall in Hkey. specialize (Hkey r Hr).
    unfold ss_has_key in Hkey. rewrite Eyt, E1, Nat.eqb_refl in Hkey. discriminate.
Qed.

(** X14: [create_school_year_sub_theme_setting] of the business layer, with a
    valid token on a store that satisfies its constraints.  When the
    sub-theme code is not in the catalog under the theme code, nothing is
    written and the DAO's ValueError goes up, turned into HTTP 409 only if
    its text (the message around the two codes) names a unique constraint.
    When the year-term already has a setting for the sub-theme, the insert
    is refused and the call answers HTTP 409 with all tables as they were.
    Otherwise one row is appended, with the requested flag, the user as
    creator and updater and the current time; it is returned joined with its
    sub-theme and theme, and the constraints still hold. *)
Theorem create_school_year_sub_theme_setting_outcomes :
  forall s data,
    sr_token data = md5_today s (sr_user_id data) ->
    constraints_ok s = true ->
    let y := sr_academic_year data in
    let t := sr_academic_term data in
    exists found,
      SubThemeDAO.get_sub_theme_by_code (sr_theme_code data) (sr_sub_theme_code data) s
      = (s, Ok found)
      /\ match found with
         | None =>
             SchoolYearSubThemeSettingsBusiness.create_school_year_sub_theme_setting data s
             = (s, Raise (if names_unique_constraint
                               ("sub_theme_code '" ++ sr_sub_theme_code data
                                ++ "' 不屬於 theme_code '" ++ sr_theme_code data ++ "'")%string
                          then HTTPException HTTP_409_CONFLICT
                          else ValueError))
         | Some sub_theme =>
             if existsb (ss_has_key y t (st_id (fst sub_theme)))
                        (academic_year_coures_sub_theme_settings s)
             then
               SchoolYearSubThemeSettingsBusiness.create_school_year_sub_theme_setting data s
               = (after_uuid4 s, Raise (HTTPException HTTP_409_CONFLICT))
             else
               let e := mkSubThemeSetting (next_uuid s) y t (st_id (fst sub_theme))
                          (sr_enabled data) (Some (sr_user_id data)) (Some (sr_user_id data))
                          (clock s) (clock s) in
               let s' := with_sub_theme_settings (fun rows => rows ++ [e]) (after_uuid4 s) in
               SchoolYearSubThemeSettingsBusiness.create_school_year_sub_theme_setting data s
               = (s', Ok (e, fst sub_theme, snd sub_theme))
               /\ constraints_ok s' = true
         end.
Proof.
  intros s data Htok Hok y t. subst y t.
  destruct (fresh_ids s Hok) as (_ & F2 & _).
  eexists. split; [reflexivity |].
  destruct (SchoolYearSubThemeSettingsBusiness.create_school_year_sub_theme_setting data s)
    as [sf rf] eqn:Erun.
  revert Erun.
  unfold SchoolYearSubThemeSettingsBusiness.create_school_year_sub_theme_setting.
  unfold bind at 1. rewrite (verify_token_ok s _ _ Htok).
  unfold try_except. unfold bind at 1.
  unfold SchoolYearSubThemeSettingsDAO.create_school_year_sub_theme_setting.
  unfold bind at 1. unfold SubThemeDAO.get_sub_theme_by_code, query.
  destruct (fetchrow _) as [[st th] |] eqn:Efound.
  - (* the sub-theme is in the catalog *)
    apply fetchrow_filter_Some in Efound as [Hin Hcodes]. cbn [fst snd] in Hcodes.
    apply andb_true_iff in Hcodes as [Etc Esc]. apply String.eqb_eq in Etc, Esc.
    pose proof (proj1 (in_sub_themes_with_theme s st th) Hin) as (Hst & Hth & Eth).
    cbn [fst snd].
    unfold bind at 1. unfold uuid4 at 1. unfold bind at 1. unfold datetime_now, query.
    unfold bind at 1. unfold Database.insert_sub_theme_settings.
    cbn [academic_year_coures_sub_theme_settings clock next_uuid].
    set (e := mkSubThemeSetting (next_uuid s) (sr_academic_year data) (sr_academic_term data)
                (st_id st) (sr_enabled data) (Some (sr_user_id data)) (Some (sr_user_id data))
                (clock s) (clock s)).
    rewrite (existsb_ext_in_settings s e F2 eq_refl).
    change (fun r => ss_same_key r e)
      with (ss_has_key (sr_academic_year data) (sr_academic_term data) (st_id st)).
    destruct (existsb (ss_has_key (sr_academic_year data) (sr_academic_term data) (st_id st))
                (academic_year_coures_sub_theme_settings s)) eqn:Ekey.
    + cbn. intros Erun. injection Erun as <- <-. reflexivity.
    + pose proof (get_setting_by_code_after_insert s (sr_academic_year data)
                    (sr_academic_term data) st th (sr_enabled data)
                    (Some (sr_user_id data)) Hok Hin Ekey) as Hget.
      cbv zeta in Hget. rewrite Etc, Esc in Hget. fold e in Hget.
      unfold after_uuid4, uuid4 in Hget |- *. cbn [fst] in Hget |- *.
      cbv beta iota. rewrite Hget. cbv beta iota.
      unfold bind at 1. rewrite Hget. cbv beta iota. unfold ret.
      intros Erun. injection Erun as <- <-. split; [reflexivity |].
      apply constraints_insert_sub_theme_setting; [exact Hok | reflexivity | exact Ekey |].
      exists st. split; [exact Hst | reflexivity].
  - (* it is not *)
    cbv beta iota delta [raise is_HTTPException is_unique_violation is_ValueError orb andb].
    destruct (names_unique_constraint _); intros Erun; injection Erun as <- <-; reflexivity.
Qed.

Lemma create_school_year_sub_theme_setting_outcomes_witness :
  let data := mkSubThemeSettingCreateRequest 115 1 "A301" "1020" false "t01" "md5:t01" in
  sr_token data = md5_today stale_target_store (sr_user_id data)
  /\ constraints_ok stale_target_store = true
  /\ exists s' row,
       SchoolYearSubThemeSettingsBusiness.create_school_year_sub_theme_setting data
         stale_target_store = (s', Ok row)
       /\ ss_enabled (fst (fst row)) = false
       /\ constraints_ok s' = true.
Proof.
  intros data. split; [reflexivity |]. split; [reflexivity |].
  destruct (create_school_year_sub_theme_setting_outcomes stale_target_store data
              eq_refl eq_refl) as (found & Hget & H).
  vm_compute in Hget. injection Hget as <-.
  destruct H as [Hrun Hc].
  eexists. eexists. split; [exact Hrun |]. split; [reflexivity | exact Hc].
Defined.

(** ** Creating a theme setting that cannot be created *)

Lemma existsb_ext_in_themes_setting s e :
  (forall r, In r (academic_year_coures_themes_setting s) -> ts_id r < next_uuid s) ->
  ts_id e = next_uuid s ->
  existsb (fun r => (ts_id r =? ts_id e)%nat || ts_same_key r e)
          (academic_year_coures_themes_setting s)
  = existsb (fun r => ts_same_key r e) (academic_year_coures_themes_setting s).
Proof.
  intros F Hid. induction (academic_year_coures_themes_setting s) as [| a l IH];
    [reflexivity |].
  cbn [existsb]. rewrite IH by (intros r Hr; apply F; right; exact Hr).
  assert (ts_id a < next_uuid s) by (apply F; left; reflexivity).
  replace (ts_id a =? ts_id e)%nat with false; [reflexivity |].
  symmetry. apply Nat.eqb_neq. lia.
Qed.

(** X15: the refusals of [create_school_year_theme_setting] of the business
    layer, with a valid token on a store that satisfies its constraints.
    When no catalog theme bears the theme code, nothing is written and the
    DAO's ValueError goes up as it is, turned into HTTP 409 only if its text
    (the message around the theme code) names a unique constraint.  When the
    year-term already has a setting for the theme, the insert is refused,
    the call answers HTTP 409, and no table has changed: no sub-theme
    setting has been materialized. *)
Theorem create_school_year_theme_setting_refusals :
  forall s data,
    tr_token data = md5_today s (tr_user_id data) ->
    constraints_ok s = true ->
    exists found,
      ThemeDAO.get_theme_by_code (tr_theme_code data) s = (s, Ok found)
      /\ match found with
         | None =>
             SchoolYearThemeSettingsBusiness.create_school_year_theme_setting data s
             = (s, Raise (if names_unique_constraint
                               ("主題代碼 '" ++ tr_theme_code data ++ "' 不存在")%string
                          then HTTPException HTTP_409_CONFLICT
                          else ValueError))
         | Some theme =>
             existsb (fun r => ts_in_year_term (tr_academic_year data) (tr_academic_term data) r
                               && (ts_coures_themes_id r =? t_id theme)%nat)
                     (academic_year_coures_themes_setting s) = true ->
             SchoolYearThemeSettingsBusiness.create_school_year_theme_setting data s
             = (after_uuid4 s, Raise (HTTPException HTTP_409_CONFLICT))
         end.
Proof.
  intros s data Htok Hok.
  destruct (fresh_ids s Hok) as (F1 & _).
  eexists. split; [reflexivity |].
  destruct (SchoolYearThemeSettingsBusiness.create_school_year_theme_setting data s)
    as [sf rf] eqn:Erun.
  revert Erun.
  unfold SchoolYearThemeSettingsBusiness.create_school_year_theme_setting.
  unfold bind at 1. rewrite (verify_token_ok s _ _ Htok).
  unfold try_except.
  unfold SchoolYearThemeSettingsDAO.create_school_year_theme_setting.
  unfold bind at 1. unfold ThemeDAO.get_theme_by_code, query.
  destruct (fetchrow _) as [theme |] eqn:Efound.
  - unfold bind at 1. unfold uuid4 at 1. unfold bind at 1. unfold datetime_now, query.
    unfold bind at 1. unfold Database.insert_themes_setting.
    cbn [academic_year_coures_themes_setting clock next_uuid].
    set (e := mkThemeSetting (next_uuid s) (tr_academic_year data) (tr_academic_term data)
                (t_id theme) (tr_fill_in_week_enabled data) (tr_scale_max data)
                (tr_select_most_relevant_sub_theme_enabled data)
                (Some (tr_user_id data)) (Some (tr_user_id data)) (clock s) (clock s)).
    rewrite (existsb_ext_in_themes_setting s e F1 eq_refl).
    intros Erun Hdup.
    change (fun r => ts_same_key r e)
      with (fun r => ts_in_year_term (tr_academic_year data) (tr_academic_term data) r
                     && (ts_coures_themes_id r =? t_id theme)%nat) in Erun.
    rewrite Hdup in Erun. cbn in Erun. injection Erun as <- <-. reflexivity.
  - cbv beta iota delta [raise is_unique_violation is_ValueError orb andb].
    destruct (names_unique_constraint _); intros Erun; injection Erun as <- <-; reflexivity.
Qed.

Lemma create_school_year_theme_setting_refusals_witness :
  let data := mkThemeSettingCreateRequest 113 1 "A301" true 3 false "admin" "md5:admin" in
  tr_token data = md5_today export_store (tr_user_id data)
  /\ constraints_ok export_store = true
  /\ SchoolYearThemeSettingsBusiness.create_school_year_theme_setting data export_store
     = (after_uuid4 export_store, Raise (HTTPException HTTP_409_CONFLICT)).
Proof.
  intros data. split; [reflexivity |]. split; [reflexivity |].
  destruct (create_school_year_theme_setting_refusals export_store data eq_refl eq_refl)
    as (found & Hget & H).
  vm_compute in Hget. injection Hget as <-.
  apply H. reflexivity.
Defined.


(** ** Deleting a sub-theme setting *)

(** X16: with a valid token, in a store that satisfies its constraints,
    [delete_school_year_sub_theme_setting] on the id of a stored sub-theme
    setting answers the message for that id and removes that row and no
    other: the theme settings, the catalog and the course entries, those
    filed under the sub-theme included, are as before, the constraints still
    hold, and asked again it answers 404.  On an id that no sub-theme
    setting bears it answers 404 and changes nothing. *)
Theorem delete_school_year_sub_theme_setting_removes_one :
  forall s setting_id d,
    dr_token d = md5_today s (dr_user_id d) ->
    constraints_ok s = true ->
    (forall r, In r (academic_year_coures_sub_theme_settings s) -> ss_id r = setting_id ->
       exists s',
         SchoolYearSubThemeSettingsBusiness.delete_school_year_sub_theme_setting setting_id d s
         = (s', Ok setting_id)
         /\ (forall x, In x (academic_year_coures_sub_theme_settings s')
                       <-> In x (academic_year_coures_sub_theme_settings s) /\ x <> r)
         /\ length (academic_year_coures_sub_theme_settings s') + 1
            = length (academic_year_coures_sub_theme_settings s)
         /\ academic_year_coures_themes_setting s' = academic_year_coures_themes_setting s
         /\ course_entries s' = course_entries s
         /\ coures_themes s' = coures_themes s
         /\ coures_sub_themes s' = coures_sub_themes s
         /\ constraints_ok s' = true
         /\ SchoolYearSubThemeSettingsBusiness.delete_school_year_sub_theme_setting
              setting_id d s'
            = (s', Raise (HTTPException HTTP_404_NOT_FOUND)))
    /\ ((forall r, In r (academic_year_coures_sub_theme_settings s) -> ss_id r <> setting_id) ->
        SchoolYearSubThemeSettingsBusiness.delete_school_year_sub_theme_setting setting_id d s
        = (s, Raise (HTTPException HTTP_404_NOT_FOUND))).
Proof.
  intros s setting_id d Htok Hok. split.
  - intros r Hr Hid. subst setting_id.
    destruct (setting_by_id_found s r Hok Hr) as (st & th & Hget).
    set (s' := with_sub_theme_settings
                 (Database.delete_where (fun x => (ss_id x =? ss_id r)%nat)) s).
    assert (Hmem : forall x, In x (academic_year_coures_sub_theme_settings s')
                             <-> In x (academic_year_coures_sub_theme_settings s) /\ x <> r).
    { intros x. unfold s', with_sub_theme_settings, Database.delete_where.
      cbn [academic_year_coures_sub_theme_settings].
      rewrite filter_In, negb_true_iff, Nat.eqb_neq. split.
      - intros [H1 H2]. split; [exact H1 |]. intros ->. apply H2. reflexivity.
      - intros [H1 H2]. split; [exact H1 |]. intros E. apply H2.
        apply (NoDup_map_inj ss_id (academic_year_coures_sub_theme_settings s));
          [apply pk_sub_theme_settings; exact Hok | exact H1 | exact Hr | exact E]. }
    assert (Hnone : forall x, In x (academic_year_coures_sub_theme_settings s') ->
                              ss_id x <> ss_id r).
    { intros x Hx E. apply Hmem in Hx as [Hx Hne]. apply Hne.
      apply (NoDup_map_inj ss_id (academic_year_coures_sub_theme_settings s));
        [apply pk_sub_theme_settings; exact Hok | exact Hx | exact Hr | exact E]. }
    exists s'. split.
    { unfold SchoolYearSubThemeSettingsBusiness.delete_school_year_sub_theme_setting,
        SchoolYearSubThemeSettingsDAO.delete_school_year_sub_theme_setting.
      cbv beta iota delta [bind]. rewrite (verify_token_ok _ _ _ Htok). cbv beta iota.
      rewrite Hget. reflexivity. }
    split; [exact Hmem |]. split.
    { unfold s', with_sub_theme_settings, Database.delete_where.
      cbn [academic_year_coures_sub_theme_settings].
      pose proof (pk_sub_theme_settings s Hok) as Hnd. clear Hmem Hnone Hget. subst s'.
      revert Hr Hnd.
      induction (academic_year_coures_sub_theme_settings s) as [| a l IH];
        [contradiction |].
      intros Hin Hnd. cbn [map] in Hnd. inversion Hnd as [| ? ? Hna Hnd']; subst.
      cbn [filter length]. destruct Hin as [-> | Hin].
      - rewrite Nat.eqb_refl. cbn [negb].
        rewrite filter_all; [lia |].
        intros x Hx. apply negb_true_iff, Nat.eqb_neq. intros E. apply Hna.
        rewrite <- E. apply in_map. exact Hx.
      - destruct (ss_id a =? ss_id r)%nat eqn:E.
        + apply Nat.eqb_eq in E. exfalso. apply Hna. rewrite E. apply in_map. exact Hin.
        + cbn [negb length]. specialize (IH Hin Hnd'). lia. }
    repeat (split; [reflexivity |]). split.
    { pose proof (constraints_filter s (fun _ => true)
                    (fun x => negb (ss_id x =? ss_id r)%nat) (fun _ => true) Hok) as H.
      unfold with_course_entries, with_themes_setting in H.
      cbn [course_entries academic_year_coures_themes_setting with_sub_theme_settings
           coures_themes coures_sub_themes academic_year_coures_sub_theme_settings
           COFSUBJ next_uuid clock md5_today] in H.
      rewrite (filter_all (fun _ : CourseEntry => true)) in H by reflexivity.
      rewrite (filter_all (fun _ : ThemeSetting => true)) in H by reflexivity.
      exact H. }
    unfold SchoolYearSubThemeSettingsBusiness.delete_school_year_sub_theme_setting,
      SchoolYearSubThemeSettingsDAO.delete_school_year_sub_theme_setting.
    cbv beta iota delta [bind]. rewrite (verify_token_ok s' _ _ Htok). cbv beta iota.
    rewrite (setting_by_id_none s' (ss_id r) Hnone). reflexivity.
  - intros Hno.
    unfold SchoolYearSubThemeSettingsBusiness.delete_school_year_sub_theme_setting,
      SchoolYearSubThemeSettingsDAO.delete_school_year_sub_theme_setting.
    cbv beta iota delta [bind]. rewrite (verify_token_ok _ _ _ Htok). cbv beta iota.
    rewrite (setting_by_id_none s setting_id Hno). reflexivity.
Qed.

Lemma delete_school_year_sub_theme_setting_removes_one_witness :
  let d := mkDeleteRequest "admin" "md5:admin" in
  dr_token d = md5_today export_store (dr_user_id d)
  /\ constraints_ok export_store = true
  /\ exists s',
       SchoolYearSubThemeSettingsBusiness.delete_school_year_sub_theme_setting 41 d export_store
       = (s', Ok 41)
       /\ course_entries s' = course_entries export_store
       /\ constraints_ok s' = true.
Proof.
  intros d. split; [reflexivity |]. split; [reflexivity |].
  destruct (delete_school_year_sub_theme_setting_removes_one export_store 41 d eq_refl eq_refl)
    as [H _].
  destruct (H (Sample.sub_setting 41 113 1 11 false))
    as (s' & Hrun & _ & _ & _ & Hce & _ & _ & Hok' & _).
  - right. left. reflexivity.
  - reflexivity.
  - exists s'. split; [exact Hrun |]. split; [exact Hce | exact Hok'].
Defined.

(** ** The upsert of a sub-theme setting by code *)




(** ** Deleting an entry by sub-theme code *)

(** X18: [delete_course_entry], the delete by sub-theme code, with a valid
    token on a store that satisfies its constraints.  The entry is looked up
    through a sub-theme setting of the year-term: when no sub-theme bearing
    the code has a setting row there, the call answers 404 and deletes
    nothing, whatever entries the course has.  When [get_course_entry] finds
    an entry, the rows with its id are deleted, nothing else changes, and
    the entry is returned. *)
Theorem delete_course_entry_by_code :
  forall s subj_no ps_class_nbr y t code d,
    dr_token d = md5_today s (dr_user_id d) ->
    constraints_ok s = true ->
    ((forall st systs,
        In st (coures_sub_themes s) -> In systs (academic_year_coures_sub_theme_settings s) ->
        st_id st = ss_coures_sub_themes_id systs -> st_sub_theme_code st = code ->
        ss_academic_year systs = y -> ss_academic_term systs = t -> False) ->
     SchoolYearBusiness.delete_course_entry subj_no ps_class_nbr y t code d s
     = (s, Raise (HTTPException HTTP_404_NOT_FOUND)))
    /\ exists found,
         CourseEntriesDAO.get_course_entry subj_no ps_class_nbr y t code s = (s, Ok found)
         /\ match found with
            | None =>
                SchoolYearBusiness.delete_course_entry subj_no ps_class_nbr y t code d s
                = (s, Raise (HTTPException HTTP_404_NOT_FOUND))
            | Some e =>
                exists row,
                  SchoolYearBusiness.delete_course_entry subj_no ps_class_nbr y t code d s
                  = (with_course_entries
                       (Database.delete_where
                          (fun r => (ce_id r =? ce_id (er_entry e))%nat)) s,
                     Ok row)
                  /\ er_entry row = er_entry e
            end.
Proof.
  intros s subj_no ps_class_nbr y t code d Htok Hok.
  assert (Hrun : forall found,
             CourseEntriesDAO.get_course_entry subj_no ps_class_nbr y t code s = (s, Ok found) ->
             SchoolYearBusiness.delete_course_entry subj_no ps_class_nbr y t code d s
             = match found with
               | None => (s, Raise (HTTPException HTTP_404_NOT_FOUND))
               | Some e =>
                   match CourseEntriesDAO.delete_course_entry_by_id (ce_id (er_entry e)) s with
                   | (s', Ok (Some r)) => (s', Ok r)
                   | (s', Ok None) => (s', Raise (HTTPException HTTP_404_NOT_FOUND))
                   | (s', Raise ex) => (s', Raise ex)
                   end
               end).
  { intros found Hget.
    unfold SchoolYearBusiness.delete_course_entry, CourseEntriesDAO.delete_course_entry.
    unfold bind at 1. rewrite (verify_token_ok s _ _ Htok).
    unfold bind at 1. unfold bind at 1. rewrite Hget.
    destruct found as [e |]; [| reflexivity].
    destruct (CourseEntriesDAO.delete_course_entry_by_id _ s) as [s' [[r |] | ex]];
      reflexivity. }
  split.
  - intros Hnone. apply (Hrun None).
    unfold CourseEntriesDAO.get_course_entry. run.
    destruct (fetchrow (CourseEntriesDAO.sub_themes_set_in y t code s)) as [[st systs] |] eqn:E;
      [| reflexivity].
    exfalso.
    assert (Hin : In (st, systs) (CourseEntriesDAO.sub_themes_set_in y t code s)).
    { unfold fetchrow in E. destruct (CourseEntriesDAO.sub_themes_set_in y t code s);
        [discriminate E | injection E as ->; left; reflexivity]. }
    apply in_sub_themes_set_in in Hin as (H1 & H2 & H3 & H4 & H5 & H6).
    exact (Hnone st systs H1 H2 H3 H6 H4 H5).
  - destruct (get_course_entry_reads subj_no ps_class_nbr y t code s) as (found & Hget & Hin).
    exists found. split; [exact Hget |]. rewrite (Hrun found Hget).
    destruct found as [e |]; [| reflexivity].
    assert (Hce : In (er_entry e) (course_entries s)).
    { specialize (Hin e eq_refl). destruct e as [[ce st] th].
      apply in_entries_joined in Hin as (Hce & _). exact Hce. }
    destruct (get_course_entry_by_id_found s (er_entry e) Hok Hce) as (row & Hrow & Erow).
    unfold CourseEntriesDAO.delete_course_entry_by_id. unfold bind at 1. rewrite Hrow.
    cbv beta iota delta [bind execute ret].
    exists row. split; [reflexivity | exact Erow].
Qed.

Lemma delete_course_entry_by_code_witness :
  let d := mkDeleteRequest "t01" "md5:t01" in
  dr_token d = md5_today stale_target_store (dr_user_id d)
  /\ constraints_ok stale_target_store = true
  /\ SchoolYearBusiness.delete_course_entry "C1" "0001" 114 1 "1080" d stale_target_store
     = (stale_target_store, Raise (HTTPException HTTP_404_NOT_FOUND)).
Proof.
  intros d. split; [reflexivity |]. split; [reflexivity |].
  destruct (delete_course_entry_by_code stale_target_store "C1" "0001" 114 1 "1080" d
              eq_refl eq_refl) as [H _].
  apply H. intros st systs Hst Hss Eid Ecode Ey Et.
  simpl in Hst, Hss.
  destruct Hst as [<- | [<- | [<- | [<- | []]]]]; try discriminate Ecode.
  destruct Hss as [<- | [<- | []]]; discriminate Eid.
Defined.

(** ** The theme settings of a year-term *)

Lemma Sorted_map_iff {A B} (f : A -> B) (R : B -> B -> Prop) l :
  Sorted (fun a b => R (f a) (f b)) l -> Sorted R (map f l).
Proof.
  induction 1 as [| a l Hs IH Hhd]; simpl; constructor; [exact IH |].
  destruct Hhd; simpl; constructor. assumption.
Qed.

(** X19: [get_school_year_theme_settings_by_year], on a store that
    satisfies its constraints, returns one item per theme setting of the
    year-term, each with the catalog theme it refers to, in the order of the
    theme codes.  The sub-themes of an item are the catalog sub-themes of its
    theme in the order of their codes, each with the enabled flag of its
    setting row in the year-term, and False when it has no row. *)
Theorem get_school_year_theme_settings_by_year_lists_the_settings :
  forall s y t,
    constraints_ok s = true ->
    exists infos,
      SchoolYearThemeSettingsDAO.get_school_year_theme_settings_by_year y t s = (s, Ok infos)
      /\ Permutation (map tsi_setting infos) (theme_settings_in s y t)
      /\ Sorted (fun a b => String.leb (t_theme_code (tsi_theme a))
                                       (t_theme_code (tsi_theme b)) = true) infos
      /\ forall info, In info infos ->
           In (tsi_theme info) (coures_themes s)
           /\ t_id (tsi_theme info) = ts_coures_themes_id (tsi_setting info)
           /\ tsi_fill_in_week_enabled info = ts_fill_in_week_enabled (tsi_setting info)
           /\ Permutation (map fst (tsi_sub_themes info)) (sub_themes_of s (tsi_theme info))
           /\ Sorted (fun a b => String.leb (st_sub_theme_code a) (st_sub_theme_code b) = true)
                     (map fst (tsi_sub_themes info))
           /\ forall sub en, In (sub, en) (tsi_sub_themes info) ->
                en = match find (ss_has_key y t (st_id sub))
                                (academic_year_coures_sub_theme_settings s) with
                     | Some r => ss_enabled r
                     | None => false
                     end.
Proof.
  intros s y t Hok.
  eexists. split; [reflexivity |].
  set (rows := order_by (fun a b : ThemeSetting * Theme =>
                           String.leb (t_theme_code (snd a)) (t_theme_code (snd b)))
                 (select_where (fun r : ThemeSetting * Theme => ts_in_year_term y t (fst r))
                    (SchoolYearThemeSettingsDAO.settings_with_theme s))).
  assert (Hrows : forall r, In r rows ->
                    In (fst r) (academic_year_coures_themes_setting s)
                    /\ In (snd r) (coures_themes s)
                    /\ ts_coures_themes_id (fst r) = t_id (snd r)).
  { intros [r th] Hr. unfold rows in Hr. apply order_by_In in Hr.
    apply filter_In in Hr as [Hr _]. apply in_settings_with_theme in Hr. exact Hr. }
  split; [| split].
  - rewrite map_map. cbn [tsi_setting].
    change (fun x : ThemeSetting * Theme => fst x) with (@fst ThemeSetting Theme).
    fold rows. unfold rows.
    rewrite (Permutation_map fst (order_by_perm _ _)).
    unfold select_where. rewrite (map_fst_filter (ts_in_year_term y t)).
    unfold SchoolYearThemeSettingsDAO.settings_with_theme.
    rewrite (inner_join_fk ts_coures_themes_id t_id).
    + reflexivity.
    + apply pk_themes. exact Hok.
    + intros r Hr. destruct (fk_themes_setting s Hok r Hr) as [th [Hth E]]. eauto.
  - apply Sorted_map_iff. cbn [tsi_theme].
    apply (order_by_Sorted (fun a b : ThemeSetting * Theme =>
                              String.leb (t_theme_code (snd a)) (t_theme_code (snd b)))).
    intros a b. apply String.leb_total.
  - intros info Hinfo. apply in_map_iff in Hinfo as [[r th] [<- Hr]].
    fold rows in Hr. destruct (Hrows _ Hr) as (Hr1 & Hth & Efk). cbn [fst snd] in *.
    cbn [tsi_theme tsi_setting tsi_fill_in_week_enabled tsi_sub_themes].
    split; [exact Hth |]. split; [symmetry; exact Efk |]. split; [reflexivity |].
    unfold SchoolYearThemeSettingsDAO.sub_themes_of_setting.
    rewrite (sub_themes_left_join_rows s y t _ (uk_sub_theme_settings s Hok)).
    set (joined := map (fun sub => (sub, find (ss_has_key y t (st_id sub))
                                              (academic_year_coures_sub_theme_settings s)))
                     (filter (fun sub => (st_coures_themes_id sub =? ts_coures_themes_id r)%nat)
                             (coures_sub_themes s))).
    set (leb := fun a b : SubTheme * option SubThemeSetting =>
                  String.leb (st_sub_theme_code (fst a)) (st_sub_theme_code (fst b))).
    assert (Efst : map fst (map SchoolYearThemeSettingsDAO.coalesce_enabled
                              (order_by leb joined))
                   = map fst (order_by leb joined)).
    { rewrite map_map. apply map_ext. intros [sub o]. reflexivity. }
    split; [| split].
    + rewrite Efst, (Permutation_map fst (order_by_perm leb joined)).
      unfold joined. rewrite map_map. cbn [fst]. rewrite map_id.
      unfold sub_themes_of. rewrite Efk. reflexivity.
    + rewrite Efst. apply Sorted_map_iff.
      apply (order_by_Sorted leb). intros a b. apply String.leb_total.
    + intros sub en Hin. apply in_map_iff in Hin as [[sub' o] [E Hin]].
      unfold SchoolYearThemeSettingsDAO.coalesce_enabled in E. cbn [fst snd] in E.
      injection E as -> <-.
      apply order_by_In in Hin. unfold joined in Hin.
      apply in_map_iff in Hin as [sub'' [E _]]. injection E as -> <-. reflexivity.
Qed.

Lemma get_school_year_theme_settings_by_year_lists_the_settings_witness :
  constraints_ok export_store = true
  /\ exists infos,
       SchoolYearThemeSettingsDAO.get_school_year_theme_settings_by_year 113 1 export_store
       = (export_store, Ok infos)
       /\ length infos = 2.
Proof.
  split; [reflexivity |].
  destruct (get_school_year_theme_settings_by_year_lists_the_settings export_store 113 1 eq_refl)
    as (infos & Hrun & Hperm & _).
  exists infos. split; [exact Hrun |].
  rewrite <- (length_map tsi_setting), (Permutation_length Hperm). reflexivity.
Defined.
